(** * gml-view: the CityGML conversion pipeline, embedded and verified

    A shallow embedding of the geometry pipeline of the repository:
    [src/geometry.py], [src/parser.py], [src/obj_writer.py], [gml2glb.py]
    and [simple_gml2obj.py].  Python lists are lists, dictionaries are
    insertion-ordered association lists with the assignment [d[k] = v]
    written out, exceptions are an error result, and the numbers are kept
    behind one small interface with two instances: binary64 (what Python
    and numpy compute with) and the exact rationals. *)

From Stdlib Require Import String Ascii.
From Stdlib Require Import QArith Qcanon Field.
From Stdlib Require Import List Bool Arith NArith ZArith Lia.
From Stdlib Require DecimalString.
From Stdlib Require Floats.PrimFloat Floats.SpecFloat Floats.FloatOps
  Floats.FloatAxioms.
Import ListNotations.

Set Implicit Arguments.
Close Scope Q_scope.
Close Scope Qc_scope.
Open Scope string_scope.
Open Scope list_scope.
Open Scope nat_scope.

(* ================================================================= *)
(** ** Numbers *)

(** The arithmetic the pipeline uses on coordinates: [0], [2.0], [+], [-],
    [/], [==], [<], and the two-argument minimum and maximum that numpy's
    [min(axis=0)] and [max(axis=0)] reduce with. *)
Class Arith (R : Type) : Type := {
  fzero : R;
  ftwo : R;
  fadd : R -> R -> R;
  fsub : R -> R -> R;
  fdiv : R -> R -> R;
  feqb : R -> R -> bool;
  fltb : R -> R -> bool;
  fmin : R -> R -> R;
  fmax : R -> R -> R
}.

(** What [calculate_normal] needs besides: [*], and the length
    [np.linalg.norm] gives a vector of three numbers.  The length is a
    function of the library: which sums and roundings it takes is not
    fixed here. *)
Class Norm (R : Type) : Type := {
  fmul : R -> R -> R;
  linalg_norm : R * R * R -> R
}.

(** A vertex is a Python 3-tuple [(x, y, z)]. *)
Definition point (R : Type) : Type := (R * R * R)%type.

Definition px {R} (p : point R) : R := fst (fst p).
Definition py {R} (p : point R) : R := snd (fst p).
Definition pz {R} (p : point R) : R := snd p.

Definition point_eqb {R} `{Arith R} (p q : point R) : bool :=
  feqb (px p) (px q) && feqb (py p) (py q) && feqb (pz p) (pz q).

(** binary64, the numbers of the running program.  numpy reduces
    [min(axis=0)] and [max(axis=0)] row after row, the running value on the
    left: a NaN on either side comes out, and of two equal operands (zeros
    of different sign) the later one is kept. *)
Module Binary64.
Import PrimFloat.
Definition is_nan (x : float) : bool := negb (PrimFloat.eqb x x).
Definition np_min (a b : float) : float :=
  if is_nan a then a else if PrimFloat.ltb a b then a else b.
Definition np_max (a b : float) : float :=
  if is_nan a then a else if PrimFloat.ltb b a then a else b.
End Binary64.

#[export] Instance float_arith : Arith PrimFloat.float := {|
  fzero := PrimFloat.zero;
  ftwo := PrimFloat.two;
  fadd := PrimFloat.add;
  fsub := PrimFloat.sub;
  fdiv := PrimFloat.div;
  feqb := PrimFloat.eqb;
  fltb := PrimFloat.ltb;
  fmin := Binary64.np_min;
  fmax := Binary64.np_max
|}.

(** binary64 products, with one candidate for the library's length: the
    square root of the squares summed from the left. *)
#[export] Instance float_norm : Norm PrimFloat.float := {|
  fmul := PrimFloat.mul;
  linalg_norm := fun v =>
    PrimFloat.sqrt
      (PrimFloat.add
         (PrimFloat.add (PrimFloat.mul (fst (fst v)) (fst (fst v)))
                        (PrimFloat.mul (snd (fst v)) (snd (fst v))))
         (PrimFloat.mul (snd v) (snd v)))
|}.

(** The exact rationals: the same program with no rounding. *)
Module Exact.
Definition qc_min (a b : Qc) : Qc := if Qclt_le_dec b a then b else a.
Definition qc_max (a b : Qc) : Qc := if Qclt_le_dec a b then b else a.
Definition qc_two : Qc := Q2Qc 2.
Definition qc_ltb (a b : Qc) : bool := if Qclt_le_dec a b then true else false.
End Exact.

#[export] Instance qc_arith : Arith Qc := {|
  fzero := Q2Qc 0;
  ftwo := Exact.qc_two;
  fadd := Qcplus;
  fsub := Qcminus;
  fdiv := Qcdiv;
  feqb := Qc_eq_bool;
  fltb := Exact.qc_ltb;
  fmin := Exact.qc_min;
  fmax := Exact.qc_max
|}.

(* ================================================================= *)
(** ** Python containers and exceptions *)

(** A [dict] with string keys, in insertion order. *)
Definition dict (V : Type) : Type := list (string * V).

(** [d[k] = v]: an existing key keeps its place and takes the new value,
    a new key goes to the end. *)
Fixpoint dict_set {V} (d : dict V) (k : string) (v : V) : dict V :=
  match d with
  | [] => [(k, v)]
  | (k', v') :: d' =>
      if String.eqb k' k then (k', v) :: d' else (k', v') :: dict_set d' k v
  end.

Fixpoint dict_get {V} (d : dict V) (k : string) : option V :=
  match d with
  | [] => None
  | (k', v') :: d' => if String.eqb k' k then Some v' else dict_get d' k
  end.

Definition dict_keys {V} (d : dict V) : list string := map fst d.
Definition dict_values {V} (d : dict V) : list V := map snd d.

(** [k in d] *)
Definition dict_mem {V} (d : dict V) (k : string) : bool :=
  match dict_get d k with Some _ => true | None => false end.

(** The exceptions the converters can raise on a parsed document. *)
Inductive exn : Type :=
| ValueError   (* float() or int() of a token that is not a number *)
| IndexError   (* coords[i+2] past the end of the list *)
| StructError. (* struct.pack('<I', n) with n outside 0 .. 2^32-1 *)

Inductive result (A : Type) : Type :=
| Ok (a : A)
| Raise (e : exn).
Arguments Ok {A} a.
Arguments Raise {A} e.

Definition bind {A B} (m : result A) (k : A -> result B) : result B :=
  match m with
  | Ok a => k a
  | Raise e => Raise e
  end.

Declare Scope result_scope.
Delimit Scope result_scope with result.
Notation "'do' x <- m ; k" := (bind m (fun x => k))
  (at level 10, x name, m at level 100, k at level 200) : result_scope.

(** [[f(x) for x in xs]] where [f] may raise: the first failure ends it. *)
Fixpoint map_result {A B} (f : A -> result B) (xs : list A) : result (list B) :=
  match xs with
  | [] => Ok []
  | x :: xs' =>
      match f x with
      | Raise e => Raise e
      | Ok y =>
          match map_result f xs' with
          | Raise e => Raise e
          | Ok ys => Ok (y :: ys)
          end
      end
  end.

(** [xs[-1]] of a non-empty list. *)
Fixpoint last_opt {A} (xs : list A) : option A :=
  match xs with
  | [] => None
  | [x] => Some x
  | _ :: xs' => last_opt xs'
  end.

(* ================================================================= *)
(** ** The parsed document

    What [lxml.etree] and [xml.etree.ElementTree] hand to the converters:
    a tree of elements, each with a qualified tag [{uri}local], attributes,
    the text before its first child, and its children in document order. *)

Module Xml.

(** A qualified name: namespace URI and local name. *)
Definition qname : Type := (string * string)%type.

Definition qname_eqb (a b : qname) : bool :=
  String.eqb (fst a) (fst b) && String.eqb (snd a) (snd b).

#[warnings="-register-all"]
Inductive element : Type :=
| Element (tag : qname) (attrib : list (qname * string))
          (text : option string) (children : list element).

Definition tag (e : element) : qname :=
  match e with Element t _ _ _ => t end.
Definition attrib (e : element) : list (qname * string) :=
  match e with Element _ a _ _ => a end.
Definition text (e : element) : option string :=
  match e with Element _ _ t _ => t end.
Definition children (e : element) : list element :=
  match e with Element _ _ _ c => c end.

(** [e.get(name)] *)
Fixpoint get_attr (a : list (qname * string)) (name : qname) : option string :=
  match a with
  | [] => None
  | (n, v) :: a' => if qname_eqb n name then Some v else get_attr a' name
  end.
Definition get (e : element) (name : qname) : option string :=
  get_attr (attrib e) name.

(** The proper descendants of [e], in document order. *)
Fixpoint descendants (e : element) : list element :=
  match e with
  | Element _ _ _ cs => flat_map (fun c => c :: descendants c) cs
  end.

Definition has_tag (name : qname) (e : element) : bool :=
  qname_eqb (tag e) name.

(** [e.findall('.//name')] and [e.xpath('.//name')] *)
Definition findall_desc (e : element) (name : qname) : list element :=
  filter (has_tag name) (descendants e).
(** [e.find('.//name')] *)
Definition find_desc (e : element) (name : qname) : option element :=
  hd_error (findall_desc e name).
(** [e.findall('name')] *)
Definition findall_child (e : element) (name : qname) : list element :=
  filter (has_tag name) (children e).
(** [e.find('name')] *)
Definition find_child (e : element) (name : qname) : option element :=
  hd_error (findall_child e name).
(** [root.xpath('//name')]: every element of the document, the root
    included. *)
Definition xpath_all (root : element) (name : qname) : list element :=
  filter (has_tag name) (root :: descendants root).

(** The namespaces of CityGML 2.0 the converters declare. *)
Definition ns_gml : string := "http://www.opengis.net/gml".
Definition ns_bldg : string := "http://www.opengis.net/citygml/building/2.0".
Definition gml (local : string) : qname := (ns_gml, local).
Definition bldg (local : string) : qname := (ns_bldg, local).

End Xml.

(** ** Python strings *)

Module Str.

(** The characters [str.isspace] accepts.  A character of the model is a
    code point below 256: tab to carriage return, the four separators
    28..31, the space, the next-line character U+0085 and the no-break
    space U+00A0.  Text with a code point above 255 is outside the model. *)
Definition isspace (c : ascii) : bool :=
  let n := nat_of_ascii c in
  ((9 <=? n) && (n <=? 13)) || ((28 <=? n) && (n <=? 32))
  || (n =? 133) || (n =? 160).

(** [s.split()]: the maximal runs of non-space characters.  [cur] is the
    token being read, reversed; [None] between tokens. *)
Fixpoint split_aux (s : string) (cur : option string) : list string :=
  match s with
  | EmptyString =>
      match cur with Some t => [t] | None => [] end
  | String c s' =>
      if isspace c then
        match cur with
        | Some t => t :: split_aux s' None
        | None => split_aux s' None
        end
      else
        match cur with
        | Some t => split_aux s' (Some (t ++ String c EmptyString)%string)
        | None => split_aux s' (Some (String c EmptyString))
        end
  end.
Definition split (s : string) : list string := split_aux s None.

(** [s.strip()] is not needed apart: [s.strip().split()] and [s.split()]
    are the same tokens. *)

(** Truth value of an optional string: [None] and [''] are false. *)
Definition truthy (o : option string) : bool :=
  match o with
  | Some (String _ _) => true
  | _ => false
  end.

End Str.

(* ================================================================= *)
(** ** src/geometry.py *)

(** A geometry record: [{'element_type': ..., 'polygons': [...],
    'metadata': {...}}].  A metadata value is the text of a [gml:name] or
    [gml:description] node, which may be [None]. *)
Record geo_data (R : Type) : Type := GeoData {
  element_type : string;
  polygons : list (list (point R));
  metadata : dict (option string)
}.
Arguments GeoData {R} _ _ _.

Module Geometry.
Section Processor.
Context {R : Type} {AR : Arith R}.

(** The vertices [center_coordinates] collects: every polygon of every
    record, in order. *)
Definition all_vertices (all_geometries : dict (geo_data R)) : list (point R) :=
  flat_map (fun geo => concat (polygons geo)) (dict_values all_geometries).

(** Componentwise operations on 3-vectors (numpy broadcasting). *)
Definition pointwise (f : R -> R -> R) (p q : point R) : point R :=
  (f (px p) (px q), f (py p) (py q), f (pz p) (pz q)).

(** [a.min(axis=0)], [a.max(axis=0)] of a non-empty array of rows. *)
Definition reduce_axis0 (f : R -> R -> R) (v : point R) (vs : list (point R))
  : point R :=
  fold_left (pointwise f) vs v.

(** [(min_corner + max_corner) / 2.0] *)
Definition midpoint (min_corner max_corner : point R) : point R :=
  pointwise fdiv (pointwise fadd min_corner max_corner) (ftwo, ftwo, ftwo).

(** [(x - center[0], y - center[1], z - center[2])] *)
Definition translate (center : point R) (v : point R) : point R :=
  pointwise fsub v center.

Definition center_record (center : point R) (geo : geo_data R) : geo_data R :=
  {| element_type := element_type geo;
     polygons := map (map (translate center)) (polygons geo);
     metadata := metadata geo |}.

(** [GeometryProcessor.center_coordinates] *)
Definition center_coordinates (all_geometries : dict (geo_data R))
  : dict (geo_data R) * point R :=
  match all_vertices all_geometries with
  | [] => (all_geometries, (fzero, fzero, fzero))
  | v :: vs =>
      let min_corner := reduce_axis0 fmin v vs in
      let max_corner := reduce_axis0 fmax v vs in
      let center := midpoint min_corner max_corner in
      let centered :=
        fold_left
          (fun centered item =>
             dict_set centered (fst item) (center_record center (snd item)))
          all_geometries [] in
      (centered, center)
  end.

(** A triangle [[a, b, c]] of 0-based vertex indices. *)
Definition triangle : Type := (nat * nat * nat)%type.

(** [n > 1 and vertices[0] == vertices[-1]] *)
Definition closed_ring (vertices : list (point R)) : bool :=
  match vertices, last_opt vertices with
  | v0 :: _, Some vl => (1 <? length vertices) && point_eqb v0 vl
  | _, _ => false
  end.

(** The closed-ring step: [vertices = vertices[:-1]] when the ring is
    closed. *)
Definition drop_closing (vertices : list (point R)) : list (point R) :=
  if closed_ring vertices then removelast vertices else vertices.

(** [GeometryProcessor.triangulate_polygon] *)
Definition triangulate_polygon (vertices : list (point R)) : list triangle :=
  let vertices := drop_closing vertices in
  let n := length vertices in
  if n <? 3 then []
  else map (fun i => (0, i, i + 1)) (seq 1 (n - 2)).

(** [GeometryProcessor.calculate_normal] *)
Definition calculate_normal {NR : Norm R} (v0 v1 v2 : point R) : point R :=
  let edge1 := pointwise fsub v1 v0 in
  let edge2 := pointwise fsub v2 v0 in
  let normal :=
    (fsub (fmul (py edge1) (pz edge2)) (fmul (pz edge1) (py edge2)),
     fsub (fmul (pz edge1) (px edge2)) (fmul (px edge1) (pz edge2)),
     fsub (fmul (px edge1) (py edge2)) (fmul (py edge1) (px edge2))) in
  let length := linalg_norm normal in
  if fltb fzero length
  then pointwise fdiv normal (length, length, length)
  else normal.

End Processor.

(** [GeometryProcessor.get_material_for_type] *)
Definition material_map : dict string :=
  [("RoofSurface", "roof"); ("WallSurface", "wall");
   ("GroundSurface", "ground"); ("ClosureSurface", "closure");
   ("Building", "building")].

Definition get_material_for_type (element_type : string) : string :=
  match dict_get material_map element_type with
  | Some m => m
  | None => "default"
  end.

End Geometry.

(* ================================================================= *)
(** ** src/parser.py *)

(** [float(s)]: the lexical rules of Python's [float] are taken as a
    function [float_of_string], [None] where Python raises [ValueError]. *)
Definition float_ {R} (float_of_string : string -> option R) (s : string)
  : result R :=
  match float_of_string s with
  | Some x => Ok x
  | None => Raise ValueError
  end.

(** [try: body except ValueError: handler] *)
Definition try_except_ValueError {A} (body handler : result A) : result A :=
  match body with
  | Raise ValueError => handler
  | r => r
  end.

(** [for i in range(0, len(coords), 3): if i + 2 < len(coords): ...]:
    the complete groups of three, a shorter last group left out. *)
Fixpoint groups_of_3 {A} (coords : list A) : list (A * A * A) :=
  match coords with
  | a :: b :: c :: rest => (a, b, c) :: groups_of_3 rest
  | _ => []
  end.

Module Parser.
Section CityGMLParser.
Context {R : Type}.
Variable float_of_string : string -> option R.

Definition float : string -> result R := float_ float_of_string.

(** [x, y, z = float(a), float(b), float(c)] *)
Definition float3 (a b c : string) : result (point R) :=
  bind (float a) (fun x =>
  bind (float b) (fun y =>
  bind (float c) (fun z => Ok (x, y, z)))).

(** The body of the loop over [gml:pos] elements: what one element adds
    to [coordinates]. *)
Definition pos_coordinates (pos : Xml.element) : result (list (point R)) :=
  match Xml.text pos with
  | Some (String _ _ as text) =>
      match Str.split text with
      | a :: b :: c :: _ =>
          try_except_ValueError
            (bind (float3 a b c) (fun p => Ok [p]))
            (Ok [])
      | _ => Ok []
      end
  | _ => Ok []
  end.

(** The body of the loop over the groups of a [gml:posList]. *)
Definition group_coordinates (g : string * string * string)
  : result (list (point R)) :=
  let '(a, b, c) := g in
  try_except_ValueError (bind (float3 a b c) (fun p => Ok [p])) (Ok []).

(** A loop whose body appends to one list. *)
Fixpoint extend_each {A B} (body : A -> result (list B)) (xs : list A)
  : result (list B) :=
  match xs with
  | [] => Ok []
  | x :: xs' =>
      bind (body x) (fun ys =>
      bind (extend_each body xs') (fun rest => Ok (ys ++ rest)))
  end.

(** [CityGMLParser._extract_polygon_coordinates] *)
Definition _extract_polygon_coordinates (polygon_element : Xml.element)
  : result (list (point R)) :=
  match Xml.find_desc polygon_element (Xml.gml "LinearRing") with
  | None => Ok []
  | Some linear_ring =>
      bind (extend_each pos_coordinates
              (Xml.findall_child linear_ring (Xml.gml "pos")))
        (fun from_pos =>
      match Xml.find_child linear_ring (Xml.gml "posList") with
      | Some pos_list =>
          match Xml.text pos_list with
          | Some (String _ _ as text) =>
              bind (extend_each group_coordinates
                      (groups_of_3 (Str.split text)))
                (fun from_pos_list => Ok (from_pos ++ from_pos_list))
          | _ => Ok from_pos
          end
      | None => Ok from_pos
      end)
  end.

(** The metadata of an element: [name] and [description], each from the
    first child of that tag. *)
Definition extract_metadata (element : Xml.element) : dict (option string) :=
  let m0 : dict (option string) := [] in
  let m1 :=
    match Xml.find_child element (Xml.gml "name") with
    | Some name_elem => dict_set m0 "name" (Xml.text name_elem)
    | None => m0
    end in
  match Xml.find_child element (Xml.gml "description") with
  | Some desc_elem => dict_set m1 "description" (Xml.text desc_elem)
  | None => m1
  end.

(** [if coords: result['polygons'].append(coords)] *)
Definition keep_nonempty (coords : list (point R)) : list (list (point R)) :=
  match coords with
  | [] => []
  | _ => [coords]
  end.

(** [CityGMLParser._extract_geometry] *)
Definition _extract_geometry (element : Xml.element) : result (geo_data R) :=
  bind (extend_each
          (fun polygon =>
             bind (_extract_polygon_coordinates polygon)
                  (fun coords => Ok (keep_nonempty coords)))
          (Xml.findall_desc element (Xml.gml "Polygon")))
    (fun polys =>
       Ok {| element_type := snd (Xml.tag element);
             polygons := polys;
             metadata := extract_metadata element |}).

(** One turn of either loop of [parse]: an element with an identity and at
    least one polygon is stored under its identity.  [retype] is the
    [geo_data['element_type'] = surface_type] of the second loop. *)
Definition harvest (retype : option string)
  (geometries : dict (geo_data R)) (element : Xml.element)
  : result (dict (geo_data R)) :=
  match Xml.get element (Xml.gml "id") with
  | Some (String _ _ as gml_id) =>
      bind (_extract_geometry element) (fun geo_data =>
      let geo_data :=
        match retype with
        | Some surface_type =>
            {| element_type := surface_type;
               polygons := polygons geo_data;
               metadata := metadata geo_data |}
        | None => geo_data
        end in
      match polygons geo_data with
      | [] => Ok geometries
      | _ => Ok (dict_set geometries gml_id geo_data)
      end)
  | _ => Ok geometries
  end.

(** A [for] loop that threads a value and may raise. *)
Fixpoint fold_result {A B} (f : A -> B -> result A) (xs : list B) (a : A)
  : result A :=
  match xs with
  | [] => Ok a
  | x :: xs' => bind (f a x) (fold_result f xs')
  end.

Definition surface_types : list string :=
  ["RoofSurface"; "WallSurface"; "GroundSurface"; "ClosureSurface"].

(** [CityGMLParser.parse], from the root of the parsed file. *)
Definition parse (root : Xml.element) : result (dict (geo_data R)) :=
  bind (fold_result (harvest None)
          (Xml.xpath_all root (Xml.bldg "Building")) [])
    (fun geometries =>
       fold_result
         (fun geometries surface_type =>
            fold_result (harvest (Some surface_type))
              (Xml.xpath_all root (Xml.bldg surface_type)) geometries)
         surface_types geometries).

End CityGMLParser.
End Parser.

(* ================================================================= *)
(** ** The metadata index

    [{'offset': {'x':..,'y':..,'z':..}, 'total_objects': n,
      'objects': {id: {'element_type':.., 'polygon_count':.., 'metadata':..}}}];
    the three writers differ in what they store under ['metadata']. *)

Record index_entry (M : Type) : Type := IndexEntry {
  entry_element_type : string;
  entry_polygon_count : nat;
  entry_metadata : M
}.
Arguments IndexEntry {M} _ _ _.

Record metadata_index (R M : Type) : Type := MetadataIndex {
  index_offset : point R;
  total_objects : nat;
  objects : dict (index_entry M)
}.
Arguments MetadataIndex {R M} _ _ _.

(* ================================================================= *)
(** ** src/obj_writer.py *)

Module ObjWriter.
Section OBJWriter.
Context {R : Type} {AR : Arith R} {NR : Norm R}.

(** What one [f.write] of the writer puts in the file.  Numbers and
    identifiers are kept as values: the text of a line is their
    formatting. *)
Inductive obj_line : Type :=
| Comment (text : string)                   (* "# CityGML to OBJ Conversion" *)
| TotalObjects (n : nat)                    (* "# Total objects: n" *)
| CenterOffset (offset : point R)           (* "# Center offset: (..)" *)
| Mtllib (mtl_filename : string)            (* "mtllib name" *)
| Blank                                     (* an empty line *)
| GroupComment (gml_id element_type : string) (* "# id (type)" *)
| Group (gml_id : string)                   (* "g id" *)
| Usemtl (material : string)                (* "usemtl m" *)
| Vertex (v : point R)                      (* "v x y z" *)
| Normal (n : point R)                      (* "vn x y z" *)
| Face (v1 v2 v3 normal_idx : nat).         (* "f v1//n v2//n v3//n" *)

(** [self.vertex_count] and [self.normal_count]. *)
Record counters : Type := Counters {
  vertex_count : nat;
  normal_count : nat
}.

(** [polygon[i]]; every index the triangulation returns is in range. *)
Definition item (polygon : list (point R)) (i : nat) : point R :=
  nth i polygon (fzero, fzero, fzero).

(** The local state of [_write_group] while it walks the polygons: the
    lines written, [group_vertices], [group_faces] and [vertex_offset]
    ([group_normals] only mirrors [group_faces]). *)
Record group_state : Type := GroupState {
  written : list obj_line;
  group_vertices : list (point R);
  group_faces : list (nat * nat * nat);
  vertex_offset : nat
}.

(** The triangles of one polygon: a [vn] line and a collected face each. *)
Definition write_triangle (vertex_count : nat) (polygon : list (point R))
  (st : group_state) (tri_indices : Geometry.triangle) : group_state :=
  let '(i0, i1, i2) := tri_indices in
  let normal :=
    Geometry.calculate_normal (item polygon i0) (item polygon i1) (item polygon i2) in
  {| written := written st ++ [Normal normal];
     group_vertices := group_vertices st;
     group_faces :=
       group_faces st ++
       [(vertex_count + vertex_offset st + i0,
         vertex_count + vertex_offset st + i1,
         vertex_count + vertex_offset st + i2)];
     vertex_offset := vertex_offset st |}.

(** One turn of [for polygon in polygons]. *)
Definition write_polygon (vertex_count : nat) (st : group_state)
  (polygon : list (point R)) : group_state :=
  if length polygon <? 3 then st
  else
    let st1 :=
      {| written := written st ++ map Vertex polygon;
         group_vertices := group_vertices st ++ polygon;
         group_faces := group_faces st;
         vertex_offset := vertex_offset st |} in
    let st2 :=
      fold_left (write_triangle vertex_count polygon)
                (Geometry.triangulate_polygon polygon) st1 in
    {| written := written st2;
       group_vertices := group_vertices st2;
       group_faces := group_faces st2;
       vertex_offset := vertex_offset st2 + length polygon |}.

(** [for i, face in enumerate(group_faces)]: the [f] lines. *)
Fixpoint face_lines (normal_count i : nat) (faces : list (nat * nat * nat))
  : list obj_line :=
  match faces with
  | [] => []
  | (a, b, c) :: faces' =>
      Face a b c (normal_count + i) :: face_lines normal_count (S i) faces'
  end.

(** [OBJWriter._write_group]: the lines it writes and the counters after. *)
Definition _write_group (self : counters) (gml_id : string) (geo : geo_data R)
  : list obj_line * counters :=
  let header :=
    [Blank; GroupComment gml_id (element_type geo); Group gml_id;
     Usemtl (Geometry.get_material_for_type (element_type geo)); Blank] in
  let st :=
    fold_left (write_polygon (vertex_count self)) (polygons geo)
      {| written := header; group_vertices := []; group_faces := [];
         vertex_offset := 0 |} in
  (written st ++ [Blank] ++ face_lines (normal_count self) 0 (group_faces st),
   {| vertex_count := vertex_count self + length (group_vertices st);
      normal_count := normal_count self + length (group_faces st) |}).

(** [OBJWriter._write_metadata] *)
Definition _write_metadata (geometries : dict (geo_data R)) (offset : point R)
  : metadata_index R (dict (option string)) :=
  {| index_offset := offset;
     total_objects := length geometries;
     objects :=
       fold_left
         (fun objects item =>
            dict_set objects (fst item)
              {| entry_element_type := element_type (snd item);
                 entry_polygon_count := length (polygons (snd item));
                 entry_metadata := metadata (snd item) |})
         geometries [] |}.

(** The groups of [write_single_obj], one after the other, the counters
    threaded through. *)
Fixpoint write_groups (self : counters) (geometries : dict (geo_data R))
  : list obj_line * counters :=
  match geometries with
  | [] => ([], self)
  | (gml_id, geo) :: rest =>
      let '(ls, self1) := _write_group self gml_id geo in
      let '(ls', self2) := write_groups self1 rest in
      (ls ++ ls', self2)
  end.

(** [OBJWriter.write_single_obj]: the lines of the OBJ file and the
    metadata index written beside it.  The counters start at 1 whatever
    they were: OBJ indices are 1-based. *)
Definition write_single_obj (geometries : dict (geo_data R))
  (mtl_filename : string) (offset : point R)
  : list obj_line * metadata_index R (dict (option string)) :=
  let header :=
    [Comment "# CityGML to OBJ Conversion"; TotalObjects (length geometries);
     CenterOffset offset; Mtllib mtl_filename; Blank] in
  let self := {| vertex_count := 1; normal_count := 1 |} in
  (header ++ fst (write_groups self geometries),
   _write_metadata geometries offset).

End OBJWriter.
End ObjWriter.

(* ================================================================= *)
(** ** Bytes *)

Module Bytes.

Definition byte : Type := Byte.byte.

(** The byte of value [n mod 256]. *)
Definition byte_of_N (n : N) : byte :=
  match Byte.of_N (n mod 256) with
  | Some b => b
  | None => Byte.x00
  end.

(** The four bytes of [n], least significant first. *)
Definition le32 (n : N) : list byte :=
  [byte_of_N n; byte_of_N (n / 256); byte_of_N (n / 65536);
   byte_of_N (n / 16777216)].

(** [struct.pack('<I', n)]: [struct.error] outside 0 .. 2^32-1. *)
Definition pack_I (n : N) : result (list byte) :=
  if (n <? 2 ^ 32)%N then Ok (le32 n) else Raise StructError.

(** [struct.unpack('<I', b)[0]] of four bytes. *)
Definition unpack_I (b : list byte) : N :=
  match b with
  | [b0; b1; b2; b3] =>
      (Byte.to_N b0 + 256 * Byte.to_N b1 + 65536 * Byte.to_N b2
       + 16777216 * Byte.to_N b3)%N
  | _ => 0%N
  end.

End Bytes.

(* ================================================================= *)
(** ** gml2glb.py *)

Module Gml2glb.
Import Bytes.

(** [(4 - (n % 4)) % 4] *)
Definition padding (n : nat) : nat := (4 - n mod 4) mod 4.

Definition magic : N := 0x46546C67%N.       (* 'glTF' *)
Definition version : N := 2%N.
Definition chunk_JSON : N := 0x4E4F534A%N.  (* 'JSON' *)
Definition chunk_BIN : N := 0x004E4942%N.   (* 'BIN\0' *)

(** [write_glb]: the bytes of the file once every [f.write] is done.  The
    header is packed first, so a length that does not fit 32 bits raises
    before anything is written. *)
Definition write_glb (json_bytes binary_buffer : list byte) : result (list byte) :=
  let json_bytes :=
    json_bytes ++ repeat Byte.x20 (padding (length json_bytes)) in
  let binary_buffer :=
    binary_buffer ++ repeat Byte.x00 (padding (length binary_buffer)) in
  let total_length :=
    12 + 8 + length json_bytes + 8 + length binary_buffer in
  bind (pack_I magic) (fun h1 =>
  bind (pack_I version) (fun h2 =>
  bind (pack_I (N.of_nat total_length)) (fun h3 =>
  bind (pack_I (N.of_nat (length json_bytes))) (fun jl =>
  bind (pack_I chunk_JSON) (fun jt =>
  bind (pack_I (N.of_nat (length binary_buffer))) (fun bl =>
  bind (pack_I chunk_BIN) (fun bt =>
  Ok (h1 ++ h2 ++ h3 ++ jl ++ jt ++ json_bytes ++ bl ++ bt ++ binary_buffer)))))))).

Section Converter.
Context {R : Type} {AR : Arith R}.
Variable float_of_string : string -> option R.
Variable int_of_string : string -> option Z.

(** A retained surface: [{'type': ..., 'points': [...]}]. *)
Record surface : Type := Surface {
  surface_type : string;
  points : list (point R)
}.

Record building_info : Type := BuildingInfo {
  id : string;
  description : option string;
  measuredHeight : option R;
  storeysAboveGround : option Z;
  storeysBelowGround : option Z;
  surfaces : list surface
}.

Definition float : string -> result R := float_ float_of_string.

(** [int(s)] *)
Definition int (s : string) : result Z :=
  match int_of_string s with
  | Some n => Ok n
  | None => Raise ValueError
  end.

(** [[(coords[i], coords[i+1], coords[i+2]) for i in range(0, len(coords), 3)]]:
    a last group of one or two raises [IndexError]. *)
Fixpoint triples (coords : list R) : result (list (point R)) :=
  match coords with
  | [] => Ok []
  | a :: b :: c :: rest =>
      bind (triples rest) (fun ps => Ok ((a, b, c) :: ps))
  | _ => Raise IndexError
  end.

(** What one [gml:pos] element adds to [points]. *)
Definition pos_points (pos : Xml.element) : result (list (point R)) :=
  match Xml.text pos with
  | Some (String _ _ as text) =>
      bind (map_result float (Str.split text)) (fun coords =>
      match coords with
      | x :: y :: z :: _ => Ok [(x, y, z)]
      | _ => Ok []
      end)
  | _ => Ok []
  end.

(** The points of one ring: the packed list when it is there and has
    text, the [gml:pos] elements otherwise. *)
Definition ring_points (linear_ring : Xml.element) : result (list (point R)) :=
  match Xml.find_child linear_ring (Xml.gml "posList") with
  | Some (Xml.Element _ _ (Some (String _ _ as text)) _) =>
      bind (map_result float (Str.split text)) triples
  | _ =>
      Parser.extend_each pos_points
        (Xml.findall_child linear_ring (Xml.gml "pos"))
  end.

(** One turn of [for polygon in surface_elem.findall('.//gml:Polygon')]:
    the surfaces it appends. *)
Definition polygon_surfaces (surface_type : string) (polygon : Xml.element)
  : result (list surface) :=
  match Xml.find_desc polygon (Xml.gml "exterior") with
  | None => Ok []
  | Some exterior =>
      match Xml.find_desc exterior (Xml.gml "LinearRing") with
      | None => Ok []
      | Some linear_ring =>
          bind (ring_points linear_ring) (fun points =>
          if length points <? 3 then Ok []
          else Ok [{| surface_type := surface_type; points := points |}])
      end
  end.

Definition surface_types : list string :=
  ["RoofSurface"; "WallSurface"; "GroundSurface"; "ClosureSurface";
   "FloorSurface"; "CeilingSurface"].

(** The surfaces one [Building] element appends, type by type. *)
Definition building_surfaces (building : Xml.element) : result (list surface) :=
  Parser.extend_each
    (fun surface_type =>
       Parser.extend_each
         (fun surface_elem =>
            Parser.extend_each (polygon_surfaces surface_type)
              (Xml.findall_desc surface_elem (Xml.gml "Polygon")))
         (Xml.findall_desc building (Xml.bldg surface_type)))
    surface_types.

(** [not x] of an optional number: [None] and zero are false. *)
Definition falsy_float (o : option R) : bool :=
  match o with
  | None => true
  | Some x => feqb x fzero
  end.
Definition falsy_int (o : option Z) : bool :=
  match o with
  | None => true
  | Some n => Z.eqb n 0
  end.

(** [elem is not None and elem.text]: the text to read, if any. *)
Definition text_of (elem : option Xml.element) : option string :=
  match elem with
  | Some e =>
      match Xml.text e with
      | Some (String _ _ as t) => Some t
      | _ => None
      end
  | None => None
  end.

(** An attribute guarded by [try: ... except ValueError: pass]: the old
    value stays unless it is false and the text converts. *)
Definition update_attr {A} (falsy : option A -> bool)
  (convert : string -> result A) (elem : option Xml.element) (old : option A)
  : result (option A) :=
  match text_of elem with
  | Some t =>
      if falsy old
      then try_except_ValueError
             (bind (convert t) (fun v => Ok (Some v))) (Ok old)
      else Ok old
  | None => Ok old
  end.

(** [s.strip()] *)
Fixpoint lstrip (s : string) : string :=
  match s with
  | String c s' => if Str.isspace c then lstrip s' else s
  | EmptyString => EmptyString
  end.
Fixpoint rstrip (s : string) : string :=
  match s with
  | EmptyString => EmptyString
  | String c s' =>
      match rstrip s' with
      | EmptyString => if Str.isspace c then EmptyString else String c EmptyString
      | r => String c r
      end
  end.
Definition strip (s : string) : string := rstrip (lstrip s).

(** One turn of [for building in buildings]. *)
Definition parse_building (buildings_data : dict building_info)
  (building : Xml.element) : result (dict building_info) :=
  match Xml.get building (Xml.gml "id") with
  | Some (String _ _ as building_id) =>
      let building_info :=
        match dict_get buildings_data building_id with
        | Some info => info
        | None =>
            {| id := building_id; description := None; measuredHeight := None;
               storeysAboveGround := None; storeysBelowGround := None;
               surfaces := [] |}
        end in
      let description' :=
        match text_of (Xml.find_desc building (Xml.gml "description")) with
        | Some t =>
            if Str.truthy (description building_info)
            then description building_info
            else Some (strip t)
        | None => description building_info
        end in
      bind (update_attr falsy_float float
              (Xml.find_desc building (Xml.bldg "measuredHeight"))
              (measuredHeight building_info)) (fun height =>
      bind (update_attr falsy_int int
              (Xml.find_desc building (Xml.bldg "storeysAboveGround"))
              (storeysAboveGround building_info)) (fun above =>
      bind (update_attr falsy_int int
              (Xml.find_desc building (Xml.bldg "storeysBelowGround"))
              (storeysBelowGround building_info)) (fun below =>
      bind (building_surfaces building) (fun new_surfaces =>
      Ok (dict_set buildings_data building_id
            {| id := id building_info;
               description := description';
               measuredHeight := height;
               storeysAboveGround := above;
               storeysBelowGround := below;
               surfaces := surfaces building_info ++ new_surfaces |})))))
  | _ => Ok buildings_data
  end.

(** [parse_citygml], from the root of the parsed file. *)
Definition parse_citygml (root : Xml.element) : result (dict building_info) :=
  Parser.fold_result parse_building
    (Xml.findall_desc root (Xml.bldg "Building")) [].

(** Python's [min] and [max] of a non-empty sequence: the first of the
    smallest, the first of the largest. *)
Definition py_min (x : R) (xs : list R) : R :=
  fold_left (fun m y => if fltb y m then y else m) xs x.
Definition py_max (x : R) (xs : list R) : R :=
  fold_left (fun m y => if fltb m y then y else m) xs x.

Definition all_points (buildings_data : dict building_info) : list (point R) :=
  flat_map (fun info => flat_map points (surfaces info))
           (dict_values buildings_data).

(** [calculate_offset] *)
Definition calculate_offset (buildings_data : dict building_info) : point R :=
  match all_points buildings_data with
  | [] => (fzero, fzero, fzero)
  | p :: ps =>
      (py_min (px p) (map px ps), py_min (py p) (map py ps),
       py_min (pz p) (map pz ps))
  end.

(** [triangulate_polygon(points)]: the triangles carry the points
    themselves, [[points[0], points[i], points[i+1]]]. *)
Definition triangulate_polygon (points : list (point R))
  : list (point R * point R * point R) :=
  match points with
  | [] => []
  | p0 :: _ =>
      if length points <? 3 then []
      else map (fun i => (p0, nth i points p0, nth (i + 1) points p0))
               (seq 1 (length points - 2))
  end.

(** *** The scene description *)

(** [{'buffer': 0, 'byteOffset': .., 'byteLength': .., 'target': ..}] *)
Record buffer_view : Type := BufferView {
  byteOffset : nat;
  byteLength : nat;
  target : N
}.

Definition ARRAY_BUFFER : N := 34962%N.
Definition ELEMENT_ARRAY_BUFFER : N := 34963%N.

Inductive accessor : Type :=
| PositionAccessor (bufferView count : nat) (min max : list R)
    (* componentType 5126 (FLOAT), type VEC3 *)
| IndexAccessor (bufferView count : nat).
    (* componentType 5125 (UNSIGNED_INT), type SCALAR *)

(** [{'name': .., 'primitives': [{'attributes': {'POSITION': ..},
      'indices': .., 'mode': 4}]}] *)
Record mesh : Type := Mesh {
  mesh_name : string;
  POSITION : nat;
  indices : nat
}.

(** [{'mesh': i, 'name': ..}] *)
Record node : Type := Node {
  node_mesh : nat;
  node_name : string
}.

Record gltf : Type := Gltf {
  scene_nodes : list nat;
  nodes : list node;
  meshes : list mesh;
  accessors : list accessor;
  bufferViews : list buffer_view;
  buffer_byteLength : nat
}.

(** numpy's [tobytes] of the float32 and uint32 arrays, and [json.dumps]
    with its UTF-8 encoding: the encoders of the libraries. *)
Variable float32_bytes : list R -> list byte.
Variable uint32_bytes : list nat -> list byte.
Variable json_dumps : gltf -> list byte.

(** The lists [create_glb] grows over the buildings. *)
Record glb_state : Type := GlbState {
  st_meshes : list mesh;
  st_accessors : list accessor;
  st_buffer_views : list buffer_view;
  st_buffers_data : list (list byte);
  current_byte_offset : nat
}.

(** [all_vertices], [all_indices] and [vertex_offset] after the triangles
    of one surface. *)
Definition add_triangle (acc : list R * list nat * nat)
  (tri : point R * point R * point R) : list R * list nat * nat :=
  let '(all_vertices, all_indices, vertex_offset) := acc in
  let '(a, b, c) := tri in
  (all_vertices ++ [px a; py a; pz a; px b; py b; pz b; px c; py c; pz c],
   all_indices ++ [vertex_offset; vertex_offset + 1; vertex_offset + 2],
   vertex_offset + 3).

Definition add_surface (offset : point R) (acc : list R * list nat * nat)
  (s : surface) : list R * list nat * nat :=
  let offset_points := map (Geometry.translate offset) (points s) in
  fold_left add_triangle (triangulate_polygon offset_points) acc.

Definition building_arrays (offset : point R) (info : building_info)
  : list R * list nat :=
  fst (fold_left (add_surface offset) (surfaces info) ([], [], 0)).

(** [all_vertices[i::3]] *)
Fixpoint every_third (xs : list R) : list R :=
  match xs with
  | x :: _ :: _ :: rest => x :: every_third rest
  | x :: _ => [x]
  | [] => []
  end.
Definition stride3 (i : nat) (xs : list R) : list R := every_third (skipn i xs).

(** [min(xs)], [max(xs)]; the slices taken here are never empty. *)
Definition min_of (xs : list R) : R :=
  match xs with x :: xs' => py_min x xs' | [] => fzero end.
Definition max_of (xs : list R) : R :=
  match xs with x :: xs' => py_max x xs' | [] => fzero end.

(** One buffer segment: its view, its bytes, and the zero padding up to
    the next 4-byte boundary. *)
Definition add_segment (bytes : list byte) (target : N)
  (views : list buffer_view) (data : list (list byte)) (offset : nat)
  : list buffer_view * list (list byte) * nat :=
  let views := views ++ [{| byteOffset := offset; byteLength := length bytes;
                            target := target |}] in
  let data := data ++ [bytes] in
  let offset := offset + length bytes in
  let pad := padding offset in
  if pad =? 0 then (views, data, offset)
  else (views, data ++ [repeat Byte.x00 pad], offset + pad).

(** One turn of [for building_id, building_info in buildings_data.items()]. *)
Definition add_building (offset : point R) (st : glb_state)
  (item : string * building_info) : glb_state :=
  let '(building_id, info) := item in
  match surfaces info with
  | [] => st
  | _ =>
      let '(all_vertices, all_indices) := building_arrays offset info in
      match all_vertices with
      | [] => st
      | _ =>
          let vertex_buffer_view_idx := length (st_buffer_views st) in
          let '(views1, data1, offset1) :=
            add_segment (float32_bytes all_vertices) ARRAY_BUFFER
              (st_buffer_views st) (st_buffers_data st)
              (current_byte_offset st) in
          let vertex_accessor_idx := length (st_accessors st) in
          let accessors1 :=
            st_accessors st ++
            [PositionAccessor vertex_buffer_view_idx (length all_vertices / 3)
               (map (fun i => min_of (stride3 i all_vertices)) [0; 1; 2])
               (map (fun i => max_of (stride3 i all_vertices)) [0; 1; 2])] in
          let index_buffer_view_idx := length views1 in
          let '(views2, data2, offset2) :=
            add_segment (uint32_bytes all_indices) ELEMENT_ARRAY_BUFFER
              views1 data1 offset1 in
          let index_accessor_idx := length accessors1 in
          let accessors2 :=
            accessors1 ++
            [IndexAccessor index_buffer_view_idx (length all_indices)] in
          {| st_meshes :=
               st_meshes st ++
               [{| mesh_name := building_id; POSITION := vertex_accessor_idx;
                   indices := index_accessor_idx |}];
             st_accessors := accessors2;
             st_buffer_views := views2;
             st_buffers_data := data2;
             current_byte_offset := offset2 |}
      end
  end.

(** [create_glb]: the scene description, the combined buffer, and the
    bytes [write_glb] writes. *)
Definition create_scene (buildings_data : dict building_info) (offset : point R)
  : gltf * list byte :=
  let st :=
    fold_left (add_building offset) buildings_data
      {| st_meshes := []; st_accessors := []; st_buffer_views := [];
         st_buffers_data := []; current_byte_offset := 0 |} in
  let combined_buffer := concat (st_buffers_data st) in
  ({| scene_nodes := seq 0 (length (st_meshes st));
      nodes :=
        map (fun i =>
               {| node_mesh := i;
                  node_name :=
                    mesh_name (nth i (st_meshes st)
                                 {| mesh_name := ""; POSITION := 0;
                                    indices := 0 |}) |})
            (seq 0 (length (st_meshes st)));
      meshes := st_meshes st;
      accessors := st_accessors st;
      bufferViews := st_buffer_views st;
      buffer_byteLength := length combined_buffer |},
   combined_buffer).

Definition create_glb (buildings_data : dict building_info) (offset : point R)
  : result (gltf * list byte) :=
  let '(gltf_json, combined_buffer) := create_scene buildings_data offset in
  bind (write_glb (json_dumps gltf_json) combined_buffer) (fun file =>
  Ok (gltf_json, file)).

(** *** The metadata index of the binary path *)

Record building_metadata : Type := BuildingMetadata {
  md_name : string;
  md_description : option string;
  md_measuredHeight : option R;
  md_storeysAboveGround : option Z;
  md_storeysBelowGround : option Z;
  md_surfaceTypes : dict nat
}.

(** [surface_types[surface['type']] += 1] on a [defaultdict(int)] *)
Definition count_type (surface_types : dict nat) (s : surface) : dict nat :=
  dict_set surface_types (surface_type s)
    (match dict_get surface_types (surface_type s) with
     | Some n => n + 1
     | None => 1
     end).

(** [write_metadata] *)
Definition write_metadata (buildings_data : dict building_info)
  (offset : point R) : metadata_index R building_metadata :=
  {| index_offset := offset;
     total_objects := length buildings_data;
     objects :=
       fold_left
         (fun objects item =>
            let '(building_id, info) := item in
            dict_set objects building_id
              {| entry_element_type := "Building";
                 entry_polygon_count := length (surfaces info);
                 entry_metadata :=
                   {| md_name := building_id;
                      md_description := description info;
                      md_measuredHeight := measuredHeight info;
                      md_storeysAboveGround := storeysAboveGround info;
                      md_storeysBelowGround := storeysBelowGround info;
                      md_surfaceTypes :=
                        fold_left count_type (surfaces info) [] |} |})
         buildings_data [] |}.

(** What a run of [main] leaves behind: nothing when it stops at
    [sys.exit(1)], the scene, the file and the index otherwise. *)
Definition main (root : Xml.element)
  : result (option (gltf * list byte * metadata_index R building_metadata)) :=
  bind (parse_citygml root) (fun buildings_data =>
  match buildings_data with
  | [] => Ok None
  | _ =>
      let total_surfaces :=
        list_sum (map (fun b => length (surfaces b)) (dict_values buildings_data)) in
      if total_surfaces =? 0 then Ok None
      else
        let offset := calculate_offset buildings_data in
        bind (create_glb buildings_data offset) (fun glb =>
        Ok (Some (fst glb, snd glb, write_metadata buildings_data offset)))
  end).

End Converter.
End Gml2glb.

(* ================================================================= *)
(** ** simple_gml2obj.py *)

Module SimpleGml2obj.
Section Converter.
Context {R : Type} {AR : Arith R}.
Variable float_of_string : string -> option R.

(** [{'id': .., 'type': .., 'points': [...], 'start_vertex': ..}]: one
    entry per polygon. *)
Record surface : Type := Surface {
  id : string;
  type : string;
  points : list (point R);
  start_vertex : nat
}.

Definition float : string -> result R := float_ float_of_string.

Definition surface_types : list string :=
  ["RoofSurface"; "WallSurface"; "GroundSurface"; "ClosureSurface"].

(** One turn of the loop over the polygons of a surface element. *)
Definition parse_polygon (gml_id surface_type : string)
  (acc : list surface * nat) (polygon : Xml.element)
  : result (list surface * nat) :=
  let '(surfaces, vertex_index) := acc in
  match Xml.find_desc polygon (Xml.gml "exterior") with
  | None => Ok acc
  | Some exterior =>
      match Xml.find_desc exterior (Xml.gml "posList") with
      | Some (Xml.Element _ _ (Some (String _ _ as text)) _) =>
          bind (map_result float (Str.split text)) (fun coords =>
          bind (Gml2glb.triples coords) (fun points =>
          if length points <? 3 then Ok acc
          else
            Ok (surfaces ++
                [{| id := gml_id; type := surface_type; points := points;
                    start_vertex := vertex_index |}],
                vertex_index + length points)))
      | _ => Ok acc
      end
  end.

Definition parse_surface (surface_type : string) (acc : list surface * nat)
  (surface_elem : Xml.element) : result (list surface * nat) :=
  match Xml.get surface_elem (Xml.gml "id") with
  | Some (String _ _ as gml_id) =>
      Parser.fold_result (parse_polygon gml_id surface_type)
        (Xml.findall_desc surface_elem (Xml.gml "Polygon")) acc
  | _ => Ok acc
  end.

(** [parse_citygml] *)
Definition parse_citygml (root : Xml.element) : result (list surface) :=
  bind (Parser.fold_result
          (fun acc surface_type =>
             Parser.fold_result (parse_surface surface_type)
               (Xml.findall_desc root (Xml.bldg surface_type)) acc)
          surface_types ([], 1))
       (fun acc => Ok (fst acc)).

(** [calculate_offset]: [(0, 0, 0)] for an empty list of surfaces; [min]
    of an empty sequence raises [ValueError] when there are surfaces and
    none of them holds a point. *)
Definition calculate_offset (surfaces : list surface) : result (point R) :=
  match surfaces with
  | [] => Ok (fzero, fzero, fzero)
  | _ :: _ =>
      match flat_map points surfaces with
      | [] => Raise ValueError
      | p :: ps =>
          Ok (Gml2glb.py_min (px p) (map px ps),
              Gml2glb.py_min (py p) (map py ps),
              Gml2glb.py_min (pz p) (map pz ps))
      end
  end.

(** How Python formats an integer, a float and the offset tuple inside an
    f-string. *)
Variable str_int : nat -> string.
Variable str_float : R -> string.
Variable str_offset : point R -> string.

(** The face lines of one surface. *)
Definition face_text (vertex_count i j k : nat) : string :=
  ("f " ++ str_int (vertex_count + i) ++ " " ++ str_int (vertex_count + j)
   ++ " " ++ str_int (vertex_count + k) ++ "\n")%string.

Definition faces_text (vertex_count num_verts : nat) : string :=
  if num_verts =? 3 then face_text vertex_count 0 1 2
  else if num_verts =? 4 then
    (face_text vertex_count 0 1 2 ++ face_text vertex_count 0 2 3)%string
  else
    String.concat ""
      (map (fun i => face_text vertex_count 0 i (i + 1))
           (seq 1 (num_verts - 2))).

Definition vertex_text (offset : point R) (p : point R) : string :=
  ("v " ++ str_float (fsub (px p) (px offset)) ++ " "
   ++ str_float (fsub (py p) (py offset)) ++ " "
   ++ str_float (fsub (pz p) (pz offset)) ++ "\n")%string.

(** What the loop of [write_obj] writes for the surfaces from
    [vertex_count] on. *)
Fixpoint surfaces_text (offset : point R) (vertex_count : nat)
  (surfaces : list surface) : string :=
  match surfaces with
  | [] => ""
  | s :: rest =>
      ("\ng " ++ id s ++ "\n"
       ++ "usemtl building\n\n"
       ++ String.concat "" (map (vertex_text offset) (points s))
       ++ faces_text vertex_count (length (points s))
       ++ "\n"
       ++ surfaces_text offset (vertex_count + length (points s)) rest)%string
  end.

(** [write_obj]: the text of the file.  Every line end in the source is
    the two characters backslash and n (the literal is written with the
    backslash escaped), as it is in the strings here. *)
Definition write_obj (surfaces : list surface) (mtl_file : string)
  (offset : point R) : string :=
  ("# CityGML to OBJ Conversion\n"
   ++ "# Total objects: " ++ str_int (length surfaces) ++ "\n"
   ++ "# Center offset: " ++ str_offset offset ++ "\n"
   ++ "mtllib " ++ mtl_file ++ "\n\n"
   ++ surfaces_text offset 1 surfaces)%string.

(** [write_metadata] *)
Definition write_metadata (surfaces : list surface) (offset : point R)
  : metadata_index R string :=
  {| index_offset := offset;
     total_objects := length surfaces;
     objects :=
       fold_left
         (fun objects s =>
            dict_set objects (id s)
              {| entry_element_type := "Surface";
                 entry_polygon_count := 1;
                 entry_metadata := id s |})
         surfaces [] |}.

(** A run of [main]: nothing when no surface was found. *)
Definition main (root : Xml.element) (mtl_file : string)
  : result (option (string * metadata_index R string)) :=
  bind (parse_citygml root) (fun surfaces =>
  match surfaces with
  | [] => Ok None
  | _ =>
      bind (calculate_offset surfaces) (fun offset =>
      Ok (Some (write_obj surfaces mtl_file offset,
                write_metadata surfaces offset)))
  end).

End Converter.
End SimpleGml2obj.

(* ================================================================= *)
(** ** src/convert.py *)

Module Convert.
Section Main.
Context {R : Type} {AR : Arith R} {NR : Norm R}.
Variable float_of_string : string -> option R.

(** A run of [main] without [--count-only]: nothing when the parser found
    no geometry ([sys.exit(0)]), the OBJ lines and the metadata index
    otherwise. *)
Definition main (root : Xml.element) (mtl_filename : string)
  : result (option (list ObjWriter.obj_line
                    * metadata_index R (dict (option string)))) :=
  bind (Parser.parse float_of_string root) (fun geometries =>
  match geometries with
  | [] => Ok None
  | _ =>
      let '(centered_geometries, offset) :=
        Geometry.center_coordinates geometries in
      Ok (Some (ObjWriter.write_single_obj centered_geometries mtl_filename offset))
  end).

End Main.
End Convert.

(* ================================================================= *)
(** ** Numerals and documents to run the converters on *)

(** The integer numerals, a part of what [float] and [int] accept, read
    exactly; every other string is refused. *)
Module Decimal.

Definition digit (c : ascii) : option N :=
  let n := N_of_ascii c in
  if ((48 <=? n) && (n <=? 57))%N then Some (n - 48)%N else None.

Fixpoint digits (s : string) (acc : N) : option N :=
  match s with
  | EmptyString => Some acc
  | String c s' =>
      match digit c with
      | Some d => digits s' (10 * acc + d)%N
      | None => None
      end
  end.

Definition int_of_string (s : string) : option Z :=
  match s with
  | EmptyString => None
  | String "-" (String _ _ as s') =>
      option_map (fun n => (- Z.of_N n)%Z) (digits s' 0)
  | _ => option_map Z.of_N (digits s 0)
  end.

Definition float_of_string (s : string) : option Qc :=
  option_map (fun n => Q2Qc (inject_Z n)) (int_of_string s).

End Decimal.

(** Elements of a CityGML document. *)
Module Doc.
Import Xml.

Definition ns_core : string := "http://www.opengis.net/citygml/2.0".

Definition pos (text : string) : element :=
  Element (gml "pos") [] (Some text) [].
Definition posList (text : string) : element :=
  Element (gml "posList") [] (Some text) [].
Definition LinearRing (children : list element) : element :=
  Element (gml "LinearRing") [] None children.
(** A polygon with the given ring as its exterior. *)
Definition Polygon (ring : element) : element :=
  Element (gml "Polygon") [] None [Element (gml "exterior") [] None [ring]].
(** A semantic surface of a building, under [bldg:boundedBy]. *)
Definition boundedBy (surface_type gml_id : string) (polygons : list element)
  : element :=
  Element (bldg "boundedBy") [] None
    [Element (bldg surface_type) [(gml "id", gml_id)] None
       [Element (bldg "lod2MultiSurface") [] None
          [Element (gml "MultiSurface") [] None
             (map (fun p => Element (gml "surfaceMember") [] None [p])
                  polygons)]]].
Definition Building (gml_id : string) (children : list element) : element :=
  Element (bldg "Building") [(gml "id", gml_id)] None children.
Definition CityModel (buildings : list element) : element :=
  Element (ns_core, "CityModel") [] None
    (map (fun b => Element (ns_core, "cityObjectMember") [] None [b])
         buildings).

(** One wall whose packed list has 8 tokens: two triples and two more. *)
Definition short_list : element :=
  CityModel
    [Building "BLD_1"
       [boundedBy "WallSurface" "WALL_1"
          [Polygon (LinearRing [posList "0 0 0 1 0 0 1 1"])]]].

(** One wall whose packed list has a token that is no number. *)
Definition bad_token : element :=
  CityModel
    [Building "BLD_1"
       [boundedBy "WallSurface" "WALL_1"
          [Polygon (LinearRing [posList "0 0 0 1 0 x 1 1 0 0 1 0"])]]].

(** Rings in the packed encoding, in the position encoding, and in both. *)
Definition ring_packed : element :=
  LinearRing [posList "5 5 5 6 5 5 6 6 5"].
Definition ring_positions : element :=
  LinearRing [pos "0 0 0"; pos "1 0 0"; pos "1 1 0"].
Definition ring_both : element :=
  LinearRing [pos "0 0 0"; pos "1 0 0"; pos "1 1 0";
              posList "5 5 5 6 5 5 6 6 5"].

(** A building with no polygon at all, a building whose only ring has
    two points, and a building with a triangle. *)
Definition three_buildings : element :=
  CityModel
    [Building "BLD_EMPTY" [];
     Building "BLD_2PT"
       [boundedBy "WallSurface" "WALL_2PT"
          [Polygon (LinearRing [posList "0 0 0 1 0 0"])]];
     Building "BLD_1"
       [boundedBy "WallSurface" "WALL_1"
          [Polygon (LinearRing [posList "0 0 0 4 0 0 4 2 0"])]]].

End Doc.

(** Rational points from integers. *)
Definition qpoint (x y z : Z) : point Qc :=
  (Q2Qc (inject_Z x), Q2Qc (inject_Z y), Q2Qc (inject_Z z)).

(* ================================================================= *)
(** * Properties *)

(* ----------------------------------------------------------------- *)
(** ** Fan triangulation *)

Section Triangulation.
Context {R : Type} {AR : Arith R}.

Lemma last_opt_spec (A : Type) (xs : list A) (d : A) :
  xs <> [] -> last_opt xs = Some (last xs d).
Proof.
  induction xs as [|x xs IH]; intros Hne; [congruence|].
  destruct xs as [|y ys]; [reflexivity|].
  change (last_opt (y :: ys) = Some (last (y :: ys) d)).
  apply IH. discriminate.
Qed.

(** The ring is taken as closed exactly when it has more than one vertex
    and the first equals the last. *)
Lemma closed_ring_spec (v0 : point R) (vertices : list (point R)) :
  Geometry.closed_ring (v0 :: vertices) =
  (1 <? length (v0 :: vertices)) && point_eqb v0 (last (v0 :: vertices) v0).
Proof.
  unfold Geometry.closed_ring.
  rewrite (@last_opt_spec _ (v0 :: vertices) v0) by discriminate. reflexivity.
Qed.

Lemma length_removelast (A : Type) (xs : list A) :
  length (removelast xs) = length xs - 1.
Proof.
  induction xs as [|x xs IH]; [reflexivity|].
  destruct xs as [|y ys]; [reflexivity|].
  change (S (length (removelast (y :: ys))) = S (length (y :: ys)) - 1).
  rewrite IH. simpl. lia.
Qed.

(** Dropping the closing vertex never lengthens the loop. *)
Lemma length_drop_closing (vertices : list (point R)) :
  length (Geometry.drop_closing vertices) <= length vertices.
Proof.
  unfold Geometry.drop_closing.
  destruct (Geometry.closed_ring vertices); [|lia].
  rewrite length_removelast. lia.
Qed.

(** The fan over [n] vertices, as the loop [for i in range(1, n - 1)]
    builds it. *)
Definition fan (n : nat) : list Geometry.triangle :=
  map (fun i => (0, i, i + 1)) (seq 1 (n - 2)).

Definition uses (t : Geometry.triangle) (j : nat) : Prop :=
  let '(a, b, c) := t in j = a \/ j = b \/ j = c.

Lemma fan_in_range (n : nat) (t : Geometry.triangle) :
  In t (fan n) -> forall j, uses t j -> j < n.
Proof.
  unfold fan. intros Hin j Hj.
  apply in_map_iff in Hin. destruct Hin as [i [<- Hi]].
  apply in_seq in Hi. simpl in Hj. lia.
Qed.

Lemma fan_covers (n j : nat) :
  3 <= n -> j < n -> exists t, In t (fan n) /\ uses t j.
Proof.
  intros Hn Hj. unfold fan.
  destruct (Nat.eq_dec j 0) as [->|Hj0].
  - exists (0, 1, 2). split; [|simpl; auto].
    apply in_map_iff. exists 1. split; [reflexivity|]. apply in_seq. lia.
  - destruct (Nat.eq_dec j (n - 1)) as [->|Hjn].
    + exists (0, n - 2, n - 2 + 1). split.
      * apply in_map_iff. exists (n - 2). split; [reflexivity|].
        apply in_seq. lia.
      * simpl. right. right. lia.
    + exists (0, j, j + 1). split; [|simpl; auto].
      apply in_map_iff. exists j. split; [reflexivity|]. apply in_seq. lia.
Qed.

(** [GeometryProcessor.triangulate_polygon]: with [n] the number of
    vertices left after the closing vertex is dropped, the result is empty
    when [n < 3] and the fan of [n - 2] triangles [(0, i, i+1)],
    [i = 1 .. n-2], otherwise; every index of the fan is below [n] and every
    index below [n] is used. *)
Theorem geometry_triangulate_polygon_fan (vertices : list (point R)) :
  let kept := Geometry.drop_closing vertices in
  let n := length kept in
  kept = (if Geometry.closed_ring vertices then removelast vertices else vertices)
  /\ (n < 3 -> Geometry.triangulate_polygon vertices = [])
  /\ (3 <= n ->
      Geometry.triangulate_polygon vertices = fan n
      /\ length (Geometry.triangulate_polygon vertices) = n - 2
      /\ (forall t j, In t (Geometry.triangulate_polygon vertices) ->
                      uses t j -> j < n)
      /\ (forall j, j < n ->
            exists t, In t (Geometry.triangulate_polygon vertices) /\ uses t j)).
Proof.
  intros kept n. split; [reflexivity|].
  assert (Hcase : Geometry.triangulate_polygon vertices =
                  if n <? 3 then [] else fan n) by reflexivity.
  split.
  - intros Hlt. rewrite Hcase.
    destruct (Nat.ltb_spec n 3) as [_|Hge]; [reflexivity|lia].
  - intros Hge. rewrite Hcase.
    destruct (Nat.ltb_spec n 3) as [Hlt|_]; [lia|].
    repeat split.
    + unfold fan. rewrite length_map, length_seq. reflexivity.
    + intros t j Hin Hu. exact (fan_in_range _ _ Hin _ Hu).
    + intros j Hj. exact (fan_covers Hge Hj).
Qed.

(** Whatever the loop, the triangles index into it. *)
Lemma triangulate_polygon_in_range (vertices : list (point R))
  (t : Geometry.triangle) (j : nat) :
  In t (Geometry.triangulate_polygon vertices) -> uses t j ->
  j < length vertices.
Proof.
  intros Hin Hu.
  pose proof (length_drop_closing vertices) as Hle.
  unfold Geometry.triangulate_polygon in Hin.
  destruct (length (Geometry.drop_closing vertices) <? 3); [contradiction|].
  pose proof (fan_in_range _ _ Hin _ Hu). lia.
Qed.

(** C1. The triangulation of the binary converter on the closed ring
    [a, b, c, a]: the closing vertex is not dropped, and the fan has two
    triangles, the second the degenerate [(a, c, a)]; on the same ring the
    geometry processor drops the closing vertex and returns the one
    triangle [(0, 1, 2)] (for any [a] equal to itself). *)
Theorem gml2glb_triangulate_keeps_closing_vertex (a b c : point R) :
  Gml2glb.triangulate_polygon [a; b; c; a] = [(a, b, c); (a, c, a)]
  /\ (Geometry.triangulate_polygon [a; b; c; a] =
      if point_eqb a a then [(0, 1, 2)] else [(0, 1, 2); (0, 2, 3)]).
Proof.
  split; [reflexivity|].
  unfold Geometry.triangulate_polygon, Geometry.drop_closing.
  rewrite closed_ring_spec. simpl.
  destruct (point_eqb a a); reflexivity.
Qed.

End Triangulation.

(* ----------------------------------------------------------------- *)
(** ** Dictionaries *)

Lemma fold_left_ext (A B : Type) (f g : A -> B -> A) (l : list B) (a : A) :
  (forall a x, f a x = g a x) -> fold_left f l a = fold_left g l a.
Proof.
  intros Hfg. revert a. induction l as [|x l IH]; intros a; simpl;
    [reflexivity|]. rewrite Hfg. apply IH.
Qed.

Lemma Ok_inj (A : Type) (a b : A) : Ok a = Ok b -> a = b.
Proof. intros H. now injection H. Qed.

Lemma Some_inj (A : Type) (a b : A) : Some a = Some b -> a = b.
Proof. intros H. now injection H. Qed.

Section DictFacts.
Variable V : Type.

Lemma dict_set_fresh (d : dict V) (k : string) (v : V) :
  ~ In k (dict_keys d) -> dict_set d k v = d ++ [(k, v)].
Proof.
  induction d as [|[k' v'] d IH]; intros Hk; [reflexivity|].
  simpl in *. destruct (String.eqb_spec k' k) as [->|Hne].
  - exfalso. apply Hk. now left.
  - rewrite IH; [reflexivity|]. intros Hin. apply Hk. now right.
Qed.

Lemma dict_keys_set (d : dict V) (k : string) (v : V) :
  dict_keys (dict_set d k v) =
  if in_dec string_dec k (dict_keys d) then dict_keys d else dict_keys d ++ [k].
Proof.
  induction d as [|[k' v'] d IH]; [reflexivity|].
  simpl. destruct (String.eqb_spec k' k) as [->|Hne].
  - simpl. destruct (string_dec k k) as [Hk|Hc]; [reflexivity|congruence].
  - simpl. rewrite IH.
    destruct (string_dec k' k) as [Heq|Hk]; [congruence|].
    destruct (in_dec string_dec k (dict_keys d)); reflexivity.
Qed.

Lemma dict_set_keeps_NoDup (d : dict V) (k : string) (v : V) :
  NoDup (dict_keys d) -> NoDup (dict_keys (dict_set d k v)).
Proof.
  intros Hnd. rewrite dict_keys_set.
  destruct (in_dec string_dec k (dict_keys d)) as [|Hnin]; [assumption|].
  apply NoDup_app; [assumption|repeat constructor; intros []|].
  intros x Hx [<-|[]]. now apply Hnin.
Qed.

Lemma dict_get_set_same (d : dict V) (k : string) (v : V) :
  dict_get (dict_set d k v) k = Some v.
Proof.
  induction d as [|[k' v'] d IH]; simpl.
  - now rewrite String.eqb_refl.
  - destruct (String.eqb_spec k' k) as [->|Hne]; simpl.
    + now rewrite String.eqb_refl.
    + destruct (String.eqb_spec k' k); [congruence|assumption].
Qed.

Lemma dict_get_set_other (d : dict V) (k k0 : string) (v : V) :
  k0 <> k -> dict_get (dict_set d k v) k0 = dict_get d k0.
Proof.
  intros Hne. induction d as [|[k' v'] d IH]; simpl.
  - destruct (String.eqb_spec k k0); [congruence|reflexivity].
  - destruct (String.eqb_spec k' k) as [->|Hne']; simpl.
    + destruct (String.eqb_spec k k0); [congruence|reflexivity].
    + destruct (String.eqb_spec k' k0); [reflexivity|assumption].
Qed.

Lemma dict_get_In (d : dict V) (k : string) (v : V) :
  dict_get d k = Some v -> In (k, v) d.
Proof.
  induction d as [|[k' v'] d IH]; simpl; [discriminate|].
  destruct (String.eqb_spec k' k) as [->|Hne].
  - intros [= <-]. now left.
  - intros H. right. now apply IH.
Qed.

Lemma dict_get_None (d : dict V) (k : string) :
  dict_get d k = None <-> ~ In k (dict_keys d).
Proof.
  induction d as [|[k' v'] d IH]; simpl; [tauto|].
  destruct (String.eqb_spec k' k) as [->|Hne].
  - split; [discriminate|]. intros H. exfalso. apply H. now left.
  - rewrite IH. split; [intros H [?|?]; [congruence|tauto]|tauto].
Qed.

Lemma In_dict_get (d : dict V) (k : string) (v : V) :
  NoDup (dict_keys d) -> In (k, v) d -> dict_get d k = Some v.
Proof.
  induction d as [|[k' v'] d IH]; simpl; [tauto|].
  intros Hnd [[= -> ->]|Hin].
  - now rewrite String.eqb_refl.
  - inversion Hnd as [|? ? Hnin Hnd']; subst.
    destruct (String.eqb_spec k' k) as [->|Hne].
    + exfalso. apply Hnin. change k with (fst (k, v)). now apply in_map.
    + now apply IH.
Qed.

End DictFacts.

(** A dictionary rebuilt entry by entry from one with distinct keys has
    the same keys in the same order, each with its new value. *)
Lemma rebuild_dict (V W : Type) (f : string * V -> W) (d : dict V) (acc : dict W) :
  NoDup (dict_keys acc ++ dict_keys d) ->
  fold_left (fun acc item => dict_set acc (fst item) (f item)) d acc =
  acc ++ map (fun item => (fst item, f item)) d.
Proof.
  revert acc. induction d as [|[k v] d IH]; intros acc Hnd; simpl.
  - now rewrite app_nil_r.
  - rewrite dict_set_fresh.
    + rewrite IH.
      * now rewrite <- app_assoc.
      * unfold dict_keys in *. rewrite map_app, <- app_assoc. exact Hnd.
    + simpl in Hnd. apply NoDup_remove_2 in Hnd.
      intros Hin. apply Hnd. apply in_or_app. now left.
Qed.


(* ----------------------------------------------------------------- *)
(** ** Centering *)

(** The laws of comparison, minimum, maximum and subtraction that the
    bounding box and a second centering rest on: no number is below itself;
    the minimum and the maximum of two numbers are one of the two; what is
    below the minimum of two numbers is below both, and what the maximum is
    below is above both; subtracting zero changes nothing.  binary64 has
    these laws, its NaN, its infinities and its zeros of either sign
    included, and so have the rationals. *)
Class NumberLaws (R : Type) {AR : Arith R} : Prop := {
  fltb_irrefl : forall a, fltb a a = false;
  fmin_cases : forall a b, fmin a b = a \/ fmin a b = b;
  fmax_cases : forall a b, fmax a b = a \/ fmax a b = b;
  fmin_below : forall y a b,
    fltb y (fmin a b) = true -> fltb y a = true /\ fltb y b = true;
  fmax_above : forall y a b,
    fltb (fmax a b) y = true -> fltb a y = true /\ fltb b y = true;
  fsub_zero : forall a, fsub a fzero = a
}.
Arguments NumberLaws R {AR}.

(** What an arithmetic without rounding has besides: subtraction goes
    through minimum and maximum, and the midpoint of two numbers moved by
    their midpoint is zero.  The rationals have these laws; binary64 has
    not. *)
Class ExactArith (R : Type) {AR : Arith R} : Prop := {
  fmin_translate : forall a b c, fmin (fsub a c) (fsub b c) = fsub (fmin a b) c;
  fmax_translate : forall a b c, fmax (fsub a c) (fsub b c) = fsub (fmax a b) c;
  midpoint_centered : forall a b,
    fdiv (fadd (fsub a (fdiv (fadd a b) ftwo)) (fsub b (fdiv (fadd a b) ftwo)))
         ftwo = fzero
}.
Arguments ExactArith R {AR}.

(** *** binary64 has the laws of numbers *)

Module Binary64Order.
Import SpecFloat.

(** Where a number that is not a NaN stands on the line: the class of its
    sign first, then exponent and mantissa, both counted downwards for a
    negative number.  The two zeros stand at the same place. *)
Definition rank (x : spec_float) : Z * Z * Z :=
  match x with
  | S754_nan => (0, 0, 0)
  | S754_zero _ => (0, 0, 0)
  | S754_infinity true => (-2, 0, 0)
  | S754_infinity false => (2, 0, 0)
  | S754_finite true m e => (-1, - e, - Z.pos m)
  | S754_finite false m e => (1, e, Z.pos m)
  end%Z.

Definition lex_lt (p q : Z * Z * Z) : Prop :=
  let '(a, b, c) := p in
  let '(a', b', c') := q in
  (a < a' \/ (a = a' /\ (b < b' \/ (b = b' /\ c < c'))))%Z.

Definition number (x : spec_float) : Prop := x <> S754_nan.

Lemma SFltb_rank (x y : spec_float) :
  SFltb x y = true <-> number x /\ number y /\ lex_lt (rank x) (rank y).
Proof.
  unfold SFltb, number.
  destruct x as [sx|sx| |sx mx ex], y as [sy|sy| |sy my ey];
    try destruct sx; try destruct sy; cbn;
    try (split; [intros H; try discriminate H; repeat split;
                 try discriminate; lia
                |intros (H1 & H2 & H3); try reflexivity; try congruence; lia]).
  all: destruct (Z.compare_spec ex ey) as [He|He|He]; cbn;
       try rewrite Pos.compare_cont_spec; cbn;
       try destruct (Pos.compare_spec mx my) as [Hm|Hm|Hm]; cbn;
       (split; [intros H; try discriminate H; repeat split;
                try discriminate; lia
               |intros (H1 & H2 & H3); try reflexivity; lia]).
Qed.

Lemma lex_lt_irrefl (p : Z * Z * Z) : ~ lex_lt p p.
Proof. destruct p as [[a b] c]. cbn. lia. Qed.

Lemma lex_lt_trans (p q r : Z * Z * Z) : lex_lt p q -> lex_lt q r -> lex_lt p r.
Proof.
  destruct p as [[a b] c], q as [[a' b'] c'], r as [[a2 b2] c2]. cbn. lia.
Qed.

Lemma lex_lt_between (p q r : Z * Z * Z) :
  lex_lt p r -> lex_lt p q \/ lex_lt q r.
Proof.
  destruct p as [[a b] c], q as [[a' b'] c'], r as [[a2 b2] c2]. cbn. lia.
Qed.

Lemma SFeqb_refl (x : spec_float) : SFeqb x x = true <-> number x.
Proof.
  unfold SFeqb, number.
  destruct x as [s|s| |s m e]; try destruct s; cbn;
    try rewrite Z.compare_refl; try rewrite Pos.compare_cont_refl; cbn;
    split; intros H; try reflexivity; try discriminate; congruence.
Qed.

Lemma is_nan_false (x : PrimFloat.float) :
  Binary64.is_nan x = false <-> number (FloatOps.Prim2SF x).
Proof.
  unfold Binary64.is_nan. rewrite FloatAxioms.eqb_spec, negb_false_iff.
  apply SFeqb_refl.
Qed.

Lemma ltb_rank (x y : PrimFloat.float) :
  PrimFloat.ltb x y = true <->
  number (FloatOps.Prim2SF x) /\ number (FloatOps.Prim2SF y)
  /\ lex_lt (rank (FloatOps.Prim2SF x)) (rank (FloatOps.Prim2SF y)).
Proof. rewrite FloatAxioms.ltb_spec. apply SFltb_rank. Qed.

Lemma ltb_irrefl (a : PrimFloat.float) : PrimFloat.ltb a a = false.
Proof.
  destruct (PrimFloat.ltb a a) eqn:E; [|reflexivity].
  apply ltb_rank in E. destruct E as (_ & _ & E).
  now apply lex_lt_irrefl in E.
Qed.

Lemma ltb_trans (a b c : PrimFloat.float) :
  PrimFloat.ltb a b = true -> PrimFloat.ltb b c = true ->
  PrimFloat.ltb a c = true.
Proof.
  rewrite !ltb_rank. intros (Ha & Hb & Hab) (_ & Hc & Hbc).
  repeat split; try assumption. eapply lex_lt_trans; eassumption.
Qed.

(** A number [b] is above [a] or below [c] when [a] is below [c]. *)
Lemma ltb_between (a b c : PrimFloat.float) :
  PrimFloat.ltb a c = true -> Binary64.is_nan b = false ->
  PrimFloat.ltb a b = true \/ PrimFloat.ltb b c = true.
Proof.
  rewrite is_nan_false, !ltb_rank. intros (Ha & Hc & Hac) Hb.
  destruct (@lex_lt_between _ (rank (FloatOps.Prim2SF b)) _ Hac) as [H|H];
    [left|right]; repeat split; assumption.
Qed.

Lemma ltb_number_r (a b : PrimFloat.float) :
  PrimFloat.ltb a b = true -> Binary64.is_nan b = false.
Proof. rewrite is_nan_false, ltb_rank. tauto. Qed.

Lemma ltb_number_l (a b : PrimFloat.float) :
  PrimFloat.ltb a b = true -> Binary64.is_nan a = false.
Proof. rewrite is_nan_false, ltb_rank. tauto. Qed.

Lemma np_min_cases (a b : PrimFloat.float) :
  Binary64.np_min a b = a \/ Binary64.np_min a b = b.
Proof.
  unfold Binary64.np_min.
  destruct (Binary64.is_nan a); [now left|].
  destruct (PrimFloat.ltb a b); [now left|now right].
Qed.

Lemma np_max_cases (a b : PrimFloat.float) :
  Binary64.np_max a b = a \/ Binary64.np_max a b = b.
Proof.
  unfold Binary64.np_max.
  destruct (Binary64.is_nan a); [now left|].
  destruct (PrimFloat.ltb b a); [now left|now right].
Qed.

Lemma np_min_below (y a b : PrimFloat.float) :
  PrimFloat.ltb y (Binary64.np_min a b) = true ->
  PrimFloat.ltb y a = true /\ PrimFloat.ltb y b = true.
Proof.
  unfold Binary64.np_min.
  destruct (Binary64.is_nan a) eqn:Ea.
  - intros H. apply ltb_number_r in H. congruence.
  - destruct (PrimFloat.ltb a b) eqn:Eab; intros H.
    + split; [exact H|]. eapply ltb_trans; eassumption.
    + split; [|exact H].
      destruct (@ltb_between _ a _ H Ea) as [H'|H']; [exact H'|congruence].
Qed.

Lemma np_max_above (y a b : PrimFloat.float) :
  PrimFloat.ltb (Binary64.np_max a b) y = true ->
  PrimFloat.ltb a y = true /\ PrimFloat.ltb b y = true.
Proof.
  unfold Binary64.np_max.
  destruct (Binary64.is_nan a) eqn:Ea.
  - intros H. apply ltb_number_l in H. congruence.
  - destruct (PrimFloat.ltb b a) eqn:Eab; intros H.
    + split; [exact H|]. eapply ltb_trans; eassumption.
    + split; [|exact H].
      destruct (@ltb_between _ a _ H Ea) as [H'|H']; [congruence|exact H'].
Qed.

(** Subtracting [+0.0] changes no binary64 value: not a NaN, not an
    infinity, not a zero of either sign. *)
Lemma sub_zero (a : PrimFloat.float) : PrimFloat.sub a PrimFloat.zero = a.
Proof.
  apply FloatAxioms.Prim2SF_inj.
  rewrite FloatAxioms.sub_spec.
  change (FloatOps.Prim2SF PrimFloat.zero) with (S754_zero false).
  destruct (FloatOps.Prim2SF a) as [s|s| |s m e]; try destruct s; reflexivity.
Qed.

End Binary64Order.

#[export] Instance float_laws : @NumberLaws PrimFloat.float float_arith.
Proof.
  constructor; cbn [fltb fmin fmax fsub fzero float_arith].
  - exact Binary64Order.ltb_irrefl.
  - exact Binary64Order.np_min_cases.
  - exact Binary64Order.np_max_cases.
  - exact Binary64Order.np_min_below.
  - exact Binary64Order.np_max_above.
  - exact Binary64Order.sub_zero.
Qed.

(** *** The rationals have the laws of numbers and are exact *)

Section RationalLaws.
Local Open Scope Qc_scope.

Lemma qc_lt_shift (a b c : Qc) : b - c < a - c <-> b < a.
Proof.
  rewrite (Qclt_minus_iff (b - c)), (Qclt_minus_iff b).
  replace (a - c + - (b - c)) with (a + - b) by ring. tauto.
Qed.

Lemma qc_ltb_true (a b : Qc) : Exact.qc_ltb a b = true <-> a < b.
Proof.
  unfold Exact.qc_ltb. destruct (Qclt_le_dec a b) as [H|H].
  - tauto.
  - split; [discriminate|]. intros H'. exfalso. exact (Qclt_not_le _ _ H' H).
Qed.

Lemma qc_ltb_irrefl (a : Qc) : fltb a a = false.
Proof.
  cbn [fltb qc_arith]. unfold Exact.qc_ltb.
  destruct (Qclt_le_dec a a) as [H|_]; [|reflexivity].
  exfalso. exact (Qclt_not_le _ _ H (Qcle_refl a)).
Qed.

Lemma qc_ltb_trans (a b c : Qc) :
  fltb a b = true -> fltb b c = true -> fltb a c = true.
Proof.
  cbn [fltb qc_arith]. rewrite !qc_ltb_true. apply Qclt_trans.
Qed.

Lemma qc_min_cases (a b : Qc) : Exact.qc_min a b = a \/ Exact.qc_min a b = b.
Proof. unfold Exact.qc_min. destruct (Qclt_le_dec b a); auto. Qed.

Lemma qc_max_cases (a b : Qc) : Exact.qc_max a b = a \/ Exact.qc_max a b = b.
Proof. unfold Exact.qc_max. destruct (Qclt_le_dec a b); auto. Qed.

Lemma qc_min_below (y a b : Qc) :
  fltb y (fmin a b) = true -> fltb y a = true /\ fltb y b = true.
Proof.
  cbn [fltb fmin qc_arith]. rewrite !qc_ltb_true. unfold Exact.qc_min.
  destruct (Qclt_le_dec b a) as [H|H]; intros Hy.
  - split; [exact (Qclt_trans _ _ _ Hy H)|exact Hy].
  - split; [exact Hy|exact (Qclt_le_trans _ _ _ Hy H)].
Qed.

Lemma qc_max_above (y a b : Qc) :
  fltb (fmax a b) y = true -> fltb a y = true /\ fltb b y = true.
Proof.
  cbn [fltb fmax qc_arith]. rewrite !qc_ltb_true. unfold Exact.qc_max.
  destruct (Qclt_le_dec a b) as [H|H]; intros Hy.
  - split; [exact (Qclt_trans _ _ _ H Hy)|exact Hy].
  - split; [exact Hy|exact (Qcle_lt_trans _ _ _ H Hy)].
Qed.

Lemma qc_min_translate (a b c : Qc) :
  Exact.qc_min (a - c) (b - c) = Exact.qc_min a b - c.
Proof.
  unfold Exact.qc_min.
  destruct (Qclt_le_dec (b - c) (a - c)) as [H|H];
    destruct (Qclt_le_dec b a) as [H'|H']; try reflexivity; exfalso.
  - exact (Qcle_not_lt _ _ H' (proj1 (qc_lt_shift a b c) H)).
  - exact (Qcle_not_lt _ _ H (proj2 (qc_lt_shift a b c) H')).
Qed.

Lemma qc_max_translate (a b c : Qc) :
  Exact.qc_max (a - c) (b - c) = Exact.qc_max a b - c.
Proof.
  unfold Exact.qc_max.
  destruct (Qclt_le_dec (a - c) (b - c)) as [H|H];
    destruct (Qclt_le_dec a b) as [H'|H']; try reflexivity; exfalso.
  - exact (Qcle_not_lt _ _ H' (proj1 (qc_lt_shift b a c) H)).
  - exact (Qcle_not_lt _ _ H (proj2 (qc_lt_shift b a c) H')).
Qed.

Lemma qc_midpoint_centered (a b : Qc) :
  (a - (a + b) / Exact.qc_two + (b - (a + b) / Exact.qc_two)) / Exact.qc_two
  = Q2Qc 0.
Proof.
  unfold Exact.qc_two.
  change (Q2Qc 0) with 0. change (Q2Qc 2) with (1 + 1). field.
  intro E. discriminate E.
Qed.

Lemma qc_sub_zero (a : Qc) : a - Q2Qc 0 = a.
Proof. ring. Qed.

End RationalLaws.

#[export] Instance qc_laws : @NumberLaws Qc qc_arith.
Proof.
  constructor.
  - exact qc_ltb_irrefl.
  - exact qc_min_cases.
  - exact qc_max_cases.
  - exact qc_min_below.
  - exact qc_max_above.
  - exact qc_sub_zero.
Qed.

#[export] Instance qc_exact : @ExactArith Qc qc_arith.
Proof.
  constructor.
  - exact qc_min_translate.
  - exact qc_max_translate.
  - exact qc_midpoint_centered.
Qed.

Section Centering.
Context {R : Type} {AR : Arith R}.

(** The least and the greatest of a non-empty list of numbers, reduced
    from the left. *)
Definition list_min (x : R) (xs : list R) : R := fold_left fmin xs x.
Definition list_max (x : R) (xs : list R) : R := fold_left fmax xs x.

(** The corners the program reduces from the vertices [v :: vs], axis by
    axis. *)
Definition bbox_min (v : point R) (vs : list (point R)) : point R :=
  (list_min (px v) (map px vs), list_min (py v) (map py vs),
   list_min (pz v) (map pz vs)).
Definition bbox_max (v : point R) (vs : list (point R)) : point R :=
  (list_max (px v) (map px vs), list_max (py v) (map py vs),
   list_max (pz v) (map pz vs)).

(** [(lo + hi) / 2.0], axis by axis. *)
Definition bbox_center (lo hi : point R) : point R :=
  (fdiv (fadd (px lo) (px hi)) ftwo, fdiv (fadd (py lo) (py hi)) ftwo,
   fdiv (fadd (pz lo) (pz hi)) ftwo).

(** A record with every vertex moved by [- offset]: same type, same
    metadata, the polygons and their vertices in the same order. *)
Definition moved (offset : point R) (geo : geo_data R) : geo_data R :=
  {| element_type := element_type geo;
     polygons :=
       map (map (fun p => (fsub (px p) (px offset), fsub (py p) (py offset),
                           fsub (pz p) (pz offset))))
           (polygons geo);
     metadata := metadata geo |}.

(** [p] is a vertex of the map: a vertex of some polygon of some
    record. *)
Definition vertex_of (g : dict (geo_data R)) (p : point R) : Prop :=
  exists k geo polygon,
    In (k, geo) g /\ In polygon (polygons geo) /\ In p polygon.

(** [lo] and [hi] are the corners of the axis-aligned bounding box of the
    vertices of the map: on each axis [lo] is a coordinate of some vertex
    and no vertex is below it, [hi] is a coordinate of some vertex and no
    vertex is above it. *)
Definition is_bounding_box (lo hi : point R) (g : dict (geo_data R)) : Prop :=
  forall axis : point R -> R,
    In axis [px; py; pz] ->
    (exists p, vertex_of g p /\ axis p = axis lo)
    /\ (exists p, vertex_of g p /\ axis p = axis hi)
    /\ forall p, vertex_of g p ->
         fltb (axis p) (axis lo) = false /\ fltb (axis hi) (axis p) = false.

Lemma all_vertices_spec (g : dict (geo_data R)) (p : point R) :
  In p (Geometry.all_vertices g) <-> vertex_of g p.
Proof.
  unfold Geometry.all_vertices, dict_values, vertex_of.
  rewrite in_flat_map. split.
  - intros [geo [Hgeo Hp]]. apply in_map_iff in Hgeo.
    destruct Hgeo as [[k geo'] [Heq Hin]]. cbn [snd] in Heq. subst geo'.
    apply in_concat in Hp. destruct Hp as [polygon [Hpoly Hp]].
    now exists k, geo, polygon.
  - intros [k [geo [polygon [Hin [Hpoly Hp]]]]].
    exists geo. split.
    + apply in_map_iff. now exists (k, geo).
    + apply in_concat. now exists polygon.
Qed.

Lemma reduce_axis0_by_axis (f : R -> R -> R) (vs : list (point R)) (v : point R) :
  Geometry.reduce_axis0 f v vs =
  (fold_left f (map px vs) (px v), fold_left f (map py vs) (py v),
   fold_left f (map pz vs) (pz v)).
Proof.
  unfold Geometry.reduce_axis0. revert v.
  induction vs as [|w vs IH]; intros [[x y] z]; [reflexivity|].
  simpl. rewrite IH. reflexivity.
Qed.

Lemma center_coordinates_empty (g : dict (geo_data R)) :
  Geometry.all_vertices g = [] ->
  Geometry.center_coordinates g = (g, (fzero, fzero, fzero)).
Proof.
  intros H. unfold Geometry.center_coordinates. now rewrite H.
Qed.

Lemma center_coordinates_nonempty (g : dict (geo_data R)) v vs :
  NoDup (dict_keys g) ->
  Geometry.all_vertices g = v :: vs ->
  let offset := bbox_center (bbox_min v vs) (bbox_max v vs) in
  Geometry.center_coordinates g =
  (map (fun item => (fst item, moved offset (snd item))) g, offset).
Proof.
  intros Hnd Hv offset. unfold Geometry.center_coordinates. rewrite Hv.
  assert (Hoff : Geometry.midpoint (Geometry.reduce_axis0 fmin v vs)
                   (Geometry.reduce_axis0 fmax v vs) = offset).
  { rewrite !reduce_axis0_by_axis. reflexivity. }
  rewrite Hoff. f_equal.
  rewrite (rebuild_dict (fun item => Geometry.center_record offset (snd item)))
    by exact Hnd.
  reflexivity.
Qed.

(** *** The bounding box is one *)

Section BoundingBox.
Context {NL : NumberLaws R}.

(** What is below the minimum of a list is below each of its numbers. *)
Lemma list_min_below (xs : list R) (x y : R) :
  fltb y (list_min x xs) = true ->
  forall a, In a (x :: xs) -> fltb y a = true.
Proof.
  unfold list_min. revert x.
  induction xs as [|b xs IH]; intros x H a Hin; cbn [fold_left] in H.
  - destruct Hin as [<-|[]]. exact H.
  - pose proof (IH _ H) as Hall.
    destruct (fmin_below _ _ _ (Hall _ (or_introl eq_refl))) as [Hx Hb].
    destruct Hin as [<-|[<-|Hin]]; [exact Hx|exact Hb|].
    apply Hall. now right.
Qed.

Lemma list_min_least (xs : list R) (x y : R) :
  In y (x :: xs) -> fltb y (list_min x xs) = false.
Proof.
  intros Hin. destruct (fltb y (list_min x xs)) eqn:E; [|reflexivity].
  pose proof (@list_min_below xs x y E y Hin) as H.
  rewrite fltb_irrefl in H. discriminate H.
Qed.

Lemma list_min_attained (xs : list R) (x : R) : In (list_min x xs) (x :: xs).
Proof.
  unfold list_min. revert x. induction xs as [|a xs IH]; intros x; simpl.
  - now left.
  - destruct (IH (fmin x a)) as [H|H].
    + rewrite <- H. destruct (fmin_cases x a) as [E|E]; rewrite E; auto.
    + auto.
Qed.

(** What the maximum of a list is below is above each of its numbers. *)
Lemma list_max_above (xs : list R) (x y : R) :
  fltb (list_max x xs) y = true ->
  forall a, In a (x :: xs) -> fltb a y = true.
Proof.
  unfold list_max. revert x.
  induction xs as [|b xs IH]; intros x H a Hin; cbn [fold_left] in H.
  - destruct Hin as [<-|[]]. exact H.
  - pose proof (IH _ H) as Hall.
    destruct (fmax_above _ _ _ (Hall _ (or_introl eq_refl))) as [Hx Hb].
    destruct Hin as [<-|[<-|Hin]]; [exact Hx|exact Hb|].
    apply Hall. now right.
Qed.

Lemma list_max_greatest (xs : list R) (x y : R) :
  In y (x :: xs) -> fltb (list_max x xs) y = false.
Proof.
  intros Hin. destruct (fltb (list_max x xs) y) eqn:E; [|reflexivity].
  pose proof (@list_max_above xs x y E y Hin) as H.
  rewrite fltb_irrefl in H. discriminate H.
Qed.

Lemma list_max_attained (xs : list R) (x : R) : In (list_max x xs) (x :: xs).
Proof.
  unfold list_max. revert x. induction xs as [|a xs IH]; intros x; simpl.
  - now left.
  - destruct (IH (fmax x a)) as [H|H].
    + rewrite <- H. destruct (fmax_cases x a) as [E|E]; rewrite E; auto.
    + auto.
Qed.

(** The corners the program reduces are the corners of the bounding box
    of the vertices of the map. *)
Lemma bbox_is_bounding_box (g : dict (geo_data R)) (v : point R)
  (vs : list (point R)) :
  Geometry.all_vertices g = v :: vs ->
  is_bounding_box (bbox_min v vs) (bbox_max v vs) g.
Proof.
  intros Hv axis Hax.
  assert (Hmin : axis (bbox_min v vs) = list_min (axis v) (map axis vs)).
  { destruct Hax as [<-|[<-|[<-|[]]]]; reflexivity. }
  assert (Hmax : axis (bbox_max v vs) = list_max (axis v) (map axis vs)).
  { destruct Hax as [<-|[<-|[<-|[]]]]; reflexivity. }
  assert (Hmem : forall p, vertex_of g p <-> In p (v :: vs)).
  { intros p. rewrite <- Hv. symmetry. apply all_vertices_spec. }
  assert (Hat : forall x, In x (axis v :: map axis vs) ->
                  exists p, vertex_of g p /\ axis p = x).
  { intros x Hx. change (axis v :: map axis vs) with (map axis (v :: vs)) in Hx.
    apply in_map_iff in Hx. destruct Hx as [p [Hp Hin]].
    exists p. split; [now apply Hmem|exact Hp]. }
  rewrite Hmin, Hmax.
  split; [apply Hat, list_min_attained|].
  split; [apply Hat, list_max_attained|].
  intros p Hp. apply Hmem in Hp. apply (in_map axis) in Hp.
  split; [now apply list_min_least|now apply list_max_greatest].
Qed.

(** C2. [center_coordinates] on a geometry map (a dictionary: distinct
    keys).  When no record has a polygon with a vertex it returns the map
    as it is and the offset (0, 0, 0).  Otherwise there are two corners,
    on each axis the least and the greatest coordinate among all vertices
    of all polygons of all records (each a coordinate of some vertex, no
    vertex below the one nor above the other); the offset is their
    midpoint [(lo + hi) / 2] axis by axis; and the centered map has the
    same keys in the same order, each record with its type and metadata,
    and each polygon with its vertices in order, every vertex minus the
    offset. *)
Theorem center_coordinates_spec (g : dict (geo_data R)) :
  NoDup (dict_keys g) ->
  ((forall p, ~ vertex_of g p) ->
   Geometry.center_coordinates g = (g, (fzero, fzero, fzero)))
  /\ (forall p, vertex_of g p ->
      exists lo hi,
        is_bounding_box lo hi g
        /\ Geometry.center_coordinates g =
           (map (fun item => (fst item, moved (bbox_center lo hi) (snd item))) g,
            bbox_center lo hi)
        /\ dict_keys (fst (Geometry.center_coordinates g)) = dict_keys g).
Proof.
  intros Hnd. split.
  - intros Hnone. apply center_coordinates_empty.
    destruct (Geometry.all_vertices g) as [|v vs] eqn:Hv; [reflexivity|].
    exfalso. apply (Hnone v). apply all_vertices_spec. rewrite Hv. now left.
  - intros p Hp. apply all_vertices_spec in Hp.
    destruct (Geometry.all_vertices g) as [|v vs] eqn:Hv; [destruct Hp|].
    exists (bbox_min v vs), (bbox_max v vs).
    pose proof (@center_coordinates_nonempty g v vs Hnd Hv) as Hc.
    cbv zeta in Hc.
    split; [now apply bbox_is_bounding_box|]. split; [exact Hc|].
    rewrite Hc. unfold dict_keys. cbn [fst]. rewrite map_map. reflexivity.
Qed.

End BoundingBox.

(** *** Centering twice *)

Lemma all_vertices_moved (offset : point R) (g : dict (geo_data R)) :
  Geometry.all_vertices (map (fun item => (fst item, moved offset (snd item))) g)
  = map (Geometry.translate offset) (Geometry.all_vertices g).
Proof.
  unfold Geometry.all_vertices, dict_values.
  induction g as [|[k geo] g IH]; [reflexivity|].
  simpl. rewrite map_app, <- IH. f_equal.
  unfold moved. simpl. rewrite concat_map. reflexivity.
Qed.

Section WithoutRounding.
Context {EA : ExactArith R}.

Lemma list_min_translate (axis : point R -> R) (c : R)
  (vs : list (point R)) (x : R) :
  list_min (fsub x c) (map (fun p => fsub (axis p) c) vs)
  = fsub (list_min x (map axis vs)) c.
Proof.
  unfold list_min. revert x.
  induction vs as [|a vs IH]; intros x; simpl; [reflexivity|].
  rewrite fmin_translate. apply IH.
Qed.

Lemma list_max_translate (axis : point R -> R) (c : R)
  (vs : list (point R)) (x : R) :
  list_max (fsub x c) (map (fun p => fsub (axis p) c) vs)
  = fsub (list_max x (map axis vs)) c.
Proof.
  unfold list_max. revert x.
  induction vs as [|a vs IH]; intros x; simpl; [reflexivity|].
  rewrite fmax_translate. apply IH.
Qed.

(** Moving the vertices moves the corners of their box. *)
Lemma bbox_min_translate (o v : point R) (vs : list (point R)) :
  bbox_min (Geometry.translate o v) (map (Geometry.translate o) vs) =
  (fsub (list_min (px v) (map px vs)) (px o),
   fsub (list_min (py v) (map py vs)) (py o),
   fsub (list_min (pz v) (map pz vs)) (pz o)).
Proof.
  unfold bbox_min. rewrite !map_map.
  rewrite <- (list_min_translate px (px o) vs (px v)).
  rewrite <- (list_min_translate py (py o) vs (py v)).
  rewrite <- (list_min_translate pz (pz o) vs (pz v)).
  reflexivity.
Qed.

Lemma bbox_max_translate (o v : point R) (vs : list (point R)) :
  bbox_max (Geometry.translate o v) (map (Geometry.translate o) vs) =
  (fsub (list_max (px v) (map px vs)) (px o),
   fsub (list_max (py v) (map py vs)) (py o),
   fsub (list_max (pz v) (map pz vs)) (pz o)).
Proof.
  unfold bbox_max. rewrite !map_map.
  rewrite <- (list_max_translate px (px o) vs (px v)).
  rewrite <- (list_max_translate py (py o) vs (py v)).
  rewrite <- (list_max_translate pz (pz o) vs (pz v)).
  reflexivity.
Qed.

(** The box of the centered vertices is centered on the origin. *)
Lemma bbox_center_moved (v : point R) (vs : list (point R)) :
  let offset := bbox_center (bbox_min v vs) (bbox_max v vs) in
  let v' := Geometry.translate offset v in
  let vs' := map (Geometry.translate offset) vs in
  bbox_center (bbox_min v' vs') (bbox_max v' vs') = (fzero, fzero, fzero).
Proof.
  intros offset v' vs'. unfold v', vs'.
  rewrite bbox_min_translate, bbox_max_translate.
  unfold bbox_center, offset, bbox_center, bbox_min, bbox_max, px, py, pz.
  cbn [fst snd]. rewrite !midpoint_centered. reflexivity.
Qed.

(** Without rounding the second offset is zero. *)
Lemma second_offset_exact (g : dict (geo_data R)) :
  NoDup (dict_keys g) ->
  snd (Geometry.center_coordinates (fst (Geometry.center_coordinates g)))
  = (fzero, fzero, fzero).
Proof.
  intros Hnd. destruct (Geometry.all_vertices g) as [|v vs] eqn:Hv.
  - rewrite (center_coordinates_empty g Hv). cbn [fst].
    now rewrite (center_coordinates_empty g Hv).
  - rewrite (@center_coordinates_nonempty g v vs Hnd Hv). cbn [fst].
    set (offset := bbox_center (bbox_min v vs) (bbox_max v vs)).
    set (g' := map (fun item => (fst item, moved offset (snd item))) g).
    assert (Hnd' : NoDup (dict_keys g')).
    { unfold g', dict_keys. rewrite map_map. exact Hnd. }
    assert (Hv' : Geometry.all_vertices g' =
                  Geometry.translate offset v
                  :: map (Geometry.translate offset) vs).
    { unfold g'. rewrite all_vertices_moved, Hv. reflexivity. }
    rewrite (@center_coordinates_nonempty g' _ _ Hnd' Hv'). cbn [snd].
    exact (bbox_center_moved v vs).
Qed.

End WithoutRounding.

Section CenteringTwice.
Context {NL : NumberLaws R}.

Lemma moved_zero (geo : geo_data R) : moved (fzero, fzero, fzero) geo = geo.
Proof.
  destruct geo as [t ps m]. unfold moved. simpl. f_equal.
  rewrite <- (map_id ps) at 2. apply map_ext. intros poly.
  rewrite <- (map_id poly) at 2. apply map_ext. intros [[x y] z].
  unfold px, py, pz. simpl. now rewrite !fsub_zero.
Qed.

(** A map is centered into itself when its offset is zero. *)
Lemma center_coordinates_zero_offset (g : dict (geo_data R)) :
  NoDup (dict_keys g) ->
  snd (Geometry.center_coordinates g) = (fzero, fzero, fzero) ->
  Geometry.center_coordinates g = (g, (fzero, fzero, fzero)).
Proof.
  intros Hnd. destruct (Geometry.all_vertices g) as [|v vs] eqn:Hv.
  - intros _. now apply center_coordinates_empty.
  - rewrite (@center_coordinates_nonempty g v vs Hnd Hv). cbn [snd].
    intros ->. f_equal.
    rewrite <- (map_id g) at 2. apply map_ext. intros [k geo]. cbn [fst snd].
    now rewrite moved_zero.
Qed.

Lemma center_coordinates_keys (g : dict (geo_data R)) :
  NoDup (dict_keys g) ->
  dict_keys (fst (Geometry.center_coordinates g)) = dict_keys g.
Proof.
  intros Hnd. destruct (Geometry.all_vertices g) as [|v vs] eqn:Hv.
  - now rewrite (center_coordinates_empty g Hv).
  - rewrite (@center_coordinates_nonempty g v vs Hnd Hv). cbn [fst].
    unfold dict_keys. now rewrite map_map.
Qed.


End CenteringTwice.

End Centering.

(** *** Centering on concrete maps *)

Module Binary64Examples.
Import PrimFloat.

(** A 4 by 2 rectangle at height 0, as one building. *)
Definition rectangle : dict (geo_data float) :=
  [("BLD_1",
    {| element_type := "Building";
       polygons := [[(0, 0, 0); (4, 0, 0); (4, 2, 0); (0, 2, 0)]];
       metadata := [] |})]%float.

Definition rectangle_centered : dict (geo_data float) :=
  [("BLD_1",
    {| element_type := "Building";
       polygons := [[(-2, -1, 0); (2, -1, 0); (2, 1, 0); (-2, 1, 0)]];
       metadata := [] |})]%float.

Definition rectangle_offset : point float := (2, 1, 0)%float.

(** Two buildings of two polygons each.  The least x and z are in the
    last polygon of the second building, the least y in the first
    building. *)
Definition two_buildings : dict (geo_data float) :=
  [("BLD_1",
    {| element_type := "Building";
       polygons := [[(0, 0, 0); (4, 0, 0); (4, 2, 0)];
                    [(0, 0, 3); (4, 0, 3); (4, 2, 3)]];
       metadata := [] |});
   ("BLD_2",
    {| element_type := "Building";
       polygons := [[(6, 1, 0); (8, 1, 0); (8, 5, 0)];
                    [(-2, 1, -1); (8, 1, 6); (8, 5, 6)]];
       metadata := [] |})]%float.

Definition two_buildings_lo : point float := (-2, 0, -1)%float.
Definition two_buildings_hi : point float := (8, 5, 6)%float.
Definition two_buildings_offset : point float := (3, 2.5, 2.5)%float.

Definition two_buildings_centered : dict (geo_data float) :=
  [("BLD_1",
    {| element_type := "Building";
       polygons := [[(-3, -2.5, -2.5); (1, -2.5, -2.5); (1, -0.5, -2.5)];
                    [(-3, -2.5, 0.5); (1, -2.5, 0.5); (1, -0.5, 0.5)]];
       metadata := [] |});
   ("BLD_2",
    {| element_type := "Building";
       polygons := [[(3, -1.5, -2.5); (5, -1.5, -2.5); (5, 2.5, -2.5)];
                    [(-5, -1.5, -3.5); (5, -1.5, 3.5); (5, 2.5, 3.5)]];
       metadata := [] |})]%float.

(** A sliver whose x coordinates are 1 and the next binary64 number
    above 1. *)
Definition sliver : dict (geo_data float) :=
  [("BLD_1",
    {| element_type := "Building";
       polygons := [[(1, 0, 0); (0x1.0000000000001p0, 0, 0); (1, 1, 0)]];
       metadata := [] |})]%float.

Definition sliver_centered : dict (geo_data float) :=
  [("BLD_1",
    {| element_type := "Building";
       polygons := [[(0, -0.5, 0); (0x1p-52, -0.5, 0); (0, 0.5, 0)]];
       metadata := [] |})]%float.

Definition sliver_centered_twice : dict (geo_data float) :=
  [("BLD_1",
    {| element_type := "Building";
       polygons :=
         [[(-0x1p-53, -0.5, 0); (0x1p-53, -0.5, 0); (-0x1p-53, 0.5, 0)]];
       metadata := [] |})]%float.

Definition sliver_second_offset : point float := (0x1p-53, 0, 0)%float.
Definition sliver_offset : point float := (1, 0.5, 0)%float.

End Binary64Examples.

(** The two buildings on binary64: the corners are (-2, 0, -1) and
    (8, 5, 6), the offset (3, 2.5, 2.5). *)
Lemma center_coordinates_spec_witness :
  NoDup (dict_keys Binary64Examples.two_buildings)
  /\ vertex_of Binary64Examples.two_buildings
       (PrimFloat.zero, PrimFloat.zero, PrimFloat.zero)
  /\ (exists lo hi,
        is_bounding_box lo hi Binary64Examples.two_buildings
        /\ Geometry.center_coordinates Binary64Examples.two_buildings =
           (map (fun item => (fst item, moved (bbox_center lo hi) (snd item)))
              Binary64Examples.two_buildings,
            bbox_center lo hi)
        /\ dict_keys
             (fst (Geometry.center_coordinates Binary64Examples.two_buildings))
           = dict_keys Binary64Examples.two_buildings)
  /\ Geometry.center_coordinates Binary64Examples.two_buildings =
     (Binary64Examples.two_buildings_centered,
      bbox_center Binary64Examples.two_buildings_lo
        Binary64Examples.two_buildings_hi)
  /\ bbox_center Binary64Examples.two_buildings_lo
       Binary64Examples.two_buildings_hi
     = Binary64Examples.two_buildings_offset.
Proof.
  assert (Hnd : NoDup (dict_keys Binary64Examples.two_buildings)).
  { repeat constructor; simpl; intuition discriminate. }
  assert (Hv : vertex_of Binary64Examples.two_buildings
                 (PrimFloat.zero, PrimFloat.zero, PrimFloat.zero)).
  { unfold vertex_of, Binary64Examples.two_buildings.
    eexists _, _, _. split; [cbn [In]; left; reflexivity|].
    cbn [polygons In]. split; [left; reflexivity|].
    cbn [In]. left. reflexivity. }
  split; [exact Hnd|]. split; [exact Hv|].
  split;
    [exact (proj2 (center_coordinates_spec Binary64Examples.two_buildings Hnd)
              _ Hv)|].
  split; vm_compute; reflexivity.
Defined.


(** A right triangle with rational coordinates. *)
Definition rational_triangle : dict (geo_data Qc) :=
  [("BLD_1",
    {| element_type := "Building";
       polygons := [[(Q2Qc 0, Q2Qc 0, Q2Qc 0); (Q2Qc 3, Q2Qc 0, Q2Qc 0);
                     (Q2Qc 3, Q2Qc 1, Q2Qc 0)]];
       metadata := [] |})].


(* ----------------------------------------------------------------- *)
(** ** The binary container *)

Section Container.
Import Bytes.

Lemma to_N_byte_of_N (n : N) : Byte.to_N (byte_of_N n) = (n mod 256)%N.
Proof.
  unfold byte_of_N. destruct (Byte.of_N (n mod 256)) as [b|] eqn:E.
  - now apply Byte.to_of_N.
  - apply Byte.of_N_None_iff in E.
    pose proof (N.mod_upper_bound n 256). lia.
Qed.

Lemma unpack_le32 (n : N) : (n < 2 ^ 32)%N -> unpack_I (le32 n) = n.
Proof.
  intros Hn. unfold unpack_I, le32. rewrite !to_N_byte_of_N.
  change (2 ^ 32)%N with 4294967296%N in Hn.
  pose proof (N.div_mod n 256). pose proof (N.mod_upper_bound n 256).
  pose proof (N.div_mod (n / 256) 256).
  pose proof (N.mod_upper_bound (n / 256) 256).
  pose proof (N.div_mod (n / 65536) 256).
  pose proof (N.mod_upper_bound (n / 65536) 256).
  pose proof (N.div_mod (n / 16777216) 256).
  pose proof (N.mod_upper_bound (n / 16777216) 256).
  assert (E1 : (n / 65536 = n / 256 / 256)%N) by (now rewrite N.Div0.div_div).
  assert (E2 : (n / 16777216 = n / 65536 / 256)%N)
    by (now rewrite N.Div0.div_div).
  assert (E3 : (n / 16777216 / 256 = 0)%N).
  { rewrite N.Div0.div_div. apply N.div_small. simpl. lia. }
  lia.
Qed.

Lemma pack_I_ok (n : N) : (n < 2 ^ 32)%N -> pack_I n = Ok (le32 n).
Proof.
  intros Hn. unfold pack_I.
  destruct (N.ltb_spec n (2 ^ 32)) as [_|Hge]; [reflexivity|lia].
Qed.

Lemma pack_I_inv (n : N) (b : list byte) :
  pack_I n = Ok b -> (n < 2 ^ 32)%N /\ b = le32 n.
Proof.
  unfold pack_I. destruct (N.ltb_spec n (2 ^ 32)) as [Hlt|Hge].
  - intros [= <-]. now split.
  - discriminate.
Qed.

(** [b + pad * ((4 - len(b) % 4) % 4)] *)
Definition padded (pad : byte) (b : list byte) : list byte :=
  b ++ repeat pad (Gml2glb.padding (length b)).

Lemma padding_spec (n : nat) :
  Gml2glb.padding n < 4 /\ (n + Gml2glb.padding n) mod 4 = 0.
Proof.
  unfold Gml2glb.padding.
  pose proof (Nat.mod_upper_bound n 4 ltac:(lia)) as Hr.
  pose proof (Nat.div_mod_eq n 4) as Hn.
  set (r := n mod 4) in *. set (q := n / 4) in *.
  split; [apply Nat.mod_upper_bound; lia|].
  destruct r as [|[|[|[|r]]]]; [| | | |lia]; cbn [Nat.sub].
  - change (4 mod 4) with 0. replace (n + 0) with (q * 4) by lia.
    apply Nat.Div0.mod_mul.
  - change (3 mod 4) with 3. replace (n + 3) with ((q + 1) * 4) by lia.
    apply Nat.Div0.mod_mul.
  - change (2 mod 4) with 2. replace (n + 2) with ((q + 1) * 4) by lia.
    apply Nat.Div0.mod_mul.
  - change (1 mod 4) with 1. replace (n + 1) with ((q + 1) * 4) by lia.
    apply Nat.Div0.mod_mul.
Qed.

Lemma length_padded (pad : byte) (b : list byte) :
  length (padded pad b) = length b + Gml2glb.padding (length b).
Proof. unfold padded. now rewrite length_app, repeat_length. Qed.

(** *** Reading a container back *)

(** Four bytes as a little-endian number, and what follows them. *)
Definition read_u32 (b : list byte) : option (N * list byte) :=
  match b with
  | b0 :: b1 :: b2 :: b3 :: rest => Some (unpack_I [b0; b1; b2; b3], rest)
  | _ => None
  end.

(** A chunk: its length prefix, its type marker, that many bytes of data,
    and what follows. *)
Definition read_chunk (b : list byte)
  : option (N * N * list byte * list byte) :=
  match read_u32 b with
  | Some (len, b1) =>
      match read_u32 b1 with
      | Some (marker, b2) =>
          if N.of_nat (length b2) <? len then None
          else Some (len, marker, firstn (N.to_nat len) b2,
                     skipn (N.to_nat len) b2)
      | None => None
      end
  | None => None
  end%N.

Record container : Type := Container {
  c_magic : N;
  c_version : N;
  c_total_length : N;
  c_json_length : N;
  c_json_marker : N;
  c_json : list byte;
  c_bin_length : N;
  c_bin_marker : N;
  c_bin : list byte
}.

(** A file that is exactly a 12-byte header and two chunks. *)
Definition read_glb (file : list byte) : option container :=
  match read_u32 file with
  | Some (m, f1) =>
  match read_u32 f1 with
  | Some (v, f2) =>
  match read_u32 f2 with
  | Some (total, f3) =>
  match read_chunk f3 with
  | Some (jl, jm, j, f4) =>
  match read_chunk f4 with
  | Some (bl, bm, b, []) =>
      Some {| c_magic := m; c_version := v; c_total_length := total;
              c_json_length := jl; c_json_marker := jm; c_json := j;
              c_bin_length := bl; c_bin_marker := bm; c_bin := b |}
  | _ => None
  end
  | None => None
  end
  | None => None
  end
  | None => None
  end
  | None => None
  end.

Lemma read_u32_le32 (n : N) (rest : list byte) :
  (n < 2 ^ 32)%N -> read_u32 (le32 n ++ rest) = Some (n, rest).
Proof.
  intros Hn. transitivity (Some (unpack_I (le32 n), rest)); [reflexivity|].
  now rewrite (unpack_le32 Hn).
Qed.

Lemma read_chunk_written (marker : N) (data rest : list byte) :
  (N.of_nat (length data) < 2 ^ 32)%N -> (marker < 2 ^ 32)%N ->
  read_chunk (le32 (N.of_nat (length data)) ++ le32 marker ++ data ++ rest)
  = Some (N.of_nat (length data), marker, data, rest).
Proof.
  intros Hd Hm. unfold read_chunk.
  rewrite (@read_u32_le32 _ _ Hd), (@read_u32_le32 _ _ Hm).
  rewrite length_app.
  destruct (N.ltb_spec (N.of_nat (length data + length rest))
                       (N.of_nat (length data))) as [Hlt|_]; [lia|].
  rewrite Nat2N.id.
  rewrite firstn_app, Nat.sub_diag, firstn_all, firstn_O, app_nil_r.
  rewrite skipn_app, Nat.sub_diag, skipn_all. reflexivity.
Qed.

Lemma read_chunk_written_last (marker : N) (data : list byte) :
  (N.of_nat (length data) < 2 ^ 32)%N -> (marker < 2 ^ 32)%N ->
  read_chunk (le32 (N.of_nat (length data)) ++ le32 marker ++ data)
  = Some (N.of_nat (length data), marker, data, []).
Proof.
  intros Hd Hm. rewrite <- (app_nil_r data) at 2.
  now apply read_chunk_written.
Qed.

End Container.

Section ContainerLayout.
Import Bytes.

(** What [write_glb] declares as the total length. *)
Definition declared_total (json_bytes binary_buffer : list byte) : nat :=
  12 + 8 + length (padded Byte.x20 json_bytes)
  + 8 + length (padded Byte.x00 binary_buffer).

Lemma write_glb_unfold (json_bytes binary_buffer : list byte) :
  Gml2glb.write_glb json_bytes binary_buffer =
  bind (pack_I (N.of_nat (declared_total json_bytes binary_buffer))) (fun h3 =>
  bind (pack_I (N.of_nat (length (padded Byte.x20 json_bytes)))) (fun jl =>
  bind (pack_I (N.of_nat (length (padded Byte.x00 binary_buffer)))) (fun bl =>
  Ok (le32 Gml2glb.magic ++ le32 Gml2glb.version ++ h3 ++ jl
      ++ le32 Gml2glb.chunk_JSON ++ padded Byte.x20 json_bytes ++ bl
      ++ le32 Gml2glb.chunk_BIN ++ padded Byte.x00 binary_buffer)))).
Proof.
  unfold Gml2glb.write_glb, declared_total, padded.
  rewrite (@pack_I_ok Gml2glb.magic) by reflexivity.
  rewrite (@pack_I_ok Gml2glb.version) by reflexivity.
  rewrite (@pack_I_ok Gml2glb.chunk_JSON) by reflexivity.
  rewrite (@pack_I_ok Gml2glb.chunk_BIN) by reflexivity.
  cbn [bind].
  destruct (pack_I _) as [h3|e]; [|reflexivity]. cbn [bind].
  destruct (pack_I _) as [jl|e]; [|reflexivity]. cbn [bind].
  destruct (pack_I _) as [bl|e]; reflexivity.
Qed.

(** The container is written whenever its length fits the 32 bits of the
    header field, and only then. *)
Lemma write_glb_succeeds (json_bytes binary_buffer : list byte) :
  (N.of_nat (declared_total json_bytes binary_buffer) < 2 ^ 32)%N ->
  exists file, Gml2glb.write_glb json_bytes binary_buffer = Ok file.
Proof.
  intros Hfit. rewrite write_glb_unfold.
  assert (Hj : (N.of_nat (length (padded Byte.x20 json_bytes)) < 2 ^ 32)%N)
    by (unfold declared_total in Hfit; lia).
  assert (Hb : (N.of_nat (length (padded Byte.x00 binary_buffer)) < 2 ^ 32)%N)
    by (unfold declared_total in Hfit; lia).
  rewrite (@pack_I_ok _ Hfit), (@pack_I_ok _ Hj), (@pack_I_ok _ Hb).
  cbn [bind]. eexists. reflexivity.
Qed.

Lemma write_glb_raises (json_bytes binary_buffer : list byte) :
  (2 ^ 32 <= N.of_nat (declared_total json_bytes binary_buffer))%N ->
  Gml2glb.write_glb json_bytes binary_buffer = Raise StructError.
Proof.
  intros Hbig. rewrite write_glb_unfold. unfold pack_I at 1.
  destruct (N.ltb_spec (N.of_nat (declared_total json_bytes binary_buffer))
                       (2 ^ 32)) as [Hlt|_]; [lia|reflexivity].
Qed.

(** C3. Every container [write_glb] writes reads back as a 12-byte header
    and two chunks, with nothing after them: the magic and version
    constants, a declared total length equal to the number of bytes of the
    file, which is 12 + 8 + padded JSON length + 8 + padded binary length;
    a JSON chunk whose length prefix is the length of the JSON bytes padded
    with spaces to a multiple of 4, under the marker 'JSON'; and a binary
    chunk whose length prefix is the length of the buffer padded with zero
    bytes to a multiple of 4, under the marker 'BIN'. *)
Theorem write_glb_layout (json_bytes binary_buffer file : list byte) :
  Gml2glb.write_glb json_bytes binary_buffer = Ok file ->
  let pj := padded Byte.x20 json_bytes in
  let pb := padded Byte.x00 binary_buffer in
  read_glb file =
    Some {| c_magic := Gml2glb.magic;
            c_version := Gml2glb.version;
            c_total_length := N.of_nat (length file);
            c_json_length := N.of_nat (length pj);
            c_json_marker := Gml2glb.chunk_JSON;
            c_json := pj;
            c_bin_length := N.of_nat (length pb);
            c_bin_marker := Gml2glb.chunk_BIN;
            c_bin := pb |}
  /\ length file = 12 + 8 + length pj + 8 + length pb
  /\ (exists k, k < 4 /\ pj = json_bytes ++ repeat Byte.x20 k)
  /\ (exists k, k < 4 /\ pb = binary_buffer ++ repeat Byte.x00 k)
  /\ length pj mod 4 = 0 /\ length pb mod 4 = 0.
Proof.
  intros Hw. cbv zeta. rewrite write_glb_unfold in Hw.
  destruct (pack_I (N.of_nat (declared_total json_bytes binary_buffer)))
    as [h3|e] eqn:E3; [|discriminate]. cbn [bind] in Hw.
  destruct (pack_I (N.of_nat (length (padded Byte.x20 json_bytes))))
    as [jl|e] eqn:Ej; [|discriminate]. cbn [bind] in Hw.
  destruct (pack_I (N.of_nat (length (padded Byte.x00 binary_buffer))))
    as [bl|e] eqn:Eb; [|discriminate]. cbn [bind] in Hw.
  apply pack_I_inv in E3, Ej, Eb.
  destruct E3 as [H3 ->], Ej as [Hj ->], Eb as [Hb ->].
  apply Ok_inj in Hw. subst file.
  set (pj := padded Byte.x20 json_bytes) in *.
  set (pb := padded Byte.x00 binary_buffer) in *.
  assert (Hlen : length (le32 Gml2glb.magic ++ le32 Gml2glb.version
                         ++ le32 (N.of_nat (declared_total json_bytes binary_buffer))
                         ++ le32 (N.of_nat (length pj))
                         ++ le32 Gml2glb.chunk_JSON ++ pj
                         ++ le32 (N.of_nat (length pb))
                         ++ le32 Gml2glb.chunk_BIN ++ pb)
                 = 12 + 8 + length pj + 8 + length pb).
  { rewrite !length_app. simpl. lia. }
  split; [|split; [exact Hlen|]].
  - rewrite Hlen. fold (declared_total json_bytes binary_buffer).
    unfold read_glb.
    rewrite (@read_u32_le32 Gml2glb.magic) by reflexivity.
    rewrite (@read_u32_le32 Gml2glb.version) by reflexivity.
    rewrite (@read_u32_le32 _ _ H3).
    rewrite (@read_chunk_written Gml2glb.chunk_JSON pj _ Hj) by reflexivity.
    rewrite (@read_chunk_written_last Gml2glb.chunk_BIN pb Hb) by reflexivity.
    unfold declared_total. reflexivity.
  - destruct (padding_spec (length json_bytes)) as [Hkj Hmj].
    destruct (padding_spec (length binary_buffer)) as [Hkb Hmb].
    repeat split.
    + exists (Gml2glb.padding (length json_bytes)). now split.
    + exists (Gml2glb.padding (length binary_buffer)). now split.
    + unfold pj. now rewrite length_padded.
    + unfold pb. now rewrite length_padded.
Qed.

(** A two-byte JSON chunk and a three-byte buffer. *)
Lemma write_glb_layout_witness :
  let json_bytes := [Byte.x7b; Byte.x7d] in
  let binary_buffer := [Byte.x01; Byte.x02; Byte.x03] in
  exists file,
    Gml2glb.write_glb json_bytes binary_buffer = Ok file
    /\ length file = 36
    /\ read_glb file =
       Some {| c_magic := Gml2glb.magic;
               c_version := Gml2glb.version;
               c_total_length := 36;
               c_json_length := 4;
               c_json_marker := Gml2glb.chunk_JSON;
               c_json := [Byte.x7b; Byte.x7d; Byte.x20; Byte.x20];
               c_bin_length := 4;
               c_bin_marker := Gml2glb.chunk_BIN;
               c_bin := [Byte.x01; Byte.x02; Byte.x03; Byte.x00] |}.
Proof.
  intros json_bytes binary_buffer.
  destruct (@write_glb_succeeds json_bytes binary_buffer) as [file Hfile];
    [reflexivity|].
  exists file. split; [exact Hfile|].
  destruct (write_glb_layout json_bytes binary_buffer Hfile)
    as [Hread [Hlen _]].
  split; [exact Hlen|]. rewrite Hread, Hlen. reflexivity.
Defined.

End ContainerLayout.

(* ----------------------------------------------------------------- *)
(** ** The OBJ writer's indices *)

Section ObjIndices.
Context {R : Type} {AR : Arith R} {NR : Norm R}.

Local Abbreviation obj_line := (@ObjWriter.obj_line R).

(** Reading the file from the top with [V] vertex records and [N] normal
    records seen so far: every face refers to vertices in [1, V] and to a
    normal in [1, N]. *)
Fixpoint well_indexed (V N : nat) (lines : list obj_line) : Prop :=
  match lines with
  | [] => True
  | ObjWriter.Vertex _ :: rest => well_indexed (S V) N rest
  | ObjWriter.Normal _ :: rest => well_indexed V (S N) rest
  | ObjWriter.Face a b c n :: rest =>
      (1 <= a <= V /\ 1 <= b <= V /\ 1 <= c <= V /\ 1 <= n <= N)
      /\ well_indexed V N rest
  | _ :: rest => well_indexed V N rest
  end.

(** The same reading, with the numbers [start] of vertex and normal
    records the file held at the last [g] line: every face refers to
    vertices and to a normal written since that line, under the numbers
    they have in the whole file. *)
Fixpoint own_group_indexed (start : nat * nat) (V N : nat)
  (lines : list obj_line) : Prop :=
  match lines with
  | [] => True
  | ObjWriter.Group _ :: rest => own_group_indexed (V, N) V N rest
  | ObjWriter.Vertex _ :: rest => own_group_indexed start (S V) N rest
  | ObjWriter.Normal _ :: rest => own_group_indexed start V (S N) rest
  | ObjWriter.Face a b c n :: rest =>
      (fst start < a <= V /\ fst start < b <= V /\ fst start < c <= V
       /\ snd start < n <= N)
      /\ own_group_indexed start V N rest
  | _ :: rest => own_group_indexed start V N rest
  end.

(** The numbers of vertex and normal records at the last [g] line of some
    lines, [start] when they hold none. *)
Fixpoint group_start (start : nat * nat) (V N : nat) (lines : list obj_line)
  : nat * nat :=
  match lines with
  | [] => start
  | ObjWriter.Group _ :: rest => group_start (V, N) V N rest
  | ObjWriter.Vertex _ :: rest => group_start start (S V) N rest
  | ObjWriter.Normal _ :: rest => group_start start V (S N) rest
  | _ :: rest => group_start start V N rest
  end.

(** The vertex and normal records among some lines. *)
Fixpoint count_vertices (lines : list obj_line) : nat :=
  match lines with
  | [] => 0
  | ObjWriter.Vertex _ :: rest => S (count_vertices rest)
  | _ :: rest => count_vertices rest
  end.
Fixpoint count_normals (lines : list obj_line) : nat :=
  match lines with
  | [] => 0
  | ObjWriter.Normal _ :: rest => S (count_normals rest)
  | _ :: rest => count_normals rest
  end.
Fixpoint no_face (lines : list obj_line) : Prop :=
  match lines with
  | [] => True
  | ObjWriter.Face _ _ _ _ :: _ => False
  | _ :: rest => no_face rest
  end.

Lemma well_indexed_app (l1 l2 : list obj_line) (V N : nat) :
  well_indexed V N (l1 ++ l2) <->
  well_indexed V N l1
  /\ well_indexed (V + count_vertices l1) (N + count_normals l1) l2.
Proof.
  revert V N. induction l1 as [|l l1 IH]; intros V N.
  - simpl. rewrite !Nat.add_0_r. tauto.
  - destruct l; simpl; rewrite IH;
      rewrite ?Nat.add_succ_r, ?Nat.add_succ_l; tauto.
Qed.

Lemma no_face_well_indexed (l : list obj_line) (V N : nat) :
  no_face l -> well_indexed V N l.
Proof.
  revert V N. induction l as [|x l IH]; intros V N H; [exact I|].
  destruct x; simpl in *; auto; contradiction.
Qed.

Lemma count_vertices_app (l1 l2 : list obj_line) :
  count_vertices (l1 ++ l2) = count_vertices l1 + count_vertices l2.
Proof.
  induction l1 as [|x l1 IH]; [reflexivity|].
  destruct x; simpl; rewrite IH; reflexivity.
Qed.

Lemma count_normals_app (l1 l2 : list obj_line) :
  count_normals (l1 ++ l2) = count_normals l1 + count_normals l2.
Proof.
  induction l1 as [|x l1 IH]; [reflexivity|].
  destruct x; simpl; rewrite IH; reflexivity.
Qed.

Lemma no_face_app (l1 l2 : list obj_line) :
  no_face (l1 ++ l2) <-> no_face l1 /\ no_face l2.
Proof.
  induction l1 as [|x l1 IH]; simpl; [tauto|].
  destruct x; simpl; tauto.
Qed.

Lemma count_vertices_map_Vertex (ps : list (point R)) :
  count_vertices (map ObjWriter.Vertex ps) = length ps
  /\ count_normals (map (@ObjWriter.Vertex R) ps) = 0
  /\ no_face (map (@ObjWriter.Vertex R) ps).
Proof.
  induction ps as [|p ps [IH1 [IH2 IH3]]]; simpl; auto.
Qed.

(** What holds of the local state of [_write_group] after any number of
    polygons, for a group that starts at [vc = self.vertex_count]: the
    lines so far hold no face, as many vertex records as [group_vertices]
    and as many normal records as [group_faces]; [vertex_offset] is the
    number of vertices of the group; and every collected face points at a
    vertex of the group. *)
Record group_inv (vc : nat) (st : ObjWriter.group_state (R := R)) : Prop := {
  inv_no_face : no_face (ObjWriter.written st);
  inv_vertices :
    count_vertices (ObjWriter.written st) = length (ObjWriter.group_vertices st);
  inv_normals :
    count_normals (ObjWriter.written st) = length (ObjWriter.group_faces st);
  inv_offset : ObjWriter.vertex_offset st <= length (ObjWriter.group_vertices st);
  inv_faces :
    forall a b c, In (a, b, c) (ObjWriter.group_faces st) ->
      vc <= a < vc + length (ObjWriter.group_vertices st)
      /\ vc <= b < vc + length (ObjWriter.group_vertices st)
      /\ vc <= c < vc + length (ObjWriter.group_vertices st)
}.

(** The triangles of one polygon, written after its [n] vertices were
    appended at [vertex_offset]. *)
Lemma write_triangles_inv (vc : nat) (polygon : list (point R))
  (tris : list Geometry.triangle) (st : ObjWriter.group_state) :
  (forall t j, In t tris -> uses t j -> j < length polygon) ->
  ObjWriter.vertex_offset st + length polygon
    <= length (ObjWriter.group_vertices st) ->
  group_inv vc st ->
  group_inv vc (fold_left (ObjWriter.write_triangle vc polygon) tris st)
  /\ ObjWriter.vertex_offset
       (fold_left (ObjWriter.write_triangle vc polygon) tris st)
     = ObjWriter.vertex_offset st
  /\ ObjWriter.group_vertices
       (fold_left (ObjWriter.write_triangle vc polygon) tris st)
     = ObjWriter.group_vertices st.
Proof.
  revert st. induction tris as [|[[i0 i1] i2] tris IH]; intros st Hr Hoff Hinv.
  - simpl. auto.
  - cbn [fold_left].
    set (st1 := ObjWriter.write_triangle vc polygon st (i0, i1, i2)).
    assert (Hst1 : group_inv vc st1
                   /\ ObjWriter.vertex_offset st1 = ObjWriter.vertex_offset st
                   /\ ObjWriter.group_vertices st1 = ObjWriter.group_vertices st).
    { destruct Hinv as [Hnf Hv Hn Ho Hf].
      assert (H0 : i0 < length polygon)
        by (apply (Hr (i0, i1, i2)); simpl; auto).
      assert (H1 : i1 < length polygon)
        by (apply (Hr (i0, i1, i2)); simpl; auto).
      assert (H2 : i2 < length polygon)
        by (apply (Hr (i0, i1, i2)); simpl; auto).
      split; [|split; reflexivity].
      constructor; unfold st1; simpl.
      - apply no_face_app. split; [exact Hnf|exact I].
      - rewrite count_vertices_app. simpl. lia.
      - rewrite count_normals_app, length_app. simpl. lia.
      - exact Ho.
      - intros a b c Hin. apply in_app_or in Hin.
        destruct Hin as [Hin|[[= <- <- <-]|[]]]; [now apply Hf|lia]. }
    destruct Hst1 as [Hinv1 [Ho1 Hv1]].
    destruct (IH st1) as [Hinv' [Ho' Hv']].
    + intros t j Hin. apply Hr. now right.
    + rewrite Ho1, Hv1. exact Hoff.
    + exact Hinv1.
    + split; [exact Hinv'|]. split; [now rewrite Ho'|now rewrite Hv'].
Qed.

Lemma write_polygon_inv (vc : nat) (st : ObjWriter.group_state)
  (polygon : list (point R)) :
  group_inv vc st ->
  ObjWriter.vertex_offset st = length (ObjWriter.group_vertices st) ->
  group_inv vc (ObjWriter.write_polygon vc st polygon)
  /\ ObjWriter.vertex_offset (ObjWriter.write_polygon vc st polygon)
     = length (ObjWriter.group_vertices (ObjWriter.write_polygon vc st polygon)).
Proof.
  intros Hinv Hoff. unfold ObjWriter.write_polygon.
  destruct (length polygon <? 3); [now split|].
  set (st1 := {| ObjWriter.written :=
                   ObjWriter.written st ++ map ObjWriter.Vertex polygon;
                 ObjWriter.group_vertices :=
                   ObjWriter.group_vertices st ++ polygon;
                 ObjWriter.group_faces := ObjWriter.group_faces st;
                 ObjWriter.vertex_offset := ObjWriter.vertex_offset st |}).
  destruct Hinv as [Hnf Hv Hn Ho Hf].
  destruct (count_vertices_map_Vertex polygon) as [Cv [Cn Cf]].
  assert (Hinv1 : group_inv vc st1).
  { constructor; unfold st1; simpl.
    - apply no_face_app. now split.
    - rewrite count_vertices_app, length_app. lia.
    - rewrite count_normals_app. lia.
    - rewrite length_app. lia.
    - intros a b c Hin. rewrite length_app. specialize (Hf a b c Hin). lia. }
  destruct (@write_triangles_inv vc polygon
              (Geometry.triangulate_polygon polygon) st1) as [Hinv2 [Ho2 Hv2]].
  - intros t j. apply triangulate_polygon_in_range.
  - unfold st1. simpl. rewrite length_app. lia.
  - exact Hinv1.
  - simpl. split.
    + destruct Hinv2 as [Hnf2 Hvv2 Hn2 Hoo2 Hf2].
      constructor; simpl; auto.
      rewrite Ho2, Hv2. unfold st1. simpl. rewrite length_app. lia.
    + rewrite Ho2, Hv2. unfold st1. simpl. rewrite length_app. lia.
Qed.

Lemma write_polygons_inv (vc : nat) (polys : list (list (point R)))
  (st : ObjWriter.group_state) :
  group_inv vc st ->
  ObjWriter.vertex_offset st = length (ObjWriter.group_vertices st) ->
  group_inv vc (fold_left (ObjWriter.write_polygon vc) polys st).
Proof.
  revert st. induction polys as [|p polys IH]; intros st Hinv Hoff; [exact Hinv|].
  simpl. destruct (write_polygon_inv p Hinv Hoff) as [Hinv' Hoff'].
  now apply IH.
Qed.

Lemma face_lines_well_indexed (nc V N : nat)
  (faces : list (nat * nat * nat)) (i : nat) :
  1 <= nc -> nc + i + length faces <= N + 1 ->
  (forall a b c, In (a, b, c) faces -> 1 <= a <= V /\ 1 <= b <= V /\ 1 <= c <= V) ->
  well_indexed V N (ObjWriter.face_lines (R := R) nc i faces)
  /\ count_vertices (ObjWriter.face_lines (R := R) nc i faces) = 0
  /\ count_normals (ObjWriter.face_lines (R := R) nc i faces) = 0.
Proof.
  revert i. induction faces as [|[[a b] c] faces IH]; intros i Hnc Hn Hf.
  - simpl. auto.
  - simpl in *. destruct (IH (S i)) as [IH1 [IH2 IH3]]; [lia|lia| |].
    + intros a' b' c' Hin. apply Hf. now right.
    + repeat split; auto; try (apply (Hf a b c); now left); lia.
Qed.

(** One group, written when the file holds [V] vertex and [N] normal
    records and the counters are [V + 1] and [N + 1]. *)
Lemma write_group_well_indexed (self : ObjWriter.counters) (gml_id : string)
  (geo : geo_data R) (V N : nat) :
  ObjWriter.vertex_count self = V + 1 ->
  ObjWriter.normal_count self = N + 1 ->
  let '(lines, self') := ObjWriter._write_group self gml_id geo in
  well_indexed V N lines
  /\ ObjWriter.vertex_count self' = V + count_vertices lines + 1
  /\ ObjWriter.normal_count self' = N + count_normals lines + 1.
Proof.
  intros HV HN. unfold ObjWriter._write_group.
  set (st0 := {| ObjWriter.written := _; ObjWriter.group_vertices := [];
                 ObjWriter.group_faces := []; ObjWriter.vertex_offset := 0 |}).
  assert (Hinv0 : group_inv (ObjWriter.vertex_count self) st0).
  { constructor; simpl; auto. intros a b c []. }
  pose proof (@write_polygons_inv (ObjWriter.vertex_count self)
                (polygons geo) st0 Hinv0 eq_refl) as Hinv.
  set (st := fold_left _ (polygons geo) st0) in *.
  destruct Hinv as [Hnf Hv Hn Ho Hf].
  destruct (@face_lines_well_indexed (ObjWriter.normal_count self)
              (V + length (ObjWriter.group_vertices st))
              (N + length (ObjWriter.group_faces st))
              (ObjWriter.group_faces st) 0) as [Fw [Fv Fn]].
  - lia.
  - lia.
  - intros a b c Hin. specialize (Hf a b c Hin). lia.
  - rewrite !well_indexed_app, !count_vertices_app, !count_normals_app.
    simpl. rewrite Fv, Fn, Hv, Hn, !Nat.add_0_r.
    repeat split; auto; try lia.
    now apply no_face_well_indexed.
Qed.

Lemma write_groups_well_indexed (geometries : dict (geo_data R))
  (self : ObjWriter.counters) (V N : nat) :
  ObjWriter.vertex_count self = V + 1 ->
  ObjWriter.normal_count self = N + 1 ->
  well_indexed V N (fst (ObjWriter.write_groups self geometries)).
Proof.
  revert self V N.
  induction geometries as [|[gml_id geo] rest IH]; intros self V N HV HN.
  - exact I.
  - cbn [ObjWriter.write_groups].
    pose proof (@write_group_well_indexed self gml_id geo V N HV HN) as Hg.
    destruct (ObjWriter._write_group self gml_id geo) as [ls self1].
    destruct Hg as [Hw [HV1 HN1]].
    specialize (IH self1 _ _ HV1 HN1).
    destruct (ObjWriter.write_groups self1 rest) as [ls' self2].
    cbn [fst] in *. apply well_indexed_app. split; [exact Hw|exact IH].
Qed.

Lemma own_group_indexed_app (l1 l2 : list obj_line) (start : nat * nat)
  (V N : nat) :
  own_group_indexed start V N (l1 ++ l2) <->
  own_group_indexed start V N l1
  /\ own_group_indexed (group_start start V N l1)
       (V + count_vertices l1) (N + count_normals l1) l2.
Proof.
  revert start V N. induction l1 as [|l l1 IH]; intros start V N.
  - simpl. rewrite !Nat.add_0_r. tauto.
  - destruct l; simpl; rewrite IH;
      rewrite ?Nat.add_succ_r, ?Nat.add_succ_l; tauto.
Qed.

Lemma group_start_app (l1 l2 : list obj_line) (start : nat * nat) (V N : nat) :
  group_start start V N (l1 ++ l2)
  = group_start (group_start start V N l1)
      (V + count_vertices l1) (N + count_normals l1) l2.
Proof.
  revert start V N. induction l1 as [|l l1 IH]; intros start V N.
  - simpl. now rewrite !Nat.add_0_r.
  - destruct l; simpl; rewrite IH;
      rewrite ?Nat.add_succ_r, ?Nat.add_succ_l; reflexivity.
Qed.

Lemma no_face_own_group_indexed (l : list obj_line) (start : nat * nat)
  (V N : nat) :
  no_face l -> own_group_indexed start V N l.
Proof.
  revert start V N. induction l as [|x l IH]; intros start V N H; [exact I|].
  destruct x; simpl in *; auto; contradiction.
Qed.

Lemma group_start_vertices (ps : list (point R)) (start : nat * nat)
  (V N : nat) :
  group_start start V N (map ObjWriter.Vertex ps) = start.
Proof.
  revert V. induction ps as [|p ps IH]; intros V; [reflexivity|].
  simpl. apply IH.
Qed.

(** The [g] line of a group stands before its records: while
    [_write_group] walks the polygons of a group begun with [V] vertex and
    [N] normal records in the file, the last [g] line written is its
    own. *)
Lemma write_triangles_group_start (vc : nat) (polygon : list (point R))
  (tris : list Geometry.triangle) (st : ObjWriter.group_state)
  (start own : nat * nat) (V N : nat) :
  group_start start V N (ObjWriter.written st) = own ->
  group_start start V N
    (ObjWriter.written
       (fold_left (ObjWriter.write_triangle vc polygon) tris st)) = own.
Proof.
  revert st. induction tris as [|[[i0 i1] i2] tris IH]; intros st H;
    [exact H|].
  cbn [fold_left]. apply IH. unfold ObjWriter.write_triangle.
  cbn [ObjWriter.written]. rewrite group_start_app, H. reflexivity.
Qed.

Lemma write_polygons_group_start (vc : nat) (polys : list (list (point R)))
  (st : ObjWriter.group_state) (start own : nat * nat) (V N : nat) :
  group_start start V N (ObjWriter.written st) = own ->
  group_start start V N
    (ObjWriter.written (fold_left (ObjWriter.write_polygon vc) polys st)) = own.
Proof.
  revert st. induction polys as [|p polys IH]; intros st H; [exact H|].
  cbn [fold_left]. apply IH. unfold ObjWriter.write_polygon.
  destruct (length p <? 3); [exact H|]. cbn [ObjWriter.written].
  apply write_triangles_group_start. cbn [ObjWriter.written].
  rewrite group_start_app, H. apply group_start_vertices.
Qed.

Lemma face_lines_own_group (nc V0 N0 V N : nat)
  (faces : list (nat * nat * nat)) (i : nat) :
  N0 < nc -> nc + i + length faces <= N + 1 ->
  (forall a b c, In (a, b, c) faces ->
                 V0 < a <= V /\ V0 < b <= V /\ V0 < c <= V) ->
  own_group_indexed (V0, N0) V N (ObjWriter.face_lines (R := R) nc i faces).
Proof.
  revert i. induction faces as [|[[a b] c] faces IH]; intros i Hnc Hn Hf.
  - exact I.
  - simpl in *. split.
    + destruct (Hf a b c) as [Ha [Hb Hc]]; [now left|].
      repeat split; try lia.
    + apply IH; [lia|lia|]. intros a' b' c' Hin. apply Hf. now right.
Qed.

(** One group, written when the file holds [V] vertex and [N] normal
    records and the counters are [V + 1] and [N + 1]: its faces name
    records of the group itself. *)
Lemma write_group_own_indexed (self : ObjWriter.counters) (gml_id : string)
  (geo : geo_data R) (start : nat * nat) (V N : nat) :
  ObjWriter.vertex_count self = V + 1 ->
  ObjWriter.normal_count self = N + 1 ->
  own_group_indexed start V N (fst (ObjWriter._write_group self gml_id geo)).
Proof.
  intros HV HN. unfold ObjWriter._write_group. cbn [fst].
  set (st0 := {| ObjWriter.written := _; ObjWriter.group_vertices := [];
                 ObjWriter.group_faces := []; ObjWriter.vertex_offset := 0 |}).
  assert (Hinv0 : group_inv (ObjWriter.vertex_count self) st0).
  { constructor; simpl; auto. intros a b c []. }
  pose proof (@write_polygons_inv (ObjWriter.vertex_count self)
                (polygons geo) st0 Hinv0 eq_refl) as Hinv.
  pose proof (@write_polygons_group_start (ObjWriter.vertex_count self)
                (polygons geo) st0 start (V, N) V N eq_refl) as Hstart.
  set (st := fold_left _ (polygons geo) st0) in *.
  destruct Hinv as [Hnf Hv Hn Ho Hf].
  apply own_group_indexed_app. split; [now apply no_face_own_group_indexed|].
  rewrite Hstart, Hv, Hn. cbn [app own_group_indexed].
  apply face_lines_own_group; [lia|lia|].
  intros a b c Hin. specialize (Hf a b c Hin). lia.
Qed.

Lemma write_groups_own_indexed (geometries : dict (geo_data R))
  (self : ObjWriter.counters) (start : nat * nat) (V N : nat) :
  ObjWriter.vertex_count self = V + 1 ->
  ObjWriter.normal_count self = N + 1 ->
  own_group_indexed start V N (fst (ObjWriter.write_groups self geometries)).
Proof.
  revert self start V N.
  induction geometries as [|[gml_id geo] rest IH]; intros self start V N HV HN.
  - exact I.
  - cbn [ObjWriter.write_groups].
    pose proof (@write_group_well_indexed self gml_id geo V N HV HN) as Hg.
    pose proof (@write_group_own_indexed self gml_id geo start V N HV HN)
      as Hown.
    destruct (ObjWriter._write_group self gml_id geo) as [ls self1].
    destruct Hg as [_ [HV1 HN1]].
    specialize (IH self1 (group_start start V N ls) _ _ HV1 HN1).
    destruct (ObjWriter.write_groups self1 rest) as [ls' self2].
    cbn [fst] in *. apply own_group_indexed_app. split; [exact Hown|exact IH].
Qed.

(** A file of two triangles whose second group is numbered from 1 again,
    as a writer that set its counters back would write it: its faces are
    within the records written so far, but the second names the vertices
    and the normal of the first group. *)
Definition renumbered_file : list obj_line :=
  let o : point R := (fzero, fzero, fzero) in
  [ObjWriter.Group "A"; ObjWriter.Vertex o; ObjWriter.Vertex o;
   ObjWriter.Vertex o; ObjWriter.Normal o; ObjWriter.Face 1 2 3 1;
   ObjWriter.Group "B"; ObjWriter.Vertex o; ObjWriter.Vertex o;
   ObjWriter.Vertex o; ObjWriter.Normal o; ObjWriter.Face 1 2 3 1].

Lemma renumbered_file_rejected :
  well_indexed 0 0 renumbered_file
  /\ ~ own_group_indexed (0, 0) 0 0 renumbered_file.
Proof.
  split.
  - cbn. repeat split; lia.
  - cbn. lia.
Qed.

(** C10. In the file [write_single_obj] writes, read from the top, every
    face record's three vertex indices lie between 1 and the number of
    vertex records written before it, and its normal index between 1 and
    the number of normal records written before it.  The counters run on
    from one group to the next and are never set back: the indices of a
    face are above the numbers of vertex and normal records the file held
    when the group of the face began, so a face names records of its own
    group under their numbers in the whole file. *)
Theorem write_single_obj_well_indexed (geometries : dict (geo_data R))
  (mtl_filename : string) (offset : point R) :
  well_indexed 0 0
    (fst (ObjWriter.write_single_obj geometries mtl_filename offset))
  /\ own_group_indexed (0, 0) 0 0
       (fst (ObjWriter.write_single_obj geometries mtl_filename offset)).
Proof.
  unfold ObjWriter.write_single_obj. cbn [fst]. split.
  - apply well_indexed_app. split; [exact (conj I I) || simpl; auto|].
    simpl count_vertices. simpl count_normals.
    apply write_groups_well_indexed; reflexivity.
  - apply own_group_indexed_app. split; [simpl; auto|].
    simpl count_vertices. simpl count_normals.
    apply write_groups_own_indexed; reflexivity.
Qed.

End ObjIndices.

(* ----------------------------------------------------------------- *)
(** ** Malformed coordinates *)

Section ParserTotal.
Context {R : Type}.
Variable float_of_string : string -> option R.

Lemma float3_cases (a b c : string) :
  (exists p, Parser.float3 float_of_string a b c = Ok p)
  \/ Parser.float3 float_of_string a b c = Raise ValueError.
Proof.
  unfold Parser.float3, Parser.float, float_.
  destruct (float_of_string a); [|now right].
  destruct (float_of_string b); [|now right].
  destruct (float_of_string c); [|now right].
  left. eexists. reflexivity.
Qed.

(** The guarded conversion of one triple: the vertex, or nothing when a
    token is no number. *)
Lemma guarded_triple (a b c : string) :
  try_except_ValueError
    (bind (Parser.float3 float_of_string a b c) (fun p => Ok [p])) (Ok [])
  = match Parser.float3 float_of_string a b c with
    | Ok p => Ok [p]
    | Raise _ => Ok []
    end.
Proof.
  destruct (float3_cases a b c) as [[p H]|H]; rewrite H; reflexivity.
Qed.

Lemma extend_each_total (A B : Type) (body : A -> result (list B))
  (xs : list A) :
  (forall x, exists ys, body x = Ok ys) ->
  exists l, Parser.extend_each body xs = Ok l.
Proof.
  intros Hbody. induction xs as [|x xs [l IH]]; simpl.
  - eexists. reflexivity.
  - destruct (Hbody x) as [ys Hx]. rewrite Hx, IH. simpl.
    eexists. reflexivity.
Qed.

Lemma fold_result_total (A B : Type) (f : A -> B -> result A) (xs : list B) :
  (forall a x, exists a', f a x = Ok a') ->
  forall a, exists a', Parser.fold_result f xs a = Ok a'.
Proof.
  intros Hf. induction xs as [|x xs IH]; intros a; simpl.
  - eexists. reflexivity.
  - destruct (Hf a x) as [a' Ha]. rewrite Ha. simpl. apply IH.
Qed.

Lemma pos_coordinates_total (pos : Xml.element) :
  exists ps, Parser.pos_coordinates float_of_string pos = Ok ps.
Proof.
  unfold Parser.pos_coordinates.
  destruct (Xml.text pos) as [[|ch t]|]; try (eexists; reflexivity).
  destruct (Str.split (String ch t)) as [|a [|b [|c rest]]];
    try (eexists; reflexivity).
  rewrite guarded_triple.
  destruct (Parser.float3 float_of_string a b c); eexists; reflexivity.
Qed.

Lemma group_coordinates_total (g : string * string * string) :
  exists ps, Parser.group_coordinates float_of_string g = Ok ps.
Proof.
  destruct g as [[a b] c]. unfold Parser.group_coordinates.
  rewrite guarded_triple.
  destruct (Parser.float3 float_of_string a b c); eexists; reflexivity.
Qed.

Lemma extract_polygon_coordinates_total (polygon : Xml.element) :
  exists coords,
    Parser._extract_polygon_coordinates float_of_string polygon = Ok coords.
Proof.
  unfold Parser._extract_polygon_coordinates.
  destruct (Xml.find_desc polygon (Xml.gml "LinearRing")) as [ring|];
    [|eexists; reflexivity].
  destruct (extend_each_total (Parser.pos_coordinates float_of_string)
              (Xml.findall_child ring (Xml.gml "pos")) pos_coordinates_total)
    as [from_pos Hpos].
  rewrite Hpos. simpl.
  destruct (Xml.find_child ring (Xml.gml "posList")) as [pl|];
    [|eexists; reflexivity].
  destruct (Xml.text pl) as [[|ch t]|]; try (eexists; reflexivity).
  destruct (extend_each_total (Parser.group_coordinates float_of_string)
              (groups_of_3 (Str.split (String ch t))) group_coordinates_total)
    as [from_list Hlist].
  rewrite Hlist. simpl. eexists. reflexivity.
Qed.

Lemma extract_geometry_total (element : Xml.element) :
  exists geo, Parser._extract_geometry float_of_string element = Ok geo.
Proof.
  unfold Parser._extract_geometry.
  match goal with
  | |- context [Parser.extend_each ?body ?xs] =>
      destruct (@extend_each_total _ _ body xs) as [polys Hp]
  end.
  - intros polygon.
    destruct (extract_polygon_coordinates_total polygon) as [coords Hc].
    rewrite Hc. simpl. eexists. reflexivity.
  - rewrite Hp. simpl. eexists. reflexivity.
Qed.

Lemma harvest_total (retype : option string) (geometries : dict (geo_data R))
  (element : Xml.element) :
  exists g, Parser.harvest float_of_string retype geometries element = Ok g.
Proof.
  unfold Parser.harvest.
  destruct (Xml.get element (Xml.gml "id")) as [[|ch t]|];
    try (eexists; reflexivity).
  destruct (extract_geometry_total element) as [geo Hg]. rewrite Hg. simpl.
  destruct retype; simpl; destruct (polygons geo); eexists; reflexivity.
Qed.

Lemma parse_total (root : Xml.element) :
  exists geometries, Parser.parse float_of_string root = Ok geometries.
Proof.
  unfold Parser.parse.
  destruct (fold_result_total (Parser.harvest float_of_string None)
              (Xml.xpath_all root (Xml.bldg "Building")) (harvest_total None) [])
    as [g1 H1].
  rewrite H1. cbn [bind].
  apply fold_result_total. intros g surface_type.
  apply fold_result_total. apply harvest_total.
Qed.

(** [CityGMLParser.parse] returns a geometry map on every document and
    with every reading of the numerals: a token that is no number and an
    incomplete last group are passed over, never raised.  So does each of
    its steps. *)
Theorem parser_parse_never_raises (root : Xml.element) :
  (exists geometries, Parser.parse float_of_string root = Ok geometries)
  /\ (forall element, exists geo,
        Parser._extract_geometry float_of_string element = Ok geo)
  /\ (forall polygon, exists coords,
        Parser._extract_polygon_coordinates float_of_string polygon = Ok coords).
Proof.
  split; [apply parse_total|]. split.
  - apply extract_geometry_total.
  - apply extract_polygon_coordinates_total.
Qed.

End ParserTotal.

(** C6. The two documents with a malformed packed list: one whose list has
    8 tokens, one whose sixth token is [x].  [CityGMLParser.parse] passes
    over the incomplete group and over the triple with [x] and returns the
    other vertices; [parse_citygml] of the binary converter and of the
    simple converter raise [IndexError] on the first and [ValueError] on
    the second, and the parse of the whole document is lost. *)
Theorem malformed_coordinates_by_parser :
  Parser.parse Decimal.float_of_string Doc.short_list =
    Ok [("BLD_1", GeoData "Building" [[qpoint 0 0 0; qpoint 1 0 0]] []);
        ("WALL_1", GeoData "WallSurface" [[qpoint 0 0 0; qpoint 1 0 0]] [])]
  /\ Parser.parse Decimal.float_of_string Doc.bad_token =
    Ok [("BLD_1",
         GeoData "Building" [[qpoint 0 0 0; qpoint 1 1 0; qpoint 0 1 0]] []);
        ("WALL_1",
         GeoData "WallSurface" [[qpoint 0 0 0; qpoint 1 1 0; qpoint 0 1 0]] [])]
  /\ Gml2glb.parse_citygml Decimal.float_of_string Decimal.int_of_string
       Doc.short_list = Raise IndexError
  /\ Gml2glb.parse_citygml Decimal.float_of_string Decimal.int_of_string
       Doc.bad_token = Raise ValueError
  /\ SimpleGml2obj.parse_citygml Decimal.float_of_string Doc.short_list
     = Raise IndexError
  /\ SimpleGml2obj.parse_citygml Decimal.float_of_string Doc.bad_token
     = Raise ValueError.
Proof.
  repeat split; vm_compute; reflexivity.
Qed.

(* ----------------------------------------------------------------- *)
(** ** The two coordinate encodings *)

(** C7. The three rings, packed only, positions only, and both, through
    both extractors.  Each reads either encoding alone.  With both in one
    ring the binary converter takes the packed list alone;
    [CityGMLParser._extract_polygon_coordinates] returns the three
    position vertices followed by the three of the packed list. *)
Theorem coordinate_encodings_by_parser :
  let packed := [qpoint 5 5 5; qpoint 6 5 5; qpoint 6 6 5] in
  let positions := [qpoint 0 0 0; qpoint 1 0 0; qpoint 1 1 0] in
  Gml2glb.ring_points Decimal.float_of_string Doc.ring_packed = Ok packed
  /\ Gml2glb.ring_points Decimal.float_of_string Doc.ring_positions
     = Ok positions
  /\ Gml2glb.ring_points Decimal.float_of_string Doc.ring_both = Ok packed
  /\ Parser._extract_polygon_coordinates Decimal.float_of_string
       (Doc.Polygon Doc.ring_packed) = Ok packed
  /\ Parser._extract_polygon_coordinates Decimal.float_of_string
       (Doc.Polygon Doc.ring_positions) = Ok positions
  /\ Parser._extract_polygon_coordinates Decimal.float_of_string
       (Doc.Polygon Doc.ring_both) = Ok (positions ++ packed).
Proof.
  repeat split; vm_compute; reflexivity.
Qed.

(* ----------------------------------------------------------------- *)
(** ** What the text pipeline retains *)

Lemma In_dict_set (V : Type) (d : dict V) (k k0 : string) (v v0 : V) :
  In (k0, v0) (dict_set d k v) -> In (k0, v0) d \/ (k0 = k /\ v0 = v).
Proof.
  induction d as [|[k' v'] d IH]; simpl.
  - intros [[= <- <-]|[]]. now right.
  - destruct (String.eqb_spec k' k) as [->|Hne]; simpl.
    + intros [[= <- <-]|Hin]; [now right|left; now right].
    + intros [Heq|Hin]; [left; now left|].
      destruct (IH Hin) as [H|H]; [left; now right|now right].
Qed.

Section Retention.
Context {R : Type}.
Variable float_of_string : string -> option R.

(** The elements [parse] visits: the buildings, then the surfaces of
    each of the four types. *)
Definition harvested (root : Xml.element) : list Xml.element :=
  Xml.xpath_all root (Xml.bldg "Building")
  ++ flat_map (fun surface_type => Xml.xpath_all root (Xml.bldg surface_type))
       Parser.surface_types.

(** A record of the geometry map comes from a visited element that
    carries its key as identity and has at least one polygon loop with a
    vertex; the record holds those loops. *)
Definition comes_from (elements : list Xml.element) (k : string)
  (geo : geo_data R) : Prop :=
  exists element geo0,
    In element elements
    /\ Xml.get element (Xml.gml "id") = Some k
    /\ Parser._extract_geometry float_of_string element = Ok geo0
    /\ polygons geo = polygons geo0
    /\ polygons geo0 <> [].

Lemma extend_each_In (A B : Type) (body : A -> result (list B))
  (xs : list A) (l : list B) (y : B) :
  Parser.extend_each body xs = Ok l -> In y l ->
  exists x ys, In x xs /\ body x = Ok ys /\ In y ys.
Proof.
  revert l. induction xs as [|x xs IH]; intros l; simpl.
  - intros [= <-] [].
  - destruct (body x) as [ys|e] eqn:Hx; [|discriminate]. simpl.
    destruct (Parser.extend_each body xs) as [rest|e]; [|discriminate]. simpl.
    intros [= <-] Hin. apply in_app_or in Hin. destruct Hin as [Hin|Hin].
    + exists x, ys. auto.
    + destruct (IH rest eq_refl Hin) as [x' [ys' [H1 [H2 H3]]]].
      exists x', ys'. auto.
Qed.

(** Every loop [_extract_geometry] keeps has a vertex. *)
Lemma extract_geometry_loops (element : Xml.element) (geo : geo_data R) :
  Parser._extract_geometry float_of_string element = Ok geo ->
  forall poly, In poly (polygons geo) -> poly <> [].
Proof.
  unfold Parser._extract_geometry.
  match goal with
  | |- context [Parser.extend_each ?body ?xs] =>
      destruct (Parser.extend_each body xs) as [polys|e] eqn:Hp;
        [|discriminate]
  end.
  simpl. intros [= <-] poly Hin. simpl in Hin.
  destruct (@extend_each_In _ _ _ _ _ _ Hp Hin) as [polygon [ys [_ [Hy Hin']]]].
  destruct (Parser._extract_polygon_coordinates float_of_string polygon)
    as [coords|e]; [|discriminate].
  simpl in Hy. injection Hy as <-.
  destruct coords; [contradiction|].
  destruct Hin' as [<-|[]]. discriminate.
Qed.

Lemma harvest_inv (elements : list Xml.element) (retype : option string)
  (geometries g' : dict (geo_data R)) (element : Xml.element) :
  In element elements ->
  Parser.harvest float_of_string retype geometries element = Ok g' ->
  NoDup (dict_keys geometries) ->
  (forall k geo, In (k, geo) geometries -> comes_from elements k geo) ->
  NoDup (dict_keys g')
  /\ forall k geo, In (k, geo) g' -> comes_from elements k geo.
Proof.
  intros Hel Hh Hnd Hall. unfold Parser.harvest in Hh.
  destruct (Xml.get element (Xml.gml "id")) as [[|ch t]|] eqn:Hid;
    try (injection Hh as <-; now split).
  destruct (Parser._extract_geometry float_of_string element) as [geo0|e]
    eqn:Hg; [|discriminate]. cbn [bind] in Hh.
  set (geo1 := match retype with
               | Some surface_type =>
                   {| element_type := surface_type;
                      polygons := polygons geo0;
                      metadata := metadata geo0 |}
               | None => geo0
               end) in Hh.
  assert (Hp : polygons geo1 = polygons geo0) by (destruct retype; reflexivity).
  destruct (polygons geo1) as [|p ps] eqn:Hp1.
  - injection Hh as <-. now split.
  - injection Hh as <-. split; [now apply dict_set_keeps_NoDup|].
    intros k geo Hin. apply In_dict_set in Hin.
    destruct Hin as [Hin|[-> ->]]; [now apply Hall|].
    exists element, geo0. repeat split; auto.
    + congruence.
    + rewrite <- Hp. discriminate.
Qed.

Lemma harvest_loop_inv (elements visited : list Xml.element)
  (retype : option string) (geometries g' : dict (geo_data R)) :
  incl visited elements ->
  Parser.fold_result (Parser.harvest float_of_string retype) visited geometries
    = Ok g' ->
  NoDup (dict_keys geometries) ->
  (forall k geo, In (k, geo) geometries -> comes_from elements k geo) ->
  NoDup (dict_keys g')
  /\ forall k geo, In (k, geo) g' -> comes_from elements k geo.
Proof.
  revert geometries. induction visited as [|e visited IH];
    intros geometries Hincl Hf Hnd Hall; simpl in Hf.
  - injection Hf as <-. now split.
  - destruct (Parser.harvest float_of_string retype geometries e) as [g1|err]
      eqn:Hh; [|discriminate]. cbn [bind] in Hf.
    destruct (@harvest_inv elements retype geometries g1 e) as [Hnd1 Hall1];
      auto.
    + apply Hincl. now left.
    + apply (IH g1); auto. intros x Hx. apply Hincl. now right.
Qed.

(** The geometry map [parse] returns: distinct keys, and every record
    comes from a visited element with a non-empty loop. *)
Lemma parse_retains (root : Xml.element) (geometries : dict (geo_data R)) :
  Parser.parse float_of_string root = Ok geometries ->
  NoDup (dict_keys geometries)
  /\ forall k geo, In (k, geo) geometries ->
       comes_from (harvested root) k geo
       /\ (forall poly, In poly (polygons geo) -> poly <> []).
Proof.
  unfold Parser.parse. intros Hp.
  destruct (Parser.fold_result (Parser.harvest float_of_string None)
              (Xml.xpath_all root (Xml.bldg "Building")) []) as [g1|e] eqn:H1;
    [|discriminate]. cbn [bind] in Hp.
  destruct (@harvest_loop_inv (harvested root)
              (Xml.xpath_all root (Xml.bldg "Building")) None [] g1)
    as [Hnd1 Hall1];
    auto.
  { unfold harvested. intros x Hx. apply in_or_app. now left. }
  { constructor. }
  { intros k geo []. }
  assert (Hloop : forall types g0 g2,
            incl types Parser.surface_types ->
            Parser.fold_result
              (fun geometries surface_type =>
                 Parser.fold_result
                   (Parser.harvest float_of_string (Some surface_type))
                   (Xml.xpath_all root (Xml.bldg surface_type)) geometries)
              types g0 = Ok g2 ->
            NoDup (dict_keys g0) ->
            (forall k geo, In (k, geo) g0 -> comes_from (harvested root) k geo) ->
            NoDup (dict_keys g2)
            /\ forall k geo, In (k, geo) g2 -> comes_from (harvested root) k geo).
  { induction types as [|ty types IH]; intros g0 g2 Hincl Hf Hnd Hall;
      simpl in Hf.
    - injection Hf as <-. now split.
    - destruct (Parser.fold_result
                  (Parser.harvest float_of_string (Some ty))
                  (Xml.xpath_all root (Xml.bldg ty)) g0) as [g3|err] eqn:H3;
        [|discriminate]. cbn [bind] in Hf.
      destruct (@harvest_loop_inv (harvested root)
                  (Xml.xpath_all root (Xml.bldg ty)) (Some ty) g0 g3)
        as [Hnd3 Hall3]; auto.
      + unfold harvested. intros x Hx. apply in_or_app. right.
        apply in_flat_map. exists ty. split; [apply Hincl; now left|exact Hx].
      + apply (IH g3); auto. intros x Hx. apply Hincl. now right. }
  destruct (Hloop Parser.surface_types g1 geometries) as [Hnd Hall]; auto.
  { apply incl_refl. }
  split; [exact Hnd|]. intros k geo Hin. split; [now apply Hall|].
  destruct (Hall k geo Hin) as [element [geo0 [_ [_ [Hg [Hpol _]]]]]].
  rewrite Hpol. now apply (extract_geometry_loops element).
Qed.

End Retention.

(* ----------------------------------------------------------------- *)
(** ** The groups and the index of the text pipeline *)

Section TextOutputs.
Context {R : Type} {AR : Arith R} {NR : Norm R}.

(** The names of the group records among some lines, in order. *)
Fixpoint group_names (lines : list (@ObjWriter.obj_line R)) : list string :=
  match lines with
  | [] => []
  | ObjWriter.Group gml_id :: rest => gml_id :: group_names rest
  | _ :: rest => group_names rest
  end.

Lemma group_names_app (l1 l2 : list (@ObjWriter.obj_line R)) :
  group_names (l1 ++ l2) = group_names l1 ++ group_names l2.
Proof.
  induction l1 as [|x l1 IH]; [reflexivity|].
  destruct x; simpl; rewrite IH; reflexivity.
Qed.

Lemma group_names_vertices (ps : list (point R)) :
  group_names (map (@ObjWriter.Vertex R) ps) = [].
Proof. induction ps; simpl; auto. Qed.

Lemma group_names_faces (nc i : nat) (faces : list (nat * nat * nat)) :
  group_names (ObjWriter.face_lines (R := R) nc i faces) = [].
Proof.
  revert i. induction faces as [|[[a b] c] faces IH]; intros i; simpl; auto.
Qed.

Lemma write_triangles_groups (vc : nat) (polygon : list (point R))
  (tris : list Geometry.triangle) (st : ObjWriter.group_state) :
  group_names (ObjWriter.written
                 (fold_left (ObjWriter.write_triangle vc polygon) tris st))
  = group_names (ObjWriter.written st).
Proof.
  revert st. induction tris as [|[[i0 i1] i2] tris IH]; intros st;
    [reflexivity|].
  cbn [fold_left]. rewrite IH. simpl.
  rewrite group_names_app. simpl. apply app_nil_r.
Qed.

Lemma write_polygons_groups (vc : nat) (polys : list (list (point R)))
  (st : ObjWriter.group_state) :
  group_names (ObjWriter.written
                 (fold_left (ObjWriter.write_polygon vc) polys st))
  = group_names (ObjWriter.written st).
Proof.
  revert st. induction polys as [|p polys IH]; intros st; [reflexivity|].
  cbn [fold_left]. rewrite IH. unfold ObjWriter.write_polygon.
  destruct (length p <? 3); [reflexivity|]. cbn [ObjWriter.written].
  rewrite write_triangles_groups. cbn [ObjWriter.written].
  rewrite group_names_app, group_names_vertices. apply app_nil_r.
Qed.

(** A group is headed by one group record, named after the object,
    whatever its polygons. *)
Lemma write_group_names (self : ObjWriter.counters) (gml_id : string)
  (geo : geo_data R) :
  group_names (fst (ObjWriter._write_group self gml_id geo)) = [gml_id].
Proof.
  unfold ObjWriter._write_group. cbn [fst].
  rewrite !group_names_app, write_polygons_groups, group_names_faces.
  reflexivity.
Qed.

Lemma write_groups_names (geometries : dict (geo_data R))
  (self : ObjWriter.counters) :
  group_names (fst (ObjWriter.write_groups self geometries))
  = dict_keys geometries.
Proof.
  revert self. induction geometries as [|[gml_id geo] rest IH]; intros self;
    [reflexivity|].
  cbn [ObjWriter.write_groups].
  pose proof (write_group_names self gml_id geo) as Hg.
  destruct (ObjWriter._write_group self gml_id geo) as [ls self1].
  specialize (IH self1).
  destruct (ObjWriter.write_groups self1 rest) as [ls' self2].
  cbn [fst] in *. rewrite group_names_app, Hg, IH. reflexivity.
Qed.

(** The groups of the file are the keys of the map, in order. *)
Lemma write_single_obj_groups (geometries : dict (geo_data R))
  (mtl_filename : string) (offset : point R) :
  group_names (fst (ObjWriter.write_single_obj geometries mtl_filename offset))
  = dict_keys geometries.
Proof.
  unfold ObjWriter.write_single_obj. cbn [fst].
  rewrite group_names_app, write_groups_names. reflexivity.
Qed.

(** A loop with fewer than three vertices writes nothing. *)
Lemma write_polygon_short (vc : nat) (st : ObjWriter.group_state)
  (polygon : list (point R)) :
  length polygon < 3 -> ObjWriter.write_polygon vc st polygon = st.
Proof.
  intros Hlt. unfold ObjWriter.write_polygon.
  destruct (Nat.ltb_spec (length polygon) 3); [reflexivity|lia].
Qed.

(** The entry [_write_metadata] stores for a record. *)
Definition text_entry (geo : geo_data R) : index_entry (dict (option string)) :=
  {| entry_element_type := element_type geo;
     entry_polygon_count := length (polygons geo);
     entry_metadata := metadata geo |}.

Lemma write_metadata_objects (geometries : dict (geo_data R))
  (offset : point R) :
  NoDup (dict_keys geometries) ->
  objects (ObjWriter._write_metadata geometries offset)
  = map (fun item => (fst item, text_entry (snd item))) geometries.
Proof.
  intros Hnd. unfold ObjWriter._write_metadata. cbn [objects].
  exact (@rebuild_dict _ _ (fun item => text_entry (snd item)) geometries []
           Hnd).
Qed.

End TextOutputs.

(* ----------------------------------------------------------------- *)
(** ** The meshes and the index of the binary pipeline *)

Section BinaryOutputs.
Context {R : Type} {AR : Arith R}.
Variable float_of_string : string -> option R.
Variable int_of_string : string -> option Z.
Variable float32_bytes : list R -> list Bytes.byte.
Variable uint32_bytes : list nat -> list Bytes.byte.
Variable json_dumps : Gml2glb.gltf (R := R) -> list Bytes.byte.

Local Abbreviation building_info := (@Gml2glb.building_info R).

(** Every surface the parser keeps has at least three points. *)
Definition surfaces_valid (info : building_info) : Prop :=
  forall s, In s (Gml2glb.surfaces info) -> 3 <= length (Gml2glb.points s).

Definition buildings_valid (buildings_data : dict building_info) : Prop :=
  NoDup (dict_keys buildings_data)
  /\ forall k info, In (k, info) buildings_data -> surfaces_valid info.

Lemma polygon_surfaces_valid (surface_type : string) (polygon : Xml.element)
  (l : list Gml2glb.surface) (s : Gml2glb.surface) :
  Gml2glb.polygon_surfaces float_of_string surface_type polygon = Ok l ->
  In s l -> 3 <= length (Gml2glb.points s).
Proof.
  unfold Gml2glb.polygon_surfaces.
  destruct (Xml.find_desc polygon (Xml.gml "exterior")) as [exterior|];
    [|intros [= <-] []].
  destruct (Xml.find_desc exterior (Xml.gml "LinearRing")) as [ring|];
    [|intros [= <-] []].
  destruct (Gml2glb.ring_points float_of_string ring) as [pts|e];
    [|discriminate].
  cbn [bind]. destruct (Nat.ltb_spec (length pts) 3) as [Hlt|Hge].
  - intros [= <-] [].
  - intros [= <-] [<-|[]]. exact Hge.
Qed.

Lemma building_surfaces_valid (building : Xml.element)
  (l : list Gml2glb.surface) (s : Gml2glb.surface) :
  Gml2glb.building_surfaces float_of_string building = Ok l ->
  In s l -> 3 <= length (Gml2glb.points s).
Proof.
  unfold Gml2glb.building_surfaces. intros Hl Hin.
  destruct (@extend_each_In _ _ _ _ _ _ Hl Hin) as [ty [l1 [_ [H1 Hin1]]]].
  destruct (@extend_each_In _ _ _ _ _ _ H1 Hin1) as [el [l2 [_ [H2 Hin2]]]].
  destruct (@extend_each_In _ _ _ _ _ _ H2 Hin2) as [pg [l3 [_ [H3 Hin3]]]].
  eapply polygon_surfaces_valid; eassumption.
Qed.

Lemma update_attr_total (A : Type) (falsy : option A -> bool)
  (convert : string -> result A) (elem : option Xml.element) (old : option A) :
  (forall t, (exists v, convert t = Ok v) \/ convert t = Raise ValueError) ->
  exists a, Gml2glb.update_attr falsy convert elem old = Ok a.
Proof.
  intros Hc. unfold Gml2glb.update_attr.
  destruct (Gml2glb.text_of elem) as [t|]; [|eexists; reflexivity].
  destruct (falsy old); [|eexists; reflexivity].
  destruct (Hc t) as [[v Hv]|Hv]; rewrite Hv; eexists; reflexivity.
Qed.

Lemma parse_building_valid (buildings_data bd' : dict building_info)
  (building : Xml.element) :
  Gml2glb.parse_building float_of_string int_of_string buildings_data building
    = Ok bd' ->
  buildings_valid buildings_data -> buildings_valid bd'.
Proof.
  intros Hp [Hnd Hval]. unfold Gml2glb.parse_building in Hp.
  destruct (Xml.get building (Xml.gml "id")) as [[|ch t]|];
    try (injection Hp as <-; now split).
  set (k := String ch t) in *.
  set (info0 := match dict_get buildings_data k with
                | Some info => info
                | None => _
                end) in Hp.
  assert (Hinfo0 : surfaces_valid info0).
  { unfold info0. destruct (dict_get buildings_data k) as [info|] eqn:Hget.
    - apply (Hval k). now apply dict_get_In.
    - intros s []. }
  destruct (Gml2glb.update_attr _ _ _ _) as [height|e]; [|discriminate].
  cbn [bind] in Hp.
  destruct (Gml2glb.update_attr _ _ _ _) as [above|e]; [|discriminate].
  cbn [bind] in Hp.
  destruct (Gml2glb.update_attr _ _ _ _) as [below|e]; [|discriminate].
  cbn [bind] in Hp.
  destruct (Gml2glb.building_surfaces float_of_string building)
    as [new_surfaces|e] eqn:Hs; [|discriminate].
  cbn [bind] in Hp. injection Hp as <-.
  split; [now apply dict_set_keeps_NoDup|].
  intros k0 info Hin. apply In_dict_set in Hin.
  destruct Hin as [Hin|[-> ->]]; [now apply (Hval k0)|].
  intros s Hs'. cbn [Gml2glb.surfaces] in Hs'. apply in_app_or in Hs'.
  destruct Hs' as [Hs'|Hs']; [now apply Hinfo0|].
  eapply building_surfaces_valid; eassumption.
Qed.

Lemma parse_citygml_valid (root : Xml.element)
  (buildings_data : dict building_info) :
  Gml2glb.parse_citygml float_of_string int_of_string root = Ok buildings_data ->
  buildings_valid buildings_data.
Proof.
  unfold Gml2glb.parse_citygml.
  assert (Hgen : forall els bd0 bd1,
            Parser.fold_result
              (Gml2glb.parse_building float_of_string int_of_string) els bd0
              = Ok bd1 ->
            buildings_valid bd0 -> buildings_valid bd1).
  { induction els as [|e els IH]; intros bd0 bd1 Hf Hv; simpl in Hf.
    - now injection Hf as <-.
    - destruct (Gml2glb.parse_building float_of_string int_of_string bd0 e)
        as [bd2|err] eqn:Hb; [|discriminate]. cbn [bind] in Hf.
      apply (IH bd2 bd1 Hf). eapply parse_building_valid; eassumption. }
  intros Hp. apply (Hgen _ _ _ Hp). split; [constructor|intros k info []].
Qed.

End BinaryOutputs.

Section BinaryScene.
Context {R : Type} {AR : Arith R}.
Variable float32_bytes : list R -> list Bytes.byte.
Variable uint32_bytes : list nat -> list Bytes.byte.

Local Abbreviation building_info := (@Gml2glb.building_info R).

Lemma triangulate_nonempty (points : list (point R)) :
  3 <= length points -> Gml2glb.triangulate_polygon points <> [].
Proof.
  intros Hlen. unfold Gml2glb.triangulate_polygon.
  destruct points as [|p0 rest]; [simpl in Hlen; lia|].
  destruct (Nat.ltb_spec (length (p0 :: rest)) 3) as [Hlt|_]; [lia|].
  destruct (length (p0 :: rest) - 2) as [|n] eqn:Hn; [lia|].
  simpl. discriminate.
Qed.

Lemma add_triangles_vertices (tris : list (point R * point R * point R))
  (acc : list R * list nat * nat) :
  (fst (fst acc) <> [] \/ tris <> []) ->
  fst (fst (fold_left Gml2glb.add_triangle tris acc)) <> [].
Proof.
  revert acc. induction tris as [|[[a b] c] tris IH]; intros acc Hor; simpl.
  - destruct Hor as [H|H]; [exact H|congruence].
  - apply IH. left. destruct acc as [[vs is_] vo]. simpl.
    destruct vs; discriminate.
Qed.

Lemma add_surfaces_vertices (offset : point R) (ss : list Gml2glb.surface)
  (acc : list R * list nat * nat) :
  (forall s, In s ss -> 3 <= length (Gml2glb.points s)) ->
  (fst (fst acc) <> [] \/ ss <> []) ->
  fst (fst (fold_left (Gml2glb.add_surface offset) ss acc)) <> [].
Proof.
  revert acc. induction ss as [|s ss IH]; intros acc Hval Hor; simpl.
  - destruct Hor as [H|H]; [exact H|congruence].
  - apply IH; [intros s' Hs'; apply Hval; now right|]. left.
    unfold Gml2glb.add_surface. apply add_triangles_vertices. right.
    apply triangulate_nonempty. rewrite length_map. apply Hval. now left.
Qed.

(** A building with a retained surface has vertices to write. *)
Lemma building_arrays_vertices (offset : point R) (info : building_info) :
  surfaces_valid info -> Gml2glb.surfaces info <> [] ->
  fst (Gml2glb.building_arrays offset info) <> [].
Proof.
  intros Hval Hne. unfold Gml2glb.building_arrays.
  destruct (fold_left (Gml2glb.add_surface offset) (Gml2glb.surfaces info)
              ([], [], 0)) as [[vs is_] vo] eqn:Hf.
  pose proof (@add_surfaces_vertices offset (Gml2glb.surfaces info)
                ([], [], 0) Hval (or_intror Hne)) as H.
  rewrite Hf in H. exact H.
Qed.

Definition has_surfaces (item : string * building_info) : bool :=
  match Gml2glb.surfaces (snd item) with
  | [] => false
  | _ => true
  end.

Definition mesh_names (ms : list Gml2glb.mesh) : list string :=
  map Gml2glb.mesh_name ms.

(** One turn of the loop of [create_glb]: a mesh named after the building
    when it has a surface, nothing otherwise. *)
Lemma add_building_meshes (offset : point R) (st : Gml2glb.glb_state)
  (item : string * building_info) :
  surfaces_valid (snd item) ->
  mesh_names (Gml2glb.st_meshes
                (Gml2glb.add_building float32_bytes uint32_bytes offset st item))
  = mesh_names (Gml2glb.st_meshes st)
    ++ (if has_surfaces item then [fst item] else []).
Proof.
  destruct item as [k info]. intros Hval. unfold has_surfaces.
  cbn [fst snd] in *. unfold Gml2glb.add_building.
  destruct (Gml2glb.surfaces info) as [|s ss] eqn:Hs.
  - now rewrite app_nil_r.
  - pose proof (@building_arrays_vertices offset info Hval) as Hv.
    rewrite Hs in Hv. specialize (Hv ltac:(discriminate)).
    destruct (Gml2glb.building_arrays offset info) as [vs is_].
    cbn [fst] in Hv. destruct vs as [|v vs]; [congruence|].
    destruct (Gml2glb.add_segment _ _ _ _ _) as [[views1 data1] offset1].
    destruct (Gml2glb.add_segment _ _ _ _ _) as [[views2 data2] offset2].
    cbn [Gml2glb.st_meshes]. unfold mesh_names. rewrite map_app. reflexivity.
Qed.

Lemma add_buildings_meshes (offset : point R)
  (buildings_data : dict building_info) (st : Gml2glb.glb_state) :
  (forall k info, In (k, info) buildings_data -> surfaces_valid info) ->
  mesh_names (Gml2glb.st_meshes
                (fold_left (Gml2glb.add_building float32_bytes uint32_bytes offset)
                           buildings_data st))
  = mesh_names (Gml2glb.st_meshes st)
    ++ dict_keys (filter has_surfaces buildings_data).
Proof.
  revert st. induction buildings_data as [|[k info] bd IH]; intros st Hval.
  - simpl. now rewrite app_nil_r.
  - cbn [fold_left]. rewrite IH by (intros k' i' H; apply (Hval k'); now right).
    rewrite add_building_meshes by (apply (Hval k); now left).
    rewrite <- app_assoc. f_equal. cbn [filter fst].
    destruct (has_surfaces (k, info)); reflexivity.
Qed.

Lemma names_by_index (ms : list Gml2glb.mesh) (d : Gml2glb.mesh) :
  map (fun i => Gml2glb.mesh_name (nth i ms d)) (seq 0 (length ms))
  = mesh_names ms.
Proof.
  unfold mesh_names. rewrite <- (map_map (fun i => nth i ms d)).
  f_equal. apply nth_ext with (d := d) (d' := d).
  - now rewrite length_map, length_seq.
  - intros n Hn. rewrite length_map, length_seq in Hn.
    rewrite (nth_indep _ d (nth 0 ms d)) by (now rewrite length_map, length_seq).
    rewrite (map_nth (fun i => nth i ms d)), seq_nth by exact Hn. reflexivity.
Qed.

(** The scene [create_glb] describes: one mesh per building with a
    surface, in the order of the buildings, named after it; and one node
    per mesh, with the same name. *)
Lemma create_scene_names (buildings_data : dict building_info)
  (offset : point R) :
  (forall k info, In (k, info) buildings_data -> surfaces_valid info) ->
  let scene :=
    fst (Gml2glb.create_scene float32_bytes uint32_bytes buildings_data offset) in
  mesh_names (Gml2glb.meshes scene)
    = dict_keys (filter has_surfaces buildings_data)
  /\ map Gml2glb.node_name (Gml2glb.nodes scene)
     = mesh_names (Gml2glb.meshes scene)
  /\ map Gml2glb.node_mesh (Gml2glb.nodes scene)
     = seq 0 (length (Gml2glb.meshes scene)).
Proof.
  intros Hval. unfold Gml2glb.create_scene. cbn [fst Gml2glb.meshes Gml2glb.nodes].
  split; [|split].
  - rewrite add_buildings_meshes by exact Hval. reflexivity.
  - rewrite map_map. cbn [Gml2glb.node_name]. apply names_by_index.
  - rewrite map_map. cbn [Gml2glb.node_mesh]. apply map_id.
Qed.

(** The entry [write_metadata] of the binary converter stores. *)
Definition building_entry (item : string * building_info)
  : index_entry (Gml2glb.building_metadata (R := R)) :=
  {| entry_element_type := "Building";
     entry_polygon_count := length (Gml2glb.surfaces (snd item));
     entry_metadata :=
       {| Gml2glb.md_name := fst item;
          Gml2glb.md_description := Gml2glb.description (snd item);
          Gml2glb.md_measuredHeight := Gml2glb.measuredHeight (snd item);
          Gml2glb.md_storeysAboveGround := Gml2glb.storeysAboveGround (snd item);
          Gml2glb.md_storeysBelowGround := Gml2glb.storeysBelowGround (snd item);
          Gml2glb.md_surfaceTypes :=
            fold_left Gml2glb.count_type (Gml2glb.surfaces (snd item)) [] |} |}.

Lemma gml2glb_metadata_objects (buildings_data : dict building_info)
  (offset : point R) :
  NoDup (dict_keys buildings_data) ->
  objects (Gml2glb.write_metadata buildings_data offset)
  = map (fun item => (fst item, building_entry item)) buildings_data.
Proof.
  intros Hnd. unfold Gml2glb.write_metadata. cbn [objects].
  change (map (fun item => (fst item, building_entry item)) buildings_data)
    with ([] ++ map (fun item => (fst item, building_entry item)) buildings_data).
  rewrite <- (@rebuild_dict _ _ building_entry buildings_data [] Hnd).
  apply fold_left_ext. intros acc [k info]. reflexivity.
Qed.

End BinaryScene.

(* ----------------------------------------------------------------- *)
(** ** Whole runs *)

Section DictFilter.
Variable V : Type.
Variable keep : string * V -> bool.

Lemma In_keys_filter (d : dict V) (k : string) (v : V) :
  In (k, v) d -> keep (k, v) = true -> In k (dict_keys (filter keep d)).
Proof.
  intros Hin Hk. unfold dict_keys. change k with (fst (k, v)).
  apply in_map. apply filter_In. now split.
Qed.

Lemma keys_filter_In (d : dict V) (k : string) :
  In k (dict_keys (filter keep d)) ->
  exists v, In (k, v) d /\ keep (k, v) = true.
Proof.
  unfold dict_keys. intros Hin. apply in_map_iff in Hin.
  destruct Hin as [[k' v] [Hk Hin]]. simpl in Hk. subst k'.
  apply filter_In in Hin. now exists v.
Qed.

Lemma NoDup_keys_filter (d : dict V) :
  NoDup (dict_keys d) -> NoDup (dict_keys (filter keep d)).
Proof.
  induction d as [|[k v] d IH]; simpl; intros Hnd; [constructor|].
  inversion Hnd as [|? ? Hnin Hnd']; subst.
  destruct (keep (k, v)); [|now apply IH].
  simpl. constructor; [|now apply IH].
  intros Hin. apply keys_filter_In in Hin. destruct Hin as [v' [Hin _]].
  apply Hnin. change k with (fst (k, v')). now apply in_map.
Qed.

Lemma NoDup_keys_unique (d : dict V) (k : string) (v v' : V) :
  NoDup (dict_keys d) -> In (k, v) d -> In (k, v') d -> v = v'.
Proof.
  intros Hnd H1 H2. apply (In_dict_get _ _ _ Hnd) in H1.
  apply (In_dict_get _ _ _ Hnd) in H2. congruence.
Qed.

End DictFilter.

Lemma dict_get_map (V W : Type) (f : string * V -> W) (d : dict V)
  (k : string) (w : W) :
  dict_get (map (fun item => (fst item, f item)) d) k = Some w ->
  exists v, In (k, v) d /\ w = f (k, v).
Proof.
  induction d as [|[k' v'] d IH]; simpl; [discriminate|].
  destruct (String.eqb_spec k' k) as [->|Hne].
  - intros [= <-]. exists v'. split; [now left|reflexivity].
  - intros H. destruct (IH H) as [v [Hin ->]]. exists v. split; [now right|reflexivity].
Qed.

Lemma In_dict_get_map (V W : Type) (f : string * V -> W) (d : dict V)
  (k : string) (v : V) :
  NoDup (dict_keys d) -> In (k, v) d ->
  dict_get (map (fun item => (fst item, f item)) d) k = Some (f (k, v)).
Proof.
  intros Hnd Hin. apply In_dict_get.
  - unfold dict_keys. rewrite map_map. exact Hnd.
  - apply in_map_iff. exists (k, v). split; [reflexivity|exact Hin].
Qed.

Section TextRun.
Context {R : Type} {AR : Arith R} {NR : Norm R}.
Variable float_of_string : string -> option R.

(** Centering changes neither the keys nor what the index records. *)
Lemma center_keeps_entries (g : dict (geo_data R)) :
  NoDup (dict_keys g) ->
  dict_keys (fst (Geometry.center_coordinates g)) = dict_keys g
  /\ map (fun item => (fst item, text_entry (snd item)))
         (fst (Geometry.center_coordinates g))
     = map (fun item => (fst item, text_entry (snd item))) g.
Proof.
  intros Hnd. destruct (Geometry.all_vertices g) as [|v vs] eqn:Hv.
  - rewrite (center_coordinates_empty g Hv). now split.
  - rewrite (@center_coordinates_nonempty _ _ g v vs Hnd Hv). cbn [fst].
    unfold dict_keys. rewrite !map_map. split; [reflexivity|].
    apply map_ext. intros [k geo]. cbn [fst snd]. f_equal.
    unfold text_entry, moved. cbn [element_type polygons metadata].
    now rewrite length_map.
Qed.

(** What a run of the text converter leaves behind. *)
Lemma convert_main_outputs (root : Xml.element) (mtl_filename : string)
  lines index :
  Convert.main float_of_string root mtl_filename = Ok (Some (lines, index)) ->
  exists geometries,
    Parser.parse float_of_string root = Ok geometries
    /\ NoDup (dict_keys geometries)
    /\ group_names lines = dict_keys geometries
    /\ objects index
       = map (fun item => (fst item, text_entry (snd item))) geometries
    /\ total_objects index = length geometries.
Proof.
  unfold Convert.main. intros Hm.
  destruct (Parser.parse float_of_string root) as [g|e] eqn:Hp; [|discriminate].
  cbn [bind] in Hm. exists g. split; [reflexivity|].
  destruct (parse_retains _ _ Hp) as [Hnd _].
  destruct g as [|item g']; [discriminate|].
  set (g := item :: g') in *.
  destruct (center_keeps_entries g Hnd) as [Hkeys Hentries].
  destruct (Geometry.center_coordinates g) as [centered offset].
  cbn [fst] in Hkeys, Hentries.
  apply Ok_inj, Some_inj in Hm.
  assert (Hl : lines =
               fst (ObjWriter.write_single_obj centered mtl_filename offset))
    by (now rewrite Hm).
  assert (Hi : index =
               snd (ObjWriter.write_single_obj centered mtl_filename offset))
    by (now rewrite Hm).
  clear Hm. subst lines index.
  split; [exact Hnd|]. split; [|split].
  - rewrite write_single_obj_groups. exact Hkeys.
  - cbn [snd ObjWriter.write_single_obj].
    rewrite write_metadata_objects by (rewrite Hkeys; exact Hnd).
    exact Hentries.
  - cbn [snd ObjWriter.write_single_obj ObjWriter._write_metadata total_objects].
    rewrite <- (length_map fst centered), <- (length_map fst g).
    change (map fst centered) with (dict_keys centered). now rewrite Hkeys.
Qed.

Lemma convert_main_total (root : Xml.element) (mtl_filename : string) :
  exists out, Convert.main float_of_string root mtl_filename = Ok out.
Proof.
  unfold Convert.main.
  destruct (parse_total float_of_string root) as [g Hg].
  rewrite Hg. cbn [bind]. destruct g; [eexists; reflexivity|].
  destruct (Geometry.center_coordinates _). eexists. reflexivity.
Qed.

End TextRun.

Section BinaryRun.
Context {R : Type} {AR : Arith R}.
Variable float_of_string : string -> option R.
Variable int_of_string : string -> option Z.
Variable float32_bytes : list R -> list Bytes.byte.
Variable uint32_bytes : list nat -> list Bytes.byte.
Variable json_dumps : Gml2glb.gltf (R := R) -> list Bytes.byte.

Local Abbreviation gml2glb_main :=
  (Gml2glb.main float_of_string int_of_string float32_bytes uint32_bytes
     json_dumps).

Lemma create_glb_unfold (buildings_data : dict (@Gml2glb.building_info R))
  (offset : point R) :
  Gml2glb.create_glb float32_bytes uint32_bytes json_dumps buildings_data offset
  = bind (Gml2glb.write_glb
            (json_dumps
               (fst (Gml2glb.create_scene float32_bytes uint32_bytes
                       buildings_data offset)))
            (snd (Gml2glb.create_scene float32_bytes uint32_bytes
                    buildings_data offset)))
         (fun file =>
            Ok (fst (Gml2glb.create_scene float32_bytes uint32_bytes
                       buildings_data offset), file)).
Proof.
  unfold Gml2glb.create_glb.
  destruct (Gml2glb.create_scene float32_bytes uint32_bytes buildings_data
              offset) as [gltf_json combined].
  reflexivity.
Qed.

(** What a run of the binary converter leaves behind. *)
Lemma gml2glb_main_outputs (root : Xml.element) scene file index :
  gml2glb_main root = Ok (Some (scene, file, index)) ->
  exists buildings_data,
    Gml2glb.parse_citygml float_of_string int_of_string root = Ok buildings_data
    /\ buildings_valid buildings_data
    /\ mesh_names (Gml2glb.meshes scene)
       = dict_keys (filter has_surfaces buildings_data)
    /\ map Gml2glb.node_name (Gml2glb.nodes scene)
       = mesh_names (Gml2glb.meshes scene)
    /\ objects index
       = map (fun item => (fst item, building_entry item)) buildings_data
    /\ total_objects index = length buildings_data
    /\ index_offset index = Gml2glb.calculate_offset buildings_data.
Proof.
  unfold Gml2glb.main. intros Hm.
  destruct (Gml2glb.parse_citygml float_of_string int_of_string root)
    as [bd|e] eqn:Hp; [|discriminate].
  cbn [bind] in Hm. exists bd. split; [reflexivity|].
  pose proof (parse_citygml_valid _ _ _ Hp) as Hvalid.
  split; [exact Hvalid|]. destruct Hvalid as [Hnd Hval].
  destruct bd as [|item bd']; [discriminate|]. set (bd := item :: bd') in *.
  destruct (list_sum _ =? 0); [discriminate|].
  rewrite create_glb_unfold in Hm.
  pose proof (@create_scene_names _ _ float32_bytes uint32_bytes bd
                (Gml2glb.calculate_offset bd) Hval) as Hscene.
  cbv zeta in Hscene.
  destruct (Gml2glb.write_glb _ _) as [bytes|e]; [|discriminate].
  cbn [bind fst snd] in Hm. apply Ok_inj, Some_inj in Hm.
  apply pair_equal_spec in Hm. destruct Hm as [Hm Hindex].
  apply pair_equal_spec in Hm. destruct Hm as [Hsc Hfile].
  subst scene file index.
  destruct Hscene as [Hmesh [Hnode _]].
  split; [exact Hmesh|]. split; [exact Hnode|]. split; [|split; reflexivity].
  now apply gml2glb_metadata_objects.
Qed.

(** Whether an index entry of the binary run has a mesh. *)
Lemma building_entry_mesh (buildings_data : dict (@Gml2glb.building_info R))
  (k : string) entry :
  NoDup (dict_keys buildings_data) ->
  dict_get (map (fun item => (fst item, building_entry item)) buildings_data) k
    = Some entry ->
  entry_element_type entry = "Building"
  /\ (0 < entry_polygon_count entry ->
      In k (dict_keys (filter has_surfaces buildings_data)))
  /\ (entry_polygon_count entry = 0 ->
      ~ In k (dict_keys (filter has_surfaces buildings_data))).
Proof.
  intros Hnd Hget. apply dict_get_map in Hget.
  destruct Hget as [info [Hin ->]]. split; [reflexivity|].
  cbn [building_entry entry_polygon_count snd]. split.
  - intros Hpos. apply (In_keys_filter has_surfaces _ _ _ Hin).
    unfold has_surfaces. cbn [snd].
    destruct (Gml2glb.surfaces info); [simpl in Hpos; lia|reflexivity].
  - intros Hzero Hk. apply keys_filter_In in Hk.
    destruct Hk as [info' [Hin' Hkeep]].
    assert (info' = info) by (eapply NoDup_keys_unique; eassumption).
    subst info'. unfold has_surfaces in Hkeep. cbn [snd] in Hkeep.
    destruct (Gml2glb.surfaces info); [discriminate|simpl in Hzero; lia].
Qed.

End BinaryRun.

(* ----------------------------------------------------------------- *)
(** ** Objects without valid polygons *)

Section BuildingKeys.
Context {R : Type} {AR : Arith R}.
Variable float_of_string : string -> option R.
Variable int_of_string : string -> option Z.

Lemma dict_set_keys_incl (V : Type) (d : dict V) (k k0 : string) (v : V) :
  In k0 (dict_keys d) -> In k0 (dict_keys (dict_set d k v)).
Proof.
  intros Hin. rewrite dict_keys_set.
  destruct (in_dec string_dec k (dict_keys d)); [exact Hin|].
  apply in_or_app. now left.
Qed.

Lemma dict_set_key (V : Type) (d : dict V) (k : string) (v : V) :
  In k (dict_keys (dict_set d k v)).
Proof.
  rewrite dict_keys_set.
  destruct (in_dec string_dec k (dict_keys d)) as [Hin|_]; [exact Hin|].
  apply in_or_app. right. now left.
Qed.

Lemma parse_building_keys (bd bd' : dict (@Gml2glb.building_info R))
  (building : Xml.element) :
  Gml2glb.parse_building float_of_string int_of_string bd building = Ok bd' ->
  (forall k, In k (dict_keys bd) -> In k (dict_keys bd'))
  /\ (forall ch t, Xml.get building (Xml.gml "id") = Some (String ch t) ->
        In (String ch t) (dict_keys bd')).
Proof.
  unfold Gml2glb.parse_building. intros Hp.
  destruct (Xml.get building (Xml.gml "id")) as [[|ch t]|].
  - apply Ok_inj in Hp. subst bd'. split; [auto|discriminate].
  - destruct (Gml2glb.update_attr _ _ _ _) as [height|e]; [|discriminate].
    cbn [bind] in Hp.
    destruct (Gml2glb.update_attr _ _ _ _) as [above|e]; [|discriminate].
    cbn [bind] in Hp.
    destruct (Gml2glb.update_attr _ _ _ _) as [below|e]; [|discriminate].
    cbn [bind] in Hp.
    destruct (Gml2glb.building_surfaces float_of_string building)
      as [new_surfaces|e]; [|discriminate].
    cbn [bind] in Hp. apply Ok_inj in Hp. subst bd'. split.
    + intros k Hk. now apply dict_set_keys_incl.
    + intros ch' t' [= <- <-]. apply dict_set_key.
  - apply Ok_inj in Hp. subst bd'. split; [auto|discriminate].
Qed.

(** Every [Building] element below the root that carries an identity is
    a key of the map [parse_citygml] returns, with or without surfaces. *)
Lemma parse_citygml_keys (root : Xml.element)
  (bd : dict (@Gml2glb.building_info R)) (building : Xml.element)
  (ch : ascii) (t : string) :
  Gml2glb.parse_citygml float_of_string int_of_string root = Ok bd ->
  In building (Xml.findall_desc root (Xml.bldg "Building")) ->
  Xml.get building (Xml.gml "id") = Some (String ch t) ->
  In (String ch t) (dict_keys bd).
Proof.
  unfold Gml2glb.parse_citygml.
  generalize (Xml.findall_desc root (Xml.bldg "Building")) as els.
  generalize (@nil (string * @Gml2glb.building_info R)) as bd0.
  intros bd0 els. revert bd0.
  induction els as [|e els IH]; intros bd0 Hf Hin Hid; [contradiction|].
  simpl in Hf.
  destruct (Gml2glb.parse_building float_of_string int_of_string bd0 e)
    as [bd1|err] eqn:Hb; [|discriminate]. cbn [bind] in Hf.
  destruct (parse_building_keys _ _ Hb) as [Hkeep Hadd].
  destruct Hin as [->|Hin].
  - specialize (Hadd ch t Hid).
    clear IH Hb Hkeep. revert bd1 Hf Hadd.
    induction els as [|e' els IH']; intros bd1 Hf Hadd; simpl in Hf.
    + apply Ok_inj in Hf. now subst bd.
    + destruct (Gml2glb.parse_building float_of_string int_of_string bd1 e')
        as [bd2|err] eqn:Hb'; [|discriminate]. cbn [bind] in Hf.
      apply (IH' bd2 Hf).
      destruct (parse_building_keys _ _ Hb') as [Hkeep' _]. now apply Hkeep'.
  - now apply (IH bd1).
Qed.

End BuildingKeys.


(** What [CityGMLParser.parse] keeps of the document with three
    buildings. *)
Definition three_buildings_map : dict (geo_data Qc) :=
  [("BLD_2PT", GeoData "Building" [[qpoint 0 0 0; qpoint 1 0 0]] []);
   ("BLD_1",
    GeoData "Building" [[qpoint 0 0 0; qpoint 4 0 0; qpoint 4 2 0]] []);
   ("WALL_2PT", GeoData "WallSurface" [[qpoint 0 0 0; qpoint 1 0 0]] []);
   ("WALL_1",
    GeoData "WallSurface" [[qpoint 0 0 0; qpoint 4 0 0; qpoint 4 2 0]] [])].

(** C5 on the text pipeline.  The building [BLD_EMPTY] carries an
    identity and has no polygon: the parser visits it and does not keep
    it, and the metadata index of the run has no entry for it.  The only
    loop of [BLD_2PT] has two points: the building is kept and its entry
    counts that loop, [polygon_count] 1. *)
Lemma parse_drops_object_without_polygons :
  let empty := Doc.Building "BLD_EMPTY" [] in
  let index :=
    ObjWriter._write_metadata
      (fst (Geometry.center_coordinates three_buildings_map))
      (snd (Geometry.center_coordinates three_buildings_map)) in
  In empty (harvested Doc.three_buildings)
  /\ Xml.get empty (Xml.gml "id") = Some "BLD_EMPTY"
  /\ Parser._extract_geometry Decimal.float_of_string empty
     = Ok (GeoData "Building" [] [])
  /\ Parser.parse Decimal.float_of_string Doc.three_buildings
     = Ok three_buildings_map
  /\ dict_get (objects index) "BLD_EMPTY" = None
  /\ option_map (@entry_polygon_count _) (dict_get (objects index) "BLD_2PT")
     = Some 1.
Proof.
  cbv zeta. split; [left; reflexivity|].
  split; [reflexivity|]. split; [reflexivity|].
  split; [vm_compute; reflexivity|].
  split; vm_compute; reflexivity.
Qed.

(* ----------------------------------------------------------------- *)
(** ** The metadata index of each writer *)

Section IndexWriters.
Context {R : Type} {AR : Arith R}.

(** The entry the simple converter stores for an identifier. *)
Definition simple_entry (gml_id : string) : index_entry string :=
  {| entry_element_type := "Surface";
     entry_polygon_count := 1;
     entry_metadata := gml_id |}.

Lemma simple_objects_inv (surfaces : list (@SimpleGml2obj.surface R))
  (acc : dict (index_entry string)) :
  NoDup (dict_keys acc) ->
  (forall k e, In (k, e) acc -> e = simple_entry k) ->
  let objects :=
    fold_left
      (fun objects s =>
         dict_set objects (SimpleGml2obj.id s) (simple_entry (SimpleGml2obj.id s)))
      surfaces acc in
  NoDup (dict_keys objects)
  /\ (forall k e, In (k, e) objects -> e = simple_entry k)
  /\ (forall k, In k (dict_keys objects) <->
                In k (dict_keys acc) \/ In k (map SimpleGml2obj.id surfaces)).
Proof.
  revert acc. induction surfaces as [|s ss IH]; intros acc Hnd Hall; simpl.
  - split; [exact Hnd|]. split; [exact Hall|]. intros k. tauto.
  - destruct (IH (dict_set acc (SimpleGml2obj.id s)
                    (simple_entry (SimpleGml2obj.id s))))
      as [H1 [H2 H3]].
    + now apply dict_set_keeps_NoDup.
    + intros k e Hin. apply In_dict_set in Hin.
      destruct Hin as [Hin|[-> ->]]; [now apply Hall|reflexivity].
    + split; [exact H1|]. split; [exact H2|].
      intros k. rewrite H3, dict_keys_set.
      destruct (in_dec string_dec (SimpleGml2obj.id s) (dict_keys acc))
        as [Hin|Hnin].
      * split; [tauto|]. intros [H|[<-|H]]; auto.
      * rewrite in_app_iff. simpl. tauto.
Qed.

(** C8, writer by writer.  The writer of the text pipeline, on a geometry
    map: one entry per key, in order, with the record's element type, the
    number of its polygon loops and its metadata mapping; the offset as
    given; [total_objects] the number of keys.  The writer of the binary
    pipeline, on the map of buildings: one entry per key, in order, with
    the constant type [Building], the number of the building's surfaces,
    and a mapping made of its name, description, height, storeys and
    surface-type counts; the offset as given; [total_objects] the number
    of keys.  The writer of the simple converter, on its list of polygon
    entries: one entry per identifier that occurs, with the constant type
    [Surface], the constant count 1 and the identifier as name; the offset
    as given. *)
Theorem write_metadata_entries :
  (forall (geometries : dict (geo_data R)) offset,
     NoDup (dict_keys geometries) ->
     let index := ObjWriter._write_metadata geometries offset in
     objects index
       = map (fun item => (fst item, text_entry (snd item))) geometries
     /\ index_offset index = offset
     /\ total_objects index = length (dict_keys geometries))
  /\ (forall (buildings_data : dict (@Gml2glb.building_info R)) offset,
        NoDup (dict_keys buildings_data) ->
        let index := Gml2glb.write_metadata buildings_data offset in
        objects index
          = map (fun item => (fst item, building_entry item)) buildings_data
        /\ index_offset index = offset
        /\ total_objects index = length (dict_keys buildings_data))
  /\ (forall (surfaces : list (@SimpleGml2obj.surface R)) offset,
        let index := SimpleGml2obj.write_metadata surfaces offset in
        NoDup (dict_keys (objects index))
        /\ (forall k, In k (dict_keys (objects index)) <->
                      In k (map SimpleGml2obj.id surfaces))
        /\ (forall k entry, dict_get (objects index) k = Some entry ->
                            entry = simple_entry k)
        /\ index_offset index = offset).
Proof.
  split; [|split].
  - intros g offset Hnd index. split; [now apply write_metadata_objects|].
    split; [reflexivity|]. unfold dict_keys. now rewrite length_map.
  - intros bd offset Hnd index. split; [now apply gml2glb_metadata_objects|].
    split; [reflexivity|]. unfold dict_keys. now rewrite length_map.
  - intros surfaces offset index.
    destruct (@simple_objects_inv surfaces []) as [H1 [H2 H3]].
    + constructor.
    + intros k e [].
    + split; [exact H1|]. split.
      * intros k. unfold index. cbn [objects SimpleGml2obj.write_metadata].
        rewrite (H3 k). simpl. tauto.
      * split; [|reflexivity]. intros k entry Hget.
        apply dict_get_In in Hget. now apply H2.
Qed.

End IndexWriters.

Lemma write_metadata_entries_witness :
  let index :=
    ObjWriter._write_metadata three_buildings_map (qpoint 2 1 0) in
  objects index
    = map (fun item => (fst item, text_entry (snd item))) three_buildings_map
  /\ index_offset index = qpoint 2 1 0
  /\ total_objects index = 4.
Proof.
  apply (proj1 (@write_metadata_entries Qc) three_buildings_map (qpoint 2 1 0)).
  repeat constructor; simpl; intuition discriminate.
Defined.

(** A wall with two polygons, as the simple converter reads it: two
    entries under one identifier. *)
Definition two_polygons : Xml.element :=
  Doc.CityModel
    [Doc.Building "BLD_1"
       [Doc.boundedBy "WallSurface" "WALL_1"
          [Doc.Polygon (Doc.LinearRing [Doc.posList "0 0 0 4 0 0 4 2 0"]);
           Doc.Polygon (Doc.LinearRing [Doc.posList "0 0 3 4 0 3 4 2 3"])]]].

Definition two_polygons_surfaces : list (@SimpleGml2obj.surface Qc) :=
  [SimpleGml2obj.Surface "WALL_1" "WallSurface"
     [qpoint 0 0 0; qpoint 4 0 0; qpoint 4 2 0] 1;
   SimpleGml2obj.Surface "WALL_1" "WallSurface"
     [qpoint 0 0 3; qpoint 4 0 3; qpoint 4 2 3] 4].

(** C8 on the simple converter.  For the wall with two polygons it writes
    [total_objects] 2 over a single entry, whose type is [Surface] where
    the record's is [WallSurface] and whose [polygon_count] is 1 where the
    identifier has two loops. *)
Lemma simple_write_metadata_counts_entries :
  SimpleGml2obj.parse_citygml Decimal.float_of_string two_polygons
    = Ok two_polygons_surfaces
  /\ let index :=
       SimpleGml2obj.write_metadata two_polygons_surfaces (qpoint 0 0 0) in
     total_objects index = 2
     /\ objects index = [("WALL_1", IndexEntry "Surface" 1 "WALL_1")]
     /\ map (@SimpleGml2obj.type Qc) two_polygons_surfaces
        = ["WallSurface"; "WallSurface"].
Proof.
  split; [vm_compute; reflexivity|]. cbv zeta.
  split; [reflexivity|]. split; reflexivity.
Qed.

(* ----------------------------------------------------------------- *)
(** ** The text of the simple converter's mesh file *)

Section Lines.

(** The line feed, which ends a record of an OBJ file. *)
Definition LF : ascii := ascii_of_nat 10.

Fixpoint has_char (c : ascii) (s : string) : bool :=
  match s with
  | EmptyString => false
  | String c' s' => Ascii.eqb c' c || has_char c s'
  end.

(** The lines of a text: what stands between line feeds. *)
Fixpoint lines_from (cur : string) (s : string) : list string :=
  match s with
  | EmptyString => [cur]
  | String c s' =>
      if Ascii.eqb c LF then cur :: lines_from EmptyString s'
      else lines_from (cur ++ String c EmptyString)%string s'
  end.
Definition lines (s : string) : list string := lines_from EmptyString s.

Lemma has_char_append (c : ascii) (a b : string) :
  has_char c (a ++ b)%string = has_char c a || has_char c b.
Proof.
  induction a as [|c' a IH]; simpl; [reflexivity|].
  now rewrite IH, orb_assoc.
Qed.

Lemma has_char_concat (c : ascii) (l : list string) :
  (forall s, In s l -> has_char c s = false) ->
  has_char c (String.concat "" l) = false.
Proof.
  induction l as [|s l IH]; intros Hall; [reflexivity|].
  destruct l as [|s' l'].
  - simpl. apply Hall. now left.
  - change (String.concat "" (s :: s' :: l'))
      with (s ++ "" ++ String.concat "" (s' :: l'))%string.
    rewrite !has_char_append. rewrite (Hall s (or_introl eq_refl)).
    simpl. apply IH. intros x Hx. apply Hall. now right.
Qed.

Lemma append_assoc (a b c : string) :
  ((a ++ b) ++ c = a ++ (b ++ c))%string.
Proof. induction a as [|x a IH]; simpl; [reflexivity|]. now rewrite IH. Qed.

Lemma lines_from_single (s cur : string) :
  has_char LF s = false -> lines_from cur s = [(cur ++ s)%string].
Proof.
  revert cur. induction s as [|c s IH]; intros cur H; simpl in *.
  - f_equal. induction cur as [|x cur IHc]; simpl; [reflexivity|].
    f_equal. exact IHc.
  - apply orb_false_iff in H. destruct H as [Hc Hs]. rewrite Hc.
    rewrite (IH _ Hs). now rewrite append_assoc.
Qed.

(** A text with no line feed is one line. *)
Lemma lines_single (s : string) : has_char LF s = false -> lines s = [s].
Proof. intros H. unfold lines. now rewrite lines_from_single. Qed.

End Lines.

Section SimpleObjText.
Context {R : Type} {AR : Arith R}.
Variable str_int : nat -> string.
Variable str_float : R -> string.
Variable str_offset : point R -> string.
Hypothesis str_int_line : forall n, has_char LF (str_int n) = false.
Hypothesis str_float_line : forall x, has_char LF (str_float x) = false.
Hypothesis str_offset_line : forall p, has_char LF (str_offset p) = false.

Ltac no_line_feed :=
  repeat (rewrite has_char_append; apply orb_false_iff; split);
  auto; try reflexivity.

Lemma face_text_line (vc i j k : nat) :
  has_char LF (SimpleGml2obj.face_text str_int vc i j k) = false.
Proof. unfold SimpleGml2obj.face_text. no_line_feed. Qed.

Lemma faces_text_line (vc n : nat) :
  has_char LF (SimpleGml2obj.faces_text str_int vc n) = false.
Proof.
  unfold SimpleGml2obj.faces_text.
  destruct (n =? 3); [apply face_text_line|].
  destruct (n =? 4).
  - rewrite has_char_append, !face_text_line. reflexivity.
  - apply has_char_concat. intros s Hs. apply in_map_iff in Hs.
    destruct Hs as [i [<- _]]. apply face_text_line.
Qed.

Lemma vertex_text_line (offset p : point R) :
  has_char LF (SimpleGml2obj.vertex_text str_float offset p) = false.
Proof. unfold SimpleGml2obj.vertex_text. no_line_feed. Qed.

Lemma surfaces_text_line (offset : point R)
  (surfaces : list (@SimpleGml2obj.surface R)) (vc : nat) :
  (forall s, In s surfaces -> has_char LF (SimpleGml2obj.id s) = false) ->
  has_char LF (SimpleGml2obj.surfaces_text str_int str_float offset vc surfaces)
  = false.
Proof.
  revert vc. induction surfaces as [|s ss IH]; intros vc Hids; [reflexivity|].
  cbn [SimpleGml2obj.surfaces_text].
  assert (Hs : has_char LF (SimpleGml2obj.id s) = false)
    by (apply Hids; now left).
  assert (Hrest : has_char LF
                    (SimpleGml2obj.surfaces_text str_int str_float offset
                       (vc + length (SimpleGml2obj.points s)) ss) = false)
    by (apply IH; intros s' Hs'; apply Hids; now right).
  assert (Hv : has_char LF
                 (String.concat ""
                    (map (SimpleGml2obj.vertex_text str_float offset)
                         (SimpleGml2obj.points s))) = false).
  { apply has_char_concat. intros x Hx. apply in_map_iff in Hx.
    destruct Hx as [p [<- _]]. apply vertex_text_line. }
  pose proof (faces_text_line vc (length (SimpleGml2obj.points s))) as Hf.
  no_line_feed.
Qed.

(** C4 on the simple converter.  Whatever the surfaces, as long as no
    identifier, no formatted number and not the material file name holds a
    line feed, the text [write_obj] writes holds none: the file is the single
    line that starts with [#], a comment, and no line of it is the group
    record [g id] of a surface. *)
Theorem simple_write_obj_single_line
  (surfaces : list (@SimpleGml2obj.surface R)) (mtl_file : string)
  (offset : point R) :
  has_char LF mtl_file = false ->
  (forall s, In s surfaces -> has_char LF (SimpleGml2obj.id s) = false) ->
  let text :=
    SimpleGml2obj.write_obj str_int str_float str_offset surfaces mtl_file
      offset in
  has_char LF text = false
  /\ lines text = [text]
  /\ (exists rest, text = String "#" rest)
  /\ forall s, In s surfaces ->
       ~ In ("g " ++ SimpleGml2obj.id s)%string (lines text).
Proof.
  intros Hmtl Hids text.
  assert (Hno : has_char LF text = false).
  { unfold text, SimpleGml2obj.write_obj.
    pose proof (surfaces_text_line offset surfaces 1 Hids) as Hs.
    no_line_feed. }
  split; [exact Hno|]. split; [now apply lines_single|]. split.
  - unfold text, SimpleGml2obj.write_obj. eexists. reflexivity.
  - intros s _ Hin. rewrite (lines_single _ Hno) in Hin.
    destruct Hin as [Heq|[]]. unfold text, SimpleGml2obj.write_obj in Heq.
    discriminate Heq.
Qed.

End SimpleObjText.

(** Decimal formatting of naturals, and a formatting of the exact
    rationals, to run [write_obj] with. *)
Module Format.

Definition str_int (n : nat) : string :=
  DecimalString.NilZero.string_of_uint (Nat.to_uint n).

Definition str_Z (z : Z) : string :=
  DecimalString.NilZero.string_of_int (Z.to_int z).

Definition str_qc (q : Qc) : string :=
  (str_Z (Qnum (this q)) ++ "/" ++ str_Z (Zpos (Qden (this q))))%string.

Definition str_offset (p : point Qc) : string :=
  ("(" ++ str_qc (px p) ++ ", " ++ str_qc (py p) ++ ", " ++ str_qc (pz p)
   ++ ")")%string.

End Format.

Lemma string_of_uint_line (d : Decimal.uint) :
  has_char LF (DecimalString.NilEmpty.string_of_uint d) = false.
Proof. induction d; simpl; auto. Qed.

Lemma str_int_line (n : nat) : has_char LF (Format.str_int n) = false.
Proof.
  unfold Format.str_int, DecimalString.NilZero.string_of_uint.
  destruct (Nat.to_uint n); try reflexivity; apply string_of_uint_line.
Qed.

Lemma str_Z_line (z : Z) : has_char LF (Format.str_Z z) = false.
Proof.
  unfold Format.str_Z, DecimalString.NilZero.string_of_int.
  destruct (Z.to_int z) as [d|d].
  - unfold DecimalString.NilZero.string_of_uint.
    destruct d; try reflexivity; apply string_of_uint_line.
  - cbn [has_char]. unfold DecimalString.NilZero.string_of_uint.
    destruct d; try reflexivity; apply string_of_uint_line.
Qed.

Lemma str_qc_line (q : Qc) : has_char LF (Format.str_qc q) = false.
Proof.
  unfold Format.str_qc. rewrite !has_char_append, !str_Z_line. reflexivity.
Qed.

Lemma str_offset_line (p : point Qc) : has_char LF (Format.str_offset p) = false.
Proof.
  unfold Format.str_offset. rewrite !has_char_append, !str_qc_line.
  reflexivity.
Qed.

Lemma simple_write_obj_single_line_witness :
  let text :=
    SimpleGml2obj.write_obj Format.str_int Format.str_qc Format.str_offset
      two_polygons_surfaces "model_simple.mtl" (qpoint 0 0 0) in
  has_char LF text = false
  /\ lines text = [text]
  /\ (exists rest, text = String "#" rest)
  /\ forall s, In s two_polygons_surfaces ->
       ~ In ("g " ++ SimpleGml2obj.id s)%string (lines text).
Proof.
  apply (@simple_write_obj_single_line Qc qc_arith Format.str_int Format.str_qc
           Format.str_offset str_int_line str_qc_line str_offset_line
           two_polygons_surfaces "model_simple.mtl" (qpoint 0 0 0)).
  - reflexivity.
  - intros s [<-|[<-|[]]]; reflexivity.
Defined.

(* ----------------------------------------------------------------- *)
(** ** Identifiers across the artifacts of a run *)

Lemma NoDup_count_one (l : list string) (k : string) :
  NoDup l -> In k l -> count_occ string_dec l k = 1.
Proof.
  intros Hnd Hin. apply (proj1 (NoDup_count_occ' string_dec l) Hnd k Hin).
Qed.

Section TextIdentifiers.
Context {R : Type} {AR : Arith R} {NR : Norm R}.
Variable float_of_string : string -> option R.

(** A run of the text converter that writes its artifacts: the keys of
    the [objects] mapping of the metadata index are exactly the names of the
    group records of the OBJ file, in the same order, each once. *)
Theorem text_run_groups_match_index (root : Xml.element)
  (mtl_filename : string) lines index :
  Convert.main float_of_string root mtl_filename = Ok (Some (lines, index)) ->
  group_names lines = dict_keys (objects index)
  /\ forall k, In k (dict_keys (objects index)) ->
               count_occ string_dec (group_names lines) k = 1.
Proof.
  intros Hm.
  destruct (convert_main_outputs _ _ _ Hm) as [g [_ [Hnd [Hgroups [Hobj _]]]]].
  assert (Hkeys : dict_keys (objects index) = dict_keys g).
  { rewrite Hobj. unfold dict_keys. now rewrite map_map. }
  split; [congruence|]. intros k Hk. rewrite Hgroups.
  apply NoDup_count_one; [exact Hnd|]. now rewrite <- Hkeys.
Qed.

End TextIdentifiers.

Section BinaryIdentifiers.
Context {R : Type} {AR : Arith R}.
Variable float_of_string : string -> option R.
Variable int_of_string : string -> option Z.
Variable float32_bytes : list R -> list Bytes.byte.
Variable uint32_bytes : list nat -> list Bytes.byte.
Variable json_dumps : Gml2glb.gltf (R := R) -> list Bytes.byte.

(** A run of the binary converter that writes its artifacts: every entry
    of the metadata index is a building; one whose [polygon_count] is
    above 0 has exactly one mesh and exactly one node of the scene named
    by its key, and one whose [polygon_count] is 0 has neither. *)
Theorem gml2glb_run_meshes_match_index (root : Xml.element) scene file index :
  Gml2glb.main float_of_string int_of_string float32_bytes uint32_bytes
    json_dumps root = Ok (Some (scene, file, index)) ->
  forall k entry,
    dict_get (objects index) k = Some entry ->
    entry_element_type entry = "Building"
    /\ (0 < entry_polygon_count entry ->
        count_occ string_dec (mesh_names (Gml2glb.meshes scene)) k = 1
        /\ count_occ string_dec
             (map Gml2glb.node_name (Gml2glb.nodes scene)) k = 1)
    /\ (entry_polygon_count entry = 0 ->
        ~ In k (mesh_names (Gml2glb.meshes scene))
        /\ ~ In k (map Gml2glb.node_name (Gml2glb.nodes scene))).
Proof.
  intros Hm k entry Hget.
  destruct (gml2glb_main_outputs _ _ _ _ _ _ Hm)
    as [bd [_ [[Hnd _] [Hmesh [Hnode [Hobj _]]]]]].
  rewrite Hobj in Hget.
  destruct (building_entry_mesh _ _ Hnd Hget) as [Hty [Hpos Hzero]].
  rewrite Hnode, Hmesh. split; [exact Hty|]. split.
  - intros H. assert (Hone : count_occ string_dec
                               (dict_keys (filter has_surfaces bd)) k = 1).
    { apply NoDup_count_one; [now apply NoDup_keys_filter|now apply Hpos]. }
    now split.
  - intros H. split; now apply Hzero.
Qed.

End BinaryIdentifiers.

(** Integer numerals as binary64 numbers. *)
Module Binary64Lexer.

Definition float_of_N (n : N) : PrimFloat.float :=
  N.iter n (fun x => PrimFloat.add x PrimFloat.one) PrimFloat.zero.

Definition float_of_Z (z : Z) : PrimFloat.float :=
  match z with
  | Z0 => PrimFloat.zero
  | Zpos p => float_of_N (Npos p)
  | Zneg p => PrimFloat.opp (float_of_N (Npos p))
  end.

(** [float(s)] on an integer numeral: a leading [-] gives the opposite of
    the magnitude, so that [float('-0')] is [-0.0]. *)
Definition float_of_string (s : string) : option PrimFloat.float :=
  match s with
  | String "-" (String _ _ as s') =>
      option_map (fun n => PrimFloat.opp (float_of_N n)) (Decimal.digits s' 0)
  | _ => option_map float_of_Z (Decimal.int_of_string s)
  end.

End Binary64Lexer.

(** The run of the text converter on the document with three
    buildings. *)
Lemma text_run_groups_match_index_witness :
  exists lines index,
    Convert.main Binary64Lexer.float_of_string Doc.three_buildings "model.mtl"
      = Ok (Some (lines, index))
    /\ group_names lines = ["BLD_2PT"; "BLD_1"; "WALL_2PT"; "WALL_1"]
    /\ group_names lines = dict_keys (objects index)
    /\ forall k, In k (dict_keys (objects index)) ->
                 count_occ string_dec (group_names lines) k = 1.
Proof.
  destruct (Convert.main Binary64Lexer.float_of_string Doc.three_buildings
              "model.mtl") as [[[lines index]|]|e] eqn:Hm;
    [|vm_compute in Hm; discriminate Hm|vm_compute in Hm; discriminate Hm].
  exists lines, index. split; [reflexivity|].
  pose proof (text_run_groups_match_index _ _ _ Hm) as [Hg Hc].
  split; [|split; assumption].
  apply (f_equal (fun r => match r with
                           | Ok (Some (l, _)) => group_names l
                           | _ => []
                           end)) in Hm.
  rewrite <- Hm. vm_compute. reflexivity.
Defined.

(** The run of the binary converter on the same document, with
    placeholder encoders. *)
Lemma gml2glb_run_meshes_match_index_witness :
  exists scene file index,
    Gml2glb.main Decimal.float_of_string Decimal.int_of_string
      (fun vs => repeat Byte.x00 (4 * length vs))
      (fun ns => repeat Byte.x00 (4 * length ns))
      (fun _ => [Byte.x7b; Byte.x7d]) Doc.three_buildings
    = Ok (Some (scene, file, index))
    /\ mesh_names (Gml2glb.meshes scene) = ["BLD_1"]
    /\ dict_keys (objects index) = ["BLD_EMPTY"; "BLD_2PT"; "BLD_1"]
    /\ forall k entry,
         dict_get (objects index) k = Some entry ->
         entry_element_type entry = "Building"
         /\ (0 < entry_polygon_count entry ->
             count_occ string_dec (mesh_names (Gml2glb.meshes scene)) k = 1
             /\ count_occ string_dec
                  (map Gml2glb.node_name (Gml2glb.nodes scene)) k = 1)
         /\ (entry_polygon_count entry = 0 ->
             ~ In k (mesh_names (Gml2glb.meshes scene))
             /\ ~ In k (map Gml2glb.node_name (Gml2glb.nodes scene))).
Proof.
  destruct (Gml2glb.main Decimal.float_of_string Decimal.int_of_string
              (fun vs => repeat Byte.x00 (4 * length vs))
              (fun ns => repeat Byte.x00 (4 * length ns))
              (fun _ => [Byte.x7b; Byte.x7d]) Doc.three_buildings)
    as [[[[scene file] index]|]|e] eqn:Hm;
    [|vm_compute in Hm; discriminate Hm|vm_compute in Hm; discriminate Hm].
  exists scene, file, index. split; [reflexivity|].
  pose proof (gml2glb_run_meshes_match_index _ _ _ _ _ _ Hm) as Hall.
  split; [|split; [|exact Hall]].
  - apply (f_equal (fun r => match r with
                             | Ok (Some (s, _, _)) =>
                                 mesh_names (Gml2glb.meshes s)
                             | _ => []
                             end)) in Hm.
    rewrite <- Hm. vm_compute. reflexivity.
  - apply (f_equal (fun r => match r with
                             | Ok (Some (_, _, i)) => dict_keys (objects i)
                             | _ => []
                             end)) in Hm.
    rewrite <- Hm. vm_compute. reflexivity.
Defined.

(* ================================================================= *)
(** * More of the converters *)

(* ----------------------------------------------------------------- *)
(** ** The vertex and index arrays of a building mesh *)

Section BuildingArrays.
Context {R : Type} {AR : Arith R}.

(** The nine coordinates of a triangle, as [all_vertices.extend(vert)]
    lays them out. *)
Definition triangle_coords (tri : point R * point R * point R) : list R :=
  let '(a, b, c) := tri in
  [px a; py a; pz a; px b; py b; pz b; px c; py c; pz c].

(** The triangles of a building: surface by surface, each surface moved
    by the offset and fanned. *)
Definition building_triangles (offset : point R)
  (info : @Gml2glb.building_info R) : list (point R * point R * point R) :=
  flat_map
    (fun s =>
       Gml2glb.triangulate_polygon
         (map (Geometry.translate offset) (Gml2glb.points s)))
    (Gml2glb.surfaces info).

Lemma add_triangles_arrays (tris : list (point R * point R * point R))
  (vs : list R) (n : nat) :
  fold_left Gml2glb.add_triangle tris (vs, seq 0 n, n)
  = (vs ++ flat_map triangle_coords tris,
     seq 0 (n + 3 * length tris), n + 3 * length tris).
Proof.
  revert vs n. induction tris as [|[[a b] c] tris IH]; intros vs n.
  - simpl. now rewrite app_nil_r, Nat.add_0_r.
  - cbn [fold_left Gml2glb.add_triangle].
    replace (seq 0 n ++ [n; n + 1; n + 2]) with (seq 0 (n + 3)).
    + rewrite IH. cbn [flat_map triangle_coords length].
      f_equal; [f_equal; [now rewrite <- app_assoc|f_equal; lia]|lia].
    + replace (n + 1) with (S n) by lia.
      replace (n + 2) with (S (S n)) by lia.
      rewrite seq_app. reflexivity.
Qed.

Lemma add_surfaces_arrays (offset : point R) (ss : list Gml2glb.surface)
  (vs : list R) (n : nat) :
  let tris :=
    flat_map
      (fun s =>
         Gml2glb.triangulate_polygon
           (map (Geometry.translate offset) (Gml2glb.points s))) ss in
  fold_left (Gml2glb.add_surface offset) ss (vs, seq 0 n, n)
  = (vs ++ flat_map triangle_coords tris,
     seq 0 (n + 3 * length tris), n + 3 * length tris).
Proof.
  revert vs n. induction ss as [|s ss IH]; intros vs n; cbv zeta.
  - simpl. now rewrite app_nil_r, Nat.add_0_r.
  - cbn [fold_left flat_map]. unfold Gml2glb.add_surface at 2.
    rewrite add_triangles_arrays. rewrite IH. cbv zeta.
    rewrite flat_map_app, length_app.
    f_equal; [f_equal; [now rewrite <- app_assoc|f_equal; lia]|lia].
Qed.

Lemma triangulate_length (points : list (point R)) :
  length (Gml2glb.triangulate_polygon points)
  = if length points <? 3 then 0 else length points - 2.
Proof.
  unfold Gml2glb.triangulate_polygon. destruct points as [|p0 rest].
  - reflexivity.
  - destruct (length (p0 :: rest) <? 3); [reflexivity|].
    now rewrite length_map, length_seq.
Qed.

Lemma building_arrays_eq (offset : point R) (info : @Gml2glb.building_info R) :
  Gml2glb.building_arrays offset info
  = (flat_map triangle_coords (building_triangles offset info),
     seq 0 (3 * length (building_triangles offset info))).
Proof.
  unfold Gml2glb.building_arrays.
  change (@nil nat) with (seq 0 0).
  rewrite (add_surfaces_arrays offset (Gml2glb.surfaces info) [] 0).
  reflexivity.
Qed.

Lemma length_triangle_coords (tris : list (point R * point R * point R)) :
  length (flat_map triangle_coords tris) = 9 * length tris.
Proof.
  induction tris as [|[[a b] c] tris IH]; [reflexivity|].
  cbn [flat_map]. rewrite length_app, IH. simpl. lia.
Qed.

(** The arrays [create_glb] collects for one building.  The vertex array
    is the coordinates of the building's triangles, nine numbers each, in
    order; the index array is [0, 1, ..., 3T - 1] for [T] triangles: every
    triangle has three vertices of its own and the indices only count
    them.  A surface of [n >= 3] points gives [n - 2] triangles, each
    starting at the surface's first point. *)
Theorem building_arrays_layout (offset : point R)
  (info : @Gml2glb.building_info R) :
  let tris := building_triangles offset info in
  Gml2glb.building_arrays offset info
    = (flat_map triangle_coords tris, seq 0 (3 * length tris))
  /\ length (fst (Gml2glb.building_arrays offset info)) = 9 * length tris
  /\ (forall s, In s (Gml2glb.surfaces info) ->
        3 <= length (Gml2glb.points s) ->
        length (Gml2glb.triangulate_polygon
                  (map (Geometry.translate offset) (Gml2glb.points s)))
        = length (Gml2glb.points s) - 2)
  /\ (forall s a b c,
        In (a, b, c)
           (Gml2glb.triangulate_polygon
              (map (Geometry.translate offset) (Gml2glb.points s))) ->
        Some a = hd_error (map (Geometry.translate offset) (Gml2glb.points s))).
Proof.
  intros tris.
  pose proof (building_arrays_eq offset info) as Harr. fold tris in Harr.
  split; [exact Harr|]. split; [|split].
  - rewrite Harr. cbn [fst]. apply length_triangle_coords.
  - intros s _ Hlen. rewrite triangulate_length, length_map.
    destruct (Nat.ltb_spec (length (Gml2glb.points s)) 3); [lia|reflexivity].
  - intros s a b c Hin. unfold Gml2glb.triangulate_polygon in Hin.
    destruct (map (Geometry.translate offset) (Gml2glb.points s))
      as [|p0 rest]; [contradiction|].
    destruct (length (p0 :: rest) <? 3); [contradiction|].
    apply in_map_iff in Hin. destruct Hin as [i [[= <- _ _] _]]. reflexivity.
Qed.

End BuildingArrays.

(* ----------------------------------------------------------------- *)
(** ** The buffer of the binary scene *)

Section BufferLayout.
Context {R : Type} {AR : Arith R}.
Variable float32_bytes : list R -> list Bytes.byte.
Variable uint32_bytes : list nat -> list Bytes.byte.

Local Abbreviation building_info := (@Gml2glb.building_info R).

(** [create_glb] gives a building a mesh when it has a surface and its
    triangles have a vertex. *)
Definition has_mesh (offset : point R) (item : string * building_info) : bool :=
  match Gml2glb.surfaces (snd item) with
  | [] => false
  | _ =>
      match fst (Gml2glb.building_arrays offset (snd item)) with
      | [] => false
      | _ => true
      end
  end.

(** The two segments of a building with a mesh, each with its usage
    role: the float32 bytes of the vertices, the uint32 bytes of the
    indices. *)
Definition building_segments (offset : point R)
  (item : string * building_info) : list (list Bytes.byte * N) :=
  if has_mesh offset item then
    [(float32_bytes (fst (Gml2glb.building_arrays offset (snd item))),
      Gml2glb.ARRAY_BUFFER);
     (uint32_bytes (snd (Gml2glb.building_arrays offset (snd item))),
      Gml2glb.ELEMENT_ARRAY_BUFFER)]
  else [].

(** [buffer[i:j]] *)
Definition slice (buffer : list Bytes.byte) (i j : nat) : list Bytes.byte :=
  firstn (j - i) (skipn i buffer).

(** A buffer view describes a segment of the buffer: it has the
    segment's role and length, starts on a 4-byte boundary, lies inside
    the buffer, and the bytes of the buffer it delimits are the
    segment's. *)
Definition describes (buffer : list Bytes.byte) (view : Gml2glb.buffer_view)
  (segment : list Bytes.byte * N) : Prop :=
  Gml2glb.target view = snd segment
  /\ Gml2glb.byteLength view = length (fst segment)
  /\ Gml2glb.byteOffset view mod 4 = 0
  /\ Gml2glb.byteOffset view + Gml2glb.byteLength view <= length buffer
  /\ slice buffer (Gml2glb.byteOffset view)
       (Gml2glb.byteOffset view + Gml2glb.byteLength view)
     = fst segment.

(** The views come one after the other, none overlapping the next. *)
Fixpoint laid_out (start : nat) (views : list Gml2glb.buffer_view) : Prop :=
  match views with
  | [] => True
  | v :: rest =>
      start <= Gml2glb.byteOffset v
      /\ laid_out (Gml2glb.byteOffset v + Gml2glb.byteLength v) rest
  end.

Lemma slice_app_l (b more : list Bytes.byte) (i j : nat) :
  j <= length b -> slice (b ++ more) i j = slice b i j.
Proof.
  intros Hj. unfold slice.
  destruct (Nat.le_gt_cases i (length b)) as [Hi|Hi].
  - rewrite skipn_app. replace (i - length b) with 0 by lia.
    rewrite skipn_O, firstn_app, length_skipn.
    replace (j - i - (length b - i)) with 0 by lia.
    now rewrite firstn_O, app_nil_r.
  - replace (j - i) with 0 by lia. now rewrite !firstn_O.
Qed.

Lemma slice_segment (pre seg post : list Bytes.byte) :
  slice (pre ++ seg ++ post) (length pre) (length pre + length seg) = seg.
Proof.
  unfold slice. rewrite skipn_app, skipn_all, Nat.sub_diag, skipn_O.
  cbn [app]. replace (length pre + length seg - length pre) with (length seg)
    by lia.
  rewrite firstn_app, Nat.sub_diag, firstn_all, firstn_O. apply app_nil_r.
Qed.

Lemma describes_app (b more : list Bytes.byte) view segment :
  describes b view segment -> describes (b ++ more) view segment.
Proof.
  intros [Ht [Hl [Ha [Hin Hs]]]]. repeat split; auto.
  - rewrite length_app. lia.
  - now rewrite slice_app_l.
Qed.

Lemma laid_out_app (views : list Gml2glb.buffer_view) (start o : nat)
  (v : Gml2glb.buffer_view) :
  laid_out start views -> start <= o ->
  (forall w, In w views -> Gml2glb.byteOffset w + Gml2glb.byteLength w <= o) ->
  Gml2glb.byteOffset v = o ->
  laid_out start (views ++ [v]).
Proof.
  revert start. induction views as [|w views IH]; intros start Hl Hs Hall Hv.
  - simpl. split; [lia|exact I].
  - destruct Hl as [Hw Hrest]. cbn [app laid_out]. split; [exact Hw|].
    apply IH; auto.
    + apply Hall. now left.
    + intros x Hx. apply Hall. now right.
Qed.

(** What [create_glb] keeps true of its buffer lists: the running offset
    is the length of the data so far and a multiple of 4, and the views so
    far describe the segments so far, in order. *)
Definition buffer_inv (views : list Gml2glb.buffer_view)
  (data : list (list Bytes.byte)) (offset : nat)
  (segments : list (list Bytes.byte * N)) : Prop :=
  offset = length (concat data)
  /\ offset mod 4 = 0
  /\ Forall2 (describes (concat data)) views segments
  /\ laid_out 0 views.

Lemma Forall2_describes_app (b more : list Bytes.byte) views segments :
  Forall2 (describes b) views segments ->
  Forall2 (describes (b ++ more)) views segments.
Proof.
  induction 1; constructor; auto using describes_app.
Qed.

Lemma described_in_bounds (b : list Bytes.byte) views segments :
  Forall2 (describes b) views segments ->
  forall w, In w views ->
  Gml2glb.byteOffset w + Gml2glb.byteLength w <= length b.
Proof.
  induction 1 as [|v seg views segments Hd _ IH]; intros w Hw;
    [destruct Hw|destruct Hw as [<-|Hw]].
  - destruct Hd as [_ [_ [_ [Hin _]]]]. exact Hin.
  - now apply IH.
Qed.

Lemma add_segment_inv (bytes : list Bytes.byte) (target : N)
  views data offset segments :
  buffer_inv views data offset segments ->
  let '(views', data', offset') :=
    Gml2glb.add_segment bytes target views data offset in
  buffer_inv views' data' offset' (segments ++ [(bytes, target)])
  /\ length views' = S (length views).
Proof.
  intros [Hoff [Hal [Hdesc Hlaid]]]. unfold Gml2glb.add_segment.
  destruct (padding_spec (offset + length bytes)) as [Hp4 Hpal].
  set (pad := Gml2glb.padding (offset + length bytes)) in *.
  set (view := {| Gml2glb.byteOffset := offset;
                  Gml2glb.byteLength := length bytes;
                  Gml2glb.target := target |}).
  assert (Hends : forall w, In w views ->
            Gml2glb.byteOffset w + Gml2glb.byteLength w <= offset).
  { intros w Hw. pose proof (described_in_bounds Hdesc w Hw). lia. }
  assert (Hlaid' : laid_out 0 (views ++ [view])).
  { apply (laid_out_app views (o := offset)); auto; lia. }
  assert (Hview : forall rest,
            describes (concat data ++ bytes ++ rest) view (bytes, target)).
  { intros rest. unfold describes, view. cbn [Gml2glb.target Gml2glb.byteLength
      Gml2glb.byteOffset fst snd]. repeat split; auto.
    - rewrite !length_app. lia.
    - rewrite Hoff. apply slice_segment. }
  assert (Hlen : length (views ++ [view]) = S (length views))
    by (rewrite length_app; simpl; lia).
  destruct (Nat.eqb_spec pad 0) as [Hz|Hnz].
  - split; [|exact Hlen]. unfold buffer_inv.
    rewrite concat_app. cbn [concat]. rewrite app_nil_r.
    split; [rewrite length_app; lia|]. split.
    { rewrite Hz, Nat.add_0_r in Hpal. exact Hpal. }
    split; [|exact Hlaid'].
    apply Forall2_app.
    + now apply Forall2_describes_app.
    + constructor; [|constructor].
      pose proof (Hview []) as Hv. rewrite app_nil_r in Hv. exact Hv.
  - split; [|exact Hlen]. unfold buffer_inv.
    rewrite !concat_app. cbn [concat]. rewrite !app_nil_r.
    split; [rewrite !length_app, repeat_length; lia|].
    split; [exact Hpal|]. split; [|exact Hlaid'].
    rewrite <- app_assoc. apply Forall2_app.
    + now apply Forall2_describes_app.
    + constructor; [|constructor]. apply Hview.
Qed.

Lemma add_building_inv (offset : point R) (st : Gml2glb.glb_state)
  (item : string * building_info) segments :
  buffer_inv (Gml2glb.st_buffer_views st) (Gml2glb.st_buffers_data st)
    (Gml2glb.current_byte_offset st) segments ->
  let st' := Gml2glb.add_building float32_bytes uint32_bytes offset st item in
  buffer_inv (Gml2glb.st_buffer_views st') (Gml2glb.st_buffers_data st')
    (Gml2glb.current_byte_offset st')
    (segments ++ building_segments offset item).
Proof.
  intros Hinv. destruct item as [k info].
  unfold Gml2glb.add_building, building_segments, has_mesh. cbn [snd].
  destruct (Gml2glb.surfaces info) as [|s ss]; [now rewrite app_nil_r|].
  destruct (Gml2glb.building_arrays offset info) as [vs is_]. cbn [fst snd].
  destruct vs as [|v vs]; [now rewrite app_nil_r|].
  pose proof (add_segment_inv (float32_bytes (v :: vs)) Gml2glb.ARRAY_BUFFER
                Hinv) as H1.
  destruct (Gml2glb.add_segment (float32_bytes (v :: vs)) _ _ _ _)
    as [[views1 data1] offset1].
  destruct H1 as [H1 _].
  pose proof (add_segment_inv (uint32_bytes is_)
                Gml2glb.ELEMENT_ARRAY_BUFFER H1) as H2.
  destruct (Gml2glb.add_segment (uint32_bytes is_) _ _ _ _)
    as [[views2 data2] offset2].
  destruct H2 as [H2 _]. cbv zeta.
  cbn [Gml2glb.st_buffer_views Gml2glb.st_buffers_data
       Gml2glb.current_byte_offset].
  rewrite <- app_assoc in H2. exact H2.
Qed.

Lemma add_buildings_inv (offset : point R) (bd : dict building_info)
  (st : Gml2glb.glb_state) segments :
  buffer_inv (Gml2glb.st_buffer_views st) (Gml2glb.st_buffers_data st)
    (Gml2glb.current_byte_offset st) segments ->
  let st' :=
    fold_left (Gml2glb.add_building float32_bytes uint32_bytes offset) bd st in
  buffer_inv (Gml2glb.st_buffer_views st') (Gml2glb.st_buffers_data st')
    (Gml2glb.current_byte_offset st')
    (segments ++ flat_map (building_segments offset) bd).
Proof.
  revert st segments. induction bd as [|item bd IH]; intros st segments Hinv.
  - simpl. now rewrite app_nil_r.
  - cbn [fold_left flat_map]. rewrite app_assoc. apply IH.
    now apply add_building_inv.
Qed.

(** The buffer [create_glb] assembles, for any buildings and offset.  Its
    views describe, in order, the vertex segment and the index segment of
    each building that has a mesh: each view has its segment's role and
    length, starts on a 4-byte boundary, and delimits in the combined
    buffer exactly the bytes of its segment; the views follow one another
    without overlap; and the declared [byteLength] of the buffer is the
    length of the combined buffer, a multiple of 4. *)
Theorem create_glb_buffer_layout (buildings_data : dict building_info)
  (offset : point R) :
  let scene :=
    fst (Gml2glb.create_scene float32_bytes uint32_bytes buildings_data offset) in
  let combined_buffer :=
    snd (Gml2glb.create_scene float32_bytes uint32_bytes buildings_data offset) in
  Forall2 (describes combined_buffer) (Gml2glb.bufferViews scene)
    (flat_map (building_segments offset) buildings_data)
  /\ laid_out 0 (Gml2glb.bufferViews scene)
  /\ Gml2glb.buffer_byteLength scene = length combined_buffer
  /\ length combined_buffer mod 4 = 0.
Proof.
  intros scene combined.
  pose proof (@add_buildings_inv offset buildings_data
                {| Gml2glb.st_meshes := []; Gml2glb.st_accessors := [];
                   Gml2glb.st_buffer_views := []; Gml2glb.st_buffers_data := [];
                   Gml2glb.current_byte_offset := 0 |} []) as Hinv.
  cbv zeta in Hinv. cbn [app] in Hinv.
  destruct Hinv as [Hoff [Hal [Hdesc Hlaid]]].
  { repeat split; constructor. }
  unfold scene, combined, Gml2glb.create_scene.
  cbn [fst snd Gml2glb.bufferViews Gml2glb.buffer_byteLength].
  split; [exact Hdesc|]. split; [exact Hlaid|]. split; [reflexivity|].
  now rewrite <- Hoff.
Qed.

End BufferLayout.

(* ----------------------------------------------------------------- *)
(** ** The references inside the binary scene *)

Section SceneReferences.
Context {R : Type} {AR : Arith R}.
Variable float32_bytes : list R -> list Bytes.byte.
Variable uint32_bytes : list nat -> list Bytes.byte.

Local Abbreviation building_info := (@Gml2glb.building_info R).

(** Mesh [i] of a scene resolves: its [POSITION] and [indices] are the
    accessors [2i] and [2i + 1], which exist; the first is a position
    accessor over buffer view [2i], the second an index accessor over
    buffer view [2i + 1]; both count the same number of elements, a
    positive multiple of 3; the bounds of the position accessor have three
    components; and the two buffer views exist with the roles of a vertex
    and of an index buffer. *)
Definition mesh_resolves (accessors : list (@Gml2glb.accessor R))
  (views : list Gml2glb.buffer_view) (i : nat) (m : Gml2glb.mesh) : Prop :=
  Gml2glb.POSITION m = 2 * i
  /\ Gml2glb.indices m = 2 * i + 1
  /\ exists count lo hi v1 v2,
       nth_error accessors (Gml2glb.POSITION m)
         = Some (Gml2glb.PositionAccessor (2 * i) count lo hi)
       /\ nth_error accessors (Gml2glb.indices m)
            = Some (@Gml2glb.IndexAccessor R (2 * i + 1) count)
       /\ 0 < count /\ count mod 3 = 0
       /\ length lo = 3 /\ length hi = 3
       /\ nth_error views (2 * i) = Some v1
       /\ Gml2glb.target v1 = Gml2glb.ARRAY_BUFFER
       /\ nth_error views (2 * i + 1) = Some v2
       /\ Gml2glb.target v2 = Gml2glb.ELEMENT_ARRAY_BUFFER.

Lemma nth_error_app_Some (A : Type) (l l' : list A) (n : nat) (x : A) :
  nth_error l n = Some x -> nth_error (l ++ l') n = Some x.
Proof.
  intros H. rewrite nth_error_app1; [exact H|].
  apply nth_error_Some. congruence.
Qed.

Lemma nth_error_snoc_here (A : Type) (l : list A) (x : A) :
  nth_error (l ++ [x]) (length l) = Some x.
Proof. rewrite nth_error_app2, Nat.sub_diag; [reflexivity|lia]. Qed.

Lemma nth_error_snoc (A : Type) (l : list A) (x y : A) (n : nat) :
  nth_error (l ++ [x]) n = Some y ->
  nth_error l n = Some y \/ (n = length l /\ y = x).
Proof.
  intros H. destruct (Nat.lt_ge_cases n (length l)) as [Hlt|Hge].
  - left. now rewrite nth_error_app1 in H.
  - right. rewrite nth_error_app2 in H by exact Hge.
    destruct (n - length l) as [|k] eqn:Hk.
    + simpl in H. split; [lia|congruence].
    + simpl in H. now destruct k.
Qed.

Lemma nth_error_seq_Some (start len i n : nat) :
  nth_error (seq start len) i = Some n -> i < len /\ n = start + i.
Proof.
  revert start i. induction len as [|len IH]; intros start i H.
  - now destruct i.
  - destruct i as [|i]; simpl in H.
    + split; [lia|]. injection H as <-. lia.
    + apply IH in H. lia.
Qed.

Lemma add_segment_views (bytes : list Bytes.byte) (target : N)
  (views : list Gml2glb.buffer_view) (data : list (list Bytes.byte))
  (offset : nat) :
  fst (fst (Gml2glb.add_segment bytes target views data offset))
  = views ++ [{| Gml2glb.byteOffset := offset;
                 Gml2glb.byteLength := length bytes;
                 Gml2glb.target := target |}].
Proof.
  unfold Gml2glb.add_segment.
  now destruct (Gml2glb.padding (offset + length bytes) =? 0).
Qed.

Lemma mesh_resolves_app accessors more_accessors views more_views i m :
  mesh_resolves accessors views i m ->
  mesh_resolves (accessors ++ more_accessors) (views ++ more_views) i m.
Proof.
  intros [Hp [Hi [count [lo [hi [v1 [v2 H]]]]]]].
  destruct H as [Ha1 [Ha2 [Hc [Hm [Hlo [Hhi [Hv1 [Ht1 [Hv2 Ht2]]]]]]]]].
  split; [exact Hp|]. split; [exact Hi|].
  exists count, lo, hi, v1, v2.
  repeat split; auto using nth_error_app_Some.
Qed.

(** What [create_glb] keeps true of its lists. *)
Definition scene_inv (st : @Gml2glb.glb_state R) : Prop :=
  length (Gml2glb.st_accessors st) = 2 * length (Gml2glb.st_meshes st)
  /\ length (Gml2glb.st_buffer_views st) = 2 * length (Gml2glb.st_meshes st)
  /\ forall i m, nth_error (Gml2glb.st_meshes st) i = Some m ->
       mesh_resolves (Gml2glb.st_accessors st) (Gml2glb.st_buffer_views st) i m.

Lemma add_building_scene_inv (offset : point R) (st : Gml2glb.glb_state)
  (item : string * building_info) :
  scene_inv st ->
  scene_inv (Gml2glb.add_building float32_bytes uint32_bytes offset st item).
Proof.
  intros Hinv. destruct item as [k info]. unfold Gml2glb.add_building.
  destruct (Gml2glb.surfaces info) as [|s ss]; [exact Hinv|].
  pose proof (building_arrays_eq offset info) as Harr.
  pose proof (length_triangle_coords (building_triangles offset info)) as Hlen.
  set (T := length (building_triangles offset info)) in *.
  destruct (Gml2glb.building_arrays offset info) as [vs is_].
  apply pair_equal_spec in Harr. destruct Harr as [Hvs His].
  rewrite <- Hvs in Hlen.
  destruct vs as [|v vs']; [exact Hinv|].
  set (vs := v :: vs') in *.
  assert (HT : 0 < T) by (subst vs; simpl in Hlen; lia).
  assert (Hcount : length vs / 3 = 3 * T).
  { rewrite Hlen. replace (9 * T) with (3 * T * 3) by lia.
    apply Nat.div_mul. lia. }
  assert (Hicount : length is_ = 3 * T) by (subst is_; apply length_seq).
  pose proof (add_segment_views (float32_bytes vs) Gml2glb.ARRAY_BUFFER
                (Gml2glb.st_buffer_views st) (Gml2glb.st_buffers_data st)
                (Gml2glb.current_byte_offset st)) as Hv1.
  destruct (Gml2glb.add_segment (float32_bytes vs) _ _ _ _)
    as [[views1 data1] offset1]. cbn [fst] in Hv1.
  pose proof (add_segment_views (uint32_bytes is_)
                Gml2glb.ELEMENT_ARRAY_BUFFER views1 data1 offset1) as Hv2.
  destruct (Gml2glb.add_segment (uint32_bytes is_) _ _ _ _)
    as [[views2 data2] offset2]. cbn [fst] in Hv2.
  destruct Hinv as [Hacc [Hviews Hmeshes]].
  set (M := length (Gml2glb.st_meshes st)) in *.
  unfold scene_inv.
  cbn [Gml2glb.st_meshes Gml2glb.st_accessors Gml2glb.st_buffer_views].
  subst views2 views1. rewrite <- !app_assoc. cbn [app].
  split; [rewrite !length_app; simpl; fold M; lia|].
  split; [rewrite !length_app; simpl; fold M; lia|].
  intros i m Hm. apply nth_error_snoc in Hm. destruct Hm as [Hold|[-> ->]].
  - apply mesh_resolves_app. now apply Hmeshes.
  - fold M. unfold mesh_resolves. cbn [Gml2glb.POSITION Gml2glb.indices].
    rewrite length_app. cbn [length]. rewrite Hacc.
    split; [reflexivity|]. split; [lia|].
    rewrite Hcount, Hicount.
    eexists (3 * T), _, _, _, _.
    split.
    { rewrite nth_error_app2 by lia. rewrite Hacc, Nat.sub_diag.
      cbn [nth_error]. rewrite Hviews. reflexivity. }
    split.
    { rewrite nth_error_app2 by lia.
      replace (2 * M + 1 - length (Gml2glb.st_accessors st)) with 1 by lia.
      cbn [nth_error]. rewrite length_app, Hviews. reflexivity. }
    split; [lia|]. split.
    { replace (3 * T) with (T * 3) by lia. apply Nat.Div0.mod_mul. }
    split; [reflexivity|]. split; [reflexivity|].
    split.
    { rewrite nth_error_app2 by lia. rewrite Hviews, Nat.sub_diag.
      reflexivity. }
    split; [reflexivity|]. split.
    { rewrite nth_error_app2 by lia.
      replace (2 * M + 1 - length (Gml2glb.st_buffer_views st)) with 1 by lia.
      reflexivity. }
    reflexivity.
Qed.

Lemma add_buildings_scene_inv (offset : point R) (bd : dict building_info)
  (st : Gml2glb.glb_state) :
  scene_inv st ->
  scene_inv
    (fold_left (Gml2glb.add_building float32_bytes uint32_bytes offset) bd st).
Proof.
  revert st. induction bd as [|item bd IH]; intros st Hinv; [exact Hinv|].
  cbn [fold_left]. apply IH. now apply add_building_scene_inv.
Qed.

(** Every reference inside the scene [create_glb] builds resolves, for any
    buildings and offset.  There are two accessors and two buffer views per
    mesh and one node per mesh; the scene lists the nodes [0 .. n-1]; node
    [i] shows mesh [i] under the mesh's name; and mesh [i] resolves as
    [mesh_resolves] says: its accessors and their buffer views exist, have
    the right kinds, and the index accessor counts as many elements as the
    position accessor has vertices. *)
Theorem create_glb_scene_resolves (buildings_data : dict building_info)
  (offset : point R) :
  let scene :=
    fst (Gml2glb.create_scene float32_bytes uint32_bytes buildings_data offset) in
  length (Gml2glb.accessors scene) = 2 * length (Gml2glb.meshes scene)
  /\ length (Gml2glb.bufferViews scene) = 2 * length (Gml2glb.meshes scene)
  /\ Gml2glb.scene_nodes scene = seq 0 (length (Gml2glb.nodes scene))
  /\ length (Gml2glb.nodes scene) = length (Gml2glb.meshes scene)
  /\ (forall i n, nth_error (Gml2glb.nodes scene) i = Some n ->
        Gml2glb.node_mesh n = i
        /\ exists m, nth_error (Gml2glb.meshes scene) i = Some m
                     /\ Gml2glb.node_name n = Gml2glb.mesh_name m)
  /\ (forall i m, nth_error (Gml2glb.meshes scene) i = Some m ->
        mesh_resolves (Gml2glb.accessors scene) (Gml2glb.bufferViews scene)
          i m).
Proof.
  intros scene.
  pose proof (@add_buildings_scene_inv offset buildings_data
                {| Gml2glb.st_meshes := []; Gml2glb.st_accessors := [];
                   Gml2glb.st_buffer_views := []; Gml2glb.st_buffers_data := [];
                   Gml2glb.current_byte_offset := 0 |}) as Hinv.
  destruct Hinv as [Hacc [Hviews Hmeshes]].
  { split; [reflexivity|]. split; [reflexivity|]. intros [|i] m H; discriminate. }
  unfold scene, Gml2glb.create_scene.
  cbn [fst Gml2glb.accessors Gml2glb.bufferViews Gml2glb.scene_nodes
       Gml2glb.nodes Gml2glb.meshes].
  split; [exact Hacc|]. split; [exact Hviews|].
  split; [now rewrite length_map, length_seq|].
  split; [now rewrite length_map, length_seq|].
  split; [|exact Hmeshes].
  intros i n Hn. rewrite nth_error_map in Hn.
  destruct (nth_error (seq 0 _) i) as [j|] eqn:Hj; [|discriminate].
  apply nth_error_seq_Some in Hj. destruct Hj as [Hlt ->].
  cbn [option_map] in Hn. injection Hn as <-.
  cbn [Gml2glb.node_mesh Gml2glb.node_name Nat.add]. split; [reflexivity|].
  eexists. split; [|reflexivity].
  now apply nth_error_nth'.
Qed.

End SceneReferences.

(* ----------------------------------------------------------------- *)
(** ** The records of the OBJ file *)

Section ObjRecords.
Context {R : Type} {AR : Arith R} {NR : Norm R}.

Local Abbreviation obj_line := (@ObjWriter.obj_line R).

(** The [v], [vn] and [f] records of a file, each kind in file order. *)
Definition vertex_records (lines : list obj_line) : list (point R) :=
  flat_map (fun l => match l with ObjWriter.Vertex v => [v] | _ => [] end) lines.
Definition normal_records (lines : list obj_line) : list (point R) :=
  flat_map (fun l => match l with ObjWriter.Normal n => [n] | _ => [] end) lines.
Definition face_records (lines : list obj_line) : list (nat * nat * nat * nat) :=
  flat_map
    (fun l =>
       match l with ObjWriter.Face a b c n => [(a, b, c, n)] | _ => [] end)
    lines.

(** Record number [i] of a list of records: OBJ numbers them from 1. *)
Definition record (A : Type) (records : list A) (i : nat) : option A :=
  match i with
  | 0 => None
  | S j => nth_error records j
  end.

(** [normal] is the normal of the triangle the face names. *)
Definition own_normal (vertices : list (point R)) (face : nat * nat * nat)
  (normal : point R) : Prop :=
  let '(a, b, c) := face in
  exists va vb vc,
    record vertices a = Some va /\ record vertices b = Some vb
    /\ record vertices c = Some vc
    /\ normal = Geometry.calculate_normal va vb vc.

(** Faces and normals read side by side from number [k] on: each face
    names the normal of its own rank, and that normal is the normal of the
    face's three vertices. *)
Fixpoint faces_match (vertices : list (point R)) (k : nat)
  (faces : list (nat * nat * nat * nat)) (normals : list (point R)) : Prop :=
  match faces, normals with
  | [], [] => True
  | (a, b, c, n) :: faces', normal :: normals' =>
      n = k /\ own_normal vertices (a, b, c) normal
      /\ faces_match vertices (S k) faces' normals'
  | _, _ => False
  end.

(** [if len(polygon) < 3: continue] *)
Definition kept_polygons (polygons : list (list (point R)))
  : list (list (point R)) :=
  filter (fun polygon => negb (length polygon <? 3)) polygons.

(** The normal [_write_group] computes for a triangle of a polygon. *)
Definition normal_of (polygon : list (point R)) (t : Geometry.triangle)
  : point R :=
  let '(i0, i1, i2) := t in
  Geometry.calculate_normal (ObjWriter.item polygon i0)
    (ObjWriter.item polygon i1) (ObjWriter.item polygon i2).

Definition polygon_normals (polygon : list (point R)) : list (point R) :=
  map (normal_of polygon) (Geometry.triangulate_polygon polygon).

Definition shift (base : nat) (t : Geometry.triangle) : nat * nat * nat :=
  let '(i0, i1, i2) := t in (base + i0, base + i1, base + i2).

Lemma write_triangles_eq (vc : nat) (polygon : list (point R))
  (tris : list Geometry.triangle) (st : ObjWriter.group_state) :
  fold_left (ObjWriter.write_triangle vc polygon) tris st
  = {| ObjWriter.written :=
         ObjWriter.written st
         ++ map (fun t => ObjWriter.Normal (normal_of polygon t)) tris;
       ObjWriter.group_vertices := ObjWriter.group_vertices st;
       ObjWriter.group_faces :=
         ObjWriter.group_faces st
         ++ map (shift (vc + ObjWriter.vertex_offset st)) tris;
       ObjWriter.vertex_offset := ObjWriter.vertex_offset st |}.
Proof.
  revert st. induction tris as [|[[i0 i1] i2] tris IH]; intros st.
  - destruct st. simpl. now rewrite !app_nil_r.
  - cbn [fold_left]. rewrite IH. unfold ObjWriter.write_triangle.
    cbn [ObjWriter.written ObjWriter.group_vertices ObjWriter.group_faces
         ObjWriter.vertex_offset map normal_of shift].
    now rewrite <- !app_assoc.
Qed.

Lemma vertex_records_app (l1 l2 : list obj_line) :
  vertex_records (l1 ++ l2) = vertex_records l1 ++ vertex_records l2.
Proof. apply flat_map_app. Qed.

Lemma normal_records_app (l1 l2 : list obj_line) :
  normal_records (l1 ++ l2) = normal_records l1 ++ normal_records l2.
Proof. apply flat_map_app. Qed.

Lemma face_records_app (l1 l2 : list obj_line) :
  face_records (l1 ++ l2) = face_records l1 ++ face_records l2.
Proof. apply flat_map_app. Qed.

Lemma records_of_vertices (ps : list (point R)) :
  vertex_records (map ObjWriter.Vertex ps) = ps
  /\ normal_records (map (@ObjWriter.Vertex R) ps) = []
  /\ face_records (map (@ObjWriter.Vertex R) ps) = [].
Proof.
  induction ps as [|p ps [IH1 [IH2 IH3]]]; [now repeat split|].
  repeat split; simpl; [now f_equal|assumption|assumption].
Qed.

Lemma records_of_normals (A : Type) (f : A -> point R) (ts : list A) :
  vertex_records (map (fun t => ObjWriter.Normal (f t)) ts) = []
  /\ normal_records (map (fun t => ObjWriter.Normal (f t)) ts) = map f ts
  /\ face_records (map (fun t => ObjWriter.Normal (f t)) ts) = [].
Proof.
  induction ts as [|t ts [IH1 [IH2 IH3]]]; [now repeat split|].
  repeat split; simpl; [assumption|now f_equal|assumption].
Qed.

(** A collected face of a group that starts at [vc] and its normal. *)
Definition local_normal (vc : nat) (group_vertices : list (point R))
  (face : nat * nat * nat) (normal : point R) : Prop :=
  exists ia ib ic va vb vc',
    face = (vc + ia, vc + ib, vc + ic)
    /\ nth_error group_vertices ia = Some va
    /\ nth_error group_vertices ib = Some vb
    /\ nth_error group_vertices ic = Some vc'
    /\ normal = Geometry.calculate_normal va vb vc'.

Lemma local_normal_app vc gv more face normal :
  local_normal vc gv face normal -> local_normal vc (gv ++ more) face normal.
Proof.
  intros [ia [ib [ic [va [vb [vc' [Hf [Ha [Hb [Hc Hn]]]]]]]]]].
  exists ia, ib, ic, va, vb, vc'. repeat split; auto using nth_error_app_Some.
Qed.

(** What holds of the local state of [_write_group] between two
    polygons. *)
Definition records_inv (vc : nat) (st : ObjWriter.group_state (R := R)) : Prop :=
  vertex_records (ObjWriter.written st) = ObjWriter.group_vertices st
  /\ face_records (ObjWriter.written st) = []
  /\ ObjWriter.vertex_offset st = length (ObjWriter.group_vertices st)
  /\ Forall2 (local_normal vc (ObjWriter.group_vertices st))
       (ObjWriter.group_faces st) (normal_records (ObjWriter.written st)).

Lemma Forall2_map_same (A B C : Type) (P : B -> C -> Prop)
  (f : A -> B) (g : A -> C) (l : list A) :
  (forall x, In x l -> P (f x) (g x)) -> Forall2 P (map f l) (map g l).
Proof.
  induction l as [|x l IH]; intros H; [constructor|].
  simpl. constructor; [apply H; now left|].
  apply IH. intros y Hy. apply H. now right.
Qed.

Lemma Forall2_weaken (A B : Type) (P Q : A -> B -> Prop) l1 l2 :
  (forall x y, P x y -> Q x y) -> Forall2 P l1 l2 -> Forall2 Q l1 l2.
Proof. intros H. induction 1; constructor; auto. Qed.

Lemma write_polygon_records (vc : nat) (st : ObjWriter.group_state)
  (polygon : list (point R)) :
  records_inv vc st ->
  records_inv vc (ObjWriter.write_polygon vc st polygon)
  /\ ObjWriter.group_vertices (ObjWriter.write_polygon vc st polygon)
     = ObjWriter.group_vertices st ++ concat (kept_polygons [polygon])
  /\ normal_records (ObjWriter.written (ObjWriter.write_polygon vc st polygon))
     = normal_records (ObjWriter.written st)
       ++ flat_map polygon_normals (kept_polygons [polygon]).
Proof.
  intros [Hv [Hf [Ho Hn]]]. unfold ObjWriter.write_polygon, kept_polygons.
  cbn [filter].
  destruct (length polygon <? 3); cbn [negb concat flat_map];
    [rewrite !app_nil_r; repeat split; assumption|].
  rewrite write_triangles_eq.
  cbn [ObjWriter.written ObjWriter.group_vertices ObjWriter.group_faces
       ObjWriter.vertex_offset].
  destruct (records_of_vertices polygon) as [Vv [Vn Vf]].
  destruct (records_of_normals (normal_of polygon)
              (Geometry.triangulate_polygon polygon)) as [Nv [Nn Nf]].
  rewrite !app_nil_r. unfold records_inv.
  cbn [ObjWriter.written ObjWriter.group_vertices ObjWriter.group_faces
       ObjWriter.vertex_offset].
  rewrite !vertex_records_app, !normal_records_app, !face_records_app.
  rewrite Vv, Vn, Vf, Nv, Nn, Nf, Hv, Hf, !app_nil_r. cbn [app].
  split; [|split; reflexivity].
  split; [reflexivity|]. split; [reflexivity|].
  split; [rewrite length_app; lia|].
  apply Forall2_app.
  - eapply Forall2_weaken; [|exact Hn]. intros x y. apply local_normal_app.
  - apply Forall2_map_same. intros [[i0 i1] i2] Hin.
    assert (H0 : i0 < length polygon)
      by (eapply triangulate_polygon_in_range; [exact Hin|simpl; auto]).
    assert (H1 : i1 < length polygon)
      by (eapply triangulate_polygon_in_range; [exact Hin|simpl; auto]).
    assert (H2 : i2 < length polygon)
      by (eapply triangulate_polygon_in_range; [exact Hin|simpl; auto]).
    exists (ObjWriter.vertex_offset st + i0), (ObjWriter.vertex_offset st + i1),
      (ObjWriter.vertex_offset st + i2),
      (ObjWriter.item polygon i0), (ObjWriter.item polygon i1),
      (ObjWriter.item polygon i2).
    split; [cbn [shift]; now rewrite !Nat.add_assoc|].
    rewrite Ho.
    assert (Hnth : forall i, i < length polygon ->
              nth_error (ObjWriter.group_vertices st ++ polygon)
                (length (ObjWriter.group_vertices st) + i)
              = Some (ObjWriter.item polygon i)).
    { intros i Hi. rewrite nth_error_app2 by lia.
      replace (length (ObjWriter.group_vertices st) + i
               - length (ObjWriter.group_vertices st)) with i by lia.
      now apply nth_error_nth'. }
    split; [now apply Hnth|]. split; [now apply Hnth|].
    split; [now apply Hnth|reflexivity].
Qed.

Lemma write_polygons_records (vc : nat) (polys : list (list (point R)))
  (st : ObjWriter.group_state) :
  records_inv vc st ->
  let st' := fold_left (ObjWriter.write_polygon vc) polys st in
  records_inv vc st'
  /\ ObjWriter.group_vertices st'
     = ObjWriter.group_vertices st ++ concat (kept_polygons polys)
  /\ normal_records (ObjWriter.written st')
     = normal_records (ObjWriter.written st)
       ++ flat_map polygon_normals (kept_polygons polys).
Proof.
  revert st. induction polys as [|p polys IH]; intros st Hinv; cbv zeta.
  - simpl. now rewrite !app_nil_r.
  - cbn [fold_left].
    destruct (write_polygon_records p Hinv) as [Hinv1 [Hv1 Hn1]].
    destruct (IH _ Hinv1) as [Hinv2 [Hv2 Hn2]].
    split; [exact Hinv2|].
    replace (kept_polygons (p :: polys))
      with (kept_polygons [p] ++ kept_polygons polys)
      by (unfold kept_polygons; cbn [filter];
          now destruct (negb (length p <? 3))).
    rewrite concat_app, flat_map_app, Hv2, Hn2, Hv1, Hn1.
    now rewrite <- !app_assoc.
Qed.

Lemma record_app_l (A : Type) (l l' : list A) (i : nat) (x : A) :
  record l i = Some x -> record (l ++ l') i = Some x.
Proof. destruct i as [|j]; [discriminate|]. apply nth_error_app_Some. Qed.

Lemma own_normal_app vs more face normal :
  own_normal vs face normal -> own_normal (vs ++ more) face normal.
Proof.
  destruct face as [[a b] c].
  intros [va [vb [vc [Ha [Hb [Hc Hn]]]]]].
  exists va, vb, vc. repeat split; auto using record_app_l.
Qed.

Lemma faces_match_more vs more k faces normals :
  faces_match vs k faces normals -> faces_match (vs ++ more) k faces normals.
Proof.
  revert k normals. induction faces as [|[[[a b] c] n] faces IH];
    intros k [|normal normals] H; try exact H.
  destruct H as [Hk [Hown H]]. split; [exact Hk|].
  split; [now apply own_normal_app|now apply IH].
Qed.

Lemma faces_match_length vs k faces normals :
  faces_match vs k faces normals -> length faces = length normals.
Proof.
  revert k normals. induction faces as [|[[[a b] c] n] faces IH];
    intros k [|normal normals] H; try contradiction; [reflexivity|].
  destruct H as [_ [_ H]]. simpl. f_equal. exact (IH _ _ H).
Qed.

Lemma faces_match_app vs k faces1 normals1 faces2 normals2 :
  faces_match vs k faces1 normals1 ->
  faces_match vs (k + length normals1) faces2 normals2 ->
  faces_match vs k (faces1 ++ faces2) (normals1 ++ normals2).
Proof.
  revert k normals1. induction faces1 as [|[[[a b] c] n] faces1 IH];
    intros k [|normal normals1] H1 H2; try contradiction.
  - simpl in H2. now rewrite Nat.add_0_r in H2.
  - destruct H1 as [Hk [Hown H1]]. cbn [app faces_match].
    split; [exact Hk|]. split; [exact Hown|]. apply IH; [exact H1|].
    simpl in H2. now rewrite Nat.add_succ_r in H2.
Qed.

(** The trailing [f] lines of a group whose vertices follow the records
    [before]. *)
Lemma face_lines_match (before group_vertices : list (point R))
  (faces : list (nat * nat * nat)) (normals : list (point R)) (nc i : nat) :
  Forall2 (local_normal (length before + 1) group_vertices) faces normals ->
  vertex_records (ObjWriter.face_lines (R := R) nc i faces) = []
  /\ normal_records (ObjWriter.face_lines (R := R) nc i faces) = []
  /\ faces_match (before ++ group_vertices) (nc + i)
       (face_records (ObjWriter.face_lines (R := R) nc i faces)) normals.
Proof.
  intros H. revert i.
  induction H as [|[[a b] c] normal faces normals Hl _ IH]; intros i.
  - now repeat split.
  - destruct (IH (S i)) as [IHv [IHn IHf]].
    cbn [ObjWriter.face_lines]. split; [exact IHv|]. split; [exact IHn|].
    change (face_records (ObjWriter.Face a b c (nc + i)
                          :: ObjWriter.face_lines nc (S i) faces))
      with ((a, b, c, nc + i)
            :: face_records (ObjWriter.face_lines (R := R) nc (S i) faces)).
    cbn [faces_match]. split; [reflexivity|].
    split; [|now rewrite Nat.add_succ_r in IHf].
    destruct Hl as [ia [ib [ic [va [vb [vc' [Hf [Ha [Hb [Hc Hn]]]]]]]]]].
    injection Hf as -> -> ->.
    assert (Hrec : forall j v, nth_error group_vertices j = Some v ->
              record (before ++ group_vertices) (length before + 1 + j)
              = Some v).
    { intros j v Hj.
      replace (length before + 1 + j) with (S (length before + j)) by lia.
      cbn [record]. rewrite nth_error_app2 by lia.
      now replace (length before + j - length before) with j by lia. }
    exists va, vb, vc'. repeat split; auto.
Qed.

(** One group, written after the vertex records [before] and [N] normal
    records. *)
Lemma write_group_records (self : ObjWriter.counters) (gml_id : string)
  (geo : geo_data R) (before : list (point R)) (N : nat) :
  ObjWriter.vertex_count self = length before + 1 ->
  ObjWriter.normal_count self = N + 1 ->
  let '(lines, self') := ObjWriter._write_group self gml_id geo in
  vertex_records lines = concat (kept_polygons (polygons geo))
  /\ normal_records lines = flat_map polygon_normals (kept_polygons (polygons geo))
  /\ faces_match (before ++ vertex_records lines) (N + 1)
       (face_records lines) (normal_records lines)
  /\ ObjWriter.vertex_count self' = length before + length (vertex_records lines) + 1
  /\ ObjWriter.normal_count self' = N + length (normal_records lines) + 1.
Proof.
  intros HV HN. unfold ObjWriter._write_group.
  set (st0 := {| ObjWriter.written := _; ObjWriter.group_vertices := [];
                 ObjWriter.group_faces := []; ObjWriter.vertex_offset := 0 |}).
  assert (Hinv0 : records_inv (ObjWriter.vertex_count self) st0).
  { repeat split. constructor. }
  destruct (write_polygons_records (polygons geo) Hinv0) as [Hinv [Hgv Hgn]].
  set (st := fold_left _ (polygons geo) st0) in *.
  destruct Hinv as [Hv [Hf [Ho Hn]]].
  rewrite HV in Hn.
  destruct (face_lines_match before (ObjWriter.normal_count self) 0 Hn)
    as [Fv [Fn Ff]].
  rewrite !vertex_records_app, !normal_records_app, !face_records_app.
  rewrite Fv, Fn, Hf, Hv. cbn [app vertex_records normal_records face_records
                                flat_map].
  rewrite !app_nil_r.
  change (ObjWriter.group_vertices st0) with (@nil (point R)) in Hgv.
  change (normal_records (ObjWriter.written st0)) with (@nil (point R)) in Hgn.
  cbn [app] in Hgv, Hgn.
  split; [exact Hgv|]. split; [exact Hgn|].
  split; [rewrite Nat.add_0_r in Ff; rewrite <- HN; exact Ff|].
  cbn [ObjWriter.vertex_count ObjWriter.normal_count].
  split; [lia|]. rewrite (Forall2_length Hn). lia.
Qed.

Lemma write_groups_records (geometries : dict (geo_data R))
  (self : ObjWriter.counters) (before : list (point R)) (N : nat) :
  ObjWriter.vertex_count self = length before + 1 ->
  ObjWriter.normal_count self = N + 1 ->
  let lines := fst (ObjWriter.write_groups self geometries) in
  vertex_records lines
    = flat_map (fun geo => concat (kept_polygons (polygons geo)))
        (dict_values geometries)
  /\ normal_records lines
     = flat_map (fun geo => flat_map polygon_normals (kept_polygons (polygons geo)))
         (dict_values geometries)
  /\ faces_match (before ++ vertex_records lines) (N + 1)
       (face_records lines) (normal_records lines).
Proof.
  revert self before N.
  induction geometries as [|[gml_id geo] rest IH]; intros self before N HV HN;
    cbv zeta.
  - now repeat split.
  - cbn [ObjWriter.write_groups].
    pose proof (@write_group_records self gml_id geo before N HV HN) as Hg.
    destruct (ObjWriter._write_group self gml_id geo) as [ls self1].
    destruct Hg as [Hv [Hn [Hm [HV1 HN1]]]].
    rewrite <- length_app in HV1.
    specialize (IH self1 _ _ HV1 HN1). cbv zeta in IH.
    destruct (ObjWriter.write_groups self1 rest) as [ls' self2].
    cbn [fst] in *. destruct IH as [IHv [IHn IHm]].
    rewrite vertex_records_app, normal_records_app, face_records_app.
    unfold dict_values in *. cbn [map flat_map snd].
    split; [now rewrite Hv, <- IHv|]. split; [now rewrite Hn, <- IHn|].
    apply faces_match_app.
    + rewrite app_assoc. now apply faces_match_more.
    + rewrite app_assoc.
      replace (N + 1 + length (normal_records ls))
        with (N + length (normal_records ls) + 1) by lia.
      exact IHm.
Qed.

(** The records of the file [write_single_obj] writes, for any geometries.
    The vertex records are the vertices of the polygons of at least three
    vertices, polygon after polygon, object after object (a closing vertex
    included); there is one normal record per triangle of these polygons;
    and faces and normals pair up in file order: there are as many of each,
    the k-th face names normal k alone, and normal k is
    [calculate_normal] of the three vertex records the k-th face names. *)
Theorem write_single_obj_faces_own_normals (geometries : dict (geo_data R))
  (mtl_filename : string) (offset : point R) :
  let lines := fst (ObjWriter.write_single_obj geometries mtl_filename offset) in
  vertex_records lines
    = flat_map (fun geo => concat (kept_polygons (polygons geo)))
        (dict_values geometries)
  /\ normal_records lines
     = flat_map (fun geo => flat_map polygon_normals (kept_polygons (polygons geo)))
         (dict_values geometries)
  /\ length (face_records lines) = length (normal_records lines)
  /\ faces_match (vertex_records lines) 1 (face_records lines)
       (normal_records lines).
Proof.
  intros lines.
  destruct (@write_groups_records geometries
              {| ObjWriter.vertex_count := 1; ObjWriter.normal_count := 1 |}
              [] 0 eq_refl eq_refl) as [Hv [Hn Hm]].
  assert (Hlines : vertex_records lines
                   = vertex_records (fst (ObjWriter.write_groups
                       {| ObjWriter.vertex_count := 1;
                          ObjWriter.normal_count := 1 |} geometries))
                   /\ normal_records lines
                      = normal_records (fst (ObjWriter.write_groups
                          {| ObjWriter.vertex_count := 1;
                             ObjWriter.normal_count := 1 |} geometries))
                   /\ face_records lines
                      = face_records (fst (ObjWriter.write_groups
                          {| ObjWriter.vertex_count := 1;
                             ObjWriter.normal_count := 1 |} geometries))).
  { unfold lines, ObjWriter.write_single_obj. cbn [fst].
    rewrite vertex_records_app, normal_records_app, face_records_app.
    now repeat split. }
  destruct Hlines as [-> [-> ->]].
  split; [exact Hv|]. split; [exact Hn|].
  split; [exact (faces_match_length _ _ _ _ Hm)|exact Hm].
Qed.

End ObjRecords.

(* ----------------------------------------------------------------- *)
(** ** The material library of the OBJ file *)

(** What one [f.write] of [_write_mtl_file] puts in the file: the
    numbers are the literals of the source. *)
Inductive mtl_line : Type :=
| MtlComment (text : string)        (* "# CityGML Materials" *)
| MtlBlank                          (* an empty line *)
| Newmtl (name : string)            (* "newmtl name" *)
| Ka (r g b : string)               (* ambient *)
| Kd (r g b : string)               (* diffuse *)
| Ks (r g b : string)               (* specular *)
| Ns (shininess : string).

(** [OBJWriter._write_mtl_file] *)
Definition _write_mtl_file : list mtl_line :=
  [MtlComment "# CityGML Materials"; MtlBlank;
   Newmtl "roof";
   Ka "0.8" "0.3" "0.2"; Kd "0.8" "0.3" "0.2"; Ks "0.2" "0.2" "0.2";
   Ns "50.0"; MtlBlank;
   Newmtl "wall";
   Ka "0.7" "0.7" "0.7"; Kd "0.7" "0.7" "0.7"; Ks "0.3" "0.3" "0.3";
   Ns "30.0"; MtlBlank;
   Newmtl "ground";
   Ka "0.5" "0.4" "0.3"; Kd "0.5" "0.4" "0.3"; Ks "0.1" "0.1" "0.1";
   Ns "20.0"; MtlBlank;
   Newmtl "closure";
   Ka "0.3" "0.4" "0.7"; Kd "0.3" "0.4" "0.7"; Ks "0.2" "0.2" "0.2";
   Ns "40.0"; MtlBlank;
   Newmtl "building";
   Ka "0.6" "0.6" "0.6"; Kd "0.6" "0.6" "0.6"; Ks "0.2" "0.2" "0.2";
   Ns "30.0"; MtlBlank;
   Newmtl "default";
   Ka "0.5" "0.5" "0.5"; Kd "0.5" "0.5" "0.5"; Ks "0.2" "0.2" "0.2";
   Ns "25.0"].

(** The materials a library defines, in file order. *)
Definition defined_materials (lines : list mtl_line) : list string :=
  flat_map (fun l => match l with Newmtl name => [name] | _ => [] end) lines.

Section ObjMaterials.
Context {R : Type} {AR : Arith R} {NR : Norm R}.

Local Abbreviation obj_line := (@ObjWriter.obj_line R).

(** The materials the [usemtl] records of a file name, in file order. *)
Definition used_materials (lines : list obj_line) : list string :=
  flat_map (fun l => match l with ObjWriter.Usemtl m => [m] | _ => [] end) lines.

Lemma used_materials_app (l1 l2 : list obj_line) :
  used_materials (l1 ++ l2) = used_materials l1 ++ used_materials l2.
Proof. apply flat_map_app. Qed.

Lemma used_materials_vertices (ps : list (point R)) :
  used_materials (map (@ObjWriter.Vertex R) ps) = [].
Proof. induction ps; simpl; auto. Qed.

Lemma used_materials_normals (A : Type) (f : A -> point R) (ts : list A) :
  used_materials (map (fun t => ObjWriter.Normal (f t)) ts) = [].
Proof. induction ts; simpl; auto. Qed.

Lemma used_materials_faces (nc i : nat) (faces : list (nat * nat * nat)) :
  used_materials (ObjWriter.face_lines (R := R) nc i faces) = [].
Proof.
  revert i. induction faces as [|[[a b] c] faces IH]; intros i; simpl; auto.
Qed.

Lemma write_polygons_materials (vc : nat) (polys : list (list (point R)))
  (st : ObjWriter.group_state) :
  used_materials (ObjWriter.written
                    (fold_left (ObjWriter.write_polygon vc) polys st))
  = used_materials (ObjWriter.written st).
Proof.
  revert st. induction polys as [|p polys IH]; intros st; [reflexivity|].
  cbn [fold_left]. rewrite IH. unfold ObjWriter.write_polygon.
  destruct (length p <? 3); [reflexivity|]. cbn [ObjWriter.written].
  rewrite write_triangles_eq. cbn [ObjWriter.written].
  rewrite !used_materials_app, used_materials_vertices, used_materials_normals.
  now rewrite !app_nil_r.
Qed.

Lemma write_groups_materials (geometries : dict (geo_data R))
  (self : ObjWriter.counters) :
  used_materials (fst (ObjWriter.write_groups self geometries))
  = map (fun geo => Geometry.get_material_for_type (element_type geo))
      (dict_values geometries).
Proof.
  revert self. induction geometries as [|[gml_id geo] rest IH]; intros self;
    [reflexivity|].
  cbn [ObjWriter.write_groups].
  assert (Hg : used_materials (fst (ObjWriter._write_group self gml_id geo))
               = [Geometry.get_material_for_type (element_type geo)]).
  { unfold ObjWriter._write_group. cbn [fst].
    rewrite !used_materials_app, write_polygons_materials,
      used_materials_faces. reflexivity. }
  destruct (ObjWriter._write_group self gml_id geo) as [ls self1].
  specialize (IH self1).
  destruct (ObjWriter.write_groups self1 rest) as [ls' self2].
  cbn [fst] in *. rewrite used_materials_app, Hg, IH. reflexivity.
Qed.

Lemma write_single_obj_used (geometries : dict (geo_data R))
  (mtl_filename : string) (offset : point R) :
  used_materials (fst (ObjWriter.write_single_obj geometries mtl_filename offset))
  = map (fun geo => Geometry.get_material_for_type (element_type geo))
      (dict_values geometries).
Proof.
  unfold ObjWriter.write_single_obj. cbn [fst].
  rewrite used_materials_app, write_groups_materials. reflexivity.
Qed.

Lemma material_defined (element_type : string) :
  In (Geometry.get_material_for_type element_type)
     (defined_materials _write_mtl_file).
Proof.
  unfold Geometry.get_material_for_type, Geometry.material_map.
  cbn [dict_get].
  repeat (match goal with
          | |- context [String.eqb ?a ?b] => destruct (String.eqb a b)
          end; [vm_compute; tauto|]).
  vm_compute; tauto.
Qed.

(** Every material the OBJ file uses is defined, for any geometries:
    the file has one [usemtl] record per object, in order, naming
    [get_material_for_type] of the object's type; each of these names is
    defined in the library [_write_mtl_file] writes beside the file; and the
    library defines no material twice. *)
Theorem write_single_obj_materials_defined (geometries : dict (geo_data R))
  (mtl_filename : string) (offset : point R) :
  let lines := fst (ObjWriter.write_single_obj geometries mtl_filename offset) in
  used_materials lines
    = map (fun geo => Geometry.get_material_for_type (element_type geo))
        (dict_values geometries)
  /\ (forall m, In m (used_materials lines) ->
        In m (defined_materials _write_mtl_file))
  /\ NoDup (defined_materials _write_mtl_file).
Proof.
  intros lines. unfold lines. rewrite write_single_obj_used.
  split; [reflexivity|]. split.
  - intros m Hm. apply in_map_iff in Hm. destruct Hm as [geo [<- _]].
    apply material_defined.
  - vm_compute. repeat constructor; simpl; intuition discriminate.
Qed.

End ObjMaterials.

(* ----------------------------------------------------------------- *)
(** ** The element types of a parsed document and their materials *)

Section ParsedTypes.
Context {R : Type}.
Variable float_of_string : string -> option R.

(** The element types [parse] can give a record. *)
Definition parsed_types : list string := "Building" :: Parser.surface_types.

Lemma has_tag_local (name : Xml.qname) (e : Xml.element) :
  Xml.has_tag name e = true -> snd (Xml.tag e) = snd name.
Proof.
  unfold Xml.has_tag, Xml.qname_eqb. intros H.
  apply andb_prop in H. destruct H as [_ H]. now apply String.eqb_eq.
Qed.

Lemma xpath_all_local (root e : Xml.element) (name : Xml.qname) :
  In e (Xml.xpath_all root name) -> snd (Xml.tag e) = snd name.
Proof.
  unfold Xml.xpath_all. intros H. apply filter_In in H.
  apply has_tag_local, H.
Qed.

Lemma extract_geometry_type (element : Xml.element) (geo : geo_data R) :
  Parser._extract_geometry float_of_string element = Ok geo ->
  element_type geo = snd (Xml.tag element).
Proof.
  unfold Parser._extract_geometry.
  match goal with
  | |- context [Parser.extend_each ?body ?xs] =>
      destruct (Parser.extend_each body xs) as [polys|e]; [|discriminate]
  end.
  cbn [bind]. intros H. apply Ok_inj in H. now subst geo.
Qed.

(** The type [harvest] stores for an element. *)
Definition stored_type (retype : option string) (element : Xml.element)
  : string :=
  match retype with
  | Some surface_type => surface_type
  | None => snd (Xml.tag element)
  end.

Lemma harvest_types (types : list string) (retype : option string)
  (geometries g' : dict (geo_data R)) (element : Xml.element) :
  Parser.harvest float_of_string retype geometries element = Ok g' ->
  In (stored_type retype element) types ->
  (forall k geo, In (k, geo) geometries -> In (element_type geo) types) ->
  forall k geo, In (k, geo) g' -> In (element_type geo) types.
Proof.
  intros Hh Hty Hall. unfold Parser.harvest in Hh.
  destruct (Xml.get element (Xml.gml "id")) as [[|ch t]|];
    try (apply Ok_inj in Hh; subst g'; exact Hall).
  destruct (Parser._extract_geometry float_of_string element) as [geo0|e]
    eqn:Hg; [|discriminate]. cbn [bind] in Hh.
  apply extract_geometry_type in Hg.
  set (geo1 := match retype with
               | Some surface_type =>
                   {| element_type := surface_type;
                      polygons := polygons geo0;
                      metadata := metadata geo0 |}
               | None => geo0
               end) in Hh.
  assert (Ht : element_type geo1 = stored_type retype element)
    by (destruct retype; [reflexivity|exact Hg]).
  destruct (polygons geo1) as [|p ps].
  - apply Ok_inj in Hh. subst g'. exact Hall.
  - apply Ok_inj in Hh. subst g'. intros k geo Hin.
    apply In_dict_set in Hin. destruct Hin as [Hin|[_ ->]].
    + exact (Hall _ _ Hin).
    + now rewrite Ht.
Qed.

Lemma harvest_loop_types (types : list string) (retype : option string)
  (visited : list Xml.element) (geometries g' : dict (geo_data R)) :
  Parser.fold_result (Parser.harvest float_of_string retype) visited geometries
    = Ok g' ->
  (forall e, In e visited -> In (stored_type retype e) types) ->
  (forall k geo, In (k, geo) geometries -> In (element_type geo) types) ->
  forall k geo, In (k, geo) g' -> In (element_type geo) types.
Proof.
  revert geometries. induction visited as [|e visited IH];
    intros geometries Hf Hv Hall; cbn [Parser.fold_result] in Hf.
  - apply Ok_inj in Hf. now subst g'.
  - destruct (Parser.harvest float_of_string retype geometries e) as [g1|err]
      eqn:Hh; [|discriminate]. cbn [bind] in Hf.
    apply (IH g1); auto.
    + intros x Hx. apply Hv. now right.
    + eapply harvest_types; [exact Hh| |exact Hall]. apply Hv. now left.
Qed.

(** Every record of a parsed document is a building or a surface of one of
    the four types. *)
Lemma parse_types (root : Xml.element) (geometries : dict (geo_data R)) :
  Parser.parse float_of_string root = Ok geometries ->
  forall k geo, In (k, geo) geometries -> In (element_type geo) parsed_types.
Proof.
  unfold Parser.parse. intros Hp.
  destruct (Parser.fold_result (Parser.harvest float_of_string None)
              (Xml.xpath_all root (Xml.bldg "Building")) []) as [g1|e] eqn:H1;
    [|discriminate]. cbn [bind] in Hp.
  assert (Hg1 : forall k geo, In (k, geo) g1 ->
                  In (element_type geo) parsed_types).
  { eapply harvest_loop_types; [exact H1| |intros k geo []].
    intros e He. cbn [stored_type]. rewrite (xpath_all_local _ _ _ He).
    now left. }
  clear H1.
  assert (Hloop : forall types g0 g2,
            incl types Parser.surface_types ->
            Parser.fold_result
              (fun geometries surface_type =>
                 Parser.fold_result
                   (Parser.harvest float_of_string (Some surface_type))
                   (Xml.xpath_all root (Xml.bldg surface_type)) geometries)
              types g0 = Ok g2 ->
            (forall k geo, In (k, geo) g0 -> In (element_type geo) parsed_types) ->
            forall k geo, In (k, geo) g2 -> In (element_type geo) parsed_types).
  { induction types as [|ty types IH]; intros g0 g2 Hincl Hf Hall;
      cbn [Parser.fold_result] in Hf.
    - apply Ok_inj in Hf. now subst g2.
    - destruct (Parser.fold_result
                  (Parser.harvest float_of_string (Some ty))
                  (Xml.xpath_all root (Xml.bldg ty)) g0) as [g3|err] eqn:H3;
        [|discriminate]. cbn [bind] in Hf.
      apply (IH g3 g2); auto.
      + intros x Hx. apply Hincl. now right.
      + eapply harvest_loop_types; [exact H3| |exact Hall].
        intros e _. cbn [stored_type]. right. apply Hincl. now left. }
  exact (Hloop _ _ _ (incl_refl _) Hp Hg1).
Qed.

End ParsedTypes.

Section TextMaterials.
Context {R : Type} {AR : Arith R} {NR : Norm R}.
Variable float_of_string : string -> option R.

Lemma parsed_type_material (t : string) :
  In t parsed_types ->
  In (Geometry.get_material_for_type t)
     ["building"; "roof"; "wall"; "ground"; "closure"].
Proof.
  intros H. repeat (destruct H as [<-|H]; [vm_compute; tauto|]).
  destruct H.
Qed.

(** A run of the text converter that writes its artifacts: the file has
    one [usemtl] record per entry of the metadata index, in order, and it
    names the material of the entry's element type; every entry is a
    [Building] or a surface of one of the four types, so the material is
    one of [building], [roof], [wall], [ground], [closure], each defined
    in the material library: the [default] material is never used. *)
Theorem text_run_materials (root : Xml.element) (mtl_filename : string)
  lines index :
  Convert.main float_of_string root mtl_filename = Ok (Some (lines, index)) ->
  used_materials lines
    = map (fun item =>
             Geometry.get_material_for_type (entry_element_type (snd item)))
        (objects index)
  /\ (forall k entry, In (k, entry) (objects index) ->
        In (entry_element_type entry) parsed_types)
  /\ (forall m, In m (used_materials lines) ->
        In m ["building"; "roof"; "wall"; "ground"; "closure"]
        /\ In m (defined_materials _write_mtl_file)
        /\ m <> "default").
Proof.
  intros Hm.
  destruct (convert_main_outputs _ _ _ Hm) as [g [Hp [Hnd [_ [Hobj _]]]]].
  pose proof (parse_types _ _ Hp) as Htypes.
  assert (Hused : used_materials lines
                  = map (fun geo => Geometry.get_material_for_type (element_type geo))
                      (dict_values g)).
  { unfold Convert.main in Hm. rewrite Hp in Hm. cbn [bind] in Hm.
    destruct g as [|item g']; [discriminate|].
    destruct (center_keeps_entries (item :: g') Hnd) as [_ Hentries].
    destruct (Geometry.center_coordinates (item :: g')) as [centered offset].
    cbn [fst] in Hentries.
    apply Ok_inj, Some_inj in Hm.
    assert (Hl : lines =
                 fst (ObjWriter.write_single_obj centered mtl_filename offset))
      by (now rewrite Hm).
    rewrite Hl, write_single_obj_used.
    apply (f_equal (map (fun item =>
                           Geometry.get_material_for_type
                             (entry_element_type (snd item))))) in Hentries.
    rewrite !map_map in Hentries. unfold dict_values. rewrite !map_map.
    exact Hentries. }
  assert (Hmat : forall m, In m (used_materials lines) ->
                   In m ["building"; "roof"; "wall"; "ground"; "closure"]).
  { intros m Hin. rewrite Hused in Hin. apply in_map_iff in Hin.
    destruct Hin as [geo [<- Hgeo]]. apply parsed_type_material.
    apply in_map_iff in Hgeo. destruct Hgeo as [[k geo'] [Heq Hin]].
    cbn [snd] in Heq. subst geo'. exact (Htypes _ _ Hin). }
  split; [|split].
  - rewrite Hused, Hobj. unfold dict_values. now rewrite !map_map.
  - intros k entry Hin. rewrite Hobj in Hin. apply in_map_iff in Hin.
    destruct Hin as [[k' geo] [Heq Hin]]. cbn [fst snd] in Heq.
    apply pair_equal_spec in Heq. destruct Heq as [_ <-].
    exact (Htypes _ _ Hin).
  - intros m Hin. pose proof (Hmat m Hin) as Hfive. split; [exact Hfive|].
    split.
    + repeat (destruct Hfive as [<-|Hfive]; [vm_compute; tauto|]).
      destruct Hfive.
    + repeat (destruct Hfive as [<-|Hfive]; [discriminate|]). destruct Hfive.
Qed.

End TextMaterials.

(** The run of the text converter on the document with three
    buildings: two buildings and two walls are written. *)
Lemma text_run_materials_witness :
  exists lines index,
    Convert.main Binary64Lexer.float_of_string Doc.three_buildings "model.mtl"
      = Ok (Some (lines, index))
    /\ used_materials lines = ["building"; "building"; "wall"; "wall"]
    /\ used_materials lines
       = map (fun item =>
                Geometry.get_material_for_type (entry_element_type (snd item)))
           (objects index)
    /\ (forall k entry, In (k, entry) (objects index) ->
          In (entry_element_type entry) parsed_types)
    /\ (forall m, In m (used_materials lines) ->
          In m ["building"; "roof"; "wall"; "ground"; "closure"]
          /\ In m (defined_materials _write_mtl_file)
          /\ m <> "default").
Proof.
  destruct (Convert.main Binary64Lexer.float_of_string Doc.three_buildings
              "model.mtl") as [[[lines index]|]|e] eqn:Hm;
    [|vm_compute in Hm; discriminate Hm|vm_compute in Hm; discriminate Hm].
  exists lines, index. split; [reflexivity|].
  pose proof (text_run_materials _ _ _ Hm) as [Hu [Ht Hd]].
  split; [|split; [|split]; assumption].
  apply (f_equal (fun r => match r with
                           | Ok (Some (l, _)) => used_materials l
                           | _ => []
                           end)) in Hm.
  rewrite <- Hm. vm_compute. reflexivity.
Defined.

(* ----------------------------------------------------------------- *)
(** ** The polygons of nested elements *)

(** Induction on a document: a property of the children gives the
    property of the element. *)
Fixpoint element_induction (P : Xml.element -> Prop)
  (step : forall tag attrib text children,
            Forall P children -> P (Xml.Element tag attrib text children))
  (e : Xml.element) : P e :=
  match e with
  | Xml.Element tag attrib text children =>
      step tag attrib text children
        ((fix all (cs : list Xml.element) : Forall P cs :=
            match cs with
            | [] => Forall_nil P
            | c :: cs0 => Forall_cons c (element_induction step c) (all cs0)
            end) children)
  end.

(** The descendants of a descendant are a block of the descendants, in
    document order. *)
Lemma descendants_block (b s : Xml.element) :
  In s (Xml.descendants b) ->
  exists before after,
    Xml.descendants b = before ++ Xml.descendants s ++ after.
Proof.
  revert s. induction b as [tag attrib text children IH] using element_induction.
  intros s Hs. cbn [Xml.descendants] in *.
  apply in_flat_map in Hs. destruct Hs as [c [Hc Hs]].
  destruct (in_split _ _ Hc) as [l1 [l2 ->]].
  rewrite flat_map_app. cbn [flat_map].
  set (F := flat_map (fun c : Xml.element => c :: Xml.descendants c)).
  destruct Hs as [<-|Hs].
  - exists (F l1 ++ [c]), (F l2). rewrite <- !app_assoc. reflexivity.
  - rewrite Forall_forall in IH.
    destruct (IH c Hc s Hs) as [before [after ->]].
    exists (F l1 ++ c :: before), (after ++ F l2).
    rewrite <- !app_assoc. cbn [app]. now rewrite <- !app_assoc.
Qed.

Section NestedPolygons.
Context {R : Type}.
Variable float_of_string : string -> option R.

Lemma extend_each_app_inv (A B : Type) (body : A -> result (list B))
  (xs ys : list A) (l : list B) :
  Parser.extend_each body (xs ++ ys) = Ok l ->
  exists lx ly,
    Parser.extend_each body xs = Ok lx
    /\ Parser.extend_each body ys = Ok ly
    /\ l = lx ++ ly.
Proof.
  revert l. induction xs as [|x xs IH]; intros l H.
  - exists [], l. now repeat split.
  - cbn [app Parser.extend_each] in *.
    destruct (body x) as [bx|e]; [|discriminate]. cbn [bind] in *.
    destruct (Parser.extend_each body (xs ++ ys)) as [rest|e] eqn:Hr;
      [|discriminate]. cbn [bind] in H. apply Ok_inj in H. subst l.
    destruct (IH rest eq_refl) as [lx [ly [Hx [Hy ->]]]].
    exists (bx ++ lx), ly. rewrite Hx. cbn [bind].
    split; [reflexivity|]. split; [exact Hy|]. now rewrite app_assoc.
Qed.

(** An element holds the polygons of the elements inside it: when [inner]
    is a descendant of [outer], the polygon loops [_extract_geometry]
    collects for [inner] are a block of the loops it collects for [outer],
    in the same order.  So the record of a building repeats the loops of
    each of its surfaces. *)
Theorem extract_geometry_holds_nested (outer inner : Xml.element)
  (geo_outer geo_inner : geo_data R) :
  In inner (Xml.descendants outer) ->
  Parser._extract_geometry float_of_string outer = Ok geo_outer ->
  Parser._extract_geometry float_of_string inner = Ok geo_inner ->
  (exists before after,
     polygons geo_outer = before ++ polygons geo_inner ++ after)
  /\ length (polygons geo_inner) <= length (polygons geo_outer)
  /\ forall polygon, In polygon (polygons geo_inner) ->
                     In polygon (polygons geo_outer).
Proof.
  intros Hin Ho Hi.
  assert (Hblock : exists before after,
             polygons geo_outer = before ++ polygons geo_inner ++ after).
  { destruct (descendants_block _ _ Hin) as [d1 [d2 Hd]].
    unfold Parser._extract_geometry, Xml.findall_desc in Ho, Hi.
    rewrite Hd, !filter_app in Ho.
    match type of Ho with
    | context [Parser.extend_each ?body ?xs] =>
        destruct (Parser.extend_each body xs) as [polys|e] eqn:Hp;
          [|discriminate]
    end.
    cbn [bind] in Ho. apply Ok_inj in Ho. subst geo_outer.
    cbn [polygons].
    apply extend_each_app_inv in Hp. destruct Hp as [l1 [l23 [_ [Hp ->]]]].
    apply extend_each_app_inv in Hp. destruct Hp as [l2 [l3 [H2 [_ ->]]]].
    rewrite H2 in Hi. cbn [bind] in Hi. apply Ok_inj in Hi. subst geo_inner.
    cbn [polygons]. now exists l1, l3. }
  split; [exact Hblock|]. destruct Hblock as [before [after ->]].
  split.
  - rewrite !length_app. lia.
  - intros polygon Hp. apply in_or_app. right. apply in_or_app. now left.
Qed.

End NestedPolygons.

(** The building [BLD_1] of the document with three buildings and the
    wall inside it. *)
Definition Doc_wall_1 : Xml.element :=
  Xml.Element (Xml.bldg "WallSurface") [(Xml.gml "id", "WALL_1")] None
    [Xml.Element (Xml.bldg "lod2MultiSurface") [] None
       [Xml.Element (Xml.gml "MultiSurface") [] None
          [Xml.Element (Xml.gml "surfaceMember") [] None
             [Doc.Polygon (Doc.LinearRing [Doc.posList "0 0 0 4 0 0 4 2 0"])]]]].

Definition Doc_building_1 : Xml.element :=
  Doc.Building "BLD_1"
    [Xml.Element (Xml.bldg "boundedBy") [] None [Doc_wall_1]].

Lemma extract_geometry_holds_nested_witness :
  exists geo_outer geo_inner,
    Parser._extract_geometry Decimal.float_of_string Doc_building_1
      = Ok geo_outer
    /\ Parser._extract_geometry Decimal.float_of_string Doc_wall_1
       = Ok geo_inner
    /\ polygons geo_inner = [[qpoint 0 0 0; qpoint 4 0 0; qpoint 4 2 0]]
    /\ (exists before after,
          polygons geo_outer = before ++ polygons geo_inner ++ after)
    /\ length (polygons geo_inner) <= length (polygons geo_outer)
    /\ forall polygon, In polygon (polygons geo_inner) ->
                       In polygon (polygons geo_outer).
Proof.
  destruct (Parser._extract_geometry Decimal.float_of_string Doc_building_1)
    as [geo_outer|e] eqn:Ho; [|vm_compute in Ho; discriminate Ho].
  destruct (Parser._extract_geometry Decimal.float_of_string Doc_wall_1)
    as [geo_inner|e] eqn:Hi; [|vm_compute in Hi; discriminate Hi].
  exists geo_outer, geo_inner. split; [reflexivity|]. split; [reflexivity|].
  split.
  - apply (f_equal (fun r => match r with
                             | Ok g => polygons g
                             | Raise _ => []
                             end)) in Hi.
    rewrite <- Hi. vm_compute. reflexivity.
  - apply (extract_geometry_holds_nested Decimal.float_of_string
             Doc_building_1 Doc_wall_1); [|exact Ho|exact Hi].
    vm_compute. tauto.
Defined.

(* ----------------------------------------------------------------- *)
(** ** The surface counts of the binary converter's index *)

Section SurfaceCounts.
Context {R : Type}.

Local Abbreviation building_info := (@Gml2glb.building_info R).
Local Abbreviation surface := (@Gml2glb.surface R).

(** The surfaces of a type among some surfaces. *)
Definition surfaces_of_type (t : string) (ss : list surface) : nat :=
  count_occ string_dec (map (@Gml2glb.surface_type R) ss) t.

(** [d[t]] of a [defaultdict(int)], read without inserting. *)
Definition counted (d : dict nat) (t : string) : nat :=
  match dict_get d t with
  | Some n => n
  | None => 0
  end.

Lemma count_type_counted (d : dict nat) (s : surface) (t : string) :
  counted (Gml2glb.count_type d s) t
  = counted d t + (if string_dec (Gml2glb.surface_type s) t then 1 else 0).
Proof.
  unfold Gml2glb.count_type, counted.
  destruct (string_dec (Gml2glb.surface_type s) t) as [->|Hne].
  - rewrite dict_get_set_same. destruct (dict_get d t); lia.
  - rewrite dict_get_set_other by congruence. lia.
Qed.

Lemma count_type_sum (d : dict nat) (s : surface) :
  list_sum (dict_values (Gml2glb.count_type d s))
  = S (list_sum (dict_values d)).
Proof.
  unfold Gml2glb.count_type. set (t := Gml2glb.surface_type s).
  induction d as [|[k n] d IH]; [reflexivity|].
  cbn [dict_get dict_set].
  destruct (String.eqb k t).
  - unfold list_sum, dict_values. cbn [map snd fold_right]. lia.
  - unfold list_sum, dict_values in *. cbn [map snd fold_right].
    rewrite IH. lia.
Qed.

Lemma count_type_positive (d : dict nat) (s : surface) :
  (forall k n, In (k, n) d -> 0 < n) ->
  forall k n, In (k, n) (Gml2glb.count_type d s) -> 0 < n.
Proof.
  intros Hd k n Hin. unfold Gml2glb.count_type in Hin.
  apply In_dict_set in Hin. destruct Hin as [Hin|[_ ->]].
  - exact (Hd _ _ Hin).
  - destruct (dict_get d (Gml2glb.surface_type s)); lia.
Qed.

Lemma count_types_fold (ss : list surface) (d : dict nat) :
  NoDup (dict_keys d) ->
  (forall k n, In (k, n) d -> 0 < n) ->
  let counts := fold_left Gml2glb.count_type ss d in
  NoDup (dict_keys counts)
  /\ (forall k n, In (k, n) counts -> 0 < n)
  /\ (forall t, counted counts t = counted d t + surfaces_of_type t ss)
  /\ list_sum (dict_values counts) = list_sum (dict_values d) + length ss.
Proof.
  revert d. induction ss as [|s ss IH]; intros d Hnd Hpos; cbv zeta.
  - cbn [fold_left]. split; [exact Hnd|]. split; [exact Hpos|].
    split; [|cbn [length]; lia].
    intros t. unfold surfaces_of_type. cbn [map count_occ]. lia.
  - cbn [fold_left].
    destruct (IH (Gml2glb.count_type d s)) as [Hnd' [Hpos' [Hc Hs]]].
    + now apply dict_set_keeps_NoDup.
    + now apply count_type_positive.
    + split; [exact Hnd'|]. split; [exact Hpos'|]. split.
      * intros t. rewrite Hc, count_type_counted.
        unfold surfaces_of_type. cbn [map count_occ].
        destruct (string_dec (Gml2glb.surface_type s) t); lia.
      * rewrite Hs, count_type_sum. cbn [length]. lia.
Qed.

Lemma write_metadata_entries_from (buildings_data : dict building_info)
  (offset : point R) (k : string) entry :
  In (k, entry) (objects (Gml2glb.write_metadata buildings_data offset)) ->
  exists info, In (k, info) buildings_data /\ entry = building_entry (k, info).
Proof.
  unfold Gml2glb.write_metadata. cbn [objects].
  assert (Hgen : forall bd acc,
            In (k, entry)
               (fold_left
                  (fun objects item =>
                     let '(building_id, info) := item in
                     dict_set objects building_id (building_entry item))
                  bd acc) ->
            In (k, entry) acc
            \/ exists info, In (k, info) bd /\ entry = building_entry (k, info)).
  { induction bd as [|[k' info'] bd IH]; intros acc Hin; [now left|].
    cbn [fold_left] in Hin. apply IH in Hin.
    destruct Hin as [Hin|[info [Hin ->]]].
    - apply In_dict_set in Hin. destruct Hin as [Hin|[-> ->]]; [now left|].
      right. exists info'. split; [now left|reflexivity].
    - right. exists info. split; [now right|reflexivity]. }
  intros Hin.
  destruct (Hgen buildings_data []) as [[]|H]; [|exact H].
  erewrite fold_left_ext; [exact Hin|]. intros acc [k' info']. reflexivity.
Qed.

(** The [surfaceTypes] of an entry of the index [write_metadata] writes:
    the entry is that of a building of the data with that key, named by its
    key; each surface type is listed once; the count of a type is the number
    of the building's surfaces of that type, a type with no surface is not
    listed, and a listed count is positive; and the counts add up to the
    entry's [polygon_count]. *)
Theorem gml2glb_surface_type_counts (buildings_data : dict building_info)
  (offset : point R) (k : string) entry :
  In (k, entry) (objects (Gml2glb.write_metadata buildings_data offset)) ->
  exists info,
    In (k, info) buildings_data
    /\ Gml2glb.md_name (entry_metadata entry) = k
    /\ entry_polygon_count entry = length (Gml2glb.surfaces info)
    /\ let counts := Gml2glb.md_surfaceTypes (entry_metadata entry) in
       NoDup (dict_keys counts)
       /\ (forall t,
             dict_get counts t
             = if surfaces_of_type t (Gml2glb.surfaces info) =? 0 then None
               else Some (surfaces_of_type t (Gml2glb.surfaces info)))
       /\ list_sum (dict_values counts) = entry_polygon_count entry.
Proof.
  intros Hin.
  destruct (write_metadata_entries_from _ _ _ _ Hin) as [info [Hinfo ->]].
  exists info. split; [exact Hinfo|]. split; [reflexivity|].
  split; [reflexivity|].
  cbn [entry_metadata building_entry Gml2glb.md_surfaceTypes entry_polygon_count
       snd].
  destruct (@count_types_fold (Gml2glb.surfaces info) [])
    as [Hnd [Hpos [Hc Hs]]]; [constructor|intros ? ? []|].
  split; [exact Hnd|]. split; [|exact Hs].
  intros t. specialize (Hc t). unfold counted in Hc. cbn [dict_get] in Hc.
  cbn [Nat.add] in Hc.
  destruct (dict_get _ t) as [n|] eqn:Hg.
  - apply dict_get_In in Hg. specialize (Hpos _ _ Hg).
    rewrite <- Hc. destruct (Nat.eqb_spec n 0); [lia|reflexivity].
  - now rewrite <- Hc.
Qed.

End SurfaceCounts.

(** A building with two walls and a roof. *)
Definition two_walls_and_roof : dict (@Gml2glb.building_info Qc) :=
  [("BLD_1",
    {| Gml2glb.id := "BLD_1"; Gml2glb.description := None;
       Gml2glb.measuredHeight := None; Gml2glb.storeysAboveGround := None;
       Gml2glb.storeysBelowGround := None;
       Gml2glb.surfaces :=
         [{| Gml2glb.surface_type := "WallSurface";
             Gml2glb.points := [qpoint 0 0 0; qpoint 4 0 0; qpoint 4 0 3] |};
          {| Gml2glb.surface_type := "RoofSurface";
             Gml2glb.points := [qpoint 0 0 3; qpoint 4 0 3; qpoint 4 2 3] |};
          {| Gml2glb.surface_type := "WallSurface";
             Gml2glb.points := [qpoint 0 2 0; qpoint 4 2 0; qpoint 4 2 3] |}] |})].

Lemma gml2glb_surface_type_counts_witness :
  exists entry,
    dict_get (objects (Gml2glb.write_metadata two_walls_and_roof
                         (qpoint 0 0 0))) "BLD_1" = Some entry
    /\ Gml2glb.md_surfaceTypes (entry_metadata entry)
       = [("WallSurface", 2); ("RoofSurface", 1)]
    /\ exists info,
         In ("BLD_1", info) two_walls_and_roof
         /\ Gml2glb.md_name (entry_metadata entry) = "BLD_1"
         /\ entry_polygon_count entry = length (Gml2glb.surfaces info)
         /\ let counts := Gml2glb.md_surfaceTypes (entry_metadata entry) in
            NoDup (dict_keys counts)
            /\ (forall t,
                  dict_get counts t
                  = if surfaces_of_type t (Gml2glb.surfaces info) =? 0 then None
                    else Some (surfaces_of_type t (Gml2glb.surfaces info)))
            /\ list_sum (dict_values counts) = entry_polygon_count entry.
Proof.
  eexists. split; [reflexivity|]. split; [reflexivity|].
  apply (gml2glb_surface_type_counts two_walls_and_roof (qpoint 0 0 0)).
  left. reflexivity.
Defined.

(* ----------------------------------------------------------------- *)
(** ** The offset of the binary converter *)

Section LowerCorner.
Context {R : Type} {AR : Arith R}.

(** What the comparison [<] of the coordinates is taken to satisfy: a
    strict order. *)
Hypothesis fltb_irrefl : forall a : R, fltb a a = false.
Hypothesis fltb_trans :
  forall a b c : R, fltb a b = true -> fltb b c = true -> fltb a c = true.

Lemma py_min_least (x : R) (xs : list R) :
  In (Gml2glb.py_min x xs) (x :: xs)
  /\ forall y, In y (x :: xs) -> fltb y (Gml2glb.py_min x xs) = false.
Proof.
  unfold Gml2glb.py_min.
  assert (Hgen : forall seen m,
            In m (seen ++ xs) ->
            (forall y, In y seen -> fltb y m = false) ->
            let r := fold_left (fun m y => if fltb y m then y else m) xs m in
            In r (seen ++ xs)
            /\ forall y, In y (seen ++ xs) -> fltb y r = false).
  { induction xs as [|z xs IH]; intros seen m Hm Hseen; cbv zeta.
    - cbn [fold_left]. split; [exact Hm|]. intros y Hy.
      rewrite app_nil_r in Hy. now apply Hseen.
    - cbn [fold_left].
      replace (seen ++ z :: xs) with ((seen ++ [z]) ++ xs) in *
        by (now rewrite <- app_assoc).
      apply IH.
      + destruct (fltb z m); [|exact Hm].
        apply in_or_app. left. apply in_or_app. right. now left.
      + intros y Hy. apply in_app_or in Hy.
        destruct (fltb z m) eqn:Hz.
        * destruct Hy as [Hy|[<-|[]]]; [|apply fltb_irrefl].
          destruct (fltb y z) eqn:Hyz; [|reflexivity].
          rewrite <- (Hseen y Hy). symmetry. exact (fltb_trans _ _ _ Hyz Hz).
        * destruct Hy as [Hy|[<-|[]]]; [now apply Hseen|exact Hz]. }
  apply (Hgen [x] x).
  - now left.
  - intros y [<-|[]]. apply fltb_irrefl.
Qed.

(** [calculate_offset] returns the lower corner of the points, axis by
    axis: with no point at all it is the origin; otherwise each of its
    coordinates is the coordinate of some point, and no point has a
    coordinate strictly below it. *)
Theorem calculate_offset_lower_corner
  (buildings_data : dict (@Gml2glb.building_info R)) :
  let offset := Gml2glb.calculate_offset buildings_data in
  (Gml2glb.all_points buildings_data = [] -> offset = (fzero, fzero, fzero))
  /\ (Gml2glb.all_points buildings_data <> [] ->
      In (px offset) (map px (Gml2glb.all_points buildings_data))
      /\ In (py offset) (map py (Gml2glb.all_points buildings_data))
      /\ In (pz offset) (map pz (Gml2glb.all_points buildings_data)))
  /\ (forall p, In p (Gml2glb.all_points buildings_data) ->
        fltb (px p) (px offset) = false
        /\ fltb (py p) (py offset) = false
        /\ fltb (pz p) (pz offset) = false).
Proof.
  intros offset. unfold offset, Gml2glb.calculate_offset.
  destruct (Gml2glb.all_points buildings_data) as [|p ps].
  - split; [reflexivity|]. split; [congruence|]. intros p [].
  - destruct (py_min_least (px p) (map px ps)) as [Hx1 Hx2].
    destruct (py_min_least (py p) (map py ps)) as [Hy1 Hy2].
    destruct (py_min_least (pz p) (map pz ps)) as [Hz1 Hz2].
    split; [discriminate|]. split.
    + intros _. cbn [px py pz fst snd map]. auto.
    + intros q Hq. cbn [px py pz fst snd].
      split; [|split]; [apply Hx2|apply Hy2|apply Hz2];
        change (?f p :: map ?f ps) with (map f (p :: ps)); now apply in_map.
Qed.

End LowerCorner.

(** The offset of the building with two walls and a roof, over the
    rationals. *)
Lemma calculate_offset_lower_corner_witness :
  Gml2glb.calculate_offset two_walls_and_roof = qpoint 0 0 0
  /\ let offset := Gml2glb.calculate_offset two_walls_and_roof in
     (Gml2glb.all_points two_walls_and_roof = [] ->
      offset = (fzero, fzero, fzero))
     /\ (Gml2glb.all_points two_walls_and_roof <> [] ->
         In (px offset) (map px (Gml2glb.all_points two_walls_and_roof))
         /\ In (py offset) (map py (Gml2glb.all_points two_walls_and_roof))
         /\ In (pz offset) (map pz (Gml2glb.all_points two_walls_and_roof)))
     /\ (forall p, In p (Gml2glb.all_points two_walls_and_roof) ->
           fltb (px p) (px offset) = false
           /\ fltb (py p) (py offset) = false
           /\ fltb (pz p) (pz offset) = false).
Proof.
  split; [vm_compute; reflexivity|].
  exact (calculate_offset_lower_corner qc_ltb_irrefl qc_ltb_trans
           two_walls_and_roof).
Defined.

(* ----------------------------------------------------------------- *)
(** ** The binary file and the scene it carries *)

Section BinaryFile.
Import Bytes.
Context {R : Type} {AR : Arith R}.
Variable float32_bytes : list R -> list Bytes.byte.
Variable uint32_bytes : list nat -> list Bytes.byte.
Variable json_dumps : Gml2glb.gltf (R := R) -> list Bytes.byte.

Lemma write_glb_reads_back (json_bytes binary_buffer file : list byte) :
  Gml2glb.write_glb json_bytes binary_buffer = Ok file ->
  read_glb file =
    Some {| c_magic := Gml2glb.magic;
            c_version := Gml2glb.version;
            c_total_length := N.of_nat (length file);
            c_json_length := N.of_nat (length (padded Byte.x20 json_bytes));
            c_json_marker := Gml2glb.chunk_JSON;
            c_json := padded Byte.x20 json_bytes;
            c_bin_length := N.of_nat (length (padded Byte.x00 binary_buffer));
            c_bin_marker := Gml2glb.chunk_BIN;
            c_bin := padded Byte.x00 binary_buffer |}.
Proof.
  intros Hw. rewrite write_glb_unfold in Hw.
  destruct (pack_I (N.of_nat (declared_total json_bytes binary_buffer)))
    as [h3|e] eqn:E3; [|discriminate]. cbn [bind] in Hw.
  destruct (pack_I (N.of_nat (length (padded Byte.x20 json_bytes))))
    as [jl|e] eqn:Ej; [|discriminate]. cbn [bind] in Hw.
  destruct (pack_I (N.of_nat (length (padded Byte.x00 binary_buffer))))
    as [bl|e] eqn:Eb; [|discriminate]. cbn [bind] in Hw.
  apply pack_I_inv in E3, Ej, Eb.
  destruct E3 as [H3 ->], Ej as [Hj ->], Eb as [Hb ->].
  apply Ok_inj in Hw. subst file.
  set (pj := padded Byte.x20 json_bytes) in *.
  set (pb := padded Byte.x00 binary_buffer) in *.
  assert (Hlen : length (le32 Gml2glb.magic ++ le32 Gml2glb.version
                         ++ le32 (N.of_nat (declared_total json_bytes binary_buffer))
                         ++ le32 (N.of_nat (length pj))
                         ++ le32 Gml2glb.chunk_JSON ++ pj
                         ++ le32 (N.of_nat (length pb))
                         ++ le32 Gml2glb.chunk_BIN ++ pb)
                 = declared_total json_bytes binary_buffer).
  { rewrite !length_app. unfold declared_total. fold pj pb. simpl. lia. }
  rewrite Hlen. unfold read_glb.
  rewrite (@read_u32_le32 Gml2glb.magic) by reflexivity.
  rewrite (@read_u32_le32 Gml2glb.version) by reflexivity.
  rewrite (@read_u32_le32 _ _ H3).
  rewrite (@read_chunk_written Gml2glb.chunk_JSON pj _ Hj) by reflexivity.
  rewrite (@read_chunk_written_last Gml2glb.chunk_BIN pb Hb) by reflexivity.
  reflexivity.
Qed.

Lemma padded_aligned (pad : byte) (b : list byte) :
  length b mod 4 = 0 -> padded pad b = b.
Proof.
  intros H. unfold padded, Gml2glb.padding. rewrite H. cbn [Nat.sub].
  change (4 mod 4) with 0. cbn [repeat]. apply app_nil_r.
Qed.

(** The file [create_glb] writes carries the buffer its scene describes.
    Read back, the file is a header and two chunks; the JSON chunk is the
    encoded scene padded with spaces; the binary chunk is the combined
    buffer itself, with no padding added, so its length prefix is the
    [byteLength] the scene declares for its buffer; and each buffer view
    of the scene delimits, inside the binary chunk, exactly the bytes of the
    segment it was made for. *)
Theorem create_glb_file_carries_scene
  (buildings_data : dict (@Gml2glb.building_info R)) (offset : point R)
  scene file :
  Gml2glb.create_glb float32_bytes uint32_bytes json_dumps buildings_data offset
    = Ok (scene, file) ->
  exists c,
    read_glb file = Some c
    /\ c_magic c = Gml2glb.magic /\ c_version c = Gml2glb.version
    /\ c_total_length c = N.of_nat (length file)
    /\ c_json_marker c = Gml2glb.chunk_JSON
    /\ c_json c = padded Byte.x20 (json_dumps scene)
    /\ c_bin_marker c = Gml2glb.chunk_BIN
    /\ c_bin c
       = snd (Gml2glb.create_scene float32_bytes uint32_bytes buildings_data
                offset)
    /\ c_bin_length c = N.of_nat (Gml2glb.buffer_byteLength scene)
    /\ Forall2 (describes (c_bin c)) (Gml2glb.bufferViews scene)
         (flat_map (building_segments float32_bytes uint32_bytes offset)
            buildings_data).
Proof.
  intros Hc. rewrite create_glb_unfold in Hc.
  destruct (Gml2glb.write_glb _ _) as [file'|e] eqn:Hw; [|discriminate].
  cbn [bind] in Hc. apply Ok_inj in Hc. apply pair_equal_spec in Hc.
  destruct Hc as [Hscene <-].
  pose proof (write_glb_reads_back _ _ Hw) as Hread.
  destruct (add_buildings_inv float32_bytes uint32_bytes offset buildings_data
              {| Gml2glb.st_meshes := []; Gml2glb.st_accessors := [];
                 Gml2glb.st_buffer_views := []; Gml2glb.st_buffers_data := [];
                 Gml2glb.current_byte_offset := 0 |} (segments := []))
    as [Hoff [Hal [Hdesc _]]].
  { repeat split; constructor. }
  cbn [app] in Hdesc.
  assert (Hbin : padded Byte.x00
                   (snd (Gml2glb.create_scene float32_bytes uint32_bytes
                           buildings_data offset))
                 = snd (Gml2glb.create_scene float32_bytes uint32_bytes
                          buildings_data offset)).
  { apply padded_aligned. unfold Gml2glb.create_scene. cbn [snd].
    now rewrite <- Hoff. }
  rewrite Hbin in Hread.
  eexists. split; [exact Hread|].
  cbn [c_magic c_version c_total_length c_json_marker c_json c_bin_marker
       c_bin c_bin_length].
  rewrite Hscene.
  repeat (split; [reflexivity|]).
  split; [now rewrite <- Hscene|].
  rewrite <- Hscene. exact Hdesc.
Qed.

End BinaryFile.

(** The file of the building with two walls and a roof, with encoders
    that write four zero bytes per number and an empty JSON object. *)
Lemma create_glb_file_carries_scene_witness :
  exists scene file c,
    Gml2glb.create_glb
      (fun vs => repeat Byte.x00 (4 * length vs))
      (fun ns => repeat Byte.x00 (4 * length ns))
      (fun _ => [Byte.x7b; Byte.x7d]) two_walls_and_roof (qpoint 0 0 0)
    = Ok (scene, file)
    /\ read_glb file = Some c
    /\ length (c_bin c) = 144
    /\ c_bin_length c = N.of_nat (Gml2glb.buffer_byteLength scene)
    /\ Forall2 (describes (c_bin c)) (Gml2glb.bufferViews scene)
         (flat_map
            (building_segments
               (fun vs => repeat Byte.x00 (4 * length vs))
               (fun ns => repeat Byte.x00 (4 * length ns)) (qpoint 0 0 0))
            two_walls_and_roof).
Proof.
  destruct (Gml2glb.create_glb
              (fun vs : list Qc => repeat Byte.x00 (4 * length vs))
              (fun ns => repeat Byte.x00 (4 * length ns))
              (fun _ => [Byte.x7b; Byte.x7d]) two_walls_and_roof (qpoint 0 0 0))
    as [[scene file]|e] eqn:Hc; [|vm_compute in Hc; discriminate Hc].
  destruct (create_glb_file_carries_scene _ _ _ _ _ Hc)
    as [c [Hread [_ [_ [_ [_ [_ [_ [Hbin [Hlen Hviews]]]]]]]]]].
  exists scene, file, c. split; [reflexivity|]. split; [exact Hread|].
  split; [|split; assumption].
  rewrite Hbin. vm_compute. reflexivity.
Defined.

(* ----------------------------------------------------------------- *)
(** ** The buildings the binary converter reads *)

Section BuildingRecords.
Context {R : Type} {AR : Arith R}.
Variable float_of_string : string -> option R.
Variable int_of_string : string -> option Z.

Local Abbreviation building_info := (@Gml2glb.building_info R).
Local Abbreviation parse_building :=
  (Gml2glb.parse_building float_of_string int_of_string).
Local Abbreviation building_surfaces :=
  (Gml2glb.building_surfaces float_of_string).

(** The identity under which [parse_citygml] files a [Building]
    element: its [gml:id], when it has one that is not empty. *)
Definition building_id (building : Xml.element) : option string :=
  match Xml.get building (Xml.gml "id") with
  | Some (String _ _ as k) => Some k
  | _ => None
  end.

Definition has_id (k : string) (building : Xml.element) : bool :=
  match building_id building with
  | Some k' => String.eqb k' k
  | None => false
  end.

(** The surfaces filed under a key, none when the key is absent. *)
Definition surfaces_at (buildings_data : dict building_info) (k : string)
  : list (@Gml2glb.surface R) :=
  match dict_get buildings_data k with
  | Some info => Gml2glb.surfaces info
  | None => []
  end.

(** The surfaces of a [Building] element whose geometry reads. *)
Definition surfaces_in (building : Xml.element) : list (@Gml2glb.surface R) :=
  match building_surfaces building with
  | Ok ss => ss
  | Raise _ => []
  end.

Lemma update_attr_returns (A : Type) (falsy : option A -> bool)
  (convert : string -> result A) (elem : option Xml.element) (old : option A) :
  (forall s e, convert s = Raise e -> e = ValueError) ->
  exists v, Gml2glb.update_attr falsy convert elem old = Ok v.
Proof.
  intros Hc. unfold Gml2glb.update_attr.
  destruct (Gml2glb.text_of elem) as [t|]; [|now exists old].
  destruct (falsy old); [|now exists old].
  destruct (convert t) as [v|e] eqn:Ht; cbn [bind try_except_ValueError].
  - now exists (Some v).
  - rewrite (Hc _ _ Ht). now exists old.
Qed.

Lemma float_raises (s : string) (e : exn) :
  Gml2glb.float float_of_string s = Raise e -> e = ValueError.
Proof.
  unfold Gml2glb.float, float_. destruct (float_of_string s); congruence.
Qed.

Lemma int_raises (s : string) (e : exn) :
  Gml2glb.int int_of_string s = Raise e -> e = ValueError.
Proof.
  unfold Gml2glb.int. destruct (int_of_string s); congruence.
Qed.

(** One turn of the loop over the buildings: an element without identity
    changes nothing; otherwise the turn raises what the element's geometry
    raises, or files the element's surfaces after those already under its
    identity. *)
Lemma parse_building_cases (buildings_data : dict building_info)
  (building : Xml.element) :
  match building_id building with
  | None => parse_building buildings_data building = Ok buildings_data
  | Some k =>
      match building_surfaces building with
      | Raise e => parse_building buildings_data building = Raise e
      | Ok new_surfaces =>
          exists info,
            parse_building buildings_data building
              = Ok (dict_set buildings_data k info)
            /\ Gml2glb.surfaces info = surfaces_at buildings_data k ++ new_surfaces
            /\ Gml2glb.id info
               = match dict_get buildings_data k with
                 | Some old => Gml2glb.id old
                 | None => k
                 end
      end
  end.
Proof.
  unfold building_id, Gml2glb.parse_building, surfaces_at.
  destruct (Xml.get building (Xml.gml "id")) as [[|ch t]|]; try reflexivity.
  set (k := String ch t).
  set (info0 := match dict_get buildings_data k with
                | Some info => info
                | None => _
                end).
  destruct (update_attr_returns Gml2glb.falsy_float
              (Gml2glb.float float_of_string)
              (Xml.find_desc building (Xml.bldg "measuredHeight"))
              (Gml2glb.measuredHeight info0) float_raises) as [h ->].
  destruct (update_attr_returns Gml2glb.falsy_int (Gml2glb.int int_of_string)
              (Xml.find_desc building (Xml.bldg "storeysAboveGround"))
              (Gml2glb.storeysAboveGround info0) int_raises) as [a ->].
  destruct (update_attr_returns Gml2glb.falsy_int (Gml2glb.int int_of_string)
              (Xml.find_desc building (Xml.bldg "storeysBelowGround"))
              (Gml2glb.storeysBelowGround info0) int_raises) as [b ->].
  cbn [bind].
  destruct (Gml2glb.building_surfaces float_of_string building) as [new|e];
    cbn [bind]; [|reflexivity].
  eexists. split; [reflexivity|]. cbn [Gml2glb.surfaces Gml2glb.id].
  unfold info0. destruct (dict_get buildings_data k); split; reflexivity.
Qed.

Lemma has_id_spec (k : string) (building : Xml.element) :
  has_id k building = true <-> building_id building = Some k.
Proof.
  unfold has_id. destruct (building_id building) as [k'|].
  - rewrite String.eqb_eq. split; congruence.
  - split; discriminate.
Qed.

Lemma parse_building_surfaces_at (bd bd' : dict building_info)
  (building : Xml.element) (k : string) :
  parse_building bd building = Ok bd' ->
  surfaces_at bd' k
  = surfaces_at bd k ++ (if has_id k building then surfaces_in building else []).
Proof.
  intros Hp. pose proof (parse_building_cases bd building) as Hc.
  unfold has_id, surfaces_in.
  destruct (building_id building) as [k'|].
  - destruct (building_surfaces building) as [new|e].
    + destruct Hc as [info [Hc [Hs _]]]. rewrite Hc in Hp.
      apply Ok_inj in Hp. subst bd'.
      destruct (String.eqb_spec k' k) as [->|Hne].
      * unfold surfaces_at at 1. now rewrite dict_get_set_same.
      * unfold surfaces_at. rewrite dict_get_set_other by congruence.
        now rewrite app_nil_r.
    + congruence.
  - rewrite Hc in Hp. apply Ok_inj in Hp. subst bd'. now rewrite app_nil_r.
Qed.

Lemma parse_building_keys_spec (bd bd' : dict building_info)
  (building : Xml.element) :
  parse_building bd building = Ok bd' ->
  (NoDup (dict_keys bd) -> NoDup (dict_keys bd'))
  /\ (forall k, In k (dict_keys bd') <->
                In k (dict_keys bd) \/ building_id building = Some k)
  /\ ((forall k info, In (k, info) bd -> Gml2glb.id info = k) ->
      forall k info, In (k, info) bd' -> Gml2glb.id info = k).
Proof.
  intros Hp. pose proof (parse_building_cases bd building) as Hc.
  destruct (building_id building) as [k'|].
  - destruct (building_surfaces building) as [new|e]; [|congruence].
    destruct Hc as [info [Hc [_ Hid]]]. rewrite Hc in Hp.
    apply Ok_inj in Hp. subst bd'. split; [|split].
    + apply dict_set_keeps_NoDup.
    + intros k. rewrite dict_keys_set.
      destruct (in_dec string_dec k' (dict_keys bd)) as [Hin|Hnin].
      * split; [tauto|]. intros [H|H]; [exact H|]. congruence.
      * rewrite in_app_iff. cbn [In]. split.
        -- intros [H|[->|[]]]; auto.
        -- intros [H|H]; [now left|]. right. left. congruence.
    + intros Hall k info0 Hin. apply In_dict_set in Hin.
      destruct Hin as [Hin|[-> ->]]; [exact (Hall _ _ Hin)|].
      rewrite Hid. destruct (dict_get bd k') as [old|] eqn:Hg; [|reflexivity].
      apply dict_get_In in Hg. exact (Hall _ _ Hg).
  - rewrite Hc in Hp. apply Ok_inj in Hp. subst bd'.
    split; [tauto|]. split; [|tauto].
    intros k. split; [tauto|]. intros [H|H]; [exact H|discriminate].
Qed.

Lemma parse_buildings_spec (els : list Xml.element)
  (bd0 bd1 : dict building_info) :
  Parser.fold_result parse_building els bd0 = Ok bd1 ->
  (forall k, surfaces_at bd1 k
             = surfaces_at bd0 k
               ++ flat_map surfaces_in (filter (has_id k) els))
  /\ (NoDup (dict_keys bd0) -> NoDup (dict_keys bd1))
  /\ (forall k, In k (dict_keys bd1) <->
                In k (dict_keys bd0)
                \/ exists b, In b els /\ building_id b = Some k)
  /\ ((forall k info, In (k, info) bd0 -> Gml2glb.id info = k) ->
      forall k info, In (k, info) bd1 -> Gml2glb.id info = k).
Proof.
  revert bd0. induction els as [|b els IH]; intros bd0 Hf;
    cbn [Parser.fold_result] in Hf.
  - apply Ok_inj in Hf. subst bd1. split; [|split; [|split]]; auto.
    + intros k. cbn [filter flat_map]. now rewrite app_nil_r.
    + intros k. split; [tauto|]. intros [H|[b [[] _]]]. exact H.
  - destruct (parse_building bd0 b) as [bd2|e] eqn:Hb; [|discriminate].
    cbn [bind] in Hf.
    destruct (IH _ Hf) as [Hs [Hnd [Hk Hid]]].
    destruct (parse_building_keys_spec _ _ Hb) as [Hnd2 [Hk2 Hid2]].
    split; [|split; [|split]].
    + intros k. rewrite Hs, (parse_building_surfaces_at _ _ k Hb).
      cbn [filter]. destruct (has_id k b); cbn [flat_map];
        now rewrite <- ?app_assoc.
    + auto.
    + intros k. rewrite Hk, Hk2. split.
      * intros [[H|H]|[b' [Hin H]]]; [now left| |].
        -- right. exists b. split; [now left|exact H].
        -- right. exists b'. split; [now right|exact H].
      * intros [H|[b' [[<-|Hin] H]]]; [now left; left|now left; right|].
        right. now exists b'.
    + auto.
Qed.

Lemma polygon_surfaces_kept (surface_type : string) (polygon : Xml.element)
  (l : list Gml2glb.surface) (s : Gml2glb.surface) :
  Gml2glb.polygon_surfaces float_of_string surface_type polygon = Ok l ->
  In s l ->
  3 <= length (Gml2glb.points s) /\ Gml2glb.surface_type s = surface_type.
Proof.
  unfold Gml2glb.polygon_surfaces.
  destruct (Xml.find_desc polygon (Xml.gml "exterior")) as [exterior|];
    [|intros H; apply Ok_inj in H; subst l; intros []].
  destruct (Xml.find_desc exterior (Xml.gml "LinearRing")) as [ring|];
    [|intros H; apply Ok_inj in H; subst l; intros []].
  destruct (Gml2glb.ring_points float_of_string ring) as [pts|e];
    [|discriminate]. cbn [bind].
  destruct (Nat.ltb_spec (length pts) 3) as [Hlt|Hge];
    intros H; apply Ok_inj in H; subst l; intros Hin; [destruct Hin|].
  destruct Hin as [<-|[]]. now split.
Qed.

Lemma building_surfaces_kept (building : Xml.element)
  (ss : list Gml2glb.surface) (s : Gml2glb.surface) :
  building_surfaces building = Ok ss -> In s ss ->
  3 <= length (Gml2glb.points s)
  /\ In (Gml2glb.surface_type s) Gml2glb.surface_types.
Proof.
  unfold Gml2glb.building_surfaces. intros Hb Hin.
  destruct (@extend_each_In _ _ _ _ _ _ Hb Hin) as [ty [l1 [Hty [H1 Hin1]]]].
  destruct (@extend_each_In _ _ _ _ _ _ H1 Hin1) as [el [l2 [_ [H2 Hin2]]]].
  destruct (@extend_each_In _ _ _ _ _ _ H2 Hin2) as [pg [l3 [_ [H3 Hin3]]]].
  edestruct polygon_surfaces_kept as [Hlen Hty']; [exact H3|exact Hin3|].
  rewrite Hty'. now split.
Qed.

(** What [parse_citygml] returns, when it returns.  The keys are distinct
    and are exactly the non-empty identities of the [Building] elements of
    the document; the record under a key carries the key as [id]; its
    surfaces are those of the [Building] elements with that identity, one
    element after the other in document order (elements that share an
    identity are merged); and every surface kept has at least three points
    and one of the six surface types. *)
Theorem gml2glb_parse_citygml_buildings (root : Xml.element)
  (buildings_data : dict building_info) :
  Gml2glb.parse_citygml float_of_string int_of_string root = Ok buildings_data ->
  let buildings := Xml.findall_desc root (Xml.bldg "Building") in
  NoDup (dict_keys buildings_data)
  /\ (forall k, In k (dict_keys buildings_data) <->
                exists b, In b buildings /\ building_id b = Some k)
  /\ (forall k info, In (k, info) buildings_data ->
        Gml2glb.id info = k
        /\ Gml2glb.surfaces info
           = flat_map surfaces_in (filter (has_id k) buildings)
        /\ forall s, In s (Gml2glb.surfaces info) ->
             3 <= length (Gml2glb.points s)
             /\ In (Gml2glb.surface_type s) Gml2glb.surface_types).
Proof.
  intros Hp buildings. unfold Gml2glb.parse_citygml in Hp. fold buildings in Hp.
  apply parse_buildings_spec in Hp. destruct Hp as [Hs [Hnd [Hk Hid]]].
  assert (Hnd' : NoDup (dict_keys buildings_data)) by (apply Hnd; constructor).
  clear Hnd. rename Hnd' into Hnd.
  split; [exact Hnd|]. split.
  - intros k. rewrite Hk. cbn [dict_keys map In]. tauto.
  - intros k info Hin.
    assert (Hsurf : Gml2glb.surfaces info
                    = flat_map surfaces_in (filter (has_id k) buildings)).
    { specialize (Hs k). unfold surfaces_at in Hs.
      erewrite In_dict_get in Hs; [exact Hs|exact Hnd|exact Hin]. }
    split; [eapply Hid; [intros ? ? []|exact Hin]|].
    split; [exact Hsurf|].
    intros s Hsin. rewrite Hsurf in Hsin. apply in_flat_map in Hsin.
    destruct Hsin as [b [_ Hsb]]. unfold surfaces_in in Hsb.
    destruct (building_surfaces b) as [ss|e] eqn:Hb; [|destruct Hsb].
    eapply building_surfaces_kept; [exact Hb|exact Hsb].
Qed.

Lemma extend_each_raises (A B : Type) (body : A -> result (list B))
  (xs : list A) (e : exn) :
  Parser.extend_each body xs = Raise e ->
  exists x, In x xs /\ body x = Raise e.
Proof.
  induction xs as [|x xs IH]; cbn [Parser.extend_each]; [discriminate|].
  destruct (body x) as [ys|e'] eqn:Hx; cbn [bind].
  - destruct (Parser.extend_each body xs) as [rest|e'']; cbn [bind];
      [discriminate|].
    intros H. destruct (IH H) as [x' [Hin Hx']]. exists x'. split; [now right|].
    exact Hx'.
  - intros H. exists x. split; [now left|]. congruence.
Qed.

Lemma map_result_raises (A B : Type) (f : A -> result B) (xs : list A)
  (e : exn) :
  map_result f xs = Raise e -> exists x, In x xs /\ f x = Raise e.
Proof.
  induction xs as [|x xs IH]; cbn [map_result]; [discriminate|].
  destruct (f x) as [y|e'] eqn:Hx.
  - destruct (map_result f xs) as [ys|e'']; [discriminate|].
    intros H. destruct (IH H) as [x' [Hin Hx']]. exists x'. split; [now right|].
    exact Hx'.
  - intros H. exists x. split; [now left|]. congruence.
Qed.

Lemma triples_raises (coords : list R) (e : exn) :
  Gml2glb.triples coords = Raise e -> e = IndexError.
Proof.
  assert (Hgen : forall n (coords : list R), length coords <= n ->
            Gml2glb.triples coords = Raise e -> e = IndexError).
  { induction n as [|n IH]; intros cs Hn.
    - destruct cs; [cbn [Gml2glb.triples]; discriminate|cbn [length] in Hn; lia].
    - destruct cs as [|a [|b [|c rest]]]; cbn [Gml2glb.triples];
        try congruence.
      destruct (Gml2glb.triples rest) as [ps|e'] eqn:Hr; cbn [bind];
        [discriminate|].
      intros H. assert (e' = e) by congruence. subst e'.
      apply (IH rest); [cbn [length] in Hn; lia|exact Hr]. }
  exact (Hgen _ coords (le_n _)).
Qed.

Lemma floats_raise (tokens : list string) (e : exn) :
  map_result (Gml2glb.float float_of_string) tokens = Raise e ->
  e = ValueError.
Proof.
  intros H. apply map_result_raises in H. destruct H as [s [_ H]].
  exact (float_raises _ H).
Qed.

(** The geometry of a building raises only what reading coordinates
    raises. *)
Lemma building_surfaces_raises (building : Xml.element) (e : exn) :
  building_surfaces building = Raise e -> e = ValueError \/ e = IndexError.
Proof.
  unfold Gml2glb.building_surfaces. intros H.
  apply extend_each_raises in H. destruct H as [ty [_ H]].
  apply extend_each_raises in H. destruct H as [el [_ H]].
  apply extend_each_raises in H. destruct H as [pg [_ H]].
  unfold Gml2glb.polygon_surfaces in H.
  destruct (Xml.find_desc pg (Xml.gml "exterior")) as [exterior|];
    [|discriminate].
  destruct (Xml.find_desc exterior (Xml.gml "LinearRing")) as [ring|];
    [|discriminate].
  destruct (Gml2glb.ring_points float_of_string ring) as [pts|e'] eqn:Hr;
    cbn [bind] in H; [destruct (length pts <? 3); discriminate|].
  assert (e' = e) by congruence. subst e'. clear H.
  unfold Gml2glb.ring_points in Hr.
  assert (Hpos : Parser.extend_each (Gml2glb.pos_points float_of_string)
                   (Xml.findall_child ring (Xml.gml "pos")) = Raise e ->
                 e = ValueError \/ e = IndexError).
  { intros H. apply extend_each_raises in H. destruct H as [pos [_ H]].
    unfold Gml2glb.pos_points in H.
    destruct (Xml.text pos) as [[|ch t]|]; try discriminate.
    destruct (map_result _ _) as [coords|e'] eqn:Hm; cbn [bind] in H.
    - destruct coords as [|x [|y [|z rest]]]; discriminate.
    - left. apply floats_raise in Hm. congruence. }
  destruct (Xml.find_child ring (Xml.gml "posList")) as [[tg at' [[|ch t]|] cs]|];
    try (exact (Hpos Hr)).
  destruct (map_result _ _) as [coords|e'] eqn:Hm; cbn [bind] in Hr.
  - right. exact (triples_raises _ Hr).
  - left. apply floats_raise in Hm. congruence.
Qed.

Lemma parse_buildings_outcome (els : list Xml.element)
  (bd0 : dict building_info) :
  match Parser.fold_result parse_building els bd0 with
  | Ok _ =>
      forall b, In b els -> building_id b <> None ->
                exists ss, building_surfaces b = Ok ss
  | Raise e =>
      exists b, In b els /\ building_id b <> None
                /\ building_surfaces b = Raise e
  end.
Proof.
  revert bd0. induction els as [|b els IH]; intros bd0;
    cbn [Parser.fold_result]; [intros b []|].
  pose proof (parse_building_cases bd0 b) as Hc.
  destruct (building_id b) as [k|] eqn:Hid.
  - destruct (building_surfaces b) as [new|e] eqn:Hb.
    + destruct Hc as [info [-> _]]. cbn [bind].
      specialize (IH (dict_set bd0 k info)).
      destruct (Parser.fold_result parse_building els (dict_set bd0 k info))
        as [bd1|e].
      * intros b' [<-|Hin] Hb'; [now exists new|now apply IH].
      * destruct IH as [b' [Hin H]]. exists b'. split; [now right|exact H].
    + rewrite Hc. cbn [bind]. exists b. split; [now left|].
      split; [congruence|exact Hb].
  - rewrite Hc. cbn [bind]. specialize (IH bd0).
    destruct (Parser.fold_result parse_building els bd0) as [bd1|e].
    + intros b' [<-|Hin] Hb'; [congruence|now apply IH].
    + destruct IH as [b' [Hin H]]. exists b'. split; [now right|exact H].
Qed.

(** When [parse_citygml] raises.  It returns the buildings exactly when
    the geometry of every [Building] element with an identity reads; a
    height or a storey count that is no number never stops it.  When it
    raises, it raises what the geometry of such an element raises, and that
    is a [ValueError] (a coordinate that is no number) or an [IndexError]
    (a packed list whose length is no multiple of three). *)
Theorem gml2glb_parse_citygml_raises (root : Xml.element) :
  let buildings := Xml.findall_desc root (Xml.bldg "Building") in
  ((exists buildings_data,
      Gml2glb.parse_citygml float_of_string int_of_string root
        = Ok buildings_data)
   <-> (forall b, In b buildings -> building_id b <> None ->
                  exists ss, building_surfaces b = Ok ss))
  /\ (forall e,
        Gml2glb.parse_citygml float_of_string int_of_string root = Raise e ->
        (e = ValueError \/ e = IndexError)
        /\ exists b, In b buildings /\ building_id b <> None
                     /\ building_surfaces b = Raise e).
Proof.
  intros buildings. unfold Gml2glb.parse_citygml. fold buildings.
  pose proof (parse_buildings_outcome buildings []) as Ho.
  destruct (Parser.fold_result parse_building buildings []) as [bd|e].
  - split; [|discriminate]. split; [intros _; exact Ho|].
    intros _. now exists bd.
  - destruct Ho as [b [Hin [Hid Hb]]]. split.
    + split; [intros [bd H]; discriminate|].
      intros Hall. destruct (Hall b Hin Hid) as [ss Hss]. congruence.
    + intros e' He. assert (e' = e) by congruence. subst e'.
      split; [exact (building_surfaces_raises _ Hb)|].
      exists b. now repeat split.
Qed.

End BuildingRecords.

(* ----------------------------------------------------------------- *)
(** ** Objects without valid polygons, in both pipelines *)

Section ValidLoops.
Context {R : Type} {AR : Arith R}.
Variable float_of_string : string -> option R.

(** The points the binary converter reads from the loop of a [Polygon]:
    those of the [LinearRing] of its [exterior], when it has both and the
    coordinates read. *)
Definition loop_points (polygon : Xml.element) : option (list (point R)) :=
  match Xml.find_desc polygon (Xml.gml "exterior") with
  | Some exterior =>
      match Xml.find_desc exterior (Xml.gml "LinearRing") with
      | Some ring =>
          match Gml2glb.ring_points float_of_string ring with
          | Ok pts => Some pts
          | Raise _ => None
          end
      | None => None
      end
  | None => None
  end.

(** A valid loop: three points or more. *)
Definition valid_loop (polygon : Xml.element) : bool :=
  match loop_points polygon with
  | Some pts => 3 <=? length pts
  | None => false
  end.

(** The number of valid loops of a [Building] element: those of the
    polygons of its surface elements, surface type by surface type. *)
Definition valid_loops (building : Xml.element) : nat :=
  list_sum
    (map (fun surface_type =>
            list_sum
              (map (fun surface_elem =>
                      length (filter valid_loop
                                (Xml.findall_desc surface_elem
                                   (Xml.gml "Polygon"))))
                   (Xml.findall_desc building (Xml.bldg surface_type))))
         Gml2glb.surface_types).

Lemma extend_each_length (A B : Type) (body : A -> result (list B))
  (count : A -> nat) (xs : list A) (l : list B) :
  (forall x ys, In x xs -> body x = Ok ys -> length ys = count x) ->
  Parser.extend_each body xs = Ok l ->
  length l = list_sum (map count xs).
Proof.
  revert l. induction xs as [|x xs IH]; intros l Hc;
    cbn [Parser.extend_each].
  - intros H. apply Ok_inj in H. now subst l.
  - destruct (body x) as [ys|e] eqn:Hx; cbn [bind]; [|discriminate].
    destruct (Parser.extend_each body xs) as [rest|e] eqn:Hr; cbn [bind];
      [|discriminate].
    intros H. apply Ok_inj in H. subst l.
    rewrite length_app. cbn [map].
    change (list_sum (count x :: map count xs))
      with (count x + list_sum (map count xs)). f_equal.
    + apply Hc; [now left|exact Hx].
    + apply IH; [|reflexivity]. intros x' ys' Hin. apply Hc. now right.
Qed.

Lemma polygon_surfaces_length (surface_type : string) (polygon : Xml.element)
  (l : list Gml2glb.surface) :
  Gml2glb.polygon_surfaces float_of_string surface_type polygon = Ok l ->
  length l = if valid_loop polygon then 1 else 0.
Proof.
  unfold Gml2glb.polygon_surfaces, valid_loop, loop_points.
  destruct (Xml.find_desc polygon (Xml.gml "exterior")) as [exterior|];
    [|intros H; apply Ok_inj in H; now subst l].
  destruct (Xml.find_desc exterior (Xml.gml "LinearRing")) as [ring|];
    [|intros H; apply Ok_inj in H; now subst l].
  destruct (Gml2glb.ring_points float_of_string ring) as [pts|e];
    [|discriminate]. cbn [bind].
  destruct (Nat.ltb_spec (length pts) 3) as [Hlt|Hge];
    destruct (Nat.leb_spec 3 (length pts)) as [Hle|Hgt]; try lia;
    intros H; apply Ok_inj in H; now subst l.
Qed.

Lemma count_valid (polygons : list Xml.element) :
  list_sum (map (fun polygon => if valid_loop polygon then 1 else 0) polygons)
  = length (filter valid_loop polygons).
Proof.
  induction polygons as [|p ps IH]; [reflexivity|].
  cbn [map filter].
  change (list_sum (?a :: ?l)) with (a + list_sum l).
  rewrite IH. now destruct (valid_loop p).
Qed.

(** A [Building] element whose geometry reads appends one surface for
    each of its valid loops. *)
Lemma building_surfaces_length (building : Xml.element)
  (ss : list (@Gml2glb.surface R)) :
  Gml2glb.building_surfaces float_of_string building = Ok ss ->
  length ss = valid_loops building.
Proof.
  unfold Gml2glb.building_surfaces, valid_loops.
  apply extend_each_length. intros surface_type l1 _.
  apply extend_each_length. intros surface_elem l2 _ H2.
  rewrite <- count_valid. revert H2.
  apply extend_each_length. intros polygon l3 _.
  apply polygon_surfaces_length.
Qed.

Lemma length_flat_map_sum (A B : Type) (f : A -> list B) (l : list A) :
  length (flat_map f l) = list_sum (map (fun x => length (f x)) l).
Proof.
  induction l as [|x l IH]; [reflexivity|].
  cbn [flat_map map].
  change (list_sum (?a :: ?r)) with (a + list_sum r).
  now rewrite length_app, IH.
Qed.

End ValidLoops.

Section ZeroPolygons.
Context {R : Type} {AR : Arith R} {NR : Norm R}.
Variable float_of_string : string -> option R.
Variable int_of_string : string -> option Z.
Variable float32_bytes : list R -> list Bytes.byte.
Variable uint32_bytes : list nat -> list Bytes.byte.
Variable json_dumps : Gml2glb.gltf (R := R) -> list Bytes.byte.

(** What the index of the binary converter counts under a key: the valid
    loops of the [Building] elements of that identity. *)
Lemma binary_polygon_count (root : Xml.element)
  (bd : dict (@Gml2glb.building_info R)) (k : string)
  (info : @Gml2glb.building_info R) :
  Gml2glb.parse_citygml float_of_string int_of_string root = Ok bd ->
  In (k, info) bd ->
  length (Gml2glb.surfaces info)
  = list_sum (map (valid_loops float_of_string)
                (filter (has_id k)
                   (Xml.findall_desc root (Xml.bldg "Building")))).
Proof.
  intros Hp Hin. unfold Gml2glb.parse_citygml in Hp.
  pose proof (parse_buildings_outcome float_of_string int_of_string
                (Xml.findall_desc root (Xml.bldg "Building")) []) as Hout.
  rewrite Hp in Hout.
  apply parse_buildings_spec in Hp. destruct Hp as [Hs [Hnd _]].
  specialize (Hs k). unfold surfaces_at in Hs.
  erewrite In_dict_get in Hs; [|apply Hnd; constructor|exact Hin].
  cbn [dict_get app] in Hs. rewrite Hs, length_flat_map_sum.
  f_equal. apply map_ext_in. intros b Hb. apply filter_In in Hb.
  destruct Hb as [Hb Hid]. apply has_id_spec in Hid.
  destruct (Hout b Hb) as [ss Hss]; [congruence|].
  unfold surfaces_in. rewrite Hss. now apply building_surfaces_length.
Qed.

(** C5, as the code has it.  In the text pipeline a run that writes
    anything writes one group record and one index entry for each record
    of the geometry map, whose keys are distinct, and for nothing else;
    each record comes from an identified element with at least one
    polygon loop that yields a vertex, and holds only such loops; so an
    identified object none of whose loops yields a vertex has no entry and
    no group.  A loop of fewer than three points adds no record to its
    group.  In the binary pipeline, in a run that writes its outputs,
    every identified building is in the index; its [polygon_count] is the
    number of valid loops, those of three points or more, of the
    [Building] elements of its identity; and a building with none,
    counted 0, has no mesh and no node. *)
Theorem objects_without_valid_polygons :
  (forall root mtl_filename,
     match Convert.main float_of_string root mtl_filename with
     | Raise _ => False
     | Ok None => Parser.parse float_of_string root = Ok []
     | Ok (Some (lines, index)) =>
         exists geometries,
           Parser.parse float_of_string root = Ok geometries
           /\ NoDup (dict_keys geometries)
           /\ group_names lines = dict_keys geometries
           /\ dict_keys (objects index) = dict_keys geometries
           /\ (forall k geo, In (k, geo) geometries ->
                 comes_from float_of_string (harvested root) k geo
                 /\ forall poly, In poly (polygons geo) -> poly <> [])
           /\ forall k,
                (forall element geo0,
                   In element (harvested root) ->
                   Xml.get element (Xml.gml "id") = Some k ->
                   Parser._extract_geometry float_of_string element = Ok geo0 ->
                   polygons geo0 = []) ->
                ~ In k (group_names lines)
                /\ ~ In k (dict_keys (objects index))
     end)
  /\ (forall vc st (polygon : list (point R)),
        length polygon < 3 -> ObjWriter.write_polygon vc st polygon = st)
  /\ (forall root scene file index,
        Gml2glb.main float_of_string int_of_string float32_bytes uint32_bytes
          json_dumps root = Ok (Some (scene, file, index)) ->
        (forall building ch t,
           In building (Xml.findall_desc root (Xml.bldg "Building")) ->
           Xml.get building (Xml.gml "id") = Some (String ch t) ->
           exists entry, dict_get (objects index) (String ch t) = Some entry)
        /\ forall k entry,
             dict_get (objects index) k = Some entry ->
             entry_polygon_count entry
             = list_sum (map (valid_loops float_of_string)
                           (filter (has_id k)
                              (Xml.findall_desc root (Xml.bldg "Building"))))
             /\ (entry_polygon_count entry = 0 ->
                 ~ In k (mesh_names (Gml2glb.meshes scene))
                 /\ ~ In k (map Gml2glb.node_name (Gml2glb.nodes scene)))).
Proof.
  split; [|split].
  - intros root mtl.
    destruct (convert_main_total float_of_string root mtl) as [out Hout].
    rewrite Hout. destruct out as [[lines index]|].
    + destruct (convert_main_outputs _ _ _ Hout)
        as [g [Hp [Hnd [Hgroups [Hobj _]]]]].
      assert (Hkeys : dict_keys (objects index) = dict_keys g).
      { rewrite Hobj. unfold dict_keys. now rewrite map_map. }
      destruct (parse_retains _ _ Hp) as [_ Hall].
      exists g. split; [exact Hp|]. split; [exact Hnd|].
      split; [exact Hgroups|]. split; [exact Hkeys|]. split; [exact Hall|].
      intros k Hnone. rewrite Hgroups, Hkeys.
      assert (Hk : ~ In k (dict_keys g)).
      { intros Hk. unfold dict_keys in Hk. apply in_map_iff in Hk.
        destruct Hk as [[k' geo] [Heq Hin]]. cbn [fst] in Heq. subst k'.
        destruct (Hall k geo Hin) as [[el [geo0 [Hel [Hid [Hex [_ Hne]]]]]] _].
        exact (Hne (Hnone el geo0 Hel Hid Hex)). }
      now split.
    + unfold Convert.main in Hout.
      destruct (Parser.parse float_of_string root) as [g|e]; [|discriminate].
      cbn [bind] in Hout. destruct g; [reflexivity|].
      destruct (Geometry.center_coordinates _). discriminate.
  - intros vc st polygon. apply write_polygon_short.
  - intros root scene file index Hm.
    destruct (gml2glb_main_outputs _ _ _ _ _ _ Hm)
      as [bd [Hp [[Hnd Hval] [Hmesh [Hnode [Hobj _]]]]]].
    split.
    + intros building ch t Hin Hid.
      pose proof (parse_citygml_keys _ _ _ _ Hp Hin Hid) as Hk.
      unfold dict_keys in Hk. apply in_map_iff in Hk.
      destruct Hk as [[k info] [Hk Hin']]. cbn [fst] in Hk. subst k.
      exists (building_entry (String ch t, info)). rewrite Hobj.
      exact (@In_dict_get_map _ _ (@building_entry R) bd _ info Hnd Hin').
    + intros k entry Hget. rewrite Hobj in Hget. split.
      * apply dict_get_map in Hget. destruct Hget as [info [Hin ->]].
        cbn [building_entry entry_polygon_count snd].
        eapply binary_polygon_count; [exact Hp|exact Hin].
      * intros Hzero.
        destruct (building_entry_mesh _ _ Hnd Hget) as [_ [_ Hno]].
        rewrite Hnode, Hmesh. split; now apply Hno.
Qed.

End ZeroPolygons.

(** The buildings of the document with three buildings. *)
Lemma gml2glb_parse_citygml_buildings_witness :
  exists buildings_data,
    Gml2glb.parse_citygml Decimal.float_of_string Decimal.int_of_string
      Doc.three_buildings = Ok buildings_data
    /\ dict_keys buildings_data = ["BLD_EMPTY"; "BLD_2PT"; "BLD_1"]
    /\ let buildings :=
         Xml.findall_desc Doc.three_buildings (Xml.bldg "Building") in
       NoDup (dict_keys buildings_data)
       /\ (forall k, In k (dict_keys buildings_data) <->
                     exists b, In b buildings /\ building_id b = Some k)
       /\ (forall k info, In (k, info) buildings_data ->
             Gml2glb.id info = k
             /\ Gml2glb.surfaces info
                = flat_map (surfaces_in Decimal.float_of_string)
                    (filter (has_id k) buildings)
             /\ forall s, In s (Gml2glb.surfaces info) ->
                  3 <= length (Gml2glb.points s)
                  /\ In (Gml2glb.surface_type s) Gml2glb.surface_types).
Proof.
  destruct (Gml2glb.parse_citygml Decimal.float_of_string
              Decimal.int_of_string Doc.three_buildings)
    as [buildings_data|e] eqn:Hp; [|vm_compute in Hp; discriminate Hp].
  exists buildings_data. split; [reflexivity|].
  split; [|exact (gml2glb_parse_citygml_buildings _ _ _ Hp)].
  apply (f_equal (fun r => match r with
                           | Ok bd => dict_keys bd
                           | Raise _ => []
                           end)) in Hp.
  rewrite <- Hp. vm_compute. reflexivity.
Defined.

(* ----------------------------------------------------------------- *)
(** ** The surfaces of the simple converter *)

Section SimpleSurfaces.
Context {R : Type} {AR : Arith R}.
Variable float_of_string : string -> option R.

Local Abbreviation surface := (@SimpleGml2obj.surface R).

(** The surfaces number their vertices one after the other from [n]:
    each starts where the one before ended. *)
Fixpoint starts_from (n : nat) (surfaces : list surface) : Prop :=
  match surfaces with
  | [] => True
  | s :: rest =>
      SimpleGml2obj.start_vertex s = n
      /\ starts_from (n + length (SimpleGml2obj.points s)) rest
  end.

(** The vertices of some surfaces. *)
Definition vertex_total (surfaces : list surface) : nat :=
  list_sum (map (fun s => length (SimpleGml2obj.points s)) surfaces).

(** A surface [parse_citygml] may keep. *)
Definition kept_surface (s : surface) : Prop :=
  3 <= length (SimpleGml2obj.points s)
  /\ In (SimpleGml2obj.type s) SimpleGml2obj.surface_types
  /\ SimpleGml2obj.id s <> "".

Lemma vertex_total_snoc (l : list surface) (s : surface) :
  vertex_total (l ++ [s]) = vertex_total l + length (SimpleGml2obj.points s).
Proof.
  unfold vertex_total. rewrite map_app, list_sum_app. simpl. lia.
Qed.

Lemma starts_from_snoc (n : nat) (l : list surface) (s : surface) :
  starts_from n l ->
  SimpleGml2obj.start_vertex s = n + vertex_total l ->
  starts_from n (l ++ [s]).
Proof.
  revert n. induction l as [|x l IH]; intros n Hl Hs.
  - unfold vertex_total in Hs. simpl in Hs. simpl. split; [lia|exact I].
  - destruct Hl as [Hx Hl]. cbn [app starts_from]. split; [exact Hx|].
    apply IH; [exact Hl|].
    unfold vertex_total in *. cbn [map list_sum fold_right] in Hs.
    unfold list_sum. lia.
Qed.

(** What [parse_citygml] keeps true of [surfaces] and [vertex_index]. *)
Definition parse_inv (acc : list surface * nat) : Prop :=
  starts_from 1 (fst acc)
  /\ snd acc = 1 + vertex_total (fst acc)
  /\ Forall kept_surface (fst acc).

Lemma parse_polygon_inv (gml_id surface_type : string)
  (acc acc' : list surface * nat) (polygon : Xml.element) :
  gml_id <> "" -> In surface_type SimpleGml2obj.surface_types ->
  SimpleGml2obj.parse_polygon float_of_string gml_id surface_type acc polygon
    = Ok acc' ->
  parse_inv acc -> parse_inv acc'.
Proof.
  intros Hid Hty Hp Hinv. destruct acc as [surfaces vertex_index].
  unfold SimpleGml2obj.parse_polygon in Hp.
  destruct (Xml.find_desc polygon (Xml.gml "exterior")) as [exterior|];
    [|apply Ok_inj in Hp; now subst acc'].
  destruct (Xml.find_desc exterior (Xml.gml "posList"))
    as [[tg at' [[|ch t]|] cs]|];
    try (apply Ok_inj in Hp; now subst acc').
  destruct (map_result _ _) as [coords|e]; [|discriminate]. cbn [bind] in Hp.
  destruct (Gml2glb.triples coords) as [points|e]; [|discriminate].
  cbn [bind] in Hp.
  destruct (Nat.ltb_spec (length points) 3) as [Hlt|Hge];
    apply Ok_inj in Hp; subst acc'; [exact Hinv|].
  destruct Hinv as [Hs [Hv Hk]]. unfold parse_inv. cbn [fst snd] in *.
  split; [|split].
  - apply starts_from_snoc; [exact Hs|]. cbn [SimpleGml2obj.start_vertex].
    exact Hv.
  - rewrite vertex_total_snoc. cbn [SimpleGml2obj.points]. lia.
  - apply Forall_app. split; [exact Hk|]. constructor; [|constructor].
    now repeat split.
Qed.

Lemma fold_result_inv (A B : Type) (P : A -> Prop) (f : A -> B -> result A)
  (xs : list B) (a a' : A) :
  (forall a x a', In x xs -> f a x = Ok a' -> P a -> P a') ->
  Parser.fold_result f xs a = Ok a' -> P a -> P a'.
Proof.
  revert a. induction xs as [|x xs IH]; intros a Hf Hr Ha;
    cbn [Parser.fold_result] in Hr.
  - apply Ok_inj in Hr. now subst a'.
  - destruct (f a x) as [a1|e] eqn:Hx; [|discriminate]. cbn [bind] in Hr.
    apply (IH a1); auto.
    + intros a0 y a0' Hy. apply Hf. now right.
    + apply (Hf a x a1); auto. now left.
Qed.

Lemma parse_surface_inv (surface_type : string)
  (acc acc' : list surface * nat) (surface_elem : Xml.element) :
  In surface_type SimpleGml2obj.surface_types ->
  SimpleGml2obj.parse_surface float_of_string surface_type acc surface_elem
    = Ok acc' ->
  parse_inv acc -> parse_inv acc'.
Proof.
  intros Hty Hp Hinv. unfold SimpleGml2obj.parse_surface in Hp.
  destruct (Xml.get surface_elem (Xml.gml "id")) as [[|ch t]|];
    try (apply Ok_inj in Hp; now subst acc').
  eapply fold_result_inv; [|exact Hp|exact Hinv].
  intros a pg a' _ Hpg Ha.
  eapply parse_polygon_inv; [|exact Hty|exact Hpg|exact Ha]. discriminate.
Qed.

(** The surfaces [parse_citygml] returns, when it returns: each has at
    least three points, one of the four surface types and a non-empty
    identity, and their [start_vertex] fields number the vertices one
    surface after the other from 1. *)
Theorem simple_parse_citygml_surfaces (root : Xml.element)
  (surfaces : list surface) :
  SimpleGml2obj.parse_citygml float_of_string root = Ok surfaces ->
  starts_from 1 surfaces /\ Forall kept_surface surfaces.
Proof.
  unfold SimpleGml2obj.parse_citygml. intros Hp.
  destruct (Parser.fold_result _ SimpleGml2obj.surface_types ([], 1))
    as [acc|e] eqn:Hf; [|discriminate].
  cbn [bind] in Hp. apply Ok_inj in Hp. subst surfaces.
  assert (Hinv : parse_inv acc).
  { eapply fold_result_inv; [|exact Hf|].
    - intros a ty a' Hty Hr Ha.
      eapply fold_result_inv; [|exact Hr|exact Ha].
      intros a0 el a0' _ Hel Ha0.
      eapply parse_surface_inv; [exact Hty|exact Hel|exact Ha0].
    - repeat split. constructor. }
  destruct Hinv as [Hs [_ Hk]]. now split.
Qed.

End SimpleSurfaces.

Lemma simple_parse_citygml_surfaces_witness :
  SimpleGml2obj.parse_citygml Decimal.float_of_string two_polygons
    = Ok two_polygons_surfaces
  /\ starts_from 1 two_polygons_surfaces
  /\ Forall kept_surface two_polygons_surfaces.
Proof.
  assert (Hp : SimpleGml2obj.parse_citygml Decimal.float_of_string two_polygons
               = Ok two_polygons_surfaces) by (vm_compute; reflexivity).
  split; [exact Hp|].
  exact (simple_parse_citygml_surfaces Decimal.float_of_string two_polygons Hp).
Defined.

(* ----------------------------------------------------------------- *)
(** ** The faces of the simple converter's mesh file *)

Section SimpleBlocks.
Context {R : Type} {AR : Arith R}.
Variable str_int : nat -> string.
Variable str_float : R -> string.
Variable str_offset : point R -> string.

Local Abbreviation surface := (@SimpleGml2obj.surface R).

(** The faces of the fan over [n] vertices numbered from [first]. *)
Definition fan_text (first n : nat) : string :=
  String.concat ""
    (map (fun i => SimpleGml2obj.face_text str_int first 0 i (i + 1))
         (seq 1 (n - 2))).

(** The text of one surface, before the text [rest] of the surfaces after
    it: its group, its vertices, and the fan over them numbered from the
    surface's own [start_vertex]. *)
Definition surface_block (offset : point R) (s : surface) (rest : string)
  : string :=
  ("\ng " ++ SimpleGml2obj.id s ++ "\n"
   ++ "usemtl building\n\n"
   ++ String.concat ""
        (map (SimpleGml2obj.vertex_text str_float offset)
             (SimpleGml2obj.points s))
   ++ fan_text (SimpleGml2obj.start_vertex s) (length (SimpleGml2obj.points s))
   ++ "\n"
   ++ rest)%string.

(** The triangle and the quad are written as the fan writes them: the
    three cases of [write_obj] are one. *)
Lemma faces_text_fan (first n : nat) :
  SimpleGml2obj.faces_text str_int first n = fan_text first n.
Proof.
  unfold SimpleGml2obj.faces_text, fan_text.
  destruct (Nat.eqb_spec n 3) as [->|H3]; [reflexivity|].
  destruct (Nat.eqb_spec n 4) as [->|H4]; reflexivity.
Qed.

Lemma surfaces_text_blocks (offset : point R) (surfaces : list surface)
  (n : nat) :
  starts_from n surfaces ->
  SimpleGml2obj.surfaces_text str_int str_float offset n surfaces
  = fold_right (surface_block offset) "" surfaces.
Proof.
  revert n. induction surfaces as [|s rest IH]; intros n Hs; [reflexivity|].
  destruct Hs as [Hn Hrest].
  cbn [SimpleGml2obj.surfaces_text fold_right]. unfold surface_block.
  rewrite (IH _ Hrest), faces_text_fan, Hn. reflexivity.
Qed.

(** The file [write_obj] writes for surfaces whose [start_vertex] fields
    number the vertices from 1, as those of [parse_citygml] do: after the
    header, surface after surface, the group of the surface, its vertices
    moved by the offset, and the triangles of the fan over them,
    [start, start + i, start + i + 1] for [i = 1 .. n - 2], numbered from
    the surface's own [start_vertex]; a surface of [n] vertices has
    [n - 2] faces, whichever of the three cases of the writer it takes. *)
Theorem simple_write_obj_blocks (surfaces : list surface) (mtl_file : string)
  (offset : point R) :
  starts_from 1 surfaces ->
  SimpleGml2obj.write_obj str_int str_float str_offset surfaces mtl_file offset
  = ("# CityGML to OBJ Conversion\n"
     ++ "# Total objects: " ++ str_int (length surfaces) ++ "\n"
     ++ "# Center offset: " ++ str_offset offset ++ "\n"
     ++ "mtllib " ++ mtl_file ++ "\n\n"
     ++ fold_right (surface_block offset) "" surfaces)%string.
Proof.
  intros Hs. unfold SimpleGml2obj.write_obj.
  now rewrite (@surfaces_text_blocks offset surfaces 1 Hs).
Qed.

End SimpleBlocks.

Lemma simple_write_obj_blocks_witness :
  starts_from 1 two_polygons_surfaces
  /\ SimpleGml2obj.write_obj Format.str_int Format.str_qc Format.str_offset
       two_polygons_surfaces "model_simple.mtl" (qpoint 0 0 0)
     = ("# CityGML to OBJ Conversion\n"
        ++ "# Total objects: " ++ Format.str_int 2 ++ "\n"
        ++ "# Center offset: " ++ Format.str_offset (qpoint 0 0 0) ++ "\n"
        ++ "mtllib " ++ "model_simple.mtl" ++ "\n\n"
        ++ fold_right
             (surface_block Format.str_int Format.str_qc (qpoint 0 0 0)) ""
             two_polygons_surfaces)%string.
Proof.
  assert (Hs : starts_from 1 two_polygons_surfaces)
    by (cbn; repeat split; reflexivity).
  split; [exact Hs|].
  exact (simple_write_obj_blocks Format.str_int Format.str_qc
           Format.str_offset two_polygons_surfaces "model_simple.mtl"
           (qpoint 0 0 0) Hs).
Defined.

(* ----------------------------------------------------------------- *)
(** ** A run of the binary converter after parsing *)

Section BinaryExit.
Context {R : Type} {AR : Arith R}.
Variable float_of_string : string -> option R.
Variable int_of_string : string -> option Z.
Variable float32_bytes : list R -> list Bytes.byte.
Variable uint32_bytes : list nat -> list Bytes.byte.
Variable json_dumps : Gml2glb.gltf (R := R) -> list Bytes.byte.

Local Abbreviation building_info := (@Gml2glb.building_info R).
Local Abbreviation main :=
  (Gml2glb.main float_of_string int_of_string float32_bytes uint32_bytes
     json_dumps).

Lemma total_surfaces_zero (buildings_data : dict building_info) :
  list_sum (map (fun b => length (Gml2glb.surfaces b))
              (dict_values buildings_data)) = 0
  <-> forall k info, In (k, info) buildings_data -> Gml2glb.surfaces info = [].
Proof.
  induction buildings_data as [|[k info] bd IH].
  - split; [intros _ k info []|reflexivity].
  - cbn [dict_values map snd list_sum fold_right].
    fold (list_sum (map (fun b : building_info => length (Gml2glb.surfaces b))
                      (map snd bd))).
    change (map snd bd) with (dict_values bd). split.
    + intros H k' info' [Heq|Hin].
      * apply pair_equal_spec in Heq. destruct Heq as [_ <-].
        destruct (Gml2glb.surfaces info); [reflexivity|simpl in H; lia].
      * apply (proj1 IH ltac:(lia) k' info' Hin).
    + intros H. rewrite (H k info (or_introl eq_refl)).
      rewrite (proj2 IH); [reflexivity|].
      intros k' info' Hin. apply (H k' info'). now right.
Qed.

Lemma write_glb_raises_struct (json_bytes binary_buffer : list Bytes.byte)
  (e : exn) :
  Gml2glb.write_glb json_bytes binary_buffer = Raise e -> e = StructError.
Proof.
  rewrite write_glb_unfold. unfold Bytes.pack_I.
  repeat (match goal with
          | |- context [if ?c then _ else _] => destruct c
          end; cbn [bind]; try congruence).
Qed.

(** A run of [main] once the document is parsed.  When no building has
    a surface (or there is no building), it stops before writing anything.
    Otherwise it writes, the scene and the index both made from the
    parsed buildings and their offset, the scene with at least one mesh, or
    it raises,
    and then only [struct.error]: a length that does not fit the 32-bit
    fields of the container. *)
Theorem gml2glb_main_after_parse (root : Xml.element)
  (buildings_data : dict building_info) :
  Gml2glb.parse_citygml float_of_string int_of_string root = Ok buildings_data ->
  ((forall k info, In (k, info) buildings_data -> Gml2glb.surfaces info = []) ->
   main root = Ok None)
  /\ ((exists k info, In (k, info) buildings_data
                      /\ Gml2glb.surfaces info <> []) ->
      main root <> Ok None)
  /\ (forall scene file index,
        main root = Ok (Some (scene, file, index)) ->
        Gml2glb.meshes scene <> []
        /\ scene = fst (Gml2glb.create_scene float32_bytes uint32_bytes
                          buildings_data
                          (Gml2glb.calculate_offset buildings_data))
        /\ index = Gml2glb.write_metadata buildings_data
                     (Gml2glb.calculate_offset buildings_data))
  /\ (forall e, main root = Raise e -> e = StructError).
Proof.
  intros Hp. pose proof (parse_citygml_valid _ _ _ Hp) as [Hnd Hval].
  unfold Gml2glb.main. rewrite Hp. cbn [bind].
  pose proof (total_surfaces_zero buildings_data) as Hzero.
  destruct buildings_data as [|item bd'].
  { split; [reflexivity|]. split; [intros [k [info [[] _]]]|].
    split; [discriminate|discriminate]. }
  set (bd := item :: bd') in *.
  destruct (Nat.eqb_spec
              (list_sum (map (fun b : building_info => length (Gml2glb.surfaces b))
                           (dict_values bd))) 0) as [H0|Hpos].
  { split; [reflexivity|]. split.
    - intros [k [info [Hin Hne]]]. exfalso. apply Hne.
      exact (proj1 Hzero H0 k info Hin).
    - split; discriminate. }
  rewrite create_glb_unfold.
  set (scene0 := fst (Gml2glb.create_scene float32_bytes uint32_bytes bd
                        (Gml2glb.calculate_offset bd))).
  assert (Hmesh : Gml2glb.meshes scene0 <> []).
  { destruct (create_scene_names float32_bytes uint32_bytes bd
                (Gml2glb.calculate_offset bd) Hval) as [Hnames _].
    fold scene0 in Hnames. intros Hnil. rewrite Hnil in Hnames.
    cbn [mesh_names map] in Hnames.
    apply Hpos, (proj2 Hzero). intros k info Hin.
    destruct (Gml2glb.surfaces info) as [|s ss] eqn:Hs; [reflexivity|].
    exfalso.
    assert (Hk : In k (dict_keys (filter has_surfaces bd))).
    { apply (In_keys_filter has_surfaces _ _ _ Hin).
      unfold has_surfaces. cbn [snd]. now rewrite Hs. }
    rewrite <- Hnames in Hk. exact Hk. }
  destruct (Gml2glb.write_glb _ _) as [file0|e0] eqn:Hw; cbn [bind fst snd].
  - split; [intros Hall; exfalso; apply Hpos, (proj2 Hzero), Hall|].
    split; [discriminate|]. split; [|discriminate].
    intros scene file index H. apply Ok_inj, Some_inj in H.
    apply pair_equal_spec in H. destruct H as [H <-].
    apply pair_equal_spec in H. destruct H as [<- _]. now repeat split.
  - split; [intros Hall; exfalso; apply Hpos, (proj2 Hzero), Hall|].
    split; [discriminate|]. split; [discriminate|].
    intros e He. assert (e = e0) by congruence. subst e0.
    exact (write_glb_raises_struct _ _ Hw).
Qed.

End BinaryExit.

(** The run on the document with three buildings, with encoders that
    write four zero bytes per number and an empty JSON object. *)
Lemma gml2glb_main_after_parse_witness :
  exists buildings_data,
    Gml2glb.parse_citygml Decimal.float_of_string Decimal.int_of_string
      Doc.three_buildings = Ok buildings_data
    /\ (exists scene file index,
          Gml2glb.main Decimal.float_of_string Decimal.int_of_string
            (fun vs => repeat Byte.x00 (4 * length vs))
            (fun ns => repeat Byte.x00 (4 * length ns))
            (fun _ => [Byte.x7b; Byte.x7d]) Doc.three_buildings
          = Ok (Some (scene, file, index))
          /\ Gml2glb.meshes scene <> []
          /\ scene = fst (Gml2glb.create_scene
                            (fun vs => repeat Byte.x00 (4 * length vs))
                            (fun ns => repeat Byte.x00 (4 * length ns))
                            buildings_data
                            (Gml2glb.calculate_offset buildings_data))
          /\ index = Gml2glb.write_metadata buildings_data
                       (Gml2glb.calculate_offset buildings_data)).
Proof.
  destruct (Gml2glb.parse_citygml Decimal.float_of_string
              Decimal.int_of_string Doc.three_buildings)
    as [buildings_data|e] eqn:Hp; [|vm_compute in Hp; discriminate Hp].
  exists buildings_data. split; [reflexivity|].
  destruct (gml2glb_main_after_parse Decimal.float_of_string
              Decimal.int_of_string
              (fun vs => repeat Byte.x00 (4 * length vs))
              (fun ns => repeat Byte.x00 (4 * length ns))
              (fun _ => [Byte.x7b; Byte.x7d]) Doc.three_buildings Hp)
    as [_ [_ [Hwritten _]]].
  destruct (Gml2glb.main Decimal.float_of_string Decimal.int_of_string
              (fun vs => repeat Byte.x00 (4 * length vs))
              (fun ns => repeat Byte.x00 (4 * length ns))
              (fun _ => [Byte.x7b; Byte.x7d]) Doc.three_buildings)
    as [[[[scene file] index]|]|e] eqn:Hm;
    [|vm_compute in Hm; discriminate Hm|vm_compute in Hm; discriminate Hm].
  exists scene, file, index. split; [reflexivity|].
  exact (Hwritten scene file index eq_refl).
Defined.

(* ----------------------------------------------------------------- *)
(** ** The vertices of a run of the text converter *)

Section TextVertices.
Context {R : Type} {AR : Arith R} {NR : Norm R}.
Variable float_of_string : string -> option R.

(** The vertices the writer keeps of a geometry map: those of the
    polygons of at least three vertices, in order. *)
Definition written_vertices (geometries : dict (geo_data R)) : list (point R) :=
  flat_map (fun geo => concat (kept_polygons (polygons geo)))
    (dict_values geometries).

Lemma kept_polygons_map (f : point R -> point R)
  (polys : list (list (point R))) :
  kept_polygons (map (map f) polys) = map (map f) (kept_polygons polys).
Proof.
  unfold kept_polygons. induction polys as [|p polys IH]; [reflexivity|].
  cbn [map filter]. rewrite length_map, IH.
  now destruct (negb (length p <? 3)).
Qed.

Lemma written_vertices_moved (offset : point R) (g : dict (geo_data R)) :
  written_vertices (map (fun item => (fst item, moved offset (snd item))) g)
  = map (Geometry.translate offset) (written_vertices g).
Proof.
  unfold written_vertices, dict_values.
  induction g as [|[k geo] g IH]; [reflexivity|].
  cbn [map flat_map snd fst]. rewrite map_app, IH. f_equal.
  unfold moved. cbn [polygons].
  change (fun p : point R =>
            (fsub (px p) (px offset), fsub (py p) (py offset),
             fsub (pz p) (pz offset))) with (Geometry.translate offset).
  now rewrite kept_polygons_map, concat_map.
Qed.

Lemma concat_kept_nil (polys : list (list (point R))) :
  concat polys = [] -> concat (kept_polygons polys) = [].
Proof.
  unfold kept_polygons. induction polys as [|p polys IH]; [reflexivity|].
  cbn [concat filter]. intros H. apply app_eq_nil in H. destruct H as [-> H].
  cbn [length Nat.ltb Nat.leb negb]. now apply IH.
Qed.

Lemma written_vertices_nil (g : dict (geo_data R)) :
  Geometry.all_vertices g = [] -> written_vertices g = [].
Proof.
  unfold Geometry.all_vertices, written_vertices.
  induction (dict_values g) as [|geo l IH]; [reflexivity|].
  cbn [flat_map]. intros H. apply app_eq_nil in H. destruct H as [H1 H2].
  now rewrite (concat_kept_nil _ H1), (IH H2).
Qed.

Lemma write_single_obj_vertex_records (geometries : dict (geo_data R))
  (mtl_filename : string) (offset : point R) :
  vertex_records (fst (ObjWriter.write_single_obj geometries mtl_filename offset))
  = written_vertices geometries.
Proof.
  unfold ObjWriter.write_single_obj. cbn [fst].
  rewrite vertex_records_app.
  destruct (@write_groups_records _ _ _ geometries
              {| ObjWriter.vertex_count := 1; ObjWriter.normal_count := 1 |}
              [] 0 eq_refl eq_refl) as [Hv _].
  rewrite Hv. reflexivity.
Qed.

(** A run of the text converter that writes its artifacts: the offset in
    the header of the OBJ file is the offset of the metadata index, and the
    vertex records of the file are the vertices of the parsed polygons of
    at least three vertices, in order, each minus that offset, component by
    component. *)
Theorem text_run_vertices_minus_offset (root : Xml.element)
  (mtl_filename : string) lines index :
  Convert.main float_of_string root mtl_filename = Ok (Some (lines, index)) ->
  exists geometries,
    Parser.parse float_of_string root = Ok geometries
    /\ index_offset index = snd (Geometry.center_coordinates geometries)
    /\ nth_error lines 2 = Some (ObjWriter.CenterOffset (index_offset index))
    /\ vertex_records lines
       = map (Geometry.translate (index_offset index))
           (written_vertices geometries).
Proof.
  intros Hm.
  destruct (convert_main_outputs _ _ _ Hm) as [g [Hp [Hnd _]]].
  exists g. split; [exact Hp|].
  unfold Convert.main in Hm. rewrite Hp in Hm. cbn [bind] in Hm.
  destruct g as [|item g']; [discriminate|]. set (g := item :: g') in *.
  assert (Hc : exists offset,
            Geometry.center_coordinates g
              = (map (fun item => (fst item, moved offset (snd item))) g, offset)
            \/ (Geometry.center_coordinates g = (g, offset)
                /\ written_vertices g = [])).
  { destruct (Geometry.all_vertices g) as [|v vs] eqn:Hv.
    - exists (fzero, fzero, fzero). right.
      split; [now apply center_coordinates_empty|now apply written_vertices_nil].
    - eexists. left. exact (center_coordinates_nonempty g Hnd Hv). }
  destruct Hc as [offset Hc].
  assert (Hw : exists centered,
            Geometry.center_coordinates g = (centered, offset)
            /\ written_vertices centered
               = map (Geometry.translate offset) (written_vertices g)).
  { destruct Hc as [Hc|[Hc Hnil]].
    - eexists. split; [exact Hc|]. apply written_vertices_moved.
    - exists g. split; [exact Hc|]. now rewrite Hnil. }
  destruct Hw as [centered [Hcc Hw]]. rewrite Hcc in *. cbn [snd].
  apply Ok_inj, Some_inj in Hm.
  assert (Hl : lines
               = fst (ObjWriter.write_single_obj centered mtl_filename offset))
    by (now rewrite Hm).
  assert (Hi : index
               = snd (ObjWriter.write_single_obj centered mtl_filename offset))
    by (now rewrite Hm).
  clear Hm. subst lines index.
  split; [reflexivity|]. split; [reflexivity|].
  rewrite write_single_obj_vertex_records. exact Hw.
Qed.

End TextVertices.

(** The run on the document with three buildings: the triangle is
    written twice, under its building and under its wall; the two-point
    loops are not written. *)
Lemma text_run_vertices_minus_offset_witness :
  exists lines index,
    Convert.main Binary64Lexer.float_of_string Doc.three_buildings "model.mtl"
      = Ok (Some (lines, index))
    /\ length (vertex_records lines) = 6
    /\ exists geometries,
         Parser.parse Binary64Lexer.float_of_string Doc.three_buildings
           = Ok geometries
         /\ index_offset index = snd (Geometry.center_coordinates geometries)
         /\ nth_error lines 2
            = Some (ObjWriter.CenterOffset (index_offset index))
         /\ vertex_records lines
            = map (Geometry.translate (index_offset index))
                (written_vertices geometries).
Proof.
  destruct (Convert.main Binary64Lexer.float_of_string Doc.three_buildings
              "model.mtl") as [[[lines index]|]|e] eqn:Hm;
    [|vm_compute in Hm; discriminate Hm|vm_compute in Hm; discriminate Hm].
  exists lines, index. split; [reflexivity|].
  split; [|exact (text_run_vertices_minus_offset _ _ _ Hm)].
  apply (f_equal (fun r => match r with
                           | Ok (Some (l, _)) => length (vertex_records l)
                           | _ => 0
                           end)) in Hm.
  rewrite <- Hm. vm_compute. reflexivity.
Defined.

(* ----------------------------------------------------------------- *)
(** ** The bounds of the position accessors *)

Section AccessorBounds.
Context {R : Type} {AR : Arith R}.
Variable float32_bytes : list R -> list Bytes.byte.
Variable uint32_bytes : list nat -> list Bytes.byte.

(** What the comparison [<] of the coordinates is taken to satisfy: a
    strict order. *)
Hypothesis fltb_irrefl : forall a : R, fltb a a = false.
Hypothesis fltb_trans :
  forall a b c : R, fltb a b = true -> fltb b c = true -> fltb a c = true.

Local Abbreviation building_info := (@Gml2glb.building_info R).

(** The vertices of a building mesh: three per triangle. *)
Definition mesh_vertices (offset : point R) (info : building_info)
  : list (point R) :=
  flat_map (fun tri : point R * point R * point R =>
              let '(a, b, c) := tri in [a; b; c])
    (building_triangles offset info).

(** The coordinates of some points, three per point. *)
Definition flat_coords (ps : list (point R)) : list R :=
  flat_map (fun p => [px p; py p; pz p]) ps.

Lemma triangle_coords_flat (tris : list (point R * point R * point R)) :
  flat_map triangle_coords tris
  = flat_coords (flat_map (fun tri : point R * point R * point R =>
                             let '(a, b, c) := tri in [a; b; c]) tris).
Proof.
  unfold flat_coords. induction tris as [|[[a b] c] tris IH]; [reflexivity|].
  cbn [flat_map app]. rewrite IH. reflexivity.
Qed.

Lemma every_third_cons3 (x y z : R) (rest : list R) :
  Gml2glb.every_third (x :: y :: z :: rest) = x :: Gml2glb.every_third rest.
Proof. reflexivity. Qed.

Lemma flat_coords_cons (p : point R) (ps : list (point R)) :
  flat_coords (p :: ps) = px p :: py p :: pz p :: flat_coords ps.
Proof. reflexivity. Qed.

Lemma every_third_x (ps : list (point R)) :
  Gml2glb.every_third (flat_coords ps) = map px ps.
Proof.
  induction ps as [|p ps IH]; [reflexivity|].
  rewrite flat_coords_cons, every_third_cons3, IH. reflexivity.
Qed.

Lemma every_third_y (p : point R) (ps : list (point R)) :
  Gml2glb.every_third (py p :: pz p :: flat_coords ps) = py p :: map py ps.
Proof.
  revert p. induction ps as [|q ps IH]; intros p; [reflexivity|].
  rewrite flat_coords_cons, every_third_cons3, IH. reflexivity.
Qed.

Lemma every_third_z (p : point R) (ps : list (point R)) :
  Gml2glb.every_third (pz p :: flat_coords ps) = pz p :: map pz ps.
Proof.
  revert p. induction ps as [|q ps IH]; intros p; [reflexivity|].
  rewrite flat_coords_cons, every_third_cons3, IH. reflexivity.
Qed.

Lemma stride3_axes (ps : list (point R)) :
  Gml2glb.stride3 0 (flat_coords ps) = map px ps
  /\ Gml2glb.stride3 1 (flat_coords ps) = map py ps
  /\ Gml2glb.stride3 2 (flat_coords ps) = map pz ps.
Proof.
  unfold Gml2glb.stride3. split; [apply every_third_x|].
  destruct ps as [|p ps]; [now split|].
  rewrite flat_coords_cons. cbn [skipn]. split; [apply every_third_y|apply every_third_z].
Qed.

Lemma py_max_greatest (x : R) (xs : list R) :
  In (Gml2glb.py_max x xs) (x :: xs)
  /\ forall y, In y (x :: xs) -> fltb (Gml2glb.py_max x xs) y = false.
Proof.
  unfold Gml2glb.py_max.
  assert (Hgen : forall seen m,
            In m (seen ++ xs) ->
            (forall y, In y seen -> fltb m y = false) ->
            let r := fold_left (fun m y => if fltb m y then y else m) xs m in
            In r (seen ++ xs)
            /\ forall y, In y (seen ++ xs) -> fltb r y = false).
  { induction xs as [|z xs IH]; intros seen m Hm Hseen; cbv zeta.
    - cbn [fold_left]. split; [exact Hm|]. intros y Hy.
      rewrite app_nil_r in Hy. now apply Hseen.
    - cbn [fold_left].
      replace (seen ++ z :: xs) with ((seen ++ [z]) ++ xs) in *
        by (now rewrite <- app_assoc).
      apply IH.
      + destruct (fltb m z); [|exact Hm].
        apply in_or_app. left. apply in_or_app. right. now left.
      + intros y Hy. apply in_app_or in Hy.
        destruct (fltb m z) eqn:Hz.
        * destruct Hy as [Hy|[<-|[]]]; [|apply fltb_irrefl].
          destruct (fltb z y) eqn:Hzy; [|reflexivity].
          rewrite <- (Hseen y Hy). symmetry. exact (fltb_trans _ _ _ Hz Hzy).
        * destruct Hy as [Hy|[<-|[]]]; [now apply Hseen|exact Hz]. }
  apply (Hgen [x] x).
  - now left.
  - intros y [<-|[]]. apply fltb_irrefl.
Qed.

(** [lo] and [hi] bound the numbers [xs] exactly: both occur among them,
    none is below [lo] and none above [hi]. *)
Definition exact_bounds (lo hi : R) (xs : list R) : Prop :=
  In lo xs /\ In hi xs
  /\ forall x, In x xs -> fltb x lo = false /\ fltb hi x = false.

Lemma min_max_exact (xs : list R) :
  xs <> [] -> exact_bounds (Gml2glb.min_of xs) (Gml2glb.max_of xs) xs.
Proof.
  destruct xs as [|x xs]; [congruence|]. intros _.
  unfold Gml2glb.min_of, Gml2glb.max_of.
  destruct (py_min_least fltb_irrefl fltb_trans x xs) as [Hm1 Hm2].
  destruct (py_max_greatest x xs) as [HM1 HM2].
  split; [exact Hm1|]. split; [exact HM1|]. intros y Hy. split; auto.
Qed.

(** A position accessor of the scene is that of a building of the data:
    it counts the vertices of the building's mesh, and its [min] and [max]
    are the exact bounds of their coordinates, axis by axis. *)
Definition bounds_accessor (offset : point R)
  (buildings_data : dict building_info) (a : @Gml2glb.accessor R) : Prop :=
  match a with
  | Gml2glb.IndexAccessor _ _ => True
  | Gml2glb.PositionAccessor _ count lo hi =>
      exists k info lx ly lz hx hy hz,
        In (k, info) buildings_data
        /\ count = length (mesh_vertices offset info)
        /\ 0 < count
        /\ lo = [lx; ly; lz] /\ hi = [hx; hy; hz]
        /\ exact_bounds lx hx (map px (mesh_vertices offset info))
        /\ exact_bounds ly hy (map py (mesh_vertices offset info))
        /\ exact_bounds lz hz (map pz (mesh_vertices offset info))
  end.

Lemma length_flat_coords (ps : list (point R)) :
  length (flat_coords ps) = 3 * length ps.
Proof.
  unfold flat_coords. induction ps as [|p ps IH]; [reflexivity|].
  cbn [flat_map app length]. rewrite IH. lia.
Qed.

Lemma add_building_bounds (offset : point R) (bd : dict building_info)
  (st : Gml2glb.glb_state) (item : string * building_info) :
  In item bd ->
  Forall (bounds_accessor offset bd) (Gml2glb.st_accessors st) ->
  Forall (bounds_accessor offset bd)
    (Gml2glb.st_accessors
       (Gml2glb.add_building float32_bytes uint32_bytes offset st item)).
Proof.
  intros Hin Hall. destruct item as [k info]. unfold Gml2glb.add_building.
  destruct (Gml2glb.surfaces info) as [|s ss]; [exact Hall|].
  pose proof (building_arrays_eq offset info) as Harr.
  rewrite triangle_coords_flat in Harr. fold (mesh_vertices offset info) in Harr.
  destruct (Gml2glb.building_arrays offset info) as [vs is_].
  apply pair_equal_spec in Harr. destruct Harr as [Hvs _].
  destruct vs as [|v vs']; [exact Hall|].
  set (vs := v :: vs') in *.
  destruct (Gml2glb.add_segment (float32_bytes vs) _ _ _ _)
    as [[views1 data1] offset1].
  destruct (Gml2glb.add_segment (uint32_bytes is_) _ _ _ _)
    as [[views2 data2] offset2].
  cbn [Gml2glb.st_accessors].
  apply Forall_app. split; [apply Forall_app; split; [exact Hall|]|].
  - constructor; [|constructor]. cbn [bounds_accessor map].
    assert (Hne : mesh_vertices offset info <> []).
    { intros Hnil. rewrite Hnil in Hvs. discriminate Hvs. }
    destruct (stride3_axes (mesh_vertices offset info)) as [Sx [Sy Sz]].
    assert (Hcount : length (flat_coords (mesh_vertices offset info)) / 3
                     = length (mesh_vertices offset info)).
    { rewrite length_flat_coords, (Nat.mul_comm 3).
      apply Nat.div_mul. lia. }
    rewrite Hvs, Sx, Sy, Sz, Hcount.
    exists k, info. do 6 eexists.
    split; [exact Hin|]. split; [reflexivity|].
    split.
    { destruct (mesh_vertices offset info); [congruence|cbn [length]; lia]. }
    split; [reflexivity|]. split; [reflexivity|].
    split; [|split]; apply min_max_exact;
      (intros Hnil; apply map_eq_nil in Hnil; contradiction).
  - constructor; [exact I|constructor].
Qed.

Lemma add_buildings_bounds (offset : point R) (bd items : dict building_info)
  (st : Gml2glb.glb_state) :
  incl items bd ->
  Forall (bounds_accessor offset bd) (Gml2glb.st_accessors st) ->
  Forall (bounds_accessor offset bd)
    (Gml2glb.st_accessors
       (fold_left (Gml2glb.add_building float32_bytes uint32_bytes offset)
                  items st)).
Proof.
  revert st. induction items as [|item items IH]; intros st Hincl Hall;
    [exact Hall|].
  cbn [fold_left]. apply IH.
  - intros x Hx. apply Hincl. now right.
  - apply add_building_bounds; [apply Hincl; now left|exact Hall].
Qed.

(** The bounds [create_glb] declares are exact.  Every position accessor
    of the scene belongs to a building of the data; its [count] is the
    number of vertices of the building's mesh, three per triangle; and its
    [min] and [max] have three components, each the least and the greatest
    coordinate of those vertices on its axis: both are attained, and no
    vertex lies outside them.  The vertices are the numbers of
    [all_vertices], as they are before their float32 encoding. *)
Theorem create_glb_accessor_bounds (buildings_data : dict building_info)
  (offset : point R) :
  Forall (bounds_accessor offset buildings_data)
    (Gml2glb.accessors
       (fst (Gml2glb.create_scene float32_bytes uint32_bytes buildings_data
               offset))).
Proof.
  unfold Gml2glb.create_scene. cbn [fst Gml2glb.accessors].
  apply add_buildings_bounds; [apply incl_refl|constructor].
Qed.

End AccessorBounds.

(** The bounds of the building with two walls and a roof, over the
    rationals. *)
Lemma create_glb_accessor_bounds_witness :
  length (Gml2glb.accessors
            (fst (Gml2glb.create_scene
                    (fun vs => repeat Byte.x00 (4 * length vs))
                    (fun ns => repeat Byte.x00 (4 * length ns))
                    two_walls_and_roof (qpoint 0 0 0)))) = 2
  /\ Forall (bounds_accessor (qpoint 0 0 0) two_walls_and_roof)
       (Gml2glb.accessors
          (fst (Gml2glb.create_scene
                  (fun vs => repeat Byte.x00 (4 * length vs))
                  (fun ns => repeat Byte.x00 (4 * length ns))
                  two_walls_and_roof (qpoint 0 0 0)))).
Proof.
  split; [vm_compute; reflexivity|].
  exact (create_glb_accessor_bounds
           (fun vs => repeat Byte.x00 (4 * length vs))
           (fun ns => repeat Byte.x00 (4 * length ns))
           qc_ltb_irrefl qc_ltb_trans two_walls_and_roof (qpoint 0 0 0)).
Defined.

(* ----------------------------------------------------------------- *)
(** ** Which element a record of the geometry map comes from *)

Section LastWins.
Context {R : Type}.
Variable float_of_string : string -> option R.

(** The visits of [parse], in order: every [Building] element, then the
    elements of each surface type, which are given that type. *)
Definition visits (root : Xml.element) : list (option string * Xml.element) :=
  map (fun e => (None, e)) (Xml.xpath_all root (Xml.bldg "Building"))
  ++ flat_map
       (fun surface_type =>
          map (fun e => (Some surface_type, e))
              (Xml.xpath_all root (Xml.bldg surface_type)))
       Parser.surface_types.

(** What a visit stores, and under which key: the geometry of the
    element, retyped for a surface, when the element has a non-empty
    identity and at least one polygon loop was kept. *)
Definition stored (visit : option string * Xml.element)
  : option (string * geo_data R) :=
  let '(retype, element) := visit in
  match Xml.get element (Xml.gml "id") with
  | Some (String _ _ as gml_id) =>
      match Parser._extract_geometry float_of_string element with
      | Ok geo =>
          match polygons geo with
          | [] => None
          | _ =>
              Some (gml_id,
                    match retype with
                    | Some surface_type =>
                        {| element_type := surface_type;
                           polygons := polygons geo;
                           metadata := metadata geo |}
                    | None => geo
                    end)
          end
      | Raise _ => None
      end
  | _ => None
  end.

Definition stores_under (k : string) (visit : option string * Xml.element)
  : Prop :=
  exists geo, stored visit = Some (k, geo).

(** The record under [k] after some visits is that of the last of them
    that stores under [k]. *)
Definition last_stored (k : string) (geo : geo_data R)
  (vs : list (option string * Xml.element)) : Prop :=
  exists before visit after,
    vs = before ++ visit :: after
    /\ stored visit = Some (k, geo)
    /\ forall later, In later after -> ~ stores_under k later.

Lemma harvest_stored (retype : option string) (g : dict (geo_data R))
  (element : Xml.element) :
  Parser.harvest float_of_string retype g element
  = Ok (match stored (retype, element) with
        | Some (k, geo) => dict_set g k geo
        | None => g
        end).
Proof.
  unfold Parser.harvest, stored.
  destruct (Xml.get element (Xml.gml "id")) as [[|ch t]|]; try reflexivity.
  destruct (extract_geometry_total float_of_string element) as [geo ->].
  cbn [bind]. destruct retype; cbn [polygons]; now destruct (polygons geo).
Qed.

Definition visit_step (g : dict (geo_data R))
  (visit : option string * Xml.element) : result (dict (geo_data R)) :=
  Parser.harvest float_of_string (fst visit) g (snd visit).

Lemma fold_result_app (A B : Type) (f : A -> B -> result A) (l1 l2 : list B)
  (a : A) :
  Parser.fold_result f (l1 ++ l2) a
  = bind (Parser.fold_result f l1 a) (Parser.fold_result f l2).
Proof.
  revert a. induction l1 as [|x l1 IH]; intros a; [reflexivity|].
  cbn [app Parser.fold_result]. destruct (f a x); cbn [bind]; auto.
Qed.

Lemma fold_result_map (A B C : Type) (f : A -> C -> result A) (h : B -> C)
  (l : list B) (a : A) :
  Parser.fold_result f (map h l) a
  = Parser.fold_result (fun a x => f a (h x)) l a.
Proof.
  revert a. induction l as [|x l IH]; intros a; [reflexivity|].
  cbn [map Parser.fold_result]. destruct (f a (h x)); cbn [bind]; auto.
Qed.

(** [parse] is one loop over the visits. *)
Lemma parse_as_visits (root : Xml.element) :
  Parser.parse float_of_string root
  = Parser.fold_result visit_step (visits root) [].
Proof.
  unfold Parser.parse, visits. rewrite fold_result_app, fold_result_map.
  change (fun (a : dict (geo_data R)) (x : Xml.element) =>
            visit_step a (None, x))
    with (Parser.harvest float_of_string None).
  destruct (Parser.fold_result (Parser.harvest float_of_string None) _ [])
    as [g|e]; [|reflexivity]. cbn [bind].
  generalize Parser.surface_types as types. intros types. revert g.
  induction types as [|ty types IH]; intros g; [reflexivity|].
  cbn [Parser.fold_result flat_map]. rewrite fold_result_app, fold_result_map.
  change (fun (a : dict (geo_data R)) (x : Xml.element) =>
            visit_step a (Some ty, x))
    with (Parser.harvest float_of_string (Some ty)).
  destruct (Parser.fold_result (Parser.harvest float_of_string (Some ty)) _ g)
    as [g1|e]; [|reflexivity]. cbn [bind]. apply IH.
Qed.

Lemma visits_last_wins (vs : list (option string * Xml.element))
  (g0 : dict (geo_data R)) :
  exists g,
    Parser.fold_result visit_step vs g0 = Ok g
    /\ forall k geo,
         dict_get g k = Some geo <->
         last_stored k geo vs
         \/ (dict_get g0 k = Some geo
             /\ forall v, In v vs -> ~ stores_under k v).
Proof.
  revert g0. induction vs as [|[retype element] vs IH]; intros g0.
  - exists g0. split; [reflexivity|]. intros k geo. split.
    + intros H. right. split; [exact H|intros v []].
    + intros [[before [visit [after [H _]]]]|[H _]]; [|exact H].
      destruct before; discriminate H.
  - cbn [Parser.fold_result]. unfold visit_step at 1. cbn [fst snd].
    rewrite harvest_stored. cbn [bind].
    set (g1 := match stored (retype, element) with
               | Some (k, geo) => dict_set g0 k geo
               | None => g0
               end).
    destruct (IH g1) as [g [Hg Hspec]]. exists g. split; [exact Hg|].
    intros k geo. rewrite Hspec. clear Hspec Hg. split.
    + intros [[before [visit [after [-> [Hst Hlater]]]]]|[Hg1 Hnone]].
      * left. exists ((retype, element) :: before), visit, after.
        now repeat split.
      * unfold g1 in Hg1.
        destruct (stored (retype, element)) as [[k' geo']|] eqn:Hs.
        -- destruct (string_dec k' k) as [->|Hne].
           ++ rewrite dict_get_set_same in Hg1. apply Some_inj in Hg1.
              subst geo'. left. exists [], (retype, element), vs.
              now repeat split.
           ++ rewrite dict_get_set_other in Hg1 by congruence.
              right. split; [exact Hg1|].
              intros v [<-|Hv]; [|now apply Hnone].
              intros [geo'' Hst]. congruence.
        -- right. split; [exact Hg1|].
           intros v [<-|Hv]; [|now apply Hnone].
           intros [geo'' Hst]. congruence.
    + intros [[before [visit [after [Heq [Hst Hlater]]]]]|[Hg0 Hnone]].
      * destruct before as [|b before]; cbn [app] in Heq.
        -- injection Heq as <- <-. right. split.
           ++ unfold g1. rewrite Hst. apply dict_get_set_same.
           ++ exact Hlater.
        -- injection Heq as <- ->. left. exists before, visit, after.
           now repeat split.
      * right. split.
        -- unfold g1.
           destruct (stored (retype, element)) as [[k' geo']|] eqn:Hs;
             [|exact Hg0].
           destruct (string_dec k' k) as [->|Hne].
           ++ exfalso. apply (Hnone (retype, element)); [now left|].
              now exists geo'.
           ++ now rewrite dict_get_set_other by congruence.
        -- intros v Hv. apply Hnone. now right.
Qed.

Lemma last_stored_cases (vs : list (option string * Xml.element))
  (k : string) :
  (exists geo, last_stored k geo vs)
  \/ (forall v, In v vs -> ~ stores_under k v).
Proof.
  induction vs as [|w vs IH]; [right; intros v []|].
  destruct IH as [[geo [before [x [after [-> [Hx Hlater]]]]]]|Hnone].
  - left. exists geo, (w :: before), x, after. now repeat split.
  - destruct (stored w) as [[k' geo']|] eqn:Hw.
    + destruct (string_dec k' k) as [->|Hne].
      * left. exists geo', [], w, vs. now repeat split.
      * right. intros v [<-|Hv]; [|now apply Hnone].
        intros [geo'' Hst]. congruence.
    + right. intros v [<-|Hv]; [|now apply Hnone].
      intros [geo'' Hst]. congruence.
Qed.

(** The geometry map [parse] returns holds, under each identity, the
    record of the last visit that stores under it: among elements that
    share an identity, a later one replaces an earlier one (a surface
    replaces a building of the same identity), and an identity is in the
    map exactly when some visited element with that identity keeps a
    polygon loop. *)
Theorem parser_parse_last_wins (root : Xml.element) :
  exists geometries,
    Parser.parse float_of_string root = Ok geometries
    /\ (forall k geo,
          dict_get geometries k = Some geo <-> last_stored k geo (visits root))
    /\ (forall k,
          In k (dict_keys geometries) <->
          exists v, In v (visits root) /\ stores_under k v).
Proof.
  destruct (visits_last_wins (visits root) []) as [g [Hg Hspec]].
  exists g. rewrite parse_as_visits. split; [exact Hg|].
  assert (Hget : forall k geo,
            dict_get g k = Some geo <-> last_stored k geo (visits root)).
  { intros k geo. rewrite Hspec. split; [|now left].
    intros [H|[H _]]; [exact H|discriminate H]. }
  split; [exact Hget|].
  intros k. split.
  - intros Hin. destruct (dict_get g k) as [geo|] eqn:Hk.
    + apply Hget in Hk. destruct Hk as [before [v [after [Heq [Hst _]]]]].
      exists v. split; [rewrite Heq; apply in_or_app; right; now left|].
      now exists geo.
    + apply dict_get_None in Hk. contradiction.
  - intros [v [Hv [geo Hst]]].
    assert (Hlast : exists geo', last_stored k geo' (visits root)).
    { destruct (last_stored_cases (visits root) k) as [H|Hnone]; [exact H|].
      exfalso. apply (Hnone v Hv). now exists geo. }
    destruct Hlast as [geo' Hl]. apply Hget in Hl.
    apply dict_get_In in Hl. apply in_map_iff. now exists (k, geo').
Qed.

End LastWins.
